(** * ControlRiego 2.5: the control core, embedded in Rocq

    A shallow embedding of the irrigation controller's control core
    (Control.cpp, multirriego.cpp, botones.cpp, Configure.cpp and the
    declarations of Control.h) and the properties stated about it.

    Conventions.
    - A C variable of type [uintN_t] or [int] is a [Z] inside the range of
      its type; where arithmetic can leave the range the wrap-around is
      written out ([uint32], [uint8], [int32]).
    - The global variables of the program are the fields of [State]; a
      pointer into the [Boton] array is the index it points to ([None] is
      NULL), a pointer into [config.groupConfig] is the index of the group.
    - Functions that read or write globals live in the monad [M]: state
      passing with failure, where failure ([UB]) stands for the undefined
      behaviour of C++ (an array index out of range, a NULL dereference).
    - Everything outside the program (LEDs, buzzer, display, timer library,
      WiFi, HTTP client, JSON library, clock, file system) is reached
      through the [World]: every call is appended to the [trace], and what
      a call returns is a function of the trace so far.  The serial console
      is not modelled. *)

From Stdlib Require Import ZArith String Ascii List Bool Lia DecimalString.
From stdpp Require Import base list.

Open Scope Z_scope.

(** ** Fixed-width integers *)

Definition uint8 (x : Z) : Z := x mod 256.
Definition uint16 (x : Z) : Z := x mod 65536.
Definition uint32 (x : Z) : Z := x mod 4294967296.
(** conversion to [int] (32 bits, two's complement) *)
Definition int32 (x : Z) : Z := (x + 2147483648) mod 4294967296 - 2147483648.

(** ** Constants of Control.h *)

Definition STANDBYSECS : Z := 15.
Definition DEFAULTBLINK : Z := 5.
Definition MINMINUTES : Z := 0.
Definition MAXMINUTES : Z := 59.
Definition MINSECONDS : Z := 5.
Definition DEFAULT_SWITCH_RETRIES : Z := 5.
Definition DELAYRETRY : Z := 2000.
Definition DEBOUNCEMILLIS : Z := 20.

Definition BUZZER : Z := 2.
Definition LEDR : Z := 4.
Definition LEDG : Z := 5.
Definition LEDB : Z := 3.
Definition lGRUPO1 : Z := 6.
Definition lGRUPO2 : Z := 7.
Definition lGRUPO3 : Z := 8.
Definition lZONA1 : Z := 10.
Definition lZONA2 : Z := 11.
Definition lZONA3 : Z := 12.
Definition lZONA4 : Z := 13.
Definition lZONA5 : Z := 14.
Definition lZONA6 : Z := 15.
Definition lZONA7 : Z := 16.

Definition ON : Z := 1.
Definition OFF : Z := 0.
Definition HIDE : Z := 0.
Definition SHOW : Z := 1.
Definition NOBLINK : Z := 0.
Definition LONGBIP : Z := 1.
Definition BIP : Z := 2.
Definition BIPOK : Z := 3.

(** enum _estados *)
Inductive estados : Type :=
  STANDBY | REGANDO | CONFIGURANDO | TERMINANDO | PAUSE | STOP | ERROR.

Definition estados_eqb (a b : estados) : bool :=
  match a, b with
  | STANDBY, STANDBY | REGANDO, REGANDO | CONFIGURANDO, CONFIGURANDO
  | TERMINANDO, TERMINANDO | PAUSE, PAUSE | STOP, STOP | ERROR, ERROR => true
  | _, _ => false
  end.

(** enum _fases: the values stored in the [uint8_t] field [Estado.fase] *)
Definition CERO : Z := 0.
Definition E0 : Z := 255.
Definition E1 : Z := 1.
Definition E2 : Z := 2.
Definition E3 : Z := 3.
Definition E4 : Z := 4.
Definition E5 : Z := 5.

(** enum _flags *)
Definition ENABLED : Z := 1.
Definition DISABLED : Z := 2.
Definition ONLYSTATUS : Z := 4.
Definition ACTION : Z := 8.
Definition DUAL : Z := 16.
Definition HOLD : Z := 32.

(** enum _botones and the pseudo-buttons *)
Definition bZONA1 : Z := 1.
Definition bZONA2 : Z := 2.
Definition bZONA3 : Z := 4.
Definition bZONA4 : Z := 8.
Definition bZONA6 : Z := 16.
Definition bMULTIRIEGO : Z := 32.
Definition bZONA7 : Z := 64.
Definition bZONA5 : Z := 128.
Definition bSPARE13 : Z := 256.
Definition bGRUPO3 : Z := 512.
Definition bGRUPO1 : Z := 1024.
Definition bSTOP : Z := 2048.
Definition bENCODER : Z := 4096.
Definition bSPARE15 : Z := 8192.
Definition bSPARE16 : Z := 16384.
Definition bPAUSE : Z := 32768.
Definition bGRUPO2 : Z := 65281.
Definition bCONFIG : Z := 65282.

Definition ZONAS : list Z :=
  [bZONA1; bZONA2; bZONA3; bZONA4; bZONA5; bZONA6; bZONA7].
Definition GRUPOS : list Z := [bGRUPO1; bGRUPO2; bGRUPO3].
Definition NUMZONAS : nat := length ZONAS.
Definition NUMGRUPOS : nat := length GRUPOS.

(** ** Structures of Control.h *)

(** struct Grupo_parm: a persisted group *)
Record Grupo_parm := mkGrupo {
  g_id : Z;               (* uint16_t id *)
  g_size : Z;             (* int size *)
  g_serie : list Z;       (* uint16_t serie[16]: zone numbers, 1-based *)
  g_desc : string
}.

(** struct Boton_parm *)
Record Boton_parm := mkBotonParm {
  bp_desc : string;
  bp_idx : Z
}.

(** struct Config_parm *)
Record Config_parm := mkConfig {
  initialized : Z;
  botonConfig : list Boton_parm;     (* [n_Zonas] *)
  cfg_minutes : Z;
  cfg_seconds : Z;
  domoticz_ip : string;
  domoticz_port : string;
  ntpServer : string;
  groupConfig : list Grupo_parm      (* [n_Grupos] *)
}.

(** struct S_MULTI.  [id], [zserie], [size] and [desc] are pointers into one
    entry of [config.groupConfig]: each holds the index of that entry. *)
Record S_MULTI := mkMulti {
  m_id : option nat;
  m_serie : list Z;       (* uint16_t serie[16]: button ids of the zones *)
  m_zserie : option nat;
  m_size : option nat;
  w_size : Z;
  actual : Z;
  m_desc : option nat
}.

(** union S_bFLAGS: the bit fields of [all_flags], lowest bit first *)
Record S_bFLAGS := mkFlags {
  enabled : bool;
  disabled : bool;
  onlystatus : bool;
  action : bool;
  dual : bool;
  hold : bool;
  holddisabled : bool
}.

Definition flags_of (all_flags : Z) : S_bFLAGS :=
  mkFlags (Z.testbit all_flags 0) (Z.testbit all_flags 1)
          (Z.testbit all_flags 2) (Z.testbit all_flags 3)
          (Z.testbit all_flags 4) (Z.testbit all_flags 5)
          (Z.testbit all_flags 6).

(** union S_simFlags: the simulated-fault flags *)
Record S_simFlags := mkSim {
  ErrorOFF : bool;
  ErrorON : bool;
  ErrorVerifyON : bool;
  ErrorVerifyOFF : bool;
  ErrorPause : bool
}.

(** struct S_BOTON *)
Record S_BOTON := mkBoton {
  b_id : Z;
  b_estado : Z;
  b_ultimo_estado : Z;
  b_led : Z;
  b_flags : S_bFLAGS;
  b_desc : string;
  b_idx : Z
}.

(** struct S_Estado *)
Record S_Estado := mkEstado {
  estado : estados;
  fase : Z
}.

(** class Configure (Configure.h): the private members *)
Record Configure := mkConfigure {
  _configuringTime : bool;
  _configuringIdx : bool;
  _configuringMulti : bool;
  _actualIdxIndex : Z;
  _actualGrupo : Z
}.

(** The initialiser of the global [Boton] table. *)
Definition Boton_init : list S_BOTON :=
  [ mkBoton bZONA1 0 0 lZONA1 (flags_of (Z.lor ENABLED ACTION)) "ZONA1" 0;
    mkBoton bZONA2 0 0 lZONA2 (flags_of (Z.lor ENABLED ACTION)) "ZONA2" 0;
    mkBoton bZONA3 0 0 lZONA3 (flags_of (Z.lor ENABLED ACTION)) "ZONA3" 0;
    mkBoton bZONA4 0 0 lZONA4 (flags_of (Z.lor ENABLED ACTION)) "ZONA4" 0;
    mkBoton bZONA5 0 0 lZONA5 (flags_of (Z.lor ENABLED ACTION)) "ZONA5" 0;
    mkBoton bZONA6 0 0 lZONA6 (flags_of (Z.lor ENABLED ACTION)) "ZONA6" 0;
    mkBoton bZONA7 0 0 lZONA7 (flags_of (Z.lor ENABLED ACTION)) "ZONA7" 0;
    mkBoton bSPARE13 0 0 0 (flags_of DISABLED) "spare13" 0;
    mkBoton bSPARE15 0 0 0 (flags_of DISABLED) "spare15" 0;
    mkBoton bSPARE16 0 0 0 (flags_of DISABLED) "spare16" 0;
    mkBoton bENCODER 0 0 0
      (flags_of (Z.lor (Z.lor ENABLED ONLYSTATUS) DUAL)) "ENCODER" 0;
    mkBoton bMULTIRIEGO 0 0 0 (flags_of (Z.lor ENABLED ACTION)) "MULTIRIEGO" 0;
    mkBoton bGRUPO1 0 0 lGRUPO1
      (flags_of (Z.lor (Z.lor ENABLED ONLYSTATUS) DUAL)) "GRUPO1" 0;
    mkBoton bGRUPO2 0 0 lGRUPO2 (flags_of DISABLED) "GRUPO2" 0;
    mkBoton bGRUPO3 0 0 lGRUPO3
      (flags_of (Z.lor (Z.lor ENABLED ONLYSTATUS) DUAL)) "GRUPO3" 0;
    mkBoton bPAUSE 0 0 0
      (flags_of (Z.lor (Z.lor (Z.lor ENABLED ACTION) DUAL) HOLD)) "PAUSE" 0;
    mkBoton bSTOP 0 0 0
      (flags_of (Z.lor (Z.lor ENABLED ACTION) DUAL)) "STOP" 0;
    mkBoton bCONFIG 0 0 0 (flags_of DISABLED) "CONFIG" 0 ].

Definition NUM_S_BOTON : nat := length Boton_init.

(** ** The world outside the program *)

Inductive ticker : Type :=
  tic_parpadeoLedON | tic_parpadeoLedZona | tic_parpadeoLedConf
| tic_WifiLed | tic_APLed.

(** One call to something outside the program. *)
Inductive Event : Type :=
| EvLed (id estado : Z)              (* the shift-register write of led() *)
| EvDelay (ms : Z)                   (* delay(ms) *)
| EvDisplayPrint (txt : string)      (* display->print(const char * ) *)
| EvDisplayInt (n : Z)               (* display->print(int) *)
| EvDisplayTime (m s : Z)            (* display->printTime(m, s) *)
| EvDisplayBlink (n : Z)
| EvDisplayClear
| EvTimerSet (h m s : Z)             (* T.SetTimer *)
| EvTimerStart
| EvTimerPause
| EvTimerResume
| EvTimerQuery                       (* T.Timer() *)
| EvTimerChanged                     (* T.TimeHasChanged() *)
| EvTimerShow                        (* T.ShowMinutes(), T.ShowSeconds() *)
| EvTickerAttach (t : ticker) (ms : Z)
| EvTickerDetach (t : ticker)
| EvWiFiStatus                       (* WiFi.status() *)
| EvHttpGet (url : string)           (* httpclient.begin(url); GET() *)
| EvEpochTime                        (* timeClient.getEpochTime() *)
| EvMillis                           (* millis() *)
| EvReadInputs                       (* the shift-register read of readInputs() *)
| EvEncoder                          (* Encoder->getValue() *)
| EvCopyConfigFile
| EvSaveConfigFile (cfg : Config_parm)
| EvConfigPortal (timeout : Z)       (* wm.setConfigPortalTimeout(timeout);
                                        wm.startConfigPortal(...) *)
| EvStopConfigPortal                 (* wm.stopConfigPortal() *)
| EvSetupWS                          (* setupWS() *)
| EvEndWS.                           (* endWS() *)

(** What ArduinoJson gives for a response body: the three members of
    [jsondoc["result"][0]] the program reads ([None] is a missing member). *)
Record JsonDevice := mkJson {
  j_Status : option string;
  j_Description : option string;
  j_Name : option string
}.

(** The callbacks of wifiWM.cpp that WiFiManager can fire. *)
Inductive WMCallback : Type :=
  configModeCallback | saveWifiCallback | saveParamCallback
| preOtaUpdateCallback.

(** One run of the configuration portal of WiFiManager: the callbacks it
    fires, in order, and what its three parameter fields hold when it
    returns. *)
Record PortalRun := mkPortalRun {
  pr_callbacks : list WMCallback;
  custom_domoticz_server : string;
  custom_domoticz_port : string;
  custom_ntpserver : string
}.

(** The answers of the world, each a function of the calls made so far. *)
Record World := mkWorld {
  WiFi_connected : list Event -> bool;      (* WiFi.status() == WL_CONNECTED *)
  http_GET : list Event -> string -> Z * string;  (* httpCode and body *)
  deserializeJson : string -> option JsonDevice;  (* None: DeserializationError *)
  T_Timer : list Event -> bool;
  T_TimeHasChanged : list Event -> bool;
  T_Show : list Event -> Z * Z;
  localEpoch : list Event -> Z;
  millis : list Event -> Z;                 (* unsigned long, 32 bits *)
  shiftIn : list Event -> Z;                (* the 16 bits read by readInputs *)
  Encoder_getValue : list Event -> Z;
  copyConfigFile : list Event -> bool;
  saveConfigFile : list Event -> bool;
  startConfigPortal : list Event -> PortalRun
}.

(** ** The global variables *)

Record State := mkState {
  Estado : S_Estado;
  errorText : string;
  NONETWORK : bool;
  VERIFY : bool;
  connected : bool;
  factorRiegosOK : bool;
  errorOFF : bool;
  descDomoticz : string;
  simular : S_simFlags;
  Boton : list S_BOTON;
  boton : option nat;
  ultimoBoton : option nat;
  factorRiegos : list Z;
  lastRiegos : list Z;
  minutes : Z;
  seconds : Z;
  value : Z;
  savedValue : Z;
  multirriego : bool;
  encoderSW : bool;
  flagV : bool;
  tiempoTerminado : bool;
  ledID : Z;
  multi : S_MULTI;
  config : Config_parm;
  configure : Configure;
  saveConfig : bool;
  webServerAct : bool;
  reposo : bool;
  standbyTime : Z;
  lastMillis : Z;
  multiSemaforo : bool;
  displayOff : bool;
  trace : list Event
}.

Definition set_Estado (v : S_Estado) (s : State) : State :=
  mkState v (errorText s) (NONETWORK s) (VERIFY s) (connected s)
    (factorRiegosOK s) (errorOFF s) (descDomoticz s) (simular s) (Boton s)
    (boton s) (ultimoBoton s) (factorRiegos s) (lastRiegos s) (minutes s)
    (seconds s) (value s) (savedValue s) (multirriego s) (encoderSW s)
    (flagV s) (tiempoTerminado s) (ledID s) (multi s) (config s) (configure s)
    (saveConfig s) (webServerAct s) (reposo s) (standbyTime s) (lastMillis s)
    (multiSemaforo s) (displayOff s) (trace s).
Definition set_errorText (v : string) (s : State) : State :=
  mkState (Estado s) v (NONETWORK s) (VERIFY s) (connected s)
    (factorRiegosOK s) (errorOFF s) (descDomoticz s) (simular s) (Boton s)
    (boton s) (ultimoBoton s) (factorRiegos s) (lastRiegos s) (minutes s)
    (seconds s) (value s) (savedValue s) (multirriego s) (encoderSW s)
    (flagV s) (tiempoTerminado s) (ledID s) (multi s) (config s) (configure s)
    (saveConfig s) (webServerAct s) (reposo s) (standbyTime s) (lastMillis s)
    (multiSemaforo s) (displayOff s) (trace s).
Definition set_NONETWORK (v : bool) (s : State) : State :=
  mkState (Estado s) (errorText s) v (VERIFY s) (connected s)
    (factorRiegosOK s) (errorOFF s) (descDomoticz s) (simular s) (Boton s)
    (boton s) (ultimoBoton s) (factorRiegos s) (lastRiegos s) (minutes s)
    (seconds s) (value s) (savedValue s) (multirriego s) (encoderSW s)
    (flagV s) (tiempoTerminado s) (ledID s) (multi s) (config s) (configure s)
    (saveConfig s) (webServerAct s) (reposo s) (standbyTime s) (lastMillis s)
    (multiSemaforo s) (displayOff s) (trace s).
Definition set_VERIFY (v : bool) (s : State) : State :=
  mkState (Estado s) (errorText s) (NONETWORK s) v (connected s)
    (factorRiegosOK s) (errorOFF s) (descDomoticz s) (simular s) (Boton s)
    (boton s) (ultimoBoton s) (factorRiegos s) (lastRiegos s) (minutes s)
    (seconds s) (value s) (savedValue s) (multirriego s) (encoderSW s)
    (flagV s) (tiempoTerminado s) (ledID s) (multi s) (config s) (configure s)
    (saveConfig s) (webServerAct s) (reposo s) (standbyTime s) (lastMillis s)
    (multiSemaforo s) (displayOff s) (trace s).
Definition set_connected (v : bool) (s : State) : State :=
  mkState (Estado s) (errorText s) (NONETWORK s) (VERIFY s) v
    (factorRiegosOK s) (errorOFF s) (descDomoticz s) (simular s) (Boton s)
    (boton s) (ultimoBoton s) (factorRiegos s) (lastRiegos s) (minutes s)
    (seconds s) (value s) (savedValue s) (multirriego s) (encoderSW s)
    (flagV s) (tiempoTerminado s) (ledID s) (multi s) (config s) (configure s)
    (saveConfig s) (webServerAct s) (reposo s) (standbyTime s) (lastMillis s)
    (multiSemaforo s) (displayOff s) (trace s).
Definition set_factorRiegosOK (v : bool) (s : State) : State :=
  mkState (Estado s) (errorText s) (NONETWORK s) (VERIFY s) (connected s) v
    (errorOFF s) (descDomoticz s) (simular s) (Boton s) (boton s)
    (ultimoBoton s) (factorRiegos s) (lastRiegos s) (minutes s) (seconds s)
    (value s) (savedValue s) (multirriego s) (encoderSW s) (flagV s)
    (tiempoTerminado s) (ledID s) (multi s) (config s) (configure s)
    (saveConfig s) (webServerAct s) (reposo s) (standbyTime s) (lastMillis s)
    (multiSemaforo s) (displayOff s) (trace s).
Definition set_errorOFF (v : bool) (s : State) : State :=
  mkState (Estado s) (errorText s) (NONETWORK s) (VERIFY s) (connected s)
    (factorRiegosOK s) v (descDomoticz s) (simular s) (Boton s) (boton s)
    (ultimoBoton s) (factorRiegos s) (lastRiegos s) (minutes s) (seconds s)
    (value s) (savedValue s) (multirriego s) (encoderSW s) (flagV s)
    (tiempoTerminado s) (ledID s) (multi s) (config s) (configure s)
    (saveConfig s) (webServerAct s) (reposo s) (standbyTime s) (lastMillis s)
    (multiSemaforo s) (displayOff s) (trace s).
Definition set_descDomoticz (v : string) (s : State) : State :=
  mkState (Estado s) (errorText s) (NONETWORK s) (VERIFY s) (connected s)
    (factorRiegosOK s) (errorOFF s) v (simular s) (Boton s) (boton s)
    (ultimoBoton s) (factorRiegos s) (lastRiegos s) (minutes s) (seconds s)
    (value s) (savedValue s) (multirriego s) (encoderSW s) (flagV s)
    (tiempoTerminado s) (ledID s) (multi s) (config s) (configure s)
    (saveConfig s) (webServerAct s) (reposo s) (standbyTime s) (lastMillis s)
    (multiSemaforo s) (displayOff s) (trace s).
Definition set_simular (v : S_simFlags) (s : State) : State :=
  mkState (Estado s) (errorText s) (NONETWORK s) (VERIFY s) (connected s)
    (factorRiegosOK s) (errorOFF s) (descDomoticz s) v (Boton s) (boton s)
    (ultimoBoton s) (factorRiegos s) (lastRiegos s) (minutes s) (seconds s)
    (value s) (savedValue s) (multirriego s) (encoderSW s) (flagV s)
    (tiempoTerminado s) (ledID s) (multi s) (config s) (configure s)
    (saveConfig s) (webServerAct s) (reposo s) (standbyTime s) (lastMillis s)
    (multiSemaforo s) (displayOff s) (trace s).
Definition set_Boton (v : list S_BOTON) (s : State) : State :=
  mkState (Estado s) (errorText s) (NONETWORK s) (VERIFY s) (connected s)
    (factorRiegosOK s) (errorOFF s) (descDomoticz s) (simular s) v (boton s)
    (ultimoBoton s) (factorRiegos s) (lastRiegos s) (minutes s) (seconds s)
    (value s) (savedValue s) (multirriego s) (encoderSW s) (flagV s)
    (tiempoTerminado s) (ledID s) (multi s) (config s) (configure s)
    (saveConfig s) (webServerAct s) (reposo s) (standbyTime s) (lastMillis s)
    (multiSemaforo s) (displayOff s) (trace s).
Definition set_boton (v : option nat) (s : State) : State :=
  mkState (Estado s) (errorText s) (NONETWORK s) (VERIFY s) (connected s)
    (factorRiegosOK s) (errorOFF s) (descDomoticz s) (simular s) (Boton s) v
    (ultimoBoton s) (factorRiegos s) (lastRiegos s) (minutes s) (seconds s)
    (value s) (savedValue s) (multirriego s) (encoderSW s) (flagV s)
    (tiempoTerminado s) (ledID s) (multi s) (config s) (configure s)
    (saveConfig s) (webServerAct s) (reposo s) (standbyTime s) (lastMillis s)
    (multiSemaforo s) (displayOff s) (trace s).
Definition set_ultimoBoton (v : option nat) (s : State) : State :=
  mkState (Estado s) (errorText s) (NONETWORK s) (VERIFY s) (connected s)
    (factorRiegosOK s) (errorOFF s) (descDomoticz s) (simular s) (Boton s)
    (boton s) v (factorRiegos s) (lastRiegos s) (minutes s) (seconds s)
    (value s) (savedValue s) (multirriego s) (encoderSW s) (flagV s)
    (tiempoTerminado s) (ledID s) (multi s) (config s) (configure s)
    (saveConfig s) (webServerAct s) (reposo s) (standbyTime s) (lastMillis s)
    (multiSemaforo s) (displayOff s) (trace s).
Definition set_factorRiegos (v : list Z) (s : State) : State :=
  mkState (Estado s) (errorText s) (NONETWORK s) (VERIFY s) (connected s)
    (factorRiegosOK s) (errorOFF s) (descDomoticz s) (simular s) (Boton s)
    (boton s) (ultimoBoton s) v (lastRiegos s) (minutes s) (seconds s)
    (value s) (savedValue s) (multirriego s) (encoderSW s) (flagV s)
    (tiempoTerminado s) (ledID s) (multi s) (config s) (configure s)
    (saveConfig s) (webServerAct s) (reposo s) (standbyTime s) (lastMillis s)
    (multiSemaforo s) (displayOff s) (trace s).
Definition set_lastRiegos (v : list Z) (s : State) : State :=
  mkState (Estado s) (errorText s) (NONETWORK s) (VERIFY s) (connected s)
    (factorRiegosOK s) (errorOFF s) (descDomoticz s) (simular s) (Boton s)
    (boton s) (ultimoBoton s) (factorRiegos s) v (minutes s) (seconds s)
    (value s) (savedValue s) (multirriego s) (encoderSW s) (flagV s)
    (tiempoTerminado s) (ledID s) (multi s) (config s) (configure s)
    (saveConfig s) (webServerAct s) (reposo s) (standbyTime s) (lastMillis s)
    (multiSemaforo s) (displayOff s) (trace s).
Definition set_minutes (v : Z) (s : State) : State :=
  mkState (Estado s) (errorText s) (NONETWORK s) (VERIFY s) (connected s)
    (factorRiegosOK s) (errorOFF s) (descDomoticz s) (simular s) (Boton s)
    (boton s) (ultimoBoton s) (factorRiegos s) (lastRiegos s) v (seconds s)
    (value s) (savedValue s) (multirriego s) (encoderSW s) (flagV s)
    (tiempoTerminado s) (ledID s) (multi s) (config s) (configure s)
    (saveConfig s) (webServerAct s) (reposo s) (standbyTime s) (lastMillis s)
    (multiSemaforo s) (displayOff s) (trace s).
Definition set_seconds (v : Z) (s : State) : State :=
  mkState (Estado s) (errorText s) (NONETWORK s) (VERIFY s) (connected s)
    (factorRiegosOK s) (errorOFF s) (descDomoticz s) (simular s) (Boton s)
    (boton s) (ultimoBoton s) (factorRiegos s) (lastRiegos s) (minutes s) v
    (value s) (savedValue s) (multirriego s) (encoderSW s) (flagV s)
    (tiempoTerminado s) (ledID s) (multi s) (config s) (configure s)
    (saveConfig s) (webServerAct s) (reposo s) (standbyTime s) (lastMillis s)
    (multiSemaforo s) (displayOff s) (trace s).
Definition set_value (v : Z) (s : State) : State :=
  mkState (Estado s) (errorText s) (NONETWORK s) (VERIFY s) (connected s)
    (factorRiegosOK s) (errorOFF s) (descDomoticz s) (simular s) (Boton s)
    (boton s) (ultimoBoton s) (factorRiegos s) (lastRiegos s) (minutes s)
    (seconds s) v (savedValue s) (multirriego s) (encoderSW s) (flagV s)
    (tiempoTerminado s) (ledID s) (multi s) (config s) (configure s)
    (saveConfig s) (webServerAct s) (reposo s) (standbyTime s) (lastMillis s)
    (multiSemaforo s) (displayOff s) (trace s).
Definition set_savedValue (v : Z) (s : State) : State :=
  mkState (Estado s) (errorText s) (NONETWORK s) (VERIFY s) (connected s)
    (factorRiegosOK s) (errorOFF s) (descDomoticz s) (simular s) (Boton s)
    (boton s) (ultimoBoton s) (factorRiegos s) (lastRiegos s) (minutes s)
    (seconds s) (value s) v (multirriego s) (encoderSW s) (flagV s)
    (tiempoTerminado s) (ledID s) (multi s) (config s) (configure s)
    (saveConfig s) (webServerAct s) (reposo s) (standbyTime s) (lastMillis s)
    (multiSemaforo s) (displayOff s) (trace s).
Definition set_multirriego (v : bool) (s : State) : State :=
  mkState (Estado s) (errorText s) (NONETWORK s) (VERIFY s) (connected s)
    (factorRiegosOK s) (errorOFF s) (descDomoticz s) (simular s) (Boton s)
    (boton s) (ultimoBoton s) (factorRiegos s) (lastRiegos s) (minutes s)
    (seconds s) (value s) (savedValue s) v (encoderSW s) (flagV s)
    (tiempoTerminado s) (ledID s) (multi s) (config s) (configure s)
    (saveConfig s) (webServerAct s) (reposo s) (standbyTime s) (lastMillis s)
    (multiSemaforo s) (displayOff s) (trace s).
Definition set_encoderSW (v : bool) (s : State) : State :=
  mkState (Estado s) (errorText s) (NONETWORK s) (VERIFY s) (connected s)
    (factorRiegosOK s) (errorOFF s) (descDomoticz s) (simular s) (Boton s)
    (boton s) (ultimoBoton s) (factorRiegos s) (lastRiegos s) (minutes s)
    (seconds s) (value s) (savedValue s) (multirriego s) v (flagV s)
    (tiempoTerminado s) (ledID s) (multi s) (config s) (configure s)
    (saveConfig s) (webServerAct s) (reposo s) (standbyTime s) (lastMillis s)
    (multiSemaforo s) (displayOff s) (trace s).
Definition set_flagV (v : bool) (s : State) : State :=
  mkState (Estado s) (errorText s) (NONETWORK s) (VERIFY s) (connected s)
    (factorRiegosOK s) (errorOFF s) (descDomoticz s) (simular s) (Boton s)
    (boton s) (ultimoBoton s) (factorRiegos s) (lastRiegos s) (minutes s)
    (seconds s) (value s) (savedValue s) (multirriego s) (encoderSW s) v
    (tiempoTerminado s) (ledID s) (multi s) (config s) (configure s)
    (saveConfig s) (webServerAct s) (reposo s) (standbyTime s) (lastMillis s)
    (multiSemaforo s) (displayOff s) (trace s).
Definition set_tiempoTerminado (v : bool) (s : State) : State :=
  mkState (Estado s) (errorText s) (NONETWORK s) (VERIFY s) (connected s)
    (factorRiegosOK s) (errorOFF s) (descDomoticz s) (simular s) (Boton s)
    (boton s) (ultimoBoton s) (factorRiegos s) (lastRiegos s) (minutes s)
    (seconds s) (value s) (savedValue s) (multirriego s) (encoderSW s)
    (flagV s) v (ledID s) (multi s) (config s) (configure s) (saveConfig s)
    (webServerAct s) (reposo s) (standbyTime s) (lastMillis s)
    (multiSemaforo s) (displayOff s) (trace s).
Definition set_ledID (v : Z) (s : State) : State :=
  mkState (Estado s) (errorText s) (NONETWORK s) (VERIFY s) (connected s)
    (factorRiegosOK s) (errorOFF s) (descDomoticz s) (simular s) (Boton s)
    (boton s) (ultimoBoton s) (factorRiegos s) (lastRiegos s) (minutes s)
    (seconds s) (value s) (savedValue s) (multirriego s) (encoderSW s)
    (flagV s) (tiempoTerminado s) v (multi s) (config s) (configure s)
    (saveConfig s) (webServerAct s) (reposo s) (standbyTime s) (lastMillis s)
    (multiSemaforo s) (displayOff s) (trace s).
Definition set_multi (v : S_MULTI) (s : State) : State :=
  mkState (Estado s) (errorText s) (NONETWORK s) (VERIFY s) (connected s)
    (factorRiegosOK s) (errorOFF s) (descDomoticz s) (simular s) (Boton s)
    (boton s) (ultimoBoton s) (factorRiegos s) (lastRiegos s) (minutes s)
    (seconds s) (value s) (savedValue s) (multirriego s) (encoderSW s)
    (flagV s) (tiempoTerminado s) (ledID s) v (config s) (configure s)
    (saveConfig s) (webServerAct s) (reposo s) (standbyTime s) (lastMillis s)
    (multiSemaforo s) (displayOff s) (trace s).
Definition set_config (v : Config_parm) (s : State) : State :=
  mkState (Estado s) (errorText s) (NONETWORK s) (VERIFY s) (connected s)
    (factorRiegosOK s) (errorOFF s) (descDomoticz s) (simular s) (Boton s)
    (boton s) (ultimoBoton s) (factorRiegos s) (lastRiegos s) (minutes s)
    (seconds s) (value s) (savedValue s) (multirriego s) (encoderSW s)
    (flagV s) (tiempoTerminado s) (ledID s) (multi s) v (configure s)
    (saveConfig s) (webServerAct s) (reposo s) (standbyTime s) (lastMillis s)
    (multiSemaforo s) (displayOff s) (trace s).
Definition set_configure (v : Configure) (s : State) : State :=
  mkState (Estado s) (errorText s) (NONETWORK s) (VERIFY s) (connected s)
    (factorRiegosOK s) (errorOFF s) (descDomoticz s) (simular s) (Boton s)
    (boton s) (ultimoBoton s) (factorRiegos s) (lastRiegos s) (minutes s)
    (seconds s) (value s) (savedValue s) (multirriego s) (encoderSW s)
    (flagV s) (tiempoTerminado s) (ledID s) (multi s) (config s) v
    (saveConfig s) (webServerAct s) (reposo s) (standbyTime s) (lastMillis s)
    (multiSemaforo s) (displayOff s) (trace s).
Definition set_saveConfig (v : bool) (s : State) : State :=
  mkState (Estado s) (errorText s) (NONETWORK s) (VERIFY s) (connected s)
    (factorRiegosOK s) (errorOFF s) (descDomoticz s) (simular s) (Boton s)
    (boton s) (ultimoBoton s) (factorRiegos s) (lastRiegos s) (minutes s)
    (seconds s) (value s) (savedValue s) (multirriego s) (encoderSW s)
    (flagV s) (tiempoTerminado s) (ledID s) (multi s) (config s) (configure s)
    v (webServerAct s) (reposo s) (standbyTime s) (lastMillis s)
    (multiSemaforo s) (displayOff s) (trace s).
Definition set_webServerAct (v : bool) (s : State) : State :=
  mkState (Estado s) (errorText s) (NONETWORK s) (VERIFY s) (connected s)
    (factorRiegosOK s) (errorOFF s) (descDomoticz s) (simular s) (Boton s)
    (boton s) (ultimoBoton s) (factorRiegos s) (lastRiegos s) (minutes s)
    (seconds s) (value s) (savedValue s) (multirriego s) (encoderSW s)
    (flagV s) (tiempoTerminado s) (ledID s) (multi s) (config s) (configure s)
    (saveConfig s) v (reposo s) (standbyTime s) (lastMillis s)
    (multiSemaforo s) (displayOff s) (trace s).
Definition set_reposo (v : bool) (s : State) : State :=
  mkState (Estado s) (errorText s) (NONETWORK s) (VERIFY s) (connected s)
    (factorRiegosOK s) (errorOFF s) (descDomoticz s) (simular s) (Boton s)
    (boton s) (ultimoBoton s) (factorRiegos s) (lastRiegos s) (minutes s)
    (seconds s) (value s) (savedValue s) (multirriego s) (encoderSW s)
    (flagV s) (tiempoTerminado s) (ledID s) (multi s) (config s) (configure s)
    (saveConfig s) (webServerAct s) v (standbyTime s) (lastMillis s)
    (multiSemaforo s) (displayOff s) (trace s).
Definition set_standbyTime (v : Z) (s : State) : State :=
  mkState (Estado s) (errorText s) (NONETWORK s) (VERIFY s) (connected s)
    (factorRiegosOK s) (errorOFF s) (descDomoticz s) (simular s) (Boton s)
    (boton s) (ultimoBoton s) (factorRiegos s) (lastRiegos s) (minutes s)
    (seconds s) (value s) (savedValue s) (multirriego s) (encoderSW s)
    (flagV s) (tiempoTerminado s) (ledID s) (multi s) (config s) (configure s)
    (saveConfig s) (webServerAct s) (reposo s) v (lastMillis s)
    (multiSemaforo s) (displayOff s) (trace s).
Definition set_lastMillis (v : Z) (s : State) : State :=
  mkState (Estado s) (errorText s) (NONETWORK s) (VERIFY s) (connected s)
    (factorRiegosOK s) (errorOFF s) (descDomoticz s) (simular s) (Boton s)
    (boton s) (ultimoBoton s) (factorRiegos s) (lastRiegos s) (minutes s)
    (seconds s) (value s) (savedValue s) (multirriego s) (encoderSW s)
    (flagV s) (tiempoTerminado s) (ledID s) (multi s) (config s) (configure s)
    (saveConfig s) (webServerAct s) (reposo s) (standbyTime s) v
    (multiSemaforo s) (displayOff s) (trace s).
Definition set_multiSemaforo (v : bool) (s : State) : State :=
  mkState (Estado s) (errorText s) (NONETWORK s) (VERIFY s) (connected s)
    (factorRiegosOK s) (errorOFF s) (descDomoticz s) (simular s) (Boton s)
    (boton s) (ultimoBoton s) (factorRiegos s) (lastRiegos s) (minutes s)
    (seconds s) (value s) (savedValue s) (multirriego s) (encoderSW s)
    (flagV s) (tiempoTerminado s) (ledID s) (multi s) (config s) (configure s)
    (saveConfig s) (webServerAct s) (reposo s) (standbyTime s) (lastMillis s)
    v (displayOff s) (trace s).
Definition set_displayOff (v : bool) (s : State) : State :=
  mkState (Estado s) (errorText s) (NONETWORK s) (VERIFY s) (connected s)
    (factorRiegosOK s) (errorOFF s) (descDomoticz s) (simular s) (Boton s)
    (boton s) (ultimoBoton s) (factorRiegos s) (lastRiegos s) (minutes s)
    (seconds s) (value s) (savedValue s) (multirriego s) (encoderSW s)
    (flagV s) (tiempoTerminado s) (ledID s) (multi s) (config s) (configure s)
    (saveConfig s) (webServerAct s) (reposo s) (standbyTime s) (lastMillis s)
    (multiSemaforo s) v (trace s).
Definition set_trace (v : list Event) (s : State) : State :=
  mkState (Estado s) (errorText s) (NONETWORK s) (VERIFY s) (connected s)
    (factorRiegosOK s) (errorOFF s) (descDomoticz s) (simular s) (Boton s)
    (boton s) (ultimoBoton s) (factorRiegos s) (lastRiegos s) (minutes s)
    (seconds s) (value s) (savedValue s) (multirriego s) (encoderSW s)
    (flagV s) (tiempoTerminado s) (ledID s) (multi s) (config s) (configure s)
    (saveConfig s) (webServerAct s) (reposo s) (standbyTime s) (lastMillis s)
    (multiSemaforo s) (displayOff s) v.

(** ** The monad of the program: state passing with undefined behaviour *)

Definition M (A : Type) : Type := State -> option (A * State).

Definition ret {A : Type} (a : A) : M A := fun s => Some (a, s).

Definition bind {A B : Type} (m : M A) (k : A -> M B) : M B :=
  fun s => match m s with
           | Some (a, s') => k a s'
           | None => None
           end.

(** undefined behaviour of the C++ program *)
Definition UB {A : Type} : M A := fun _ => None.

Definition gets {A : Type} (f : State -> A) : M A := fun s => Some (f s, s).
Definition modify (f : State -> State) : M unit := fun s => Some (tt, f s).

Declare Scope m_scope.
Delimit Scope m_scope with M.
Notation "x <- c ;; k" := (bind c (fun x => k))
  (at level 100, c at next level, k at level 200, right associativity) : m_scope.
Notation "c ;; k" := (bind c (fun _ => k))
  (at level 100, k at level 200, right associativity) : m_scope.
Open Scope m_scope.

(** [when c m]: an [if] without [else] *)
Definition when (c : bool) (m : M unit) : M unit := if c then m else ret tt.

(** an array read; out of range is undefined *)
Definition rd {A : Type} (l : list A) (i : Z) : M A :=
  if i <? 0 then UB
  else match l !! Z.to_nat i with
       | Some x => ret x
       | None => UB
       end.

(** an array write; out of range is undefined *)
Definition wr {A : Type} (l : list A) (i : Z) (x : A) : M (list A) :=
  if i <? 0 then UB
  else if (Z.to_nat i <? length l)%nat then ret (<[Z.to_nat i := x]> l)
  else UB.

(** dereference of a pointer into [Boton] *)
Definition deref (p : option nat) : M S_BOTON :=
  match p with
  | None => UB
  | Some i => l <- gets Boton ;; rd l (Z.of_nat i)
  end.

(** a call that only tells the world something *)
Definition emit (e : Event) : M unit :=
  modify (fun s => set_trace (trace s ++ [e]) s).

(** a call that asks the world something: the answer depends on the trace
    before the call *)
Definition ask {A : Type} (e : Event) (f : list Event -> A) : M A :=
  a <- gets (fun s => f (trace s)) ;; emit e ;; ret a.

(** ** C library functions the program uses *)

Definition dquote : string := String (ascii_of_nat 34) EmptyString.

(** String::startsWith *)
Definition startsWith (s p : string) : bool := String.prefix p s.

(** String::indexOf(p) != -1 *)
Definition contains (s p : string) : bool :=
  match String.index 0 p s with Some _ => true | None => false end.

(** strlcpy(dst, src, size): at most [size - 1] characters are copied *)
Definition strlcpy (src : string) (size : nat) : string :=
  String.substring 0 (size - 1) src.

Definition isdigit (c : ascii) : bool :=
  let n := Z.of_nat (nat_of_ascii c) in (48 <=? n) && (n <=? 57).

Definition isspace (c : ascii) : bool :=
  let n := Z.of_nat (nat_of_ascii c) in (n =? 32) || ((9 <=? n) && (n <=? 13)).

Fixpoint skip_spaces (s : string) : string :=
  match s with
  | String c r => if isspace c then skip_spaces r else s
  | EmptyString => s
  end.

(** the value of the leading decimal digits of [s], after [acc] *)
Fixpoint digits (s : string) (acc : Z) : Z :=
  match s with
  | String c r =>
      if isdigit c then digits r (acc * 10 + (Z.of_nat (nat_of_ascii c) - 48))
      else acc
  | EmptyString => acc
  end.

(** strtol(s, NULL, 10) with a 32-bit [long]: white space, an optional
    sign, decimal digits; 0 when there is no digit; clamped to the range of
    [long]. *)
Definition strtol (s : string) : Z :=
  let clamp v := Z.max (-2147483648) (Z.min 2147483647 v) in
  match skip_spaces s with
  | String c r =>
      if Ascii.eqb c "-" then clamp (- digits r 0)
      else if Ascii.eqb c "+" then clamp (digits r 0)
      else clamp (digits (String c r) 0)
  | EmptyString => 0
  end.

(** printf's %d *)
Definition dec (n : Z) : string := NilZero.string_of_int (Z.to_int n).

(** a [for] loop whose body runs once for each element of [l], in order *)
Fixpoint forM {A : Type} (l : list A) (body : A -> M unit) : M unit :=
  match l with
  | [] => ret tt
  | x :: r => body x ;; forM r body
  end.

(** the indices [0 .. n-1] of a loop [for (i = 0; i < n; i++)] *)
Definition upto (n : Z) : list Z := map Z.of_nat (seq 0 (Z.to_nat n)).

(** ** The program *)

Section Program.

Variable W : World.
(** the compile-time switch WEBSERVER *)
Variable WEBSERVER : bool.

(** *** botones.cpp: LEDs and the index functions *)

(** led(): nothing for the LED 0, otherwise the new LED word is shifted out *)
Definition led (id estado : Z) : M unit :=
  if id =? 0 then ret tt else emit (EvLed id estado).

Definition delay (ms : Z) : M unit := emit (EvDelay ms).

(** bID_bIndex: the first button of the table with this id, or 999 *)
Fixpoint find_id (l : list Z) (id : Z) (i : Z) : Z :=
  match l with
  | [] => 999
  | x :: r => if x =? id then i else find_id r id (i + 1)
  end.

Definition bID_bIndex (id : Z) : M Z :=
  l <- gets Boton ;;
  if (length l <? NUM_S_BOTON)%nat then UB
  else ret (find_id (map b_id (firstn NUM_S_BOTON l)) id 0).

Definition bID_zIndex (id : Z) : Z := find_id ZONAS id 0.

(** Boton[i] for a computed index *)
Definition Boton_at (i : Z) : M S_BOTON := l <- gets Boton ;; rd l i.

(** *** Control.cpp: buzzer *)

Definition bip (veces : Z) : M unit :=
  forM (upto veces) (fun _ =>
    led BUZZER ON ;; delay 50 ;; led BUZZER OFF ;; delay 50).

Definition longbip (veces : Z) : M unit :=
  forM (upto veces) (fun _ =>
    led BUZZER ON ;; delay 750 ;; led BUZZER OFF ;; delay 100).

Definition bipOK (veces : Z) : M unit :=
  led BUZZER ON ;; delay 500 ;; led BUZZER OFF ;; delay 100 ;; bip veces.

(** *** Control.cpp: the state and the fault phase *)

Definition setEstado (e : estados) : M unit :=
  modify (fun s => set_Estado (mkEstado e (fase (Estado s))) s) ;;
  modify (fun s => set_Estado (mkEstado (estado (Estado s)) CERO) s) ;;
  modify (set_errorText EmptyString).

Definition statusError (errorID : Z) (n : Z) : M unit :=
  modify (set_errorText "Err") ;;
  modify (fun s => set_Estado (mkEstado ERROR (fase (Estado s))) s) ;;
  modify (fun s => set_Estado (mkEstado (estado (Estado s)) errorID) s) ;;
  (if errorID =? E0 then modify (set_errorText "Err0")
   else modify (set_errorText (String.append "Err" (dec errorID)))) ;;
  txt <- gets errorText ;;
  emit (EvDisplayPrint txt) ;;
  longbip n.

(** *** wifiWM.cpp: checkWifi *)

Definition checkWifi : M bool :=
  up <- ask EvWiFiStatus (WiFi_connected W) ;;
  if up then
    led LEDG ON ;; modify (set_connected true) ;; ret true
  else
    led LEDG OFF ;; modify (set_connected false) ;; ret false.

(** *** Control.cpp: the actuator endpoint *)

Definition HTTP_CODE_OK : Z := 200.

(** the text that marks an error answer of the endpoint: the word status
    in quotes, space, colon, space, a quote and ERR *)
Definition status_ERR : string :=
  String.append dquote (String.append "status"
    (String.append dquote (String.append " : " (String.append dquote "ERR")))).

(** what httpGetDomoticz makes of the code and body of the request: "Err2"
    when the request fails, "ErrX" when the answer carries the error mark,
    otherwise the body (or "{}" when the code is not 200) *)
Definition response_of (r : Z * string) : string :=
  let '(httpCode, body) := r in
  if 0 <? httpCode then
    let response := if httpCode =? HTTP_CODE_OK then body else "{}"%string in
    if contains response status_ERR then "ErrX"%string
    else response
  else "Err2"%string.

Definition url_of (cfg : Config_parm) (message : string) : string :=
  String.append "http://" (String.append (domoticz_ip cfg)
    (String.append ":" (String.append (domoticz_port cfg) message))).

Definition httpGetDomoticz (message : string) : M string :=
  cfg <- gets config ;;
  let tmpStr := url_of cfg message in
  r <- ask (EvHttpGet tmpStr) (fun t => http_GET W t tmpStr) ;;
  ret (response_of r).

Definition devices_message (idx : Z) : string :=
  String.append "/json.htm?type=devices&rid=" (dec idx).

Definition switch_message (idx : Z) (msg : string) : string :=
  String.append "/json.htm?type=command&param=switchlight&idx="
    (String.append (dec idx) (String.append "&switchcmd=" msg)).

(** getFactor *)
Definition getFactor (idx : Z) : M Z :=
  if idx =? 0 then ret 0
  else
    modify (set_factorRiegosOK false) ;;
    up <- checkWifi ;;
    if negb up then
      nonet <- gets NONETWORK ;;
      if nonet then ret 999
      else statusError E1 3 ;; ret 100
    else
      response <- httpGetDomoticz (devices_message idx) ;;
      if startsWith response "Err" then
        nonet <- gets NONETWORK ;;
        if nonet then setEstado STANDBY ;; ret 999
        else
          (if String.eqb response "ErrX" then statusError E3 3
           else statusError E2 3) ;;
          ret 100
      else
        match deserializeJson W response with
        | None =>
            verify <- gets VERIFY ;;
            if negb verify then ret 100
            else statusError E2 3 ;; ret 100
        | Some jsondoc =>
            match j_Description jsondoc with
            | None =>
                verify <- gets VERIFY ;;
                if negb verify then ret 100
                else statusError E3 3 ;; ret 100
            | Some factorstr =>
                modify (set_descDomoticz
                  (strlcpy (default EmptyString (j_Name jsondoc)) 20)) ;;
                modify (set_factorRiegosOK true) ;;
                let factor := strtol factorstr in
                if factor =? 0 then
                  match factorstr with
                  | EmptyString => ret 100
                  | String c _ => if negb (isdigit c) then ret 100 else ret factor
                  end
                else ret factor
            end
        end.

(** queryStatus *)
Definition queryStatus (idx : Z) (status : string) : M bool :=
  let set_fase f :=
    modify (fun s => set_Estado (mkEstado (estado (Estado s)) f) s) in
  up <- checkWifi ;;
  if negb up then
    nonet <- gets NONETWORK ;;
    if nonet then ret true
    else set_fase E1 ;; ret false
  else
    response <- httpGetDomoticz (devices_message idx) ;;
    if startsWith response "Err" then
      nonet <- gets NONETWORK ;;
      if nonet then ret true
      else
        (if String.eqb response "ErrX" then set_fase E3 else set_fase E2) ;;
        ret false
    else
      match deserializeJson W response with
      | None => set_fase E2 ;; ret false
      | Some jsondoc =>
          match j_Status jsondoc with
          | None => set_fase E2 ;; ret false
          | Some actual_status =>
              sim <- gets simular ;;
              if ErrorVerifyON sim then
                ret (negb (String.eqb status "On"))
              else if ErrorVerifyOFF sim then
                ret (negb (String.eqb status "Off"))
              else if String.eqb actual_status status then ret true
              else
                nonet <- gets NONETWORK ;;
                if nonet then ret true else ret false
          end
      end.

(** the retry loop of domoticzSwitch: [n] iterations are left and
    [response] holds the last answer *)
Fixpoint switch_loop (n : nat) (message msg : string) (response : string)
  : M string :=
  match n with
  | O => ret response
  | S n' =>
      sim <- gets simular ;;
      nonet <- gets NONETWORK ;;
      response <-
        (if (ErrorON sim && String.eqb msg "On")
            || (ErrorOFF sim && String.eqb msg "Off")
         then ret "ErrX"%string
         else if negb nonet then httpGetDomoticz message
         else ret response) ;;
      if String.eqb response "ErrX" then
        bip 1 ;; delay DELAYRETRY ;; switch_loop n' message msg response
      else ret response
  end.

(** domoticzSwitch *)
Definition domoticzSwitch (idx : Z) (msg : string) (retries : Z) : M bool :=
  if idx =? 0 then ret true
  else
    up <- checkWifi ;;
    nonet <- gets NONETWORK ;;
    if negb up && negb nonet then statusError E1 3 ;; ret false
    else
      response <- switch_loop (Z.to_nat retries) (switch_message idx msg) msg
                    EmptyString ;;
      if startsWith response "Err" then
        eoff <- gets errorOFF ;;
        when (negb eoff)
          (if String.eqb response "ErrX" then
             if String.eqb msg "On" then statusError E4 3
             else statusError E5 5
           else statusError E2 3) ;;
        ret false
      else ret true.

(** *** Control.cpp: durations *)

(** timeByFactor: the scaled duration (fminutes, fseconds) *)
Definition timeByFactor (factor : Z) : M (Z * Z) :=
  m <- gets minutes ;;
  s <- gets seconds ;;
  let tseconds := uint32 (60 * m + s) in
  let tseconds := uint32 (tseconds * uint32 factor) / 100 in
  ret (uint8 (tseconds / 60), uint8 (tseconds mod 60)).

Definition StaticTimeUpdate : M unit :=
  e <- gets Estado ;;
  if estados_eqb (estado e) ERROR then ret tt
  else
    m <- gets minutes ;;
    when (m <? MINMINUTES) (modify (set_minutes MINMINUTES)) ;;
    m <- gets minutes ;;
    when (MAXMINUTES <? m) (modify (set_minutes MAXMINUTES)) ;;
    m <- gets minutes ;;
    s <- gets seconds ;;
    emit (EvDisplayTime m s).

Definition refreshTime : M unit :=
  ms <- ask EvTimerShow (T_Show W) ;;
  emit (EvDisplayTime (fst ms) (snd ms)).

Definition with_desc (d : string) (b : S_BOTON) : S_BOTON :=
  mkBoton (b_id b) (b_estado b) (b_ultimo_estado b) (b_led b) (b_flags b)
          d (b_idx b).

Definition with_bp_desc (d : string) (p : Boton_parm) : Boton_parm :=
  mkBotonParm d (bp_idx p).

Definition set_botonConfig (l : list Boton_parm) (c : Config_parm)
  : Config_parm :=
  mkConfig (initialized c) l (cfg_minutes c) (cfg_seconds c)
           (domoticz_ip c) (domoticz_port c) (ntpServer c) (groupConfig c).

(** Boton[bIndex].desc = strlcpy(descDomoticz) *)
Definition copy_desc_to_Boton (bIndex : Z) : M unit :=
  d <- gets descDomoticz ;;
  l <- gets Boton ;;
  b <- rd l bIndex ;;
  l' <- wr l bIndex (with_desc (strlcpy d 20) b) ;;
  modify (set_Boton l').

(** the second loop of initFactorRiegos, over the zone indices [zs] *)
Fixpoint initFactorRiegos_loop (zs : list Z) : M unit :=
  match zs with
  | [] => ret tt
  | i :: rest =>
      z <- rd ZONAS i ;;
      bIndex <- bID_bIndex z ;;
      b <- Boton_at bIndex ;;
      r <- getFactor (b_idx b) ;;
      let factorR := uint32 r in
      if factorR =? 999 then ret tt
      else
        e <- gets Estado ;;
        if estados_eqb (estado e) ERROR then
          when (fase e =? E3)
            (b <- Boton_at bIndex ;;
             modify (set_ledID (b_led b)) ;;
             emit (EvTickerAttach tic_parpadeoLedZona 400))
        else
          fr <- gets factorRiegos ;;
          fr' <- wr fr i factorR ;;
          modify (set_factorRiegos fr') ;;
          d <- gets descDomoticz ;;
          when (negb (String.eqb d EmptyString))
            (copy_desc_to_Boton bIndex ;;
             cfg <- gets config ;;
             p <- rd (botonConfig cfg) i ;;
             when (String.eqb (bp_desc p) EmptyString)
               (bc' <- wr (botonConfig cfg) i (with_bp_desc (strlcpy d 20) p) ;;
                modify (set_config (set_botonConfig bc' cfg)) ;;
                copy_desc_to_Boton bIndex)) ;;
          initFactorRiegos_loop rest
  end.

Definition initFactorRiegos : M unit :=
  forM (upto (Z.of_nat NUMZONAS)) (fun i =>
    fr <- gets factorRiegos ;;
    fr' <- wr fr i 100 ;;
    modify (set_factorRiegos fr')) ;;
  initFactorRiegos_loop (upto (Z.of_nat NUMZONAS)).

(** *** Control.cpp: starting a zone *)

Definition initRiego (id : Z) : M bool :=
  bIndex <- bID_bIndex id ;;
  let zIndex := bID_zIndex id in
  if zIndex =? 999 then ret false
  else
    b <- Boton_at bIndex ;;
    led (b_led b) ON ;;
    t <- ask EvEpochTime (localEpoch W) ;;
    lr <- gets lastRiegos ;;
    lr' <- wr lr zIndex t ;;
    modify (set_lastRiegos lr') ;;
    b <- Boton_at bIndex ;;
    domoticzSwitch (b_idx b) "On" DEFAULT_SWITCH_RETRIES.

Definition procesaBotonZona : M unit :=
  p <- gets boton ;;
  b <- deref p ;;
  let zIndex := bID_zIndex (b_id b) in
  if zIndex =? 999 then ret tt
  else
    bIndex <- bID_bIndex (b_id b) ;;
    e <- gets Estado ;;
    if estados_eqb (estado e) STANDBY then
      enc <- gets encoderSW ;;
      mr <- gets multirriego ;;
      if negb enc || mr then
        bip 2 ;;
        fms <- (if mr then
                  fr <- gets factorRiegos ;;
                  f <- rd fr zIndex ;;
                  timeByFactor (int32 f)
                else
                  m <- gets minutes ;; s <- gets seconds ;; ret (m, s)) ;;
        let '(fminutes, fseconds) := fms in
        modify (set_ultimoBoton p) ;;
        b <- deref p ;;
        if ((fminutes =? 0) && (fseconds =? 0)) || (b_idx b =? 0) then
          setEstado TERMINANDO ;;
          bb <- Boton_at bIndex ;;
          led (b_led bb) ON ;;
          emit (EvDisplayPrint "-00-")
        else
          emit (EvTimerSet 0 fminutes fseconds) ;;
          emit EvTimerStart ;;
          b <- deref p ;;
          _ <- initRiego (b_id b) ;;
          e <- gets Estado ;;
          when (negb (estados_eqb (estado e) ERROR)) (setEstado REGANDO)
      else
        bb <- Boton_at bIndex ;;
        led (b_led bb) ON ;;
        v <- gets value ;;
        modify (set_savedValue v) ;;
        fr <- gets factorRiegos ;;
        f <- rd fr zIndex ;;
        modify (set_value (int32 f)) ;;
        emit (EvDisplayInt (int32 f)) ;;
        delay 2000 ;;
        sv <- gets savedValue ;;
        modify (set_value sv) ;;
        bb <- Boton_at bIndex ;;
        led (b_led bb) OFF ;;
        StaticTimeUpdate
    else ret tt.

(** *** Control.cpp: the handlers of the WATERING and PAUSE states *)

Definition procesaEstadoRegando : M unit :=
  t <- ask EvTimerQuery (T_Timer W) ;;
  modify (set_tiempoTerminado t) ;;
  ch <- ask EvTimerChanged (T_TimeHasChanged W) ;;
  when ch refreshTime ;;
  tt' <- gets tiempoTerminado ;;
  if negb tt' then setEstado TERMINANDO
  else
    fv <- gets flagV ;;
    verify <- gets VERIFY ;;
    if fv && verify then
      u <- gets ultimoBoton ;;
      ub <- deref u ;;
      ok <- queryStatus (b_idx ub) "On" ;;
      if ok then ret tt
      else
        ub <- deref u ;;
        modify (set_ledID (b_led ub)) ;;
        e <- gets Estado ;;
        if fase e =? CERO then
          bip 1 ;;
          emit EvTimerPause ;;
          emit (EvTickerAttach tic_parpadeoLedZona 800) ;;
          setEstado PAUSE
        else
          statusError (fase e) 3 ;;
          emit (EvTickerAttach tic_parpadeoLedON 200) ;;
          emit (EvTickerAttach tic_parpadeoLedZona 400) ;;
          modify (set_errorOFF true)
    else ret tt.

Definition procesaEstadoPause : M unit :=
  fv <- gets flagV ;;
  verify <- gets VERIFY ;;
  if fv && verify then
    u <- gets ultimoBoton ;;
    ub <- deref u ;;
    ok <- queryStatus (b_idx ub) "Off" ;;
    if ok then ret tt
    else
      e <- gets Estado ;;
      if fase e =? CERO then
        bip 2 ;;
        ub <- deref u ;;
        modify (set_ledID (b_led ub)) ;;
        emit (EvTickerAttach tic_parpadeoLedZona 800) ;;
        emit EvTimerResume ;;
        setEstado REGANDO
      else modify (fun s => set_Estado (mkEstado (estado (Estado s)) CERO) s)
  else ret tt.

(** *** multirriego.cpp: the group resolver *)

Definition getMultiStatus : M Z :=
  i1 <- bID_bIndex bGRUPO1 ;;
  b1 <- Boton_at i1 ;;
  if negb (b_estado b1 =? 0) then ret bGRUPO1
  else
    i3 <- bID_bIndex bGRUPO3 ;;
    b3 <- Boton_at i3 ;;
    if negb (b_estado b3 =? 0) then ret bGRUPO3
    else ret bGRUPO2.

Definition with_serie (l : list Z) (m : S_MULTI) : S_MULTI :=
  mkMulti (m_id m) l (m_zserie m) (m_size m) (w_size m) (actual m) (m_desc m).

Definition with_w_size (n : Z) (m : S_MULTI) : S_MULTI :=
  mkMulti (m_id m) (m_serie m) (m_zserie m) (m_size m) n (actual m) (m_desc m).

(** the four pointers of [multi] set to the members of groupConfig[i] *)
Definition point_at (i : nat) (m : S_MULTI) : S_MULTI :=
  mkMulti (Some i) (m_serie m) (Some i) (Some i) (w_size m) (actual m) (Some i).

(** the group a pointer of [multi] points into *)
Definition pointee (p : option nat) : M Grupo_parm :=
  match p with
  | None => UB
  | Some i => cfg <- gets config ;; rd (groupConfig cfg) (Z.of_nat i)
  end.

(** *multi.size and *multi.id *)
Definition multi_size : M Z :=
  m <- gets multi ;; g <- pointee (m_size m) ;; ret (g_size g).
Definition multi_id : M Z :=
  m <- gets multi ;; g <- pointee (m_id m) ;; ret (g_id g).

(** the search loop of setMultibyId over the group indices [gs] *)
Fixpoint setMultibyId_loop (gs : list nat) (id : Z) : M Z :=
  match gs with
  | [] => ret 0
  | i :: rest =>
      cfg <- gets config ;;
      g <- rd (groupConfig cfg) (Z.of_nat i) ;;
      if g_id g =? id then
        modify (fun s => set_multi (point_at i (multi s)) s) ;;
        size <- multi_size ;;
        forM (upto size) (fun j =>
          cfg <- gets config ;;
          g <- rd (groupConfig cfg) (Z.of_nat i) ;;
          zj <- rd (g_serie g) j ;;
          z <- rd ZONAS (zj - 1) ;;
          m <- gets multi ;;
          ser' <- wr (m_serie m) j z ;;
          modify (set_multi (with_serie ser' m))) ;;
        ret (Z.of_nat i + 1)
      else setMultibyId_loop rest id
  end.

(** setMultibyId(id, config): every caller passes the global [config] *)
Definition setMultibyId (id : Z) : M Z :=
  setMultibyId_loop (seq 0 NUMGRUPOS) id.

Definition displayGrupo : M unit :=
  serieSize <- multi_size ;;
  gid <- multi_id ;;
  gi <- bID_bIndex gid ;;
  gb <- Boton_at gi ;;
  led (b_led gb) ON ;;
  forM (upto serieSize) (fun i =>
    m <- gets multi ;;
    z <- rd (m_serie m) i ;;
    zi <- bID_bIndex z ;;
    zb <- Boton_at zi ;;
    led (b_led zb) ON ;;
    delay 300 ;;
    bip (i + 1) ;;
    led (b_led zb) OFF ;;
    delay 100) ;;
  gid <- multi_id ;;
  gi <- bID_bIndex gid ;;
  gb <- Boton_at gi ;;
  led (b_led gb) OFF.

(** *** Configure.cpp *)

Definition Configure_stop : M unit :=
  bip 1 ;;
  modify (fun s => set_configure
    (mkConfigure false false false
       (_actualIdxIndex (configure s)) (_actualGrupo (configure s))) s) ;;
  emit (EvDisplayPrint "ConF").

Definition configuring : M bool :=
  c <- gets configure ;;
  ret (_configuringIdx c || _configuringTime c || _configuringMulti c).

Definition configureIdx (index : Z) : M unit :=
  modify (fun s => set_configure
    (mkConfigure false true false index (_actualGrupo (configure s))) s).

Definition configureTime : M unit :=
  modify (fun s => set_configure
    (mkConfigure true false false
       (_actualIdxIndex (configure s)) (_actualGrupo (configure s))) s).

Definition configureMulti (grupo : Z) : M unit :=
  modify (fun s => set_configure
    (mkConfigure false false true (_actualIdxIndex (configure s)) grupo) s).

(** *** Control.cpp: display and LED helpers *)

Definition infoDisplay (textDisplay : string) (dnum btype bnum : Z) : M unit :=
  emit (EvDisplayPrint textDisplay) ;;
  when (btype =? LONGBIP) (longbip bnum) ;;
  when (btype =? BIP) (bip bnum) ;;
  when (btype =? BIPOK) (bipOK bnum) ;;
  emit (EvDisplayBlink dnum).

Definition ledConf (e : Z) : M unit :=
  if e =? ON then
    led LEDB OFF ;; led LEDG OFF ;; emit (EvTickerAttach tic_parpadeoLedConf 700)
  else
    emit (EvTickerDetach tic_parpadeoLedConf) ;;
    led LEDR ON ;;
    nonet <- gets NONETWORK ;;
    (if nonet then led LEDB ON else led LEDB OFF) ;;
    _ <- checkWifi ;;
    ret tt.

(** *** wifiWM.cpp: the configuration portal *)

(** int timeout = 180 *)
Definition timeout : Z := 180.

(** strcpy(dst, src) into a char array of [size] bytes: writing past the
    end of the array is undefined *)
Definition strcpy (size : nat) (src : string) : M string :=
  if (String.length src <? size)%nat then ret src else UB.

(** the callbacks that setupRedWM registers with WiFiManager *)
Definition run_callback (c : WMCallback) : M unit :=
  match c with
  | saveWifiCallback =>
      emit (EvTickerDetach tic_APLed) ;;
      led LEDB OFF ;;
      infoDisplay "----" NOBLINK BIP 0 ;;
      emit (EvTickerAttach tic_WifiLed 200)
  | configModeCallback =>
      emit (EvTickerDetach tic_WifiLed) ;;
      led LEDG OFF ;;
      emit (EvTickerAttach tic_APLed 500) ;;
      infoDisplay "-AP-" DEFAULTBLINK LONGBIP 1
  | saveParamCallback =>
      modify (set_saveConfig true) ;;
      emit EvStopConfigPortal
  | preOtaUpdateCallback =>
      infoDisplay "####" DEFAULTBLINK LONGBIP 1
  end.

Definition set_portal_params (ip port ntp : string) (c : Config_parm)
  : Config_parm :=
  mkConfig (initialized c) (botonConfig c) (cfg_minutes c) (cfg_seconds c)
           ip port ntp (groupConfig c).

(** starConfigPortal(config): the portal runs, firing the callbacks the
    world decides; the three parameter fields are copied into the
    configuration when saveConfig is set *)
Definition starConfigPortal : M unit :=
  run <- ask (EvConfigPortal timeout) (startConfigPortal W) ;;
  forM (pr_callbacks run) run_callback ;;
  sc <- gets saveConfig ;;
  when sc
    (ip <- strcpy 40 (custom_domoticz_server run) ;;
     port <- strcpy 6 (custom_domoticz_port run) ;;
     ntp <- strcpy 40 (custom_ntpserver run) ;;
     modify (fun s => set_config (set_portal_params ip port ntp (config s)) s)) ;;
  emit (EvTickerDetach tic_APLed) ;;
  nonet <- gets NONETWORK ;;
  (if nonet then led LEDB ON else led LEDB OFF) ;;
  infoDisplay "----" NOBLINK BIP 0 ;;
  emit (EvTickerDetach tic_WifiLed) ;;
  _ <- checkWifi ;;
  ret tt.

(** led(Boton[bID_bIndex(id)].led, e) *)
Definition led_of (id e : Z) : M unit :=
  i <- bID_bIndex id ;; b <- Boton_at i ;; led (b_led b) e.

Definition ultimosRiegos_HIDE : M unit :=
  StaticTimeUpdate ;;
  forM ZONAS (fun z => led_of z OFF).

Definition resetLeds : M unit :=
  forM GRUPOS (fun g => led_of g OFF) ;;
  emit (EvTickerDetach tic_parpadeoLedZona) ;;
  forM ZONAS (fun z => led_of z OFF) ;;
  emit (EvTickerDetach tic_parpadeoLedON) ;;
  ledConf OFF.

Definition procesaEncoder : M unit :=
  e <- gets Estado ;;
  c <- gets configure ;;
  if estados_eqb (estado e) CONFIGURANDO && _configuringIdx c then
    d <- ask EvEncoder (Encoder_getValue W) ;;
    modify (fun s => set_value (int32 (value s - d)) s) ;;
    modify (fun s => if 1000 <? value s then set_value 1000 s else s) ;;
    modify (fun s => if value s <? 1 then set_value 0 s else s) ;;
    v <- gets value ;;
    emit (EvDisplayInt v)
  else if estados_eqb (estado e) CONFIGURANDO && negb (_configuringTime c) then
    ret tt
  else
    rp <- gets reposo ;;
    when (negb rp) StaticTimeUpdate ;;
    d <- ask EvEncoder (Encoder_getValue W) ;;
    modify (fun s => set_value (int32 (value s - d)) s) ;;
    s0 <- gets (fun s => s) ;;
    changed <-
      (if (seconds s0 =? 0) && (0 <? value s0) then
         when (MAXMINUTES <? value s0) (modify (set_value MAXMINUTES)) ;;
         v <- gets value ;;
         if negb (v =? minutes s0) then
           modify (set_minutes (uint8 v)) ;; ret true
         else ret false
       else if (value s0 <? 60) && (MINSECONDS <=? value s0) then
         if negb (value s0 =? seconds s0) then
           modify (set_seconds (uint8 (value s0))) ;; ret true
         else ret false
       else if 60 <=? value s0 then
         modify (set_minutes 1) ;; modify (set_value 1) ;;
         modify (set_seconds 0) ;; ret true
       else if minutes s0 =? 1 then
         modify (set_seconds 59) ;; modify (set_value 59) ;;
         modify (set_minutes 0) ;; ret true
       else
         modify (set_seconds MINSECONDS) ;; modify (set_value MINSECONDS) ;;
         modify (set_minutes 0) ;; ret true) ;;
    when changed
      (modify (set_reposo false) ;;
       StaticTimeUpdate ;;
       t <- ask EvMillis (millis W) ;;
       modify (set_standbyTime t)).

(** *** Control.cpp: the handler of the CONFIGURING state *)

Definition with_holddisabled (v : bool) (b : S_BOTON) : S_BOTON :=
  let f := b_flags b in
  mkBoton (b_id b) (b_estado b) (b_ultimo_estado b) (b_led b)
    (mkFlags (enabled f) (disabled f) (onlystatus f) (action f) (dual f)
             (hold f) v)
    (b_desc b) (b_idx b).

Definition with_idx (v : Z) (b : S_BOTON) : S_BOTON :=
  mkBoton (b_id b) (b_estado b) (b_ultimo_estado b) (b_led b) (b_flags b)
          (b_desc b) v.

Definition with_g_size (n : Z) (g : Grupo_parm) : Grupo_parm :=
  mkGrupo (g_id g) n (g_serie g) (g_desc g).

Definition with_g_serie (l : list Z) (g : Grupo_parm) : Grupo_parm :=
  mkGrupo (g_id g) (g_size g) l (g_desc g).

Definition set_groupConfig (l : list Grupo_parm) (c : Config_parm)
  : Config_parm :=
  mkConfig (initialized c) (botonConfig c) (cfg_minutes c) (cfg_seconds c)
           (domoticz_ip c) (domoticz_port c) (ntpServer c) l.

Definition set_cfg_time (m s : Z) (c : Config_parm) : Config_parm :=
  mkConfig (initialized c) (botonConfig c) m s
           (domoticz_ip c) (domoticz_port c) (ntpServer c) (groupConfig c).

(** Boton[bID_bIndex(bPAUSE)].flags.holddisabled = v *)
Definition set_holddisabled_PAUSE (v : bool) : M unit :=
  i <- bID_bIndex bPAUSE ;;
  l <- gets Boton ;;
  b <- rd l i ;;
  l' <- wr l i (with_holddisabled v b) ;;
  modify (set_Boton l').

(** case bMULTIRIEGO *)
Definition conf_MULTIRIEGO : M unit :=
  busy <- configuring ;;
  if busy then ret tt
  else
    sel <- getMultiStatus ;;
    n_grupo <- setMultibyId sel ;;
    enc <- gets encoderSW ;;
    if enc then
      when (n_grupo =? 1)
        (ok <- ask EvCopyConfigFile (copyConfigFile W) ;;
         when ok
           (infoDisplay "-dEF" DEFAULTBLINK BIPOK 5 ;;
            emit (EvDisplayPrint "ConF"))) ;;
      when (WEBSERVER && (n_grupo =? 2))
        (emit EvSetupWS ;;
         modify (set_webServerAct true) ;;
         ledConf OFF ;;
         infoDisplay "otA" DEFAULTBLINK BIPOK 5) ;;
      when (n_grupo =? 3)
        (ledConf OFF ;;
         starConfigPortal ;;
         ledConf ON ;;
         emit (EvDisplayPrint "ConF"))
    else
      configureMulti n_grupo ;;
      displayGrupo ;;
      modify (fun s => set_multi (with_w_size 0 (multi s)) s) ;;
      emit (EvDisplayPrint "PUSH") ;;
      gid <- multi_id ;;
      led_of gid ON.

(** the commit of an edited group: the body of [if (multi.w_size)] *)
Definition conf_commit_multi : M unit :=
  m <- gets multi ;;
  (* *multi.size = multi.w_size *)
  match m_size m with
  | None => UB
  | Some p =>
      cfg <- gets config ;;
      grp <- rd (groupConfig cfg) (Z.of_nat p) ;;
      gc' <- wr (groupConfig cfg) (Z.of_nat p) (with_g_size (w_size m) grp) ;;
      modify (set_config (set_groupConfig gc' cfg))
  end ;;
  c <- gets configure ;;
  let g := _actualGrupo c in
  forM (upto (w_size m)) (fun i =>
    m <- gets multi ;;
    z <- rd (m_serie m) i ;;
    cfg <- gets config ;;
    grp <- rd (groupConfig cfg) (g - 1) ;;
    ser' <- wr (g_serie grp) i (uint16 (bID_zIndex z + 1)) ;;
    gc' <- wr (groupConfig cfg) (g - 1) (with_g_serie ser' grp) ;;
    modify (set_config (set_groupConfig gc' cfg))) ;;
  modify (set_saveConfig true) ;;
  bipOK 3.

(** case bPAUSE *)
Definition conf_PAUSE (b : S_BOTON) : M unit :=
  if b_estado b =? 0 then ret tt
  else
    busy <- configuring ;;
    c <- gets configure ;;
    if negb busy then configureTime ;; delay 500
    else if _configuringTime c then
      modify (fun s => set_config (set_cfg_time (minutes s) (seconds s) (config s)) s) ;;
      modify (set_saveConfig true) ;;
      bipOK 3 ;;
      Configure_stop
    else if _configuringIdx c then
      let bIndex := _actualIdxIndex c in
      bb <- Boton_at bIndex ;;
      let zIndex := bID_zIndex (b_id bb) in
      v <- gets value ;;
      l <- gets Boton ;;
      l' <- wr l bIndex (with_idx (uint16 v) bb) ;;
      modify (set_Boton l') ;;
      cfg <- gets config ;;
      p <- rd (botonConfig cfg) zIndex ;;
      bc' <- wr (botonConfig cfg) zIndex (mkBotonParm (bp_desc p) (uint16 v)) ;;
      modify (set_config (set_botonConfig bc' cfg)) ;;
      modify (set_saveConfig true) ;;
      modify (fun s => set_value (savedValue s) s) ;;
      bipOK 3 ;;
      bb <- Boton_at bIndex ;;
      led (b_led bb) OFF ;;
      Configure_stop
    else if _configuringMulti c then
      m <- gets multi ;;
      when (negb (w_size m =? 0)) conf_commit_multi ;;
      ultimosRiegos_HIDE ;;
      gid <- multi_id ;;
      led_of gid OFF ;;
      Configure_stop
    else ret tt.

(** case bSTOP *)
Definition conf_STOP (b : S_BOTON) : M unit :=
  if b_estado b =? 0 then
    Configure_stop ;;
    sc <- gets saveConfig ;;
    when sc
      (cfg <- gets config ;;
       ok <- ask (EvSaveConfigFile cfg) (saveConfigFile W) ;;
       when ok (infoDisplay "SAUE" DEFAULTBLINK BIPOK 5) ;;
       modify (set_saveConfig false)) ;;
    wsa <- gets webServerAct ;;
    when (WEBSERVER && wsa)
      (emit EvEndWS ;; modify (set_webServerAct false)) ;;
    setEstado STANDBY ;;
    resetLeds ;;
    t <- ask EvMillis (millis W) ;;
    modify (set_standbyTime t) ;;
    modify (fun s => if 0 <? savedValue s then set_value (savedValue s) s else s) ;;
    StaticTimeUpdate
  else ret tt.

(** default: a zone button *)
Definition conf_default (p : option nat) (bIndex : Z) : M unit :=
  c <- gets configure ;;
  when (_configuringMulti c)
    (m <- gets multi ;;
     if w_size m <? 16 then
       b <- deref p ;;
       ser' <- wr (m_serie m) (w_size m) (b_id b) ;;
       modify (set_multi (with_serie ser' m)) ;;
       modify (fun s => set_multi (with_w_size (w_size (multi s) + 1) (multi s)) s) ;;
       bb <- Boton_at bIndex ;;
       led (b_led bb) ON
     else longbip 1) ;;
  busy <- configuring ;;
  when (negb busy)
    (configureIdx bIndex ;;
     b <- deref p ;;
     modify (set_value (b_idx b)) ;;
     bb <- Boton_at bIndex ;;
     led (b_led bb) ON).

Definition procesaEstadoConfigurando : M unit :=
  set_holddisabled_PAUSE true ;;
  p <- gets boton ;;
  match p with
  | None => procesaEncoder
  | Some _ =>
      b <- deref p ;;
      if action (b_flags b) then
        bIndex <- bID_bIndex (b_id b) ;;
        if b_id b =? bMULTIRIEGO then conf_MULTIRIEGO
        else if b_id b =? bPAUSE then conf_PAUSE b
        else if b_id b =? bSTOP then conf_STOP b
        else conf_default p bIndex
      else ret tt
  end.

(** *** botones.cpp: the input engine *)

Definition with_estado (v : Z) (b : S_BOTON) : S_BOTON :=
  mkBoton (b_id b) v (b_ultimo_estado b) (b_led b) (b_flags b)
          (b_desc b) (b_idx b).

Definition with_ultimo_estado (v : Z) (b : S_BOTON) : S_BOTON :=
  mkBoton (b_id b) (b_estado b) v (b_led b) (b_flags b) (b_desc b) (b_idx b).

(** the scan of parseInputs over the button indices [ix] *)
Fixpoint parseInputs_loop (ix : list Z) (read : bool) (inputs : Z)
  : M (option nat) :=
  match ix with
  | [] => ret None
  | i :: rest =>
      l <- gets Boton ;;
      b <- rd l i ;;
      if negb (enabled (b_flags b)) then parseInputs_loop rest read inputs
      else
        let est := Z.land inputs (b_id b) in
        l1 <- wr l i (with_estado est b) ;;
        modify (set_Boton l1) ;;
        if negb (est =? b_ultimo_estado b)
           || (negb (est =? 0) && hold (b_flags b)
               && negb (holddisabled (b_flags b)))
        then
          l2 <- wr l1 i (with_ultimo_estado est (with_estado est b)) ;;
          modify (set_Boton l2) ;;
          if (negb (est =? 0) || dual (b_flags b)) && read
          then ret (Some (Z.to_nat i))
          else parseInputs_loop rest read inputs
        else parseInputs_loop rest read inputs
  end.

(** parseInputs: the button of the event, or NULL *)
Definition parseInputs (read : bool) : M (option nat) :=
  currentMillis <- ask EvMillis (millis W) ;;
  last <- gets lastMillis ;;
  if currentMillis <? uint32 (last + DEBOUNCEMILLIS) then ret None
  else
    modify (set_lastMillis currentMillis) ;;
    inputs <- ask EvReadInputs (shiftIn W) ;;
    parseInputs_loop (upto (Z.of_nat NUM_S_BOTON)) read inputs.

(** *** Control.cpp: stopping zones *)

Definition stopRiego (id : Z) : M bool :=
  bIndex <- bID_bIndex id ;;
  b <- Boton_at bIndex ;;
  modify (set_ledID (b_led b)) ;;
  b <- Boton_at bIndex ;;
  _ <- domoticzSwitch (b_idx b) "Off" DEFAULT_SWITCH_RETRIES ;;
  e <- gets Estado ;;
  if negb (estados_eqb (estado e) ERROR) then ret true
  else
    eo <- gets errorOFF ;;
    when (negb eo)
      (modify (set_errorOFF true) ;;
       emit (EvTickerAttach tic_parpadeoLedON 200) ;;
       emit (EvTickerAttach tic_parpadeoLedZona 400)) ;;
    ret false.

(** the loop of stopAllRiego over the zone ids [zs] *)
Fixpoint stopAllRiego_loop (zs : list Z) : M bool :=
  match zs with
  | [] => ret true
  | z :: rest =>
      led_of z OFF ;;
      ok <- stopRiego z ;;
      if negb ok then ret false else stopAllRiego_loop rest
  end.

Definition stopAllRiego : M bool :=
  gid <- multi_id ;;
  led_of gid OFF ;;
  emit (EvTickerDetach tic_parpadeoLedZona) ;;
  stopAllRiego_loop ZONAS.

(** *** Control.cpp: the MULTIRIEGO button *)

Definition with_actual (n : Z) (m : S_MULTI) : S_MULTI :=
  mkMulti (m_id m) (m_serie m) (m_zserie m) (m_size m) (w_size m) n (m_desc m).

(** &Boton[i] for a computed index: a pointer outside the table is undefined *)
Definition addr_Boton (i : Z) : M (option nat) :=
  l <- gets Boton ;;
  if (i <? 0) || (Z.of_nat (length l) <=? i) then UB
  else ret (Some (Z.to_nat i)).

(** VERSION, "2.5", with the dots and dashes removed *)
Definition version_n : string := "25".

Definition procesaBotonMultiriego : M bool :=
  e <- gets Estado ;;
  mr <- gets multirriego ;;
  if estados_eqb (estado e) STANDBY && negb mr then
    sel <- getMultiStatus ;;
    n_grupo <- setMultibyId sel ;;
    if n_grupo =? 0 then
      statusError E0 3 ;; ret false
    else
      enc <- gets encoderSW ;;
      if enc then
        emit (EvDisplayPrint version_n) ;;
        displayGrupo ;;
        StaticTimeUpdate ;;
        ret false
      else
        bip 4 ;;
        modify (set_multirriego true) ;;
        modify (fun s => set_multi (with_actual 0 (multi s)) s) ;;
        gid <- multi_id ;;
        led_of gid ON ;;
        m <- gets multi ;;
        z <- rd (m_serie m) (actual m) ;;
        i <- bID_bIndex z ;;
        p <- addr_Boton i ;;
        modify (set_boton p) ;;
        ret true
  else ret true.

(** *** Control.cpp: the state after start-up *)

(** the STOP switch decides between STOP and STANDBY *)
Definition stop_or_standby : M unit :=
  i <- bID_bIndex bSTOP ;;
  b <- Boton_at i ;;
  if negb (b_estado b =? 0) then
    setEstado STOP ;; infoDisplay "StoP" NOBLINK LONGBIP 1
  else setEstado STANDBY.

Definition setupEstado : M unit :=
  sel <- getMultiStatus ;;
  n_grupo <- setMultibyId sel ;;
  cfg <- gets config ;;
  if (n_grupo =? 0) || (initialized cfg =? 0) then statusError E0 3
  else
    nonet <- gets NONETWORK ;;
    if nonet then stop_or_standby ;; bip 2
    else
      e <- gets Estado ;;
      if estados_eqb (estado e) ERROR then ret tt
      else
        up <- checkWifi ;;
        if up then stop_or_standby ;; bip 1
        else statusError E1 3.

(** *** Control.cpp: the handler of the STANDBY state *)

Definition procesaEstadoStandby : M unit :=
  set_holddisabled_PAUSE true ;;
  rp <- gets reposo ;;
  (if rp then
     t <- ask EvMillis (millis W) ;;
     modify (set_standbyTime t)
   else
     t <- ask EvMillis (millis W) ;;
     st <- gets standbyTime ;;
     when (uint32 (st + 1000 * STANDBYSECS) <? t)
       (modify (set_reposo true) ;;
        emit EvDisplayClear)) ;;
  procesaEncoder.

(** *** Control.cpp: the zones watered today *)

(** TimeLib: previousMidnight divides the time_t as C does; hour and minute
    break the time down as a uint32_t *)
Definition previousMidnight (t : Z) : Z := (t ÷ 86400) * 86400.
Definition hour (t : Z) : Z := (uint32 t / 60 / 60) mod 24.
Definition minute (t : Z) : Z := (uint32 t / 60) mod 60.

Definition ultimosRiegos_SHOW : M unit :=
  t <- ask EvEpochTime (localEpoch W) ;;
  forM (upto (Z.of_nat NUMZONAS)) (fun i =>
    lr <- gets lastRiegos ;;
    last <- rd lr i ;;
    when (previousMidnight t <? last)
      (z <- rd ZONAS i ;; led_of z ON)) ;;
  emit (EvDisplayTime (hour t) (minute t)).

(** *** Control.cpp: the dispatcher of the buttons *)

(** testButton(id, state), on the word that readInputs() gives *)
Definition testButton (id : Z) (state : bool) : M bool :=
  buttons <- ask EvReadInputs (shiftIn W) ;;
  ret (Bool.eqb (negb (Z.land buttons id =? 0)) state).

Section Dispatch.

(** the handlers of the buttons PAUSE and STOP, which procesaBotones calls
    for those two buttons only *)
Variables procesaBotonPause procesaBotonStop : M unit.

Definition procesaBotones : M unit :=
  up <- testButton bENCODER false ;;
  modify (set_encoderSW up) ;;
  ms <- gets multiSemaforo ;;
  (if ms then modify (set_multiSemaforo false)
   else b <- parseInputs true ;; modify (set_boton b)) ;;
  p <- gets boton ;;
  match p with
  | None => ret tt
  | Some _ =>
      rp <- gets reposo ;;
      wake <- (if rp then b <- deref p ;; ret (negb (b_id b =? bSTOP))
               else ret false) ;;
      if wake then
        modify (set_reposo false) ;;
        modify (set_displayOff false) ;;
        t <- ask EvMillis (millis W) ;;
        modify (set_standbyTime t) ;;
        e <- gets Estado ;;
        if estados_eqb (estado e) STOP then emit (EvDisplayPrint "StoP")
        else StaticTimeUpdate
      else
        e <- gets Estado ;;
        if estados_eqb (estado e) ERROR then ret tt
        else
          b <- deref p ;;
          if negb (action (b_flags b)) then ret tt
          else if b_id b =? bPAUSE then procesaBotonPause
          else if b_id b =? bSTOP then procesaBotonStop
          else if b_id b =? bMULTIRIEGO then
            ok <- procesaBotonMultiriego ;;
            if negb ok then ret tt else procesaBotonZona
          else procesaBotonZona
  end.

End Dispatch.

End Program.

(** ** The globals at start-up *)

(** parametros.cpp, zeroConfig: group j is the selector position j with the
    single zone j+1 *)
Definition zeroConfig (cfg : Config_parm) : Config_parm :=
  set_groupConfig
    (imap (fun j g =>
             mkGrupo (default 0 (GRUPOS !! j)) 1
                     (<[0%nat := Z.of_nat j + 1]> (g_serie g)) (g_desc g))
          (groupConfig cfg))
    cfg.

(** a [Config_parm] as the RELEASE build constructs it: zero-filled arrays,
    the default duration 10:00 *)
Definition config_blank : Config_parm :=
  mkConfig 0 (replicate NUMZONAS (mkBotonParm EmptyString 0)) 10 0
           EmptyString EmptyString EmptyString
           (replicate NUMGRUPOS (mkGrupo 0 0 (replicate 16 0) EmptyString)).

(** the static initialisers of Control.h, with the configuration after
    zeroConfig and the switches of the RELEASE build *)
Definition boot : State :=
  mkState (mkEstado STANDBY CERO) EmptyString
          false true false
          false false EmptyString
          (mkSim false false false false false)
          Boton_init None None
          (replicate NUMZONAS 0) (replicate NUMZONAS 0)
          10 0 10 0
          false false false false
          0
          (mkMulti None (replicate 16 0) None None 0 0 None)
          (zeroConfig config_blank)
          (mkConfigure false false false 0 0)
          false false false
          0 0
          false false
          [].

(** ** The shift registers of botones.cpp, bit by bit *)

(** The program above records a call of led() as one event and a call of
    readInputs() as one answer of the world.  Here are the same functions
    on the bits they handle. *)

Module HC595.

(** [1 << n] on int *)
Definition shl1 (n : Z) : option Z :=
  if (0 <=? n) && (n <=? 30) then Some (Z.shiftl 1 n) else None.

(** led(id, estado) on the global ledStatus: the new ledStatus and the bytes
    given to shiftOut, in order *)
Definition led (ledStatus : Z) (id estado : Z) : option (Z * list Z) :=
  if id =? 0 then Some (ledStatus, [])
  else
    match shl1 (id - 1) with
    | None => None
    | Some bit =>
        let ledStatus' :=
          if estado =? ON then uint16 (Z.lor ledStatus bit)
          else uint16 (Z.land ledStatus (Z.lnot bit)) in
        let bajo := uint8 (Z.land ledStatus' 255) in
        let alto := uint8 (Z.shiftr (Z.land ledStatus' 65280) 8) in
        Some (ledStatus', [alto; alto; bajo])
    end.

Definition ledStatusId (ledStatus : Z) (ledID : Z) : option bool :=
  match shl1 (ledID - 1) with
  | None => None
  | Some bit => Some (negb (Z.land ledStatus bit =? 0))
  end.

(** the body of the blink callbacks parpadeoLedON, parpadeoLedZona,
    parpadeoLedWifi and parpadeoLedAP:
    byte estado = ledStatusId(id); led(id, !estado) *)
Definition parpadeoLed (ledStatus : Z) (id : Z) : option (Z * list Z) :=
  match ledStatusId ledStatus id with
  | None => None
  | Some estado => led ledStatus id (if estado then 0 else 1)
  end.

End HC595.

Module CD4021B.

(** the loop of shiftInCD4021B with [n] bits still to read (i = n-1 down to
    0); [digitalRead k] is the [k]-th bit the register gives *)
Fixpoint shift_loop (digitalRead : nat -> bool) (k n : nat) (myDataIn : Z)
  : Z :=
  match n with
  | O => myDataIn
  | S i =>
      shift_loop digitalRead (S k) i
        (if digitalRead k then Z.lor myDataIn (Z.shiftl 1 (Z.of_nat i))
         else myDataIn)
  end.

(** shiftInCD4021B, called when [k] bits have been read *)
Definition shiftInCD4021B (digitalRead : nat -> bool) (k : nat) : Z :=
  uint8 (shift_loop digitalRead k 8 0).

Definition readInputs (digitalRead : nat -> bool) : Z :=
  let switchVar1 := shiftInCD4021B digitalRead 0 in
  let switchVar2 := shiftInCD4021B digitalRead 8 in
  uint16 (Z.lor switchVar2 (Z.shiftl switchVar1 8)).

Definition testButton (digitalRead : nat -> bool) (id : Z) (state : bool)
  : bool :=
  let buttons := readInputs digitalRead in
  let result := negb (Z.land buttons id =? 0) in
  Bool.eqb result state.

End CD4021B.

(** * Properties *)

(** ** Reasoning in the monad *)

(** [says t s]: the state [s] after the calls [t] to the world *)
Definition says (t : list Event) (s : State) : State :=
  set_trace (trace s ++ t) s.

Lemma says_nil s : says [] s = s.
Proof. destruct s; unfold says, set_trace; simpl. by rewrite app_nil_r. Qed.

Lemma says_app t1 t2 s : says t2 (says t1 s) = says (t1 ++ t2) s.
Proof. unfold says, set_trace; simpl. by rewrite app_assoc. Qed.

Lemma emit_says e s : emit e s = Some (tt, says [e] s).
Proof. reflexivity. Qed.

Lemma bind_Some {A B} (m : M A) (k : A -> M B) s a s' :
  m s = Some (a, s') -> bind m k s = k a s'.
Proof. intros H. unfold bind. by rewrite H. Qed.

Lemma bind_ret {A B} (a : A) (k : A -> M B) s : bind (ret a) k s = k a s.
Proof. reflexivity. Qed.

Lemma bind_gets {A B} (f : State -> A) (k : A -> M B) s :
  bind (gets f) k s = k (f s) s.
Proof. reflexivity. Qed.

Lemma bind_modify {B} (f : State -> State) (k : unit -> M B) s :
  bind (modify f) k s = k tt (f s).
Proof. reflexivity. Qed.

Lemma bind_emit {B} e (k : unit -> M B) s :
  bind (emit e) k s = k tt (says [e] s).
Proof. reflexivity. Qed.

Lemma bind_assoc {A B C} (m : M A) (k : A -> M B) (h : B -> M C) s :
  bind (bind m k) h s = bind m (fun a => bind (k a) h) s.
Proof. unfold bind. destruct (m s) as [[a s']|]; reflexivity. Qed.

Lemma led_says id e s :
  led id e s = Some (tt, says (if id =? 0 then [] else [EvLed id e]) s).
Proof. unfold led. destruct (id =? 0); [by rewrite says_nil | reflexivity]. Qed.

Lemma bind_led {B} id e (k : unit -> M B) s :
  bind (led id e) k s
  = k tt (says (if id =? 0 then [] else [EvLed id e]) s).
Proof. unfold bind. by rewrite led_says. Qed.

Lemma delay_says ms s : delay ms s = Some (tt, says [EvDelay ms] s).
Proof. reflexivity. Qed.

Lemma bind_delay {B} ms (k : unit -> M B) s :
  bind (delay ms) k s = k tt (says [EvDelay ms] s).
Proof. reflexivity. Qed.

Lemma bind_ask {A B} e (f : list Event -> A) (k : A -> M B) s :
  bind (ask e f) k s = k (f (trace s)) (says [e] s).
Proof. reflexivity. Qed.

Lemma ask_eq {A} e (f : list Event -> A) s :
  ask e f s = Some (f (trace s), says [e] s).
Proof. reflexivity. Qed.

Lemma ret_eq {A} (a : A) s : ret a s = Some (a, s).
Proof. reflexivity. Qed.

Lemma gets_eq {A} (f : State -> A) s : gets f s = Some (f s, s).
Proof. reflexivity. Qed.

Lemma modify_eq (f : State -> State) s : modify f s = Some (tt, f s).
Proof. reflexivity. Qed.

Lemma bind_when {B} (c : bool) (m : M unit) (k : unit -> M B) s :
  bind (when c m) k s = if c then bind m k s else k tt s.
Proof. destruct c; reflexivity. Qed.

Create Rewrite HintDb mrun.
#[global] Hint Rewrite @bind_assoc @bind_ret @bind_gets @bind_modify
  @bind_emit @bind_ask @bind_led @bind_delay led_says delay_says emit_says
  @ask_eq @ret_eq @gets_eq modify_eq says_app : mrun.


(** the calls to the world commute with the assignments to the other
    globals *)
Lemma set_Estado_says v t s : set_Estado v (says t s) = says t (set_Estado v s).
Proof. reflexivity. Qed.
Lemma set_errorText_says v t s : set_errorText v (says t s) = says t (set_errorText v s).
Proof. reflexivity. Qed.
Lemma set_NONETWORK_says v t s : set_NONETWORK v (says t s) = says t (set_NONETWORK v s).
Proof. reflexivity. Qed.
Lemma set_VERIFY_says v t s : set_VERIFY v (says t s) = says t (set_VERIFY v s).
Proof. reflexivity. Qed.
Lemma set_connected_says v t s : set_connected v (says t s) = says t (set_connected v s).
Proof. reflexivity. Qed.
Lemma set_factorRiegosOK_says v t s : set_factorRiegosOK v (says t s) = says t (set_factorRiegosOK v s).
Proof. reflexivity. Qed.
Lemma set_errorOFF_says v t s : set_errorOFF v (says t s) = says t (set_errorOFF v s).
Proof. reflexivity. Qed.
Lemma set_descDomoticz_says v t s : set_descDomoticz v (says t s) = says t (set_descDomoticz v s).
Proof. reflexivity. Qed.
Lemma set_simular_says v t s : set_simular v (says t s) = says t (set_simular v s).
Proof. reflexivity. Qed.
Lemma set_Boton_says v t s : set_Boton v (says t s) = says t (set_Boton v s).
Proof. reflexivity. Qed.
Lemma set_boton_says v t s : set_boton v (says t s) = says t (set_boton v s).
Proof. reflexivity. Qed.
Lemma set_ultimoBoton_says v t s : set_ultimoBoton v (says t s) = says t (set_ultimoBoton v s).
Proof. reflexivity. Qed.
Lemma set_factorRiegos_says v t s : set_factorRiegos v (says t s) = says t (set_factorRiegos v s).
Proof. reflexivity. Qed.
Lemma set_lastRiegos_says v t s : set_lastRiegos v (says t s) = says t (set_lastRiegos v s).
Proof. reflexivity. Qed.
Lemma set_minutes_says v t s : set_minutes v (says t s) = says t (set_minutes v s).
Proof. reflexivity. Qed.
Lemma set_seconds_says v t s : set_seconds v (says t s) = says t (set_seconds v s).
Proof. reflexivity. Qed.
Lemma set_value_says v t s : set_value v (says t s) = says t (set_value v s).
Proof. reflexivity. Qed.
Lemma set_savedValue_says v t s : set_savedValue v (says t s) = says t (set_savedValue v s).
Proof. reflexivity. Qed.
Lemma set_multirriego_says v t s : set_multirriego v (says t s) = says t (set_multirriego v s).
Proof. reflexivity. Qed.
Lemma set_encoderSW_says v t s : set_encoderSW v (says t s) = says t (set_encoderSW v s).
Proof. reflexivity. Qed.
Lemma set_flagV_says v t s : set_flagV v (says t s) = says t (set_flagV v s).
Proof. reflexivity. Qed.
Lemma set_tiempoTerminado_says v t s : set_tiempoTerminado v (says t s) = says t (set_tiempoTerminado v s).
Proof. reflexivity. Qed.
Lemma set_ledID_says v t s : set_ledID v (says t s) = says t (set_ledID v s).
Proof. reflexivity. Qed.
Lemma set_multi_says v t s : set_multi v (says t s) = says t (set_multi v s).
Proof. reflexivity. Qed.
Lemma set_config_says v t s : set_config v (says t s) = says t (set_config v s).
Proof. reflexivity. Qed.
Lemma set_configure_says v t s : set_configure v (says t s) = says t (set_configure v s).
Proof. reflexivity. Qed.
Lemma set_saveConfig_says v t s : set_saveConfig v (says t s) = says t (set_saveConfig v s).
Proof. reflexivity. Qed.
Lemma set_webServerAct_says v t s : set_webServerAct v (says t s) = says t (set_webServerAct v s).
Proof. reflexivity. Qed.
Lemma set_reposo_says v t s : set_reposo v (says t s) = says t (set_reposo v s).
Proof. reflexivity. Qed.
Lemma set_standbyTime_says v t s : set_standbyTime v (says t s) = says t (set_standbyTime v s).
Proof. reflexivity. Qed.
Lemma set_lastMillis_says v t s : set_lastMillis v (says t s) = says t (set_lastMillis v s).
Proof. reflexivity. Qed.

Lemma set_multiSemaforo_says v t s : set_multiSemaforo v (says t s) = says t (set_multiSemaforo v s).
Proof. reflexivity. Qed.
Lemma set_displayOff_says v t s : set_displayOff v (says t s) = says t (set_displayOff v s).
Proof. reflexivity. Qed.

#[global] Hint Rewrite set_Estado_says set_errorText_says set_NONETWORK_says
  set_VERIFY_says set_connected_says set_factorRiegosOK_says
  set_errorOFF_says set_descDomoticz_says set_simular_says set_Boton_says
  set_boton_says set_ultimoBoton_says set_factorRiegos_says
  set_lastRiegos_says set_minutes_says set_seconds_says set_value_says
  set_savedValue_says set_multirriego_says set_encoderSW_says set_flagV_says
  set_tiempoTerminado_says set_ledID_says set_multi_says set_config_says
  set_configure_says set_saveConfig_says set_webServerAct_says
  set_reposo_says set_standbyTime_says set_lastMillis_says
  set_multiSemaforo_says set_displayOff_says : mrun.

(** a loop whose body only talks to the world *)
Lemma forM_says {A} (l : list A) (body : A -> M unit) (ev : A -> list Event) :
  (forall x s, body x s = Some (tt, says (ev x) s)) ->
  forall s, forM l body s = Some (tt, says (concat (map ev l)) s).
Proof.
  intros Hb. induction l as [|x l IH]; intros s; simpl.
  - by rewrite says_nil.
  - rewrite (bind_Some _ _ _ _ _ (Hb x s)), IH, says_app. reflexivity.
Qed.

Definition beep (on_ms off_ms : Z) : list Event :=
  [EvLed BUZZER ON; EvDelay on_ms; EvLed BUZZER OFF; EvDelay off_ms].

(** what the buzzer functions send to the world *)
Definition bip_events (veces : Z) : list Event :=
  concat (map (fun _ => beep 50 50) (upto veces)).
Definition longbip_events (veces : Z) : list Event :=
  concat (map (fun _ => beep 750 100) (upto veces)).

Lemma bip_says veces s : bip veces s = Some (tt, says (bip_events veces) s).
Proof.
  unfold bip. apply forM_says. intros x s'.
  autorewrite with mrun. reflexivity.
Qed.

Lemma longbip_says veces s :
  longbip veces s = Some (tt, says (longbip_events veces) s).
Proof.
  unfold longbip. apply forM_says. intros x s'.
  autorewrite with mrun. reflexivity.
Qed.

Lemma bind_bip {B} veces (k : unit -> M B) s :
  bind (bip veces) k s = k tt (says (bip_events veces) s).
Proof. unfold bind. by rewrite bip_says. Qed.

Lemma bind_longbip {B} veces (k : unit -> M B) s :
  bind (longbip veces) k s = k tt (says (longbip_events veces) s).
Proof. unfold bind. by rewrite longbip_says. Qed.

#[global] Hint Rewrite @bind_bip @bind_longbip bip_says longbip_says : mrun.

(** reduce the projections of a state built with the setters *)
Ltac fields :=
  cbn [Estado errorText NONETWORK VERIFY connected factorRiegosOK errorOFF
       descDomoticz simular Boton boton ultimoBoton factorRiegos
       lastRiegos minutes seconds value savedValue multirriego encoderSW
       flagV tiempoTerminado ledID multi config configure saveConfig
       webServerAct reposo standbyTime lastMillis multiSemaforo displayOff
       trace set_Estado
       set_errorText set_NONETWORK set_VERIFY set_connected
       set_factorRiegosOK set_errorOFF set_descDomoticz set_simular
       set_Boton set_boton set_ultimoBoton set_factorRiegos set_lastRiegos
       set_minutes set_seconds set_value set_savedValue set_multirriego
       set_encoderSW set_flagV set_tiempoTerminado set_ledID set_multi
       set_config set_configure set_saveConfig set_webServerAct set_reposo
       set_standbyTime set_lastMillis set_multiSemaforo set_displayOff
       set_trace says].

(** ** The state and the fault phase *)

Lemma setEstado_eq e s :
  setEstado e s
  = Some (tt, set_errorText EmptyString (set_Estado (mkEstado e CERO) s)).
Proof. reflexivity. Qed.

Definition errorText_of (errorID : Z) : string :=
  if errorID =? E0 then "Err0"%string else String.append "Err" (dec errorID).

Definition statusError_events (errorID n : Z) : list Event :=
  EvDisplayPrint (errorText_of errorID) :: longbip_events n.

Lemma statusError_eq errorID n s :
  statusError errorID n s
  = Some (tt, says (statusError_events errorID n)
                (set_errorText (errorText_of errorID)
                   (set_Estado (mkEstado ERROR errorID) s))).
Proof.
  unfold statusError, statusError_events, errorText_of.
  autorewrite with mrun. simpl.
  destruct (errorID =? E0); autorewrite with mrun; reflexivity.
Qed.

Lemma errorText_of_nonempty errorID : errorText_of errorID <> EmptyString.
Proof. unfold errorText_of. destruct (errorID =? E0); discriminate. Qed.

(** C9.  Every call of setEstado leaves the state it was given, the fault
    phase CERO and an empty error text; statusError, called with a fault
    code other than CERO, leaves the state ERROR, a fault phase that is not
    CERO and an error text that is not empty. *)
Theorem state_entry_invariant :
  (forall e s, exists s',
      setEstado e s = Some (tt, s')
      /\ estado (Estado s') = e
      /\ fase (Estado s') = CERO
      /\ errorText s' = EmptyString)
  /\ (forall errorID n s, errorID <> CERO -> exists s',
        statusError errorID n s = Some (tt, s')
        /\ estado (Estado s') = ERROR
        /\ fase (Estado s') <> CERO
        /\ errorText s' <> EmptyString).
Proof.
  split.
  - intros e s. eexists. rewrite setEstado_eq. repeat split.
  - intros errorID n s Hne. eexists. rewrite statusError_eq.
    split; [reflexivity|]. simpl. repeat split.
    + exact Hne.
    + apply errorText_of_nonempty.
Qed.

(** ** Scaling a duration *)

Lemma timeByFactor_eq factor s :
  timeByFactor factor s
  = Some (let t := uint32 (uint32 (60 * minutes s + seconds s) * uint32 factor)
                   / 100 in
          (uint8 (t / 60), uint8 (t mod 60)), s).
Proof. reflexivity. Qed.

(** For a base duration in the range of its type and a factor that is not
    negative, as long as the scaled total
    (60*minutes + seconds) * factor / 100 stays below 256 minutes,
    timeByFactor returns the total divided by 60 and its remainder. *)
Lemma timeByFactor_scaled (factor : Z) (s : State) :
  0 <= minutes s < 256 -> 0 <= seconds s < 256 -> 0 <= factor ->
  (60 * minutes s + seconds s) * factor / 100 < 256 * 60 ->
  let total_seconds := (60 * minutes s + seconds s) * factor / 100 in
  timeByFactor factor s
  = Some ((total_seconds / 60, total_seconds mod 60), s).
Proof.
  intros Hm Hs Hf Hlt total. rewrite timeByFactor_eq. cbv zeta.
  set (b := 60 * minutes s + seconds s) in *.
  assert (Hb : 0 <= b < 15556) by (unfold b; lia).
  assert (Hub : uint32 b = b) by (unfold uint32; apply Z.mod_small; lia).
  rewrite Hub.
  assert (Hprod : uint32 (b * uint32 factor) = b * factor).
  { destruct (Z.eq_dec b 0) as [->|Hnz].
    - rewrite !Z.mul_0_l. reflexivity.
    - assert (b * factor < 100 * (256 * 60)).
      { pose proof (Z.div_mod (b * factor) 100 ltac:(lia)).
        pose proof (Z.mod_pos_bound (b * factor) 100 ltac:(lia)). lia. }
      assert (factor < 4294967296) by nia.
      unfold uint32. rewrite (Z.mod_small factor) by lia.
      apply Z.mod_small. nia. }
  rewrite Hprod. fold total.
  assert (Ht : 0 <= total < 256 * 60).
  { split; [apply Z.div_pos; nia | exact Hlt]. }
  assert (H60 : 0 <= total mod 60 < 256).
  { pose proof (Z.mod_pos_bound total 60). lia. }
  assert (Hq : 0 <= total / 60 < 256).
  { split; [apply Z.div_pos; lia | apply Z.div_lt_upper_bound; lia]. }
  unfold uint8. rewrite (Z.mod_small (total / 60)) by exact Hq.
  rewrite (Z.mod_small (total mod 60)) by exact H60. reflexivity.
Qed.

(** the scaled duration as it is specified: the total number of seconds,
    scaled and truncated, and its decomposition *)
Definition scaled_duration (m sec factor : Z) : Z * Z :=
  let total_seconds := (60 * m + sec) * factor / 100 in
  (total_seconds / 60, total_seconds mod 60).

(** C5.  timeByFactor does not return the scaled duration when the scaled
    minutes do not fit the uint8_t output: with the base duration 59:00 and
    the factor 500 the scaled duration is 295:00, and timeByFactor returns
    39:00, that is 295 modulo 256. *)
Theorem timeByFactor_wraps :
  let s := set_minutes 59 (set_seconds 0 boot) in
  scaled_duration (minutes s) (seconds s) 500 = (295, 0)
  /\ timeByFactor 500 s = Some ((39, 0), s)
  /\ 39 = 295 mod 256.
Proof. repeat split. Qed.

(** ** The actuator endpoint *)

(** whether strtol finds a number in [str] *)
Definition has_number (str : string) : bool :=
  match skip_spaces str with
  | String c r =>
      if Ascii.eqb c "-" || Ascii.eqb c "+" then
        match r with String d _ => isdigit d | EmptyString => false end
      else isdigit c
  | EmptyString => false
  end.

Lemma digits_no_digit r :
  match r with String d _ => isdigit d | EmptyString => false end = false ->
  digits r 0 = 0.
Proof. destruct r as [|d r]; simpl; [reflexivity|]. by intros ->. Qed.

Lemma strtol_no_number str : has_number str = false -> strtol str = 0.
Proof.
  unfold has_number, strtol. destruct (skip_spaces str) as [|c r]; [reflexivity|].
  destruct (Ascii.eqb c "-") eqn:Hm; simpl.
  - intros H. by rewrite (digits_no_digit _ H).
  - destruct (Ascii.eqb c "+") eqn:Hp; simpl.
    + intros H. by rewrite (digits_no_digit _ H).
    + intros H. by rewrite H.
Qed.

Lemma digit_not_space c : isdigit c = true -> isspace c = false.
Proof. destruct c as [[] [] [] [] [] [] [] []]; vm_compute; congruence. Qed.

Lemma digit_not_sign c :
  isdigit c = true -> Ascii.eqb c "-" || Ascii.eqb c "+" = false.
Proof. destruct c as [[] [] [] [] [] [] [] []]; vm_compute; congruence. Qed.

Lemma no_number_first c r : has_number (String c r) = false -> isdigit c = false.
Proof.
  destruct (isdigit c) eqn:Hd; [|reflexivity].
  unfold has_number. simpl. rewrite (digit_not_space _ Hd), (digit_not_sign _ Hd).
  congruence.
Qed.

Section NetworkSteps.

Variable W : World.

Lemma checkWifi_eq s :
  checkWifi W s
  = Some (WiFi_connected W (trace s),
          says [EvWiFiStatus;
                EvLed LEDG (if WiFi_connected W (trace s) then ON else OFF)]
            (set_connected (WiFi_connected W (trace s)) s)).
Proof.
  unfold checkWifi. autorewrite with mrun.
  destruct (WiFi_connected W (trace s)); autorewrite with mrun; reflexivity.
Qed.

Lemma bind_checkWifi {B} (k : bool -> M B) s :
  bind (checkWifi W) k s
  = k (WiFi_connected W (trace s))
      (says [EvWiFiStatus;
             EvLed LEDG (if WiFi_connected W (trace s) then ON else OFF)]
         (set_connected (WiFi_connected W (trace s)) s)).
Proof. unfold bind. by rewrite checkWifi_eq. Qed.

Lemma httpGetDomoticz_eq message s :
  httpGetDomoticz W message s
  = Some (response_of (http_GET W (trace s) (url_of (config s) message)),
          says [EvHttpGet (url_of (config s) message)] s).
Proof. reflexivity. Qed.

Lemma bind_httpGetDomoticz {B} message (k : string -> M B) s :
  bind (httpGetDomoticz W message) k s
  = k (response_of (http_GET W (trace s) (url_of (config s) message)))
      (says [EvHttpGet (url_of (config s) message)] s).
Proof. reflexivity. Qed.

Lemma bind_statusError {B} errorID n (k : unit -> M B) s :
  bind (statusError errorID n) k s
  = k tt (says (statusError_events errorID n)
            (set_errorText (errorText_of errorID)
               (set_Estado (mkEstado ERROR errorID) s))).
Proof. unfold bind. by rewrite statusError_eq. Qed.

Lemma bind_setEstado {B} e (k : unit -> M B) s :
  bind (setEstado e) k s
  = k tt (set_errorText EmptyString (set_Estado (mkEstado e CERO) s)).
Proof. reflexivity. Qed.

End NetworkSteps.

Ltac run :=
  autorewrite with mrun;
  rewrite ?bind_checkWifi, ?bind_httpGetDomoticz, ?bind_statusError,
    ?bind_setEstado, ?statusError_eq, ?setEstado_eq;
  autorewrite with mrun.

Section Network.

Variable W : World.

(** the answers of the world during a call of getFactor or queryStatus made
    in the state [s] *)
Definition wifi_up (s : State) : bool := WiFi_connected W (trace s).

Definition endpoint_answer (idx : Z) (s : State) : string :=
  response_of
    (http_GET W (trace s ++ [EvWiFiStatus; EvLed LEDG ON])
       (url_of (config s) (devices_message idx))).

(** the whole endpoint is unreachable: no WiFi, or the request fails or is
    answered with an error *)
Definition unreachable (idx : Z) (s : State) : Prop :=
  wifi_up s = false \/ startsWith (endpoint_answer idx s) "Err" = true.

(** the endpoint answers, but the factor cannot be read from the answer *)
Definition unreadable (idx : Z) (s : State) : Prop :=
  wifi_up s = true /\ startsWith (endpoint_answer idx s) "Err" = false
  /\ match deserializeJson W (endpoint_answer idx s) with
     | None => True
     | Some jsondoc =>
         match j_Description jsondoc with
         | None => True
         | Some factorstr => has_number factorstr = false
         end
     end.

(** the endpoint answers with a description that reads [v] *)
Definition reads (idx : Z) (s : State) (v : Z) : Prop :=
  wifi_up s = true /\ startsWith (endpoint_answer idx s) "Err" = false
  /\ exists jsondoc factorstr,
       deserializeJson W (endpoint_answer idx s) = Some jsondoc
       /\ j_Description jsondoc = Some factorstr
       /\ strtol factorstr = v.



(** C4, as the code has it.  For an actuator identifier other than 0,
    getFactor returns the neutral value 100 whenever the factor cannot be
    read from the answer of the endpoint; when the endpoint is unreachable
    and the system is not offline it raises a fault (phase E1, E2 or E3) and
    returns 100, whatever the verification setting; when the endpoint is
    unreachable and the system is offline it returns the sentinel 999 and
    raises no fault; and it returns 999 in no other case, unless the
    description of the device itself reads 999. *)
Theorem getFactor_contract (idx : Z) (s : State) :
  idx <> 0 ->
  (* a parse or lookup failure gives the neutral value *)
  (unreadable idx s -> exists s', getFactor W idx s = Some (100, s'))
  (* unreachable while not offline: a fatal fault and the neutral value,
     whatever VERIFY says *)
  /\ (unreachable idx s -> NONETWORK s = false -> exists s',
        getFactor W idx s = Some (100, s')
        /\ estado (Estado s') = ERROR
        /\ (fase (Estado s') = E1 \/ fase (Estado s') = E2
            \/ fase (Estado s') = E3))
  (* unreachable while offline: the sentinel and no fault *)
  /\ (unreachable idx s -> NONETWORK s = true -> exists s',
        getFactor W idx s = Some (999, s')
        /\ ((Estado s' = Estado s /\ errorText s' = errorText s)
            \/ (Estado s' = mkEstado STANDBY CERO
                /\ errorText s' = EmptyString)))
  (* the sentinel comes from nowhere else, unless the description of the
     device itself reads 999 *)
  /\ (forall s', getFactor W idx s = Some (999, s') ->
        (unreachable idx s /\ NONETWORK s = true) \/ reads idx s 999).
Proof.
  intros Hidx.
  unfold unreachable, unreadable, reads, wifi_up, endpoint_answer.
  unfold getFactor. rewrite (proj2 (Z.eqb_neq _ _) Hidx).
  run. simpl.
  destruct (WiFi_connected W (trace s)) eqn:Hup; simpl.
  - run. simpl.
    set (ans := response_of _).
    destruct (startsWith ans "Err") eqn:Herr.
    + run. simpl. destruct (NONETWORK s) eqn:Hn.
      * run. simpl. repeat split.
        -- intros (_ & H & _). discriminate.
        -- intros _ H. discriminate.
        -- intros _ _. eexists. split; [reflexivity|]. right. split; reflexivity.
        -- intros s' _. left. split; [by right | reflexivity].
      * repeat split.
        -- intros (_ & H & _). discriminate.
        -- intros _ _. destruct (String.eqb ans "ErrX"); run; simpl;
             eexists; (split; [reflexivity|]); simpl; split; auto.
        -- intros _ H. discriminate.
        -- intros s'. destruct (String.eqb ans "ErrX"); run; simpl; intros H;
             discriminate.
    + destruct (deserializeJson W ans) as [jsondoc|] eqn:Hjson.
      * destruct (j_Description jsondoc) as [factorstr|] eqn:Hdesc.
        -- run. simpl. repeat split.
           ++ intros (_ & _ & Hno). rewrite (strtol_no_number _ Hno). simpl.
              destruct factorstr as [|c r]; run; [eauto|].
              rewrite (no_number_first _ _ Hno). simpl. run. eauto.
           ++ intros [H|H]; discriminate.
           ++ intros [H|H]; discriminate.
           ++ intros s' H. right. repeat split. exists jsondoc, factorstr.
              repeat split; try assumption.
              destruct (strtol factorstr =? 0) eqn:Hz.
              ** destruct factorstr as [|c r]; [discriminate|].
                 destruct (isdigit c); simpl in H; [|discriminate].
                 apply Z.eqb_eq in Hz. rewrite Hz in H. discriminate.
              ** inversion H. reflexivity.
        -- run. simpl. repeat split.
           ++ intros _. destruct (VERIFY s); simpl; run; eauto.
           ++ intros [H|H]; discriminate.
           ++ intros [H|H]; discriminate.
           ++ intros s'. destruct (VERIFY s); simpl; run; discriminate.
      * run. simpl. repeat split.
        -- intros _. destruct (VERIFY s); simpl; run; eauto.
        -- intros [H|H]; discriminate.
        -- intros [H|H]; discriminate.
        -- intros s'. destruct (VERIFY s); simpl; run; discriminate.
  - run. simpl. destruct (NONETWORK s) eqn:Hn.
    + run. repeat split.
      * intros (H & _). discriminate.
      * intros _ H. discriminate.
      * intros _ _. eexists. split; [reflexivity|]. left. split; reflexivity.
      * intros s' _. left. split; [by left | reflexivity].
    + run. simpl. repeat split.
      * intros (H & _). discriminate.
      * intros _ _. eexists. split; [reflexivity|]. simpl. split; auto.
      * intros _ H. discriminate.
      * intros s' H. discriminate.
Qed.
End Network.

(** ** The actuator command *)

Fixpoint count (p : Event -> bool) (t : list Event) : nat :=
  match t with
  | [] => 0
  | e :: r => ((if p e then 1 else 0) + count p r)%nat
  end.

Lemma count_app p t1 t2 : count p (t1 ++ t2) = (count p t1 + count p t2)%nat.
Proof. induction t1 as [|e t1 IH]; simpl; [reflexivity | rewrite IH; lia]. Qed.

Definition is_http (e : Event) : bool :=
  match e with EvHttpGet _ => true | _ => false end.

Definition is_retry_delay (e : Event) : bool :=
  match e with EvDelay ms => ms =? DELAYRETRY | _ => false end.

(** the requests sent to the endpoint, and the waits between attempts *)
Definition attempts (t : list Event) : nat := count is_http t.
Definition retry_delays (t : list Event) : nat := count is_retry_delay t.

(** a simulated-fault flag forces the command [msg] to fail *)
Definition simulated (msg : string) (s : State) : bool :=
  (ErrorON (simular s) && String.eqb msg "On")
  || (ErrorOFF (simular s) && String.eqb msg "Off").

Lemma bip1_no_http : count is_http (bip_events 1) = 0%nat.
Proof. reflexivity. Qed.

Lemma bip1_no_retry_delay : count is_retry_delay (bip_events 1) = 0%nat.
Proof. reflexivity. Qed.

Ltac counts :=
  unfold attempts, retry_delays in *; rewrite ?count_app;
  rewrite ?bip1_no_http, ?bip1_no_retry_delay; simpl count; simpl;
  intros; try lia; try discriminate; auto.

Section Switch.

Variable W : World.

Lemma switch_loop_spec message msg n : forall response s,
  exists r t,
    switch_loop W n message msg response s = Some (r, says t s)
    /\ (attempts t <= n)%nat
    /\ (retry_delays t <= n)%nat
    /\ (attempts t <= retry_delays t + 1)%nat
    /\ (NONETWORK s = true -> attempts t = 0%nat)
    /\ (simulated msg s = false -> NONETWORK s = true -> r = response)
    /\ (simulated msg s = true -> attempts t = 0%nat).
Proof.
  induction n as [|n IH]; intros response s.
  - exists response, []. simpl. rewrite says_nil. repeat split; auto.
  - cbn [switch_loop]. run. fold (simulated msg s).
    destruct (simulated msg s) eqn:Hsim.
    + run. simpl. run.
      destruct (IH "ErrX"%string (says (bip_events 1 ++ [EvDelay DELAYRETRY]) s))
        as (r & t & Hrun & Ha & Hd & Had & Hoff & Hkeep & Hs).
      rewrite Hrun, says_app. eexists _, _. split; [reflexivity|].
      simpl in Hs. specialize (Hs Hsim).
      repeat split; counts.
    + destruct (NONETWORK s) eqn:Hn; simpl.
      * run. destruct (String.eqb response "ErrX") eqn:He.
        -- run.
           destruct (IH response (says (bip_events 1 ++ [EvDelay DELAYRETRY]) s))
             as (r & t & Hrun & Ha & Hd & Had & Hoff & Hkeep & Hs).
           rewrite Hrun, says_app. eexists _, _. split; [reflexivity|].
           simpl in Hoff, Hkeep. specialize (Hoff Hn). specialize (Hkeep Hsim Hn).
           repeat split; counts.
        -- run. exists response, []. rewrite says_nil.
           repeat split; counts.
      * run. simpl.
        set (ans := response_of _).
        destruct (String.eqb ans "ErrX") eqn:He.
        -- run.
           destruct (IH ans (says (EvHttpGet (url_of (config s) message)
                                   :: bip_events 1 ++ [EvDelay DELAYRETRY]) s))
             as (r & t & Hrun & Ha & Hd & Had & Hoff & Hkeep & Hs).
           simpl. simpl in Hrun. rewrite Hrun, says_app.
           eexists _, _. split; [reflexivity|].
           repeat split; counts.
        -- run. eexists _, _. split; [reflexivity|].
           repeat split; counts.
Qed.

Lemma statusError_no_http errorID n :
  count is_http (statusError_events errorID n) = 0%nat.
Proof.
  unfold statusError_events, longbip_events. simpl.
  induction (upto n) as [|x l IH]; simpl; auto.
Qed.

Lemma statusError_no_retry_delay errorID n :
  count is_retry_delay (statusError_events errorID n) = 0%nat.
Proof.
  unfold statusError_events, longbip_events. simpl.
  induction (upto n) as [|x l IH]; simpl; auto.
Qed.

(** what checkWifi sends to the world *)
Definition wifi_events (s : State) : list Event :=
  [EvWiFiStatus; EvLed LEDG (if wifi_up W s then ON else OFF)].

(** the address of the command *)
Definition switch_url (idx : Z) (msg : string) (s : State) : string :=
  url_of (config s) (switch_message idx msg).

(** one turn of the retry loop that is answered ErrX: the request [req]
    (none when the answer is simulated), the beep and the wait *)
Definition failed_round (req : list Event) : list Event :=
  req ++ bip_events 1 ++ [EvDelay DELAYRETRY].

Definition failed_rounds (req : list Event) (j : nat) : list Event :=
  concat (replicate j (failed_round req)).

(** the answer to the request number [j] (from 0) of a command, the
    requests before it having been answered ErrX *)
Definition switch_answer (idx : Z) (msg : string) (s : State) (j : nat)
  : string :=
  response_of
    (http_GET W
       (trace s ++ wifi_events s
        ++ failed_rounds [EvHttpGet (switch_url idx msg s)] j)
       (switch_url idx msg s)).

(** how many of the first [n] answers are ErrX before the first that is
    not *)
Fixpoint errx_run (ans : nat -> string) (n : nat) : nat :=
  match n with
  | O => O
  | S n' => if String.eqb (ans O) "ErrX"
            then S (errx_run (fun j => ans (S j)) n')
            else O
  end.

Lemma errx_run_ext ans ans' n :
  (forall j, ans j = ans' j) -> errx_run ans n = errx_run ans' n.
Proof.
  revert ans ans'. induction n as [|n IH]; intros ans ans' H; [reflexivity|].
  simpl. rewrite (H O). destruct (String.eqb (ans' O) "ErrX"); [|reflexivity].
  f_equal. apply IH. intros j. apply H.
Qed.

Lemma errx_run_le ans n : (errx_run ans n <= n)%nat.
Proof.
  revert ans. induction n as [|n IH]; intros ans; simpl; [lia|].
  destruct (String.eqb (ans O) "ErrX"); [specialize (IH (fun j => ans (S j)))|];
    lia.
Qed.

(** the last answer the loop of [n] turns sees, when [k] answers ErrX come
    first: the first other answer, or ErrX when there is none (the empty
    text when the loop does not run) *)
Definition last_answer (ans : nat -> string) (n k : nat) : string :=
  if (k <? n)%nat then ans k
  else if (n =? 0)%nat then EmptyString else "ErrX"%string.

Lemma failed_rounds_S req j :
  failed_rounds req (S j) = failed_round req ++ failed_rounds req j.
Proof. reflexivity. Qed.

Lemma failed_rounds_attempts url j :
  attempts (failed_rounds [EvHttpGet url] j) = j.
Proof.
  induction j as [|j IH]; [reflexivity|].
  rewrite failed_rounds_S. unfold attempts in *. rewrite count_app, IH.
  reflexivity.
Qed.

Lemma failed_rounds_delays req j :
  count is_retry_delay req = 0%nat ->
  retry_delays (failed_rounds req j) = j.
Proof.
  intros Hreq. induction j as [|j IH]; [reflexivity|].
  rewrite failed_rounds_S. unfold retry_delays, failed_round in *.
  rewrite !count_app, IH, Hreq, bip1_no_retry_delay. reflexivity.
Qed.

Lemma failed_rounds_no_http j : attempts (failed_rounds [] j) = 0%nat.
Proof.
  induction j as [|j IH]; [reflexivity|].
  rewrite failed_rounds_S. unfold attempts, failed_round in *.
  rewrite !count_app, IH, bip1_no_http. reflexivity.
Qed.

(** the retry loop while a request is really sent *)
Lemma switch_loop_online message msg n : forall resp s,
  simulated msg s = false -> NONETWORK s = false ->
  let url := url_of (config s) message in
  let ans := fun j =>
    response_of (http_GET W (trace s ++ failed_rounds [EvHttpGet url] j) url) in
  let k := errx_run ans n in
  switch_loop W n message msg resp s
  = Some (if (k <? n)%nat then ans k
          else if (n =? 0)%nat then resp else "ErrX"%string,
          says (failed_rounds [EvHttpGet url] k
                ++ if (k <? n)%nat then [EvHttpGet url] else []) s).
Proof.
  induction n as [|n IH]; intros resp s Hsim Hn url ans k.
  - simpl. by rewrite says_nil.
  - cbn [switch_loop]. run. fold (simulated msg s). rewrite Hsim, Hn.
    cbn [negb]. run. fold url.
    assert (Ha0 : ans O = response_of (http_GET W (trace s) url)).
    { unfold ans. simpl. by rewrite app_nil_r. }
    rewrite <- Ha0. subst k. cbn [errx_run].
    destruct (String.eqb (ans O) "ErrX") eqn:Hx.
    + run. apply String.eqb_eq in Hx.
      set (s1 := says (([EvHttpGet url] ++ bip_events 1) ++ [EvDelay DELAYRETRY]) s).
      assert (Hsim1 : simulated msg s1 = false) by exact Hsim.
      assert (Hn1 : NONETWORK s1 = false) by exact Hn.
      pose proof (IH (ans O) s1 Hsim1 Hn1) as IH'. cbv zeta in IH'.
      change (config s1) with (config s) in IH'. fold url in IH'.
      assert (Hext : forall j,
        response_of
          (http_GET W (trace s1 ++ failed_rounds [EvHttpGet url] j) url)
        = ans (S j)).
      { intros j. unfold ans, s1. rewrite failed_rounds_S. unfold failed_round.
        change (trace (says ?t s)) with (trace s ++ t).
        by rewrite <- !app_assoc. }
      rewrite (errx_run_ext _ _ n Hext) in IH'.
      set (k' := errx_run (fun j => ans (S j)) n) in *.
      rewrite Hext in IH'. rewrite IH'. unfold s1. rewrite says_app.
      change (S k' <? S n)%nat with (k' <? n)%nat.
      rewrite failed_rounds_S. unfold failed_round.
      destruct (k' <? n)%nat eqn:Hk.
      * by rewrite <- !app_assoc.
      * rewrite Hx. destruct n as [|n']; by rewrite <- ?app_assoc.
    + run. simpl. reflexivity.
Qed.

(** the retry loop while the answer is simulated: no request, and every
    turn fails *)
Lemma switch_loop_simulated message msg n : forall resp s,
  simulated msg s = true ->
  switch_loop W n message msg resp s
  = Some (if (n =? 0)%nat then resp else "ErrX"%string,
          says (failed_rounds [] n) s).
Proof.
  induction n as [|n IH]; intros resp s Hsim.
  - simpl. by rewrite says_nil.
  - cbn [switch_loop]. run. fold (simulated msg s). rewrite Hsim. run.
    change (("ErrX" =? "ErrX")%string) with true. cbv iota. run.
    set (s1 := says (bip_events 1 ++ [EvDelay DELAYRETRY]) s).
    assert (Hsim1 : simulated msg s1 = true) by exact Hsim.
    rewrite (IH "ErrX"%string s1 Hsim1). unfold s1. rewrite says_app.
    rewrite failed_rounds_S. unfold failed_round. simpl app at 3.
    destruct n; reflexivity.
Qed.

(** the retry loop while no request may be sent: nothing happens *)
Lemma switch_loop_offline message msg n s :
  simulated msg s = false -> NONETWORK s = true ->
  switch_loop W n message msg EmptyString s = Some (EmptyString, s).
Proof.
  intros Hsim Hn. destruct n as [|n]; [reflexivity|].
  cbn [switch_loop]. run. fold (simulated msg s). rewrite Hsim, Hn.
  reflexivity.
Qed.

(** the fault a failed command raises, with the number of long beeps: E4
    (On) or E5 (Off) when the last answer is ErrX, E2 for any other error *)
Definition switch_fault (msg last : string) : Z * Z :=
  if String.eqb last "ErrX"
  then if String.eqb msg "On" then (E4, 3) else (E5, 5)
  else (E2, 3).

(** a command fails, and the failure is reported, when its last answer
    starts with Err; the report is left out while errorOFF is set *)
Definition switch_reported (last : string) (s : State) : bool :=
  startsWith last "Err" && negb (errorOFF s).

Definition switch_report (msg last : string) (s : State) : list Event :=
  if switch_reported last s
  then statusError_events (fst (switch_fault msg last))
         (snd (switch_fault msg last))
  else [].

Definition switch_estado (msg last : string) (s : State) : S_Estado :=
  if switch_reported last s
  then mkEstado ERROR (fst (switch_fault msg last))
  else Estado s.

(** the end of domoticzSwitch, after the loop *)
Lemma switch_end msg last s :
  (if startsWith last "Err" then
     eoff <- gets errorOFF ;;
     when (negb eoff)
       (if String.eqb last "ErrX" then
          if String.eqb msg "On" then statusError E4 3
          else statusError E5 5
        else statusError E2 3) ;;
     ret false
   else ret true) s
  = Some (negb (startsWith last "Err"),
          if switch_reported last s
          then says (switch_report msg last s)
                 (set_errorText (errorText_of (fst (switch_fault msg last)))
                    (set_Estado (mkEstado ERROR (fst (switch_fault msg last)))
                       s))
          else s).
Proof.
  unfold switch_report, switch_reported, switch_fault.
  destruct (startsWith last "Err"); [|reflexivity].
  run. destruct (errorOFF s); [reflexivity|]. cbn [negb andb when].
  destruct (String.eqb last "ErrX"); [destruct (String.eqb msg "On")|];
    run; reflexivity.
Qed.

Lemma switch_end_facts msg last s0 :
  let s' := if switch_reported last s0
            then says (switch_report msg last s0)
                   (set_errorText (errorText_of (fst (switch_fault msg last)))
                      (set_Estado (mkEstado ERROR (fst (switch_fault msg last)))
                         s0))
            else s0 in
  trace s' = trace s0 ++ switch_report msg last s0
  /\ Estado s' = switch_estado msg last s0.
Proof.
  unfold switch_estado, switch_report.
  destruct (switch_reported last s0); simpl; [by split|].
  by rewrite app_nil_r.
Qed.

(** the loop and the end of domoticzSwitch, once the loop is known *)
Lemma switch_tail msg n message last rounds s0 :
  switch_loop W n message msg EmptyString s0 = Some (last, says rounds s0) ->
  exists s',
    (response <- switch_loop W n message msg EmptyString ;;
     if startsWith response "Err" then
       eoff <- gets errorOFF ;;
       when (negb eoff)
         (if String.eqb response "ErrX" then
            if String.eqb msg "On" then statusError E4 3
            else statusError E5 5
          else statusError E2 3) ;;
       ret false
     else ret true) s0
    = Some (negb (startsWith last "Err"), s')
    /\ trace s' = trace s0 ++ rounds ++ switch_report msg last s0
    /\ Estado s' = switch_estado msg last s0.
Proof.
  intros Hloop. rewrite (bind_Some _ _ _ _ _ Hloop), switch_end.
  eexists. split; [reflexivity|].
  destruct (switch_end_facts msg last (says rounds s0)) as [Ht He].
  cbv zeta in Ht, He. rewrite Ht, He. split; [|reflexivity].
  change (trace (says rounds s0)) with (trace s0 ++ rounds).
  by rewrite <- app_assoc.
Qed.

(** C7, as the code has it.  domoticzSwitch always returns.  With the
    identifier 0 it returns true and does nothing.  Otherwise it asks for
    the WiFi first; without WiFi and not offline it raises the fault E1 and
    returns false, with no request.  Offline (NONETWORK) with no simulated
    fault it sends no request and returns true.  With a simulated fault for
    the command it sends no request either: each of the [retries] turns of
    the loop beeps and waits DELAYRETRY, and the command fails when there is
    at least one turn.  Online, requests are sent one after another: each
    answer ErrX is followed by a beep and a wait of DELAYRETRY, and by the
    next request while fewer than [retries] have been sent; the first other
    answer ends the loop with no wait, so a request that fails (Err2) is not
    sent again.  The command returns false exactly when the last answer
    starts with Err, and then, unless errorOFF is set, the state becomes
    ERROR with the fault E4 (On) or E5 (Off) for ErrX and E2 otherwise. *)
Theorem domoticzSwitch_contract (idx : Z) (msg : string) (retries : Z)
    (s : State) :
  let n := Z.to_nat retries in
  let url := switch_url idx msg s in
  let ans := switch_answer idx msg s in
  let k := errx_run ans n in
  exists r s',
    domoticzSwitch W idx msg retries s = Some (r, s')
    /\ (idx = 0 -> r = true /\ s' = s)
    /\ (idx <> 0 -> wifi_up W s = false -> NONETWORK s = false ->
          r = false
          /\ trace s' = trace s ++ wifi_events s ++ statusError_events E1 3
          /\ Estado s' = mkEstado ERROR E1)
    /\ (idx <> 0 -> simulated msg s = false -> NONETWORK s = true ->
          r = true
          /\ trace s' = trace s ++ wifi_events s
          /\ Estado s' = Estado s)
    /\ (idx <> 0 -> simulated msg s = true ->
        wifi_up W s = true \/ NONETWORK s = true ->
          let last := if (n =? 0)%nat then EmptyString else "ErrX"%string in
          r = (n =? 0)%nat
          /\ trace s'
             = trace s ++ wifi_events s ++ failed_rounds [] n
               ++ switch_report msg last s
          /\ Estado s' = switch_estado msg last s)
    /\ (idx <> 0 -> simulated msg s = false -> NONETWORK s = false ->
        wifi_up W s = true ->
          let last := last_answer ans n k in
          r = negb (startsWith last "Err")
          /\ trace s'
             = trace s ++ wifi_events s ++ failed_rounds [EvHttpGet url] k
               ++ (if (k <? n)%nat then [EvHttpGet url] else [])
               ++ switch_report msg last s
          /\ Estado s' = switch_estado msg last s
          /\ (k <= n)%nat).
Proof.
  intros n url ans k. unfold domoticzSwitch.
  destruct (idx =? 0) eqn:Hidx.
  { apply Z.eqb_eq in Hidx. exists true, s. split; [reflexivity|].
    repeat split; intros; congruence. }
  apply Z.eqb_neq in Hidx. run. fold (wifi_up W s). fold (wifi_events s).
  set (s0 := says (wifi_events s) (set_connected (wifi_up W s) s)).
  change (NONETWORK s0) with (NONETWORK s).
  destruct (wifi_up W s) eqn:Hup; destruct (NONETWORK s) eqn:Hn;
    cbn [negb andb].
  - (* WiFi, offline *)
    destruct (simulated msg s) eqn:Hsim.
    + destruct (switch_tail msg n (switch_message idx msg) _ _ s0
                  (switch_loop_simulated _ msg n EmptyString s0 Hsim))
        as (s' & Hrun & Ht & He).
      exists (negb (startsWith (if (n =? 0)%nat then EmptyString
                                else "ErrX"%string) "Err")), s'.
      split; [exact Hrun|]. rewrite Ht, He.
      repeat split; try congruence; try (by destruct n).
      symmetry. apply app_assoc.
    + destruct (switch_tail msg n (switch_message idx msg) EmptyString [] s0)
        as (s' & Hrun & Ht & He).
      { rewrite says_nil. by apply switch_loop_offline. }
      exists true, s'. split; [exact Hrun|]. rewrite Ht, He.
      repeat split; try congruence. simpl. by rewrite !app_nil_r.
  - (* WiFi, online *)
    destruct (simulated msg s) eqn:Hsim.
    + destruct (switch_tail msg n (switch_message idx msg) _ _ s0
                  (switch_loop_simulated _ msg n EmptyString s0 Hsim))
        as (s' & Hrun & Ht & He).
      exists (negb (startsWith (if (n =? 0)%nat then EmptyString
                                else "ErrX"%string) "Err")), s'.
      split; [exact Hrun|]. rewrite Ht, He.
      repeat split; try congruence; try (by destruct n).
      symmetry. apply app_assoc.
    + pose proof (switch_loop_online (switch_message idx msg) msg n
                    EmptyString s0 Hsim Hn) as Hloop.
      cbv zeta in Hloop.
      change (config s0) with (config s) in Hloop.
      change (url_of (config s) (switch_message idx msg)) with url in Hloop.
      assert (Hext : forall j,
        response_of (http_GET W (trace s0 ++ failed_rounds [EvHttpGet url] j) url)
        = ans j).
      { intros j. unfold ans, switch_answer. fold url.
        change (trace s0) with (trace s ++ wifi_events s).
        by rewrite <- app_assoc. }
      rewrite (errx_run_ext _ _ n Hext) in Hloop. fold k in Hloop.
      rewrite Hext in Hloop.
      change (if (k <? n)%nat then ans k
              else if (n =? 0)%nat then EmptyString else "ErrX"%string)
        with (last_answer ans n k) in Hloop.
      destruct (switch_tail msg n (switch_message idx msg) _ _ s0 Hloop)
        as (s' & Hrun & Ht & He).
      exists (negb (startsWith (last_answer ans n k) "Err")), s'.
      split; [exact Hrun|]. rewrite Ht, He.
      repeat split; try congruence; try apply errx_run_le.
      change (trace s0) with (trace s ++ wifi_events s).
      by rewrite <- !app_assoc.
  - (* no WiFi, offline *)
    destruct (simulated msg s) eqn:Hsim.
    + destruct (switch_tail msg n (switch_message idx msg) _ _ s0
                  (switch_loop_simulated _ msg n EmptyString s0 Hsim))
        as (s' & Hrun & Ht & He).
      exists (negb (startsWith (if (n =? 0)%nat then EmptyString
                                else "ErrX"%string) "Err")), s'.
      split; [exact Hrun|]. rewrite Ht, He.
      repeat split; try congruence; try (by destruct n).
      symmetry. apply app_assoc.
    + destruct (switch_tail msg n (switch_message idx msg) EmptyString [] s0)
        as (s' & Hrun & Ht & He).
      { rewrite says_nil. by apply switch_loop_offline. }
      exists true, s'. split; [exact Hrun|]. rewrite Ht, He.
      repeat split; try congruence. simpl. by rewrite !app_nil_r.
  - (* no WiFi, not offline *)
    run. eexists _, _. split; [reflexivity|].
    repeat split; try congruence;
      try (match goal with H : _ \/ _ |- _ => destruct H; discriminate end).
    symmetry. apply app_assoc.
Qed.

End Switch.

(** ** Periodic verification *)

Lemma rd_eq {A} (l : list A) (i : nat) (x : A) s :
  l !! i = Some x -> rd l (Z.of_nat i) s = Some (x, s).
Proof.
  intros H. unfold rd.
  destruct (Z.of_nat i <? 0) eqn:Hneg; [apply Z.ltb_lt in Hneg; lia|].
  by rewrite Nat2Z.id, H.
Qed.

Lemma deref_eq i b s : Boton s !! i = Some b -> deref (Some i) s = Some (b, s).
Proof. intros H. unfold deref. run. by apply rd_eq. Qed.

Lemma bind_deref {B} i b (k : S_BOTON -> M B) s :
  Boton s !! i = Some b -> bind (deref (Some i)) k s = k b s.
Proof. intros H. unfold bind. by rewrite (deref_eq _ _ _ H). Qed.

Arguments deref : simpl never.
Arguments rd : simpl never.
Arguments wr : simpl never.
Arguments queryStatus : simpl never.
Arguments statusError : simpl never.
Arguments setEstado : simpl never.
Arguments bip : simpl never.
Arguments longbip : simpl never.

(** run the program text as far as the state allows *)
Ltac runs := repeat (progress (run; rewrite <- ?app_assoc; simpl)).

Section Verification.

Variable W : World.

(** the endpoint is reached and reports the state [actual] of the
    actuator *)
Definition reports (idx : Z) (s : State) (actual : string) : Prop :=
  wifi_up W s = true
  /\ startsWith (endpoint_answer W idx s) "Err" = false
  /\ exists jsondoc,
       deserializeJson W (endpoint_answer W idx s) = Some jsondoc
       /\ j_Status jsondoc = Some actual.

(** the endpoint is reached, but its answer has no state of the actuator
    that can be read *)
Definition no_status (idx : Z) (s : State) : Prop :=
  wifi_up W s = true
  /\ startsWith (endpoint_answer W idx s) "Err" = false
  /\ match deserializeJson W (endpoint_answer W idx s) with
     | None => True
     | Some jsondoc => j_Status jsondoc = None
     end.

(** the query of the actuator state fails with the phase [f]: while the
    system is not offline, there is no WiFi (E1) or the request fails (E2)
    or is answered with an error (E3); or, offline or not, the answer has
    no state that can be read (E2) *)
Definition query_fails (idx : Z) (s : State) (f : Z) : Prop :=
  (NONETWORK s = false /\ wifi_up W s = false /\ f = E1)
  \/ (NONETWORK s = false /\ wifi_up W s = true
      /\ startsWith (endpoint_answer W idx s) "Err" = true
      /\ f = if String.eqb (endpoint_answer W idx s) "ErrX" then E3 else E2)
  \/ (no_status idx s /\ f = E2).

(** the query finds the actuator in a state other than the expected one,
    [status]: the endpoint reports a state and, with no simulated fault of
    the verification, that state differs from [status] while the system is
    not offline; the simulated faults ErrorVerifyON and ErrorVerifyOFF
    replace the comparison: each makes the query for its own state find a
    mismatch, and no other *)
Definition mismatch (idx : Z) (status : string) (s : State) : Prop :=
  exists actual, reports idx s actual
  /\ if ErrorVerifyON (simular s) then status = "On"%string
     else if ErrorVerifyOFF (simular s) then status = "Off"%string
     else actual <> status /\ NONETWORK s = false.

Lemma mismatch_not_fails idx status s f :
  mismatch idx status s -> query_fails idx s f -> False.
Proof.
  intros (actual & (Hup & Herr & j & Hj & Hst) & _)
         [(_ & Hd & _) | [(_ & _ & He & _) | ((_ & _ & Hn) & _)]];
    try congruence.
  rewrite Hj in Hn. congruence.
Qed.

Lemma query_fails_phase idx s f : query_fails idx s f -> (f =? CERO) = false.
Proof.
  intros [(_ & _ & ->) | [(_ & _ & _ & ->) | (_ & ->)]]; try reflexivity.
  destruct (String.eqb _ _); reflexivity.
Qed.

Lemma query_fails_unique idx s f f' :
  query_fails idx s f -> query_fails idx s f' -> f' = f.
Proof.
  intros [(_ & H1 & ->) | [(_ & H1 & H2 & ->) | ((H1 & H2 & H3) & ->)]]
         [(_ & G1 & ->) | [(_ & G1 & G2 & ->) | ((G1 & G2 & G3) & ->)]];
    congruence.
Qed.

(** what one query leaves: only the trace, [connected] and the fault phase
    can differ *)
Definition queried (s s1 : State) (f : Z) : Prop :=
  Boton s1 = Boton s /\ Estado s1 = mkEstado (estado (Estado s)) f.

(** the three outcomes of queryStatus *)
Lemma queryStatus_cases idx status s :
  exists r s1,
    queryStatus W idx status s = Some (r, s1)
    /\ ((r = true /\ queried s s1 (fase (Estado s))
         /\ ~ mismatch idx status s /\ forall f, ~ query_fails idx s f)
        \/ (r = false /\ queried s s1 (fase (Estado s))
            /\ mismatch idx status s)
        \/ (exists f, r = false /\ queried s s1 f /\ query_fails idx s f)).
Proof.
  assert (Hsame : forall e : S_Estado, e = mkEstado (estado e) (fase e))
    by (by intros []).
  unfold queryStatus. run. fold (wifi_up W s).
  destruct (wifi_up W s) eqn:Hup; cbn [negb]; run; fields.
  2:{ destruct (NONETWORK s) eqn:Hn; run.
      - eexists _, _. split; [reflexivity|]. left.
        split; [reflexivity|]. split; [split; [reflexivity | apply Hsame]|].
        split.
        + intros (a & (Hu & _) & _). congruence.
        + intros f [(G & _) | [(G & _) | ((G & _) & _)]]; congruence.
      - eexists _, _. split; [reflexivity|]. right. right. exists E1.
        split; [reflexivity|]. split; [split; reflexivity|].
        left. auto. }
  fold (endpoint_answer W idx s).
  remember (endpoint_answer W idx s) as ans eqn:Hans.
  destruct (startsWith ans "Err") eqn:Herr; run; fields.
  { destruct (NONETWORK s) eqn:Hn; run.
    - eexists _, _. split; [reflexivity|]. left.
      split; [reflexivity|]. split; [split; [reflexivity | apply Hsame]|].
      split.
      + intros (a & (_ & He & _) & _). congruence.
      + intros f [(G & _) | [(G & _) | ((_ & G & _) & _)]]; congruence.
    - destruct (String.eqb ans "ErrX") eqn:Hx; run;
        eexists _, _; (split; [reflexivity|]); right; right;
        [exists E3 | exists E2]; (split; [reflexivity|]);
        (split; [split; reflexivity|]); right; left; rewrite <- Hans, Hx; auto. }
  destruct (deserializeJson W ans) as [j|] eqn:Hj.
  2:{ run. eexists _, _. split; [reflexivity|]. right. right. exists E2.
      split; [reflexivity|]. split; [split; reflexivity|].
      right. right. split; [|reflexivity]. unfold no_status. rewrite <- Hans, Hj. auto. }
  destruct (j_Status j) as [actual|] eqn:Hst.
  2:{ run. eexists _, _. split; [reflexivity|]. right. right. exists E2.
      split; [reflexivity|]. split; [split; reflexivity|].
      right. right. split; [|reflexivity]. unfold no_status. rewrite <- Hans, Hj. auto. }
  assert (Hrep : reports idx s actual).
  { unfold reports. rewrite <- Hans, Hj. eauto 6. }
  assert (Hnf : forall f, ~ query_fails idx s f).
  { intros f [(_ & G & _) | [(_ & _ & G & _) | ((_ & _ & G) & _)]];
      try congruence. rewrite <- Hans, Hj in G. congruence. }
  assert (Hact : forall a, reports idx s a -> a = actual).
  { intros a (_ & _ & j' & Hj' & Hs'). congruence. }
  run. fields.
  destruct (ErrorVerifyON (simular s)) eqn:Hon.
  { run. destruct (String.eqb status "On") eqn:Hs; cbn [negb];
      eexists _, _; (split; [reflexivity|]).
    - right. left. split; [reflexivity|].
      split; [split; [reflexivity | apply Hsame]|].
      exists actual. split; [exact Hrep|]. rewrite Hon.
      by apply String.eqb_eq.
    - left. split; [reflexivity|].
      split; [split; [reflexivity | apply Hsame]|].
      split; [|exact Hnf]. intros (a & _ & Hc). rewrite Hon in Hc.
      apply String.eqb_neq in Hs. contradiction. }
  destruct (ErrorVerifyOFF (simular s)) eqn:Hoff.
  { run. destruct (String.eqb status "Off") eqn:Hs; cbn [negb];
      eexists _, _; (split; [reflexivity|]).
    - right. left. split; [reflexivity|].
      split; [split; [reflexivity | apply Hsame]|].
      exists actual. split; [exact Hrep|]. rewrite Hon, Hoff.
      by apply String.eqb_eq.
    - left. split; [reflexivity|].
      split; [split; [reflexivity | apply Hsame]|].
      split; [|exact Hnf]. intros (a & _ & Hc). rewrite Hon, Hoff in Hc.
      apply String.eqb_neq in Hs. contradiction. }
  destruct (String.eqb actual status) eqn:Heq; run.
  { eexists _, _. split; [reflexivity|]. left. split; [reflexivity|].
    split; [split; [reflexivity | apply Hsame]|].
    split; [|exact Hnf]. intros (a & Ha & Hc). rewrite Hon, Hoff in Hc.
    apply Hact in Ha. subst a. apply String.eqb_eq in Heq. tauto. }
  fields. destruct (NONETWORK s) eqn:Hn; run;
    eexists _, _; (split; [reflexivity|]).
  - left. split; [reflexivity|].
    split; [split; [reflexivity | apply Hsame]|].
    split; [|exact Hnf]. intros (a & Ha & Hc). rewrite Hon, Hoff in Hc.
    destruct Hc. congruence.
  - right. left. split; [reflexivity|].
    split; [split; [reflexivity | apply Hsame]|].
    exists actual. split; [exact Hrep|]. rewrite Hon, Hoff.
    apply String.eqb_neq in Heq. auto.
Qed.

(** what procesaEstadoRegando asks the timer before it verifies *)
Definition timer_events (s : State) : list Event :=
  EvTimerQuery :: EvTimerChanged ::
  (if T_TimeHasChanged W (trace s ++ [EvTimerQuery])
   then let ms := T_Show W (trace s ++ [EvTimerQuery; EvTimerChanged]) in
        [EvTimerShow; EvDisplayTime (fst ms) (snd ms)]
   else []).

(** the state in which procesaEstadoRegando makes its query *)
Definition at_query (s : State) : State :=
  says (timer_events s) (set_tiempoTerminado true s).

(** procesaEstadoRegando with the timer running and a verification due *)
Lemma procesaEstadoRegando_verifies s u :
  flagV s = true -> VERIFY s = true -> ultimoBoton s = Some u ->
  T_Timer W (trace s) = true ->
  procesaEstadoRegando W s
  = (ub <- deref (Some u) ;;
     ok <- queryStatus W (b_idx ub) "On" ;;
     if ok then ret tt
     else
       ub <- deref (Some u) ;;
       modify (set_ledID (b_led ub)) ;;
       e <- gets Estado ;;
       if fase e =? CERO then
         bip 1 ;;
         emit EvTimerPause ;;
         emit (EvTickerAttach tic_parpadeoLedZona 800) ;;
         setEstado PAUSE
       else
         statusError (fase e) 3 ;;
         emit (EvTickerAttach tic_parpadeoLedON 200) ;;
         emit (EvTickerAttach tic_parpadeoLedZona 400) ;;
         modify (set_errorOFF true)) (at_query s).
Proof.
  intros HfV Hver Hu Htimer.
  unfold procesaEstadoRegando, at_query, timer_events, refreshTime.
  runs. rewrite Htimer. runs. rewrite bind_when.
  destruct (T_TimeHasChanged W (trace s ++ [EvTimerQuery])); runs;
    rewrite HfV, Hver; runs; rewrite Hu; reflexivity.
Qed.

(** C1, as the code has it.  With the periodic verification due and the
    fault phase CERO (as it is on every entry to WATERING and to PAUSE):
    in WATERING, while the timer runs, the machine goes to PAUSE exactly
    when the query finds a mismatch with On, to ERROR with the phase [f]
    exactly when the query fails with [f], and stays as it is exactly in
    the other cases; in PAUSE it resumes WATERING exactly when the query
    finds a mismatch with Off, and stays in PAUSE with the phase CERO in
    every other case, a failed query included.  Both entries reset the
    phase to CERO, so every later mismatch is treated like the first. *)
Theorem verification_policy (s : State) (u : nat) (ub : S_BOTON) :
  flagV s = true -> VERIFY s = true -> fase (Estado s) = CERO ->
  ultimoBoton s = Some u -> Boton s !! u = Some ub ->
  (estado (Estado s) = REGANDO -> T_Timer W (trace s) = true ->
     exists s',
       procesaEstadoRegando W s = Some (tt, s')
       /\ (Estado s' = mkEstado PAUSE CERO
           <-> mismatch (b_idx ub) "On" (at_query s))
       /\ (forall f, Estado s' = mkEstado ERROR f
                     <-> query_fails (b_idx ub) (at_query s) f)
       /\ (Estado s' = Estado s
           <-> ~ mismatch (b_idx ub) "On" (at_query s)
               /\ forall f, ~ query_fails (b_idx ub) (at_query s) f))
  /\ (estado (Estado s) = PAUSE ->
       exists s',
         procesaEstadoPause W s = Some (tt, s')
         /\ (Estado s' = mkEstado REGANDO CERO
             <-> mismatch (b_idx ub) "Off" s)
         /\ (Estado s' = Estado s <-> ~ mismatch (b_idx ub) "Off" s)).
Proof.
  intros HfV Hver Hfase Hu Hub.
  assert (HE : forall e, estado (Estado s) = e -> Estado s = mkEstado e CERO).
  { intros e He. rewrite <- He, <- Hfase. by destruct (Estado s). }
  split.
  - intros Hest Htimer.
    rewrite (procesaEstadoRegando_verifies s u HfV Hver Hu Htimer).
    assert (Hubq : Boton (at_query s) !! u = Some ub) by exact Hub.
    rewrite (bind_deref u ub) by exact Hubq.
    destruct (queryStatus_cases (b_idx ub) "On" (at_query s))
      as (r & s1 & Hq & Hcase).
    rewrite (bind_Some _ _ _ _ _ Hq).
    assert (Hfq : fase (Estado (at_query s)) = CERO) by exact Hfase.
    assert (Heq : estado (Estado (at_query s)) = REGANDO) by exact Hest.
    rewrite (HE REGANDO Hest).
    destruct Hcase as [(-> & (HB & HEs) & Hnm & Hnf)
                      | [(-> & (HB & HEs) & Hm)
                        | (f & -> & (HB & HEs) & Hf)]].
    + run. exists s1. split; [reflexivity|].
      rewrite HEs, Hfq, Heq.
      split; [split; [discriminate | contradiction]|].
      split; [intros f; split; [discriminate | intros Hf; elim (Hnf f Hf)]|].
      split; auto.
    + assert (Hub1 : Boton s1 !! u = Some ub) by (rewrite HB; exact Hubq).
      rewrite (bind_deref u ub) by exact Hub1. run. fields.
      rewrite HEs, Hfq. cbn [fase]. change (CERO =? CERO) with true.
      cbn iota. run. eexists. split; [reflexivity|]. fields.
      split; [split; [intros _; exact Hm | reflexivity]|].
      split.
      { intros f. split; [discriminate|].
        intros Hf. elim (mismatch_not_fails _ _ _ _ Hm Hf). }
      split; [discriminate | intros [Hnm _]; contradiction].
    + assert (Hub1 : Boton s1 !! u = Some ub) by (rewrite HB; exact Hubq).
      rewrite (bind_deref u ub) by exact Hub1. run. fields.
      rewrite HEs. cbn [fase]. rewrite (query_fails_phase _ _ _ Hf).
      run. rewrite ?statusError_eq. run.
      eexists. split; [reflexivity|]. fields.
      split.
      { split; [discriminate|].
        intros Hm. elim (mismatch_not_fails _ _ _ _ Hm Hf). }
      split.
      { intros f'. split.
        - intros H. inversion H; subst. exact Hf.
        - intros Hf'. by rewrite (query_fails_unique _ _ _ _ Hf Hf'). }
      split; [discriminate | intros [_ Hnf]; elim (Hnf f Hf)].
  - intros Hest. unfold procesaEstadoPause. run. rewrite HfV, Hver. runs.
    rewrite Hu. rewrite (bind_deref u ub) by exact Hub.
    destruct (queryStatus_cases (b_idx ub) "Off" s) as (r & s1 & Hq & Hcase).
    rewrite (bind_Some _ _ _ _ _ Hq).
    rewrite (HE PAUSE Hest).
    destruct Hcase as [(-> & (HB & HEs) & Hnm & Hnf)
                      | [(-> & (HB & HEs) & Hm)
                        | (f & -> & (HB & HEs) & Hf)]].
    + run. exists s1. split; [reflexivity|].
      rewrite HEs, Hfase, Hest.
      split; [split; [discriminate | contradiction]|]. split; auto.
    + run. rewrite HEs, Hfase. cbn [fase]. change (CERO =? CERO) with true.
      cbn iota. run.
      assert (Hub1 : Boton s1 !! u = Some ub) by (rewrite HB; exact Hub).
      match goal with |- context [bind (deref (Some u)) _ ?st] =>
        rewrite (bind_deref u ub _ st) by exact Hub1 end.
      run. eexists. split; [reflexivity|]. fields.
      split; [split; [intros _; exact Hm | reflexivity]|].
      split; [discriminate | contradiction].
    + run. rewrite HEs. cbn [fase]. rewrite (query_fails_phase _ _ _ Hf).
      run. eexists. split; [reflexivity|]. fields. rewrite HEs, Hest.
      cbn [estado].
      split.
      { split; [discriminate|].
        intros Hm. elim (mismatch_not_fails _ _ _ _ Hm Hf). }
      split; [intros _ Hm; elim (mismatch_not_fails _ _ _ _ Hm Hf)
             | reflexivity].
Qed.

End Verification.

(** ** Starting a zone *)

(** the ids of the [Boton] table are the declared ones (the program never
    assigns an id) *)
Definition Boton_declared (s : State) : Prop :=
  map b_id (Boton s) = map b_id Boton_init.

Lemma find_id_cases l id : forall k,
  (find_id l id k = 999 /\ id ∉ l)
  \/ exists i, l !! i = Some id /\ find_id l id k = k + Z.of_nat i.
Proof.
  induction l as [|x l IH]; intros k; simpl.
  - left. split; [reflexivity | apply not_elem_of_nil].
  - destruct (x =? id) eqn:Hx.
    + apply Z.eqb_eq in Hx. subst x. right. exists 0%nat. split; [reflexivity | lia].
    + apply Z.eqb_neq in Hx. destruct (IH (k + 1)) as [[H1 H2] | (i & H1 & H2)].
      * left. split; [exact H1|]. rewrite elem_of_cons. intros [?|?]; congruence.
      * right. exists (S i). split; [exact H1 | lia].
Qed.

Lemma find_id_lookup l : NoDup l -> forall p id k,
  l !! p = Some id -> find_id l id k = k + Z.of_nat p.
Proof.
  induction 1 as [|x l Hx Hnd IH]; intros p id k Hp; [discriminate|].
  destruct p as [|p]; simpl in *.
  - inversion Hp; subst. rewrite Z.eqb_refl. lia.
  - assert (x <> id).
    { intros ->. apply Hx. eapply list_elem_of_lookup_2. exact Hp. }
    rewrite (proj2 (Z.eqb_neq _ _) H). rewrite (IH p id (k + 1) Hp). lia.
Qed.

Lemma Boton_ids_NoDup : NoDup (map b_id Boton_init).
Proof. apply (bool_decide_unpack _). vm_compute. exact I. Qed.

Lemma bID_zIndex_range id :
  bID_zIndex id <> 999 ->
  exists i, (i < NUMZONAS)%nat /\ bID_zIndex id = Z.of_nat i
            /\ ZONAS !! i = Some id.
Proof.
  unfold bID_zIndex. intros Hne.
  destruct (find_id_cases ZONAS id 0) as [[H _] | (i & Hi & Hf)]; [contradiction|].
  exists i. split; [|split; [lia | exact Hi]].
  apply lookup_lt_Some in Hi. exact Hi.
Qed.

Lemma bID_bIndex_eq id s :
  Boton_declared s ->
  bID_bIndex id s = Some (find_id (map b_id Boton_init) id 0, s).
Proof.
  unfold Boton_declared, bID_bIndex. intros Hd. run.
  assert (Hlen : length (Boton s) = NUM_S_BOTON).
  { rewrite <- (length_map b_id), Hd. reflexivity. }
  rewrite Hlen, Nat.ltb_irrefl. rewrite <- Hlen, firstn_all, Hd. reflexivity.
Qed.

Lemma bind_bID_bIndex {B} id (k : Z -> M B) s :
  Boton_declared s ->
  bind (bID_bIndex id) k s = k (find_id (map b_id Boton_init) id 0) s.
Proof. intros H. unfold bind. by rewrite (bID_bIndex_eq _ _ H). Qed.

Lemma bIndex_of_pointer s p b :
  Boton_declared s -> Boton s !! p = Some b ->
  find_id (map b_id Boton_init) (b_id b) 0 = Z.of_nat p.
Proof.
  intros Hd Hb. rewrite (find_id_lookup _ Boton_ids_NoDup p (b_id b) 0); [lia|].
  rewrite <- Hd, list_lookup_fmap, Hb. reflexivity.
Qed.

Lemma Boton_at_eq p b s :
  Boton s !! p = Some b -> Boton_at (Z.of_nat p) s = Some (b, s).
Proof. intros H. unfold Boton_at. run. by apply rd_eq. Qed.

Lemma bind_Boton_at {B} p b (k : S_BOTON -> M B) s :
  Boton s !! p = Some b -> bind (Boton_at (Z.of_nat p)) k s = k b s.
Proof. intros H. unfold bind. by rewrite (Boton_at_eq _ _ _ H). Qed.

Lemma bind_rd {A B} (l : list A) i x (k : A -> M B) s :
  l !! i = Some x -> bind (rd l (Z.of_nat i)) k s = k x s.
Proof. intros H. unfold bind. by rewrite (rd_eq _ _ _ _ H). Qed.

Arguments bID_bIndex : simpl never.
Arguments Boton_at : simpl never.
Arguments timeByFactor : simpl never.
Arguments StaticTimeUpdate : simpl never.
Arguments initRiego : simpl never.

(** the duration of the session a press starts: scaled by the factor [f]
    of the zone in a multi-group sequence, the base duration otherwise *)
Definition session_duration (s : State) (f : Z) : Z * Z :=
  if multirriego s
  then match timeByFactor (int32 f) s with
       | Some (d, _) => d
       | None => (0, 0)
       end
  else (minutes s, seconds s).

(** the minutes StaticTimeUpdate leaves *)
Definition clamp_minutes (m : Z) : Z :=
  let m1 := if m <? MINMINUTES then MINMINUTES else m in
  if MAXMINUTES <? m1 then MAXMINUTES else m1.

Lemma set_minutes_same s : set_minutes (minutes s) s = s.
Proof. destruct s; reflexivity. Qed.

Lemma StaticTimeUpdate_says s :
  estado (Estado s) <> ERROR ->
  StaticTimeUpdate s
  = Some (tt, says [EvDisplayTime (clamp_minutes (minutes s)) (seconds s)]
                (set_minutes (clamp_minutes (minutes s)) s)).
Proof.
  intros Hne. unfold StaticTimeUpdate, clamp_minutes. run.
  destruct (estados_eqb (estado (Estado s)) ERROR) eqn:He.
  { destruct (estado (Estado s)); try discriminate. contradiction. }
  unfold when. run.
  destruct (minutes s <? MINMINUTES) eqn:H1.
  - runs. reflexivity.
  - runs. destruct (MAXMINUTES <? minutes s) eqn:H2; runs; [reflexivity|].
    by rewrite set_minutes_same.
Qed.

Section Zone.

Variable W : World.

(** procesaBotonZona for a zone button pressed in STANDBY: what is left of
    the function after the look-ups and the test of the state *)
Definition zone_press (p : nat) (z : nat) : M unit :=
  enc <- gets encoderSW ;;
  mr <- gets multirriego ;;
  if negb enc || mr then
    bip 2 ;;
    fms <- (if mr then
              fr <- gets factorRiegos ;;
              f <- rd fr (Z.of_nat z) ;;
              timeByFactor (int32 f)
            else
              m <- gets minutes ;; s <- gets seconds ;; ret (m, s)) ;;
    let '(fminutes, fseconds) := fms in
    modify (set_ultimoBoton (Some p)) ;;
    b <- deref (Some p) ;;
    if ((fminutes =? 0) && (fseconds =? 0)) || (b_idx b =? 0) then
      setEstado TERMINANDO ;;
      bb <- Boton_at (Z.of_nat p) ;;
      led (b_led bb) ON ;;
      emit (EvDisplayPrint "-00-")
    else
      emit (EvTimerSet 0 fminutes fseconds) ;;
      emit EvTimerStart ;;
      b <- deref (Some p) ;;
      _ <- initRiego W (b_id b) ;;
      e <- gets Estado ;;
      when (negb (estados_eqb (estado e) ERROR)) (setEstado REGANDO)
  else
    bb <- Boton_at (Z.of_nat p) ;;
    led (b_led bb) ON ;;
    v <- gets value ;;
    modify (set_savedValue v) ;;
    fr <- gets factorRiegos ;;
    f <- rd fr (Z.of_nat z) ;;
    modify (set_value (int32 f)) ;;
    emit (EvDisplayInt (int32 f)) ;;
    delay 2000 ;;
    sv <- gets savedValue ;;
    modify (set_value sv) ;;
    bb <- Boton_at (Z.of_nat p) ;;
    led (b_led bb) OFF ;;
    StaticTimeUpdate.

Lemma procesaBotonZona_standby (s : State) (p : nat) (b : S_BOTON) (z : nat) :
  boton s = Some p -> Boton s !! p = Some b -> Boton_declared s ->
  bID_zIndex (b_id b) = Z.of_nat z -> Z.of_nat z <> 999 ->
  estado (Estado s) = STANDBY ->
  procesaBotonZona W s = zone_press p z s.
Proof.
  intros Hp Hb Hd Hzi Hz Hest.
  pose proof (bIndex_of_pointer _ _ _ Hd Hb) as HbI.
  unfold procesaBotonZona, zone_press. run. rewrite Hp.
  rewrite (bind_deref p b) by exact Hb.
  rewrite Hzi, (proj2 (Z.eqb_neq _ _) Hz).
  rewrite (bind_bID_bIndex _ _ _ Hd). rewrite HbI. run.
  rewrite Hest. reflexivity.
Qed.

(** the press starts a session of duration 0:00, or for a zone without
    actuator: FINISHING at once, and nothing is sent to the endpoint *)
Lemma zone_press_terminando (s : State) (p : nat) (b : S_BOTON) (f : Z) :
  boton s = Some p -> Boton s !! p = Some b -> Boton_declared s ->
  bID_zIndex (b_id b) <> 999 ->
  factorRiegos s !! Z.to_nat (bID_zIndex (b_id b)) = Some f ->
  estado (Estado s) = STANDBY ->
  session_duration s f = (0, 0) \/ b_idx b = 0 ->
  encoderSW s = false \/ multirriego s = true ->
  exists s' t,
    procesaBotonZona W s = Some (tt, s')
    /\ Estado s' = mkEstado TERMINANDO CERO
    /\ trace s' = trace s ++ t /\ attempts t = 0%nat.
Proof.
  intros Hp Hb Hd Hz Hf Hest Hzero Hgo.
  destruct (bID_zIndex_range _ Hz) as (z & Hzlt & Hzi & _).
  rewrite Hzi, Nat2Z.id in Hf.
  rewrite (procesaBotonZona_standby s p b z) by (try assumption; congruence).
  unfold zone_press.
  assert (Hc : negb (encoderSW s) || multirriego s = true).
  { destruct Hgo as [-> | ->]; [reflexivity | apply orb_true_r]. }
  run. rewrite Hc. runs.
  assert (Hdur : exists fm fs,
    (if multirriego s
     then fr <- gets factorRiegos ;; f <- rd fr (Z.of_nat z) ;;
          timeByFactor (int32 f)
     else m <- gets minutes ;; s <- gets seconds ;; ret (m, s))
      (says (bip_events 2) s) = Some ((fm, fs), says (bip_events 2) s)
    /\ session_duration s f = (fm, fs)).
  { unfold session_duration. destruct (multirriego s).
    - run. simpl. rewrite (bind_rd _ _ _ _ _ Hf). rewrite !timeByFactor_eq.
      eexists _, _. split; reflexivity.
    - run. eexists _, _. split; reflexivity. }
  destruct Hdur as (fm & fs & Hrun & Hsd).
  rewrite (bind_Some _ _ _ _ _ Hrun). runs.
  rewrite (bind_deref p b) by exact Hb.
  assert (Hsc : ((fm =? 0) && (fs =? 0)) || (b_idx b =? 0) = true).
  { destruct Hzero as [H0 | H0].
    - rewrite Hsd in H0. inversion H0. reflexivity.
    - rewrite H0. apply orb_true_r. }
  rewrite Hsc. runs.
  rewrite (bind_Boton_at p b) by exact Hb. runs.
  destruct (b_led b =? 0); runs.
  all: eexists _, _; split; [reflexivity|]; split; [reflexivity|];
    split; [reflexivity|]; unfold attempts; rewrite ?count_app; reflexivity.
Qed.

(** the press with the encoder button held, outside a sequence: the factor
    of the zone is shown and the state stays as it is *)
Lemma zone_press_shows_factor (s : State) (p : nat) (b : S_BOTON) (f : Z) :
  boton s = Some p -> Boton s !! p = Some b -> Boton_declared s ->
  bID_zIndex (b_id b) <> 999 ->
  factorRiegos s !! Z.to_nat (bID_zIndex (b_id b)) = Some f ->
  estado (Estado s) = STANDBY ->
  encoderSW s = true -> multirriego s = false ->
  exists s' t,
    procesaBotonZona W s = Some (tt, s')
    /\ Estado s' = Estado s
    /\ trace s' = trace s ++ t /\ attempts t = 0%nat.
Proof.
  intros Hp Hb Hd Hz Hf Hest Henc Hmr.
  destruct (bID_zIndex_range _ Hz) as (z & Hzlt & Hzi & _).
  rewrite Hzi, Nat2Z.id in Hf.
  rewrite (procesaBotonZona_standby s p b z) by (try assumption; congruence).
  unfold zone_press.
  run. rewrite Henc, Hmr. simpl.
  rewrite (bind_Boton_at p b) by exact Hb. runs.
  rewrite (bind_rd _ _ _ _ _ Hf). runs.
  rewrite (bind_Boton_at p b) by exact Hb. runs.
  rewrite StaticTimeUpdate_says by (simpl; rewrite Hest; discriminate).
  eexists _, _. split; [reflexivity|]. simpl.
  split; [reflexivity|]. rewrite <- !app_assoc. split; [reflexivity|].
  unfold attempts. rewrite ?count_app.
  destruct (b_led b =? 0); reflexivity.
Qed.

End Zone.

(** ** The factors of the zones *)

Arguments getFactor : simpl never.
Arguments copy_desc_to_Boton : simpl never.

(** the arrays the factor loop indexes have their declared sizes *)
Definition tables_ok (s : State) : Prop :=
  Boton_declared s
  /\ length (factorRiegos s) = NUMZONAS
  /\ length (botonConfig (config s)) = NUMZONAS.

Lemma wr_eq {A} (l : list A) (i : nat) (x : A) s :
  (i < length l)%nat -> wr l (Z.of_nat i) x s = Some (<[i := x]> l, s).
Proof.
  intros H. unfold wr.
  destruct (Z.of_nat i <? 0) eqn:Hneg; [apply Z.ltb_lt in Hneg; lia|].
  rewrite Nat2Z.id. apply Nat.ltb_lt in H. by rewrite H.
Qed.

Lemma bind_wr {A B} (l : list A) i x (k : list A -> M B) s :
  (i < length l)%nat -> bind (wr l (Z.of_nat i) x) k s = k (<[i := x]> l) s.
Proof. intros H. unfold bind. by rewrite (wr_eq _ _ _ _ H). Qed.

Lemma Boton_declared_length s : Boton_declared s -> length (Boton s) = NUM_S_BOTON.
Proof. intros Hd. rewrite <- (length_map b_id), Hd. reflexivity. Qed.

Lemma Boton_declared_insert s i b b' :
  Boton_declared s -> Boton s !! i = Some b -> b_id b' = b_id b ->
  map b_id (<[i := b']> (Boton s)) = map b_id Boton_init.
Proof.
  intros Hd Hb Hid. rewrite <- Hd. rewrite list_fmap_insert, Hid.
  apply list_insert_id. by rewrite list_lookup_fmap, Hb.
Qed.

(** the zone [i] is the button [i] of the table *)
Lemma zone_button i :
  (i < NUMZONAS)%nat ->
  exists z, ZONAS !! i = Some z
            /\ find_id (map b_id Boton_init) z 0 = Z.of_nat i.
Proof.
  intros Hi. do 7 (destruct i as [|i]; [eexists; split; reflexivity|]).
  unfold NUMZONAS in Hi. simpl in Hi. lia.
Qed.

Section Factors.

Variable W : World.

(** getFactor always returns, and leaves the tables alone *)
Lemma getFactor_frame idx s :
  exists v s', getFactor W idx s = Some (v, s')
    /\ Boton s' = Boton s /\ factorRiegos s' = factorRiegos s
    /\ config s' = config s.
Proof.
  unfold getFactor. destruct (idx =? 0); [eexists _, _; repeat split|].
  run. simpl.
  destruct (WiFi_connected W (trace s)); simpl.
  - run. simpl. set (ans := response_of _).
    destruct (startsWith ans "Err").
    + run. simpl. destruct (NONETWORK s); [|destruct (String.eqb ans "ErrX")];
        run; eexists _, _; repeat split.
    + destruct (deserializeJson W ans) as [jsondoc|].
      * destruct (j_Description jsondoc) as [factorstr|].
        -- run. simpl. destruct (strtol factorstr =? 0).
           ++ destruct factorstr as [|c r]; [|destruct (negb (isdigit c))];
                run; eexists _, _; repeat split.
           ++ run; eexists _, _; repeat split.
        -- run. simpl. destruct (VERIFY s); simpl; run;
             eexists _, _; repeat split.
      * run. simpl. destruct (VERIFY s); simpl; run;
          eexists _, _; repeat split.
  - run. simpl. destruct (NONETWORK s); run; eexists _, _; repeat split.
Qed.

Lemma copy_desc_to_Boton_ok i s :
  Boton_declared s -> (i < NUM_S_BOTON)%nat ->
  exists s', copy_desc_to_Boton (Z.of_nat i) s = Some (tt, s')
    /\ Boton_declared s' /\ factorRiegos s' = factorRiegos s
    /\ config s' = config s /\ descDomoticz s' = descDomoticz s
    /\ Estado s' = Estado s
    /\ map b_idx (Boton s') = map b_idx (Boton s).
Proof.
  intros Hd Hi. unfold copy_desc_to_Boton. run.
  pose proof (Boton_declared_length _ Hd) as Hlen.
  destruct (lookup_lt_is_Some_2 (Boton s) i) as [b Hb]; [lia|].
  rewrite (bind_rd _ _ _ _ _ Hb).
  rewrite bind_wr by lia. run.
  eexists. split; [reflexivity|]. repeat split.
  - unfold Boton_declared. simpl. by apply (Boton_declared_insert s i b).
  - simpl. rewrite list_fmap_insert. apply list_insert_id.
    by rewrite list_lookup_fmap, Hb.
Qed.

Definition in_zones (i : Z) : Prop := 0 <= i < Z.of_nat NUMZONAS.

(** one turn of the loop that stores a factor: getFactor returned [v], not
    the sentinel, and raised no fault *)
Lemma initFactorRiegos_loop_head n rest s b v s1 :
  tables_ok s -> (n < NUMZONAS)%nat -> Boton s !! n = Some b ->
  getFactor W (b_idx b) s = Some (v, s1) ->
  Boton s1 = Boton s -> factorRiegos s1 = factorRiegos s ->
  config s1 = config s ->
  uint32 v <> 999 -> estado (Estado s1) <> ERROR ->
  exists s3,
    tables_ok s3
    /\ factorRiegos s3 = <[n := uint32 v]> (factorRiegos s)
    /\ initFactorRiegos_loop W (Z.of_nat n :: rest) s
       = initFactorRiegos_loop W rest s3
    /\ Estado s3 = Estado s1
    /\ map b_idx (Boton s3) = map b_idx (Boton s).
Proof.
  intros (Hd & Hfr & Hbc) Hn Hb Hg HB HF HC Hv He.
  cbn [initFactorRiegos_loop].
  destruct (zone_button n) as (z & Hz & Hfind); [lia|].
  rewrite (bind_rd _ _ _ _ _ Hz).
  rewrite (bind_bID_bIndex _ _ _ Hd), Hfind.
  rewrite (bind_Boton_at _ _ _ _ Hb).
  rewrite (bind_Some _ _ _ _ _ Hg).
  assert (Hok1 : tables_ok s1).
  { unfold tables_ok, Boton_declared. rewrite HB, HF, HC. auto. }
  rewrite (proj2 (Z.eqb_neq _ _) Hv). run.
  assert (He' : estados_eqb (estado (Estado s1)) ERROR = false).
  { destruct (estado (Estado s1)); try reflexivity. contradiction. }
  rewrite He'.
  run. rewrite bind_wr by (rewrite HF, Hfr; lia). run.
  set (s2 := set_factorRiegos _ s1).
  assert (Hok2 : tables_ok s2).
  { destruct Hok1 as (H1 & H2 & H3). unfold tables_ok, Boton_declared. simpl.
    rewrite length_insert. auto. }
  assert (Hrest : exists s3,
    when (negb (String.eqb (descDomoticz s2) EmptyString))
      (copy_desc_to_Boton (Z.of_nat n) ;;
       cfg <- gets config ;;
       p <- rd (botonConfig cfg) (Z.of_nat n) ;;
       when (String.eqb (bp_desc p) EmptyString)
         (bc' <- wr (botonConfig cfg) (Z.of_nat n)
                   (with_bp_desc (strlcpy (descDomoticz s2) 20) p) ;;
          modify (set_config (set_botonConfig bc' cfg)) ;;
          copy_desc_to_Boton (Z.of_nat n))) s2 = Some (tt, s3)
    /\ tables_ok s3 /\ factorRiegos s3 = factorRiegos s2
    /\ Estado s3 = Estado s2
    /\ map b_idx (Boton s3) = map b_idx (Boton s2)).
  { unfold when. destruct (negb (String.eqb (descDomoticz s2) EmptyString)).
    2:{ exists s2. auto. }
    destruct Hok2 as (H1 & H2 & H3).
    destruct (copy_desc_to_Boton_ok n s2 H1)
      as (s3 & Hc & Hd3 & Hf3 & Hc3 & _ & He3 & Hi3).
    { unfold NUMZONAS, NUM_S_BOTON in *. simpl in *. lia. }
    rewrite (bind_Some _ _ _ _ _ Hc). run.
    destruct (lookup_lt_is_Some_2 (botonConfig (config s3)) n)
      as [p Hp]; [rewrite Hc3, H3; lia|].
    rewrite (bind_rd _ _ _ _ _ Hp).
    destruct (String.eqb (bp_desc p) EmptyString).
    - rewrite bind_wr by (rewrite Hc3, H3; lia). run.
      match goal with |- context [copy_desc_to_Boton _ ?s4] =>
        destruct (copy_desc_to_Boton_ok n s4)
          as (s5 & Hc5 & Hd5 & Hf5 & Hc5' & _ & He5 & Hi5) end.
      { exact Hd3. }
      { unfold NUMZONAS, NUM_S_BOTON in *. simpl in *. lia. }
      rewrite Hc5. exists s5. split; [reflexivity|]. split; [|split; [|split]].
      + unfold tables_ok. rewrite Hf5, Hc5'. simpl.
        rewrite length_insert, Hf3, Hc3. auto.
      + rewrite Hf5. simpl. exact Hf3.
      + rewrite He5. simpl. exact He3.
      + rewrite Hi5. simpl. exact Hi3.
    - run. exists s3. split; [reflexivity|]. split; [|split; [|split]].
      + unfold tables_ok. rewrite Hf3, Hc3. auto.
      + exact Hf3.
      + exact He3.
      + exact Hi3. }
  destruct Hrest as (s3 & Hr & Hok3 & Hf3 & He3 & Hi3).
  match goal with |- context [bind ?m _ s2] =>
    change m with (when (negb (String.eqb (descDomoticz s2) EmptyString))
      (copy_desc_to_Boton (Z.of_nat n) ;;
       cfg <- gets config ;;
       p <- rd (botonConfig cfg) (Z.of_nat n) ;;
       when (String.eqb (bp_desc p) EmptyString)
         (bc' <- wr (botonConfig cfg) (Z.of_nat n)
                   (with_bp_desc (strlcpy (descDomoticz s2) 20) p) ;;
          modify (set_config (set_botonConfig bc' cfg)) ;;
          copy_desc_to_Boton (Z.of_nat n)))) end.
  rewrite (bind_Some _ _ _ _ _ Hr).
  exists s3. split; [exact Hok3|]. split; [|split; [reflexivity|split]].
  - rewrite Hf3. unfold s2. simpl. by rewrite HF.
  - rewrite He3. reflexivity.
  - rewrite Hi3. unfold s2. simpl. by rewrite HB.
Qed.

(** the loop always returns; it keeps the tables in shape and writes only
    the factors of the zones it is given *)
Lemma initFactorRiegos_loop_ok zs : forall s,
  tables_ok s -> Forall in_zones zs ->
  exists s', initFactorRiegos_loop W zs s = Some (tt, s')
    /\ tables_ok s'
    /\ forall k, Z.of_nat k ∉ zs -> factorRiegos s' !! k = factorRiegos s !! k.
Proof.
  induction zs as [|i zs IH]; intros s Hok Hzs.
  - exists s. split; [reflexivity|]. split; [exact Hok|]. auto.
  - apply Forall_cons in Hzs as [Hi Hzs]. unfold in_zones in Hi.
    assert (Hn : exists n, i = Z.of_nat n /\ (n < NUMZONAS)%nat).
    { exists (Z.to_nat i). lia. }
    destruct Hn as (n & -> & Hn). clear Hi.
    pose proof Hok as (Hd & Hfr & Hbc).
    pose proof (Boton_declared_length _ Hd) as Hlen.
    destruct (lookup_lt_is_Some_2 (Boton s) n) as [b Hb].
    { rewrite Hlen. unfold NUMZONAS, NUM_S_BOTON in *. simpl in *. lia. }
    destruct (getFactor_frame (b_idx b) s) as (v & s1 & Hg & HB & HF & HC).
    assert (Hok1 : tables_ok s1).
    { unfold tables_ok, Boton_declared. rewrite HB, HF, HC. auto. }
    destruct (Z.eq_dec (uint32 v) 999) as [Hv | Hv];
      [|destruct (estados_eqb (estado (Estado s1)) ERROR) eqn:He].
    + (* the sentinel: the loop stops *)
      cbn [initFactorRiegos_loop].
      destruct (zone_button n) as (z & Hz & Hfind); [lia|].
      rewrite (bind_rd _ _ _ _ _ Hz).
      rewrite (bind_bID_bIndex _ _ _ Hd), Hfind.
      rewrite (bind_Boton_at _ _ _ _ Hb).
      rewrite (bind_Some _ _ _ _ _ Hg), Hv. simpl.
      exists s1. split; [reflexivity|]. split; [exact Hok1|].
      intros k _. by rewrite HF.
    + (* a fault: the loop stops *)
      cbn [initFactorRiegos_loop].
      destruct (zone_button n) as (z & Hz & Hfind); [lia|].
      rewrite (bind_rd _ _ _ _ _ Hz).
      rewrite (bind_bID_bIndex _ _ _ Hd), Hfind.
      rewrite (bind_Boton_at _ _ _ _ Hb).
      rewrite (bind_Some _ _ _ _ _ Hg).
      rewrite (proj2 (Z.eqb_neq _ _) Hv). run. rewrite He.
      rewrite <- HB in Hb. unfold when. destruct (fase (Estado s1) =? E3).
      * rewrite (bind_Boton_at _ _ _ _ Hb). run.
        eexists. split; [reflexivity|]. split.
        -- unfold tables_ok, Boton_declared. simpl. exact Hok1.
        -- intros k _. simpl. by rewrite HF.
      * run. exists s1. split; [reflexivity|]. split; [exact Hok1|].
        intros k _. by rewrite HF.
    + (* the factor is stored and the loop goes on *)
      destruct (initFactorRiegos_loop_head n zs s b v s1)
        as (s3 & Hok3 & Hf3 & Heq & _); try assumption.
      { intros E. rewrite E in He. discriminate. }
      rewrite Heq.
      destruct (IH s3 Hok3 Hzs) as (s' & Hrun & Hok' & Hkeep).
      exists s'. split; [exact Hrun|]. split; [exact Hok'|].
      intros k Hk. rewrite Hkeep by (intros ?; apply Hk; by right).
      rewrite Hf3. apply list_lookup_insert_ne. intros ->. apply Hk. by left.
Qed.

(** the first loop of initFactorRiegos *)
Lemma factors_reset s :
  tables_ok s ->
  exists fr,
    forM (upto (Z.of_nat NUMZONAS)) (fun i =>
      fr <- gets factorRiegos ;;
      fr' <- wr fr i 100 ;;
      modify (set_factorRiegos fr')) s = Some (tt, set_factorRiegos fr s)
    /\ length fr = NUMZONAS.
Proof.
  intros (_ & Hfr & _).
  destruct (factorRiegos s) as [|a0 [|a1 [|a2 [|a3 [|a4 [|a5 [|a6 [|a7 l]]]]]]]]
    eqn:E; try discriminate.
  exists (replicate NUMZONAS 100). split; [|reflexivity].
  unfold upto. simpl. unfold bind, gets, modify, wr. simpl. rewrite E. simpl.
  reflexivity.
Qed.

(** the first loop of initFactorRiegos presets every factor to 100 *)
Lemma factors_reset_100 s :
  tables_ok s ->
  forM (upto (Z.of_nat NUMZONAS)) (fun i =>
    fr <- gets factorRiegos ;;
    fr' <- wr fr i 100 ;;
    modify (set_factorRiegos fr')) s
  = Some (tt, set_factorRiegos (replicate NUMZONAS 100) s)
  /\ tables_ok (set_factorRiegos (replicate NUMZONAS 100) s).
Proof.
  intros (Hd & Hfr & Hbc). split; [|by repeat split].
  destruct (factorRiegos s) as [|a0 [|a1 [|a2 [|a3 [|a4 [|a5 [|a6 [|a7 l]]]]]]]]
    eqn:E; try discriminate.
  unfold upto. simpl. unfold bind, gets, modify, wr. simpl. rewrite E. simpl.
  reflexivity.
Qed.

(** the zones of the table keep their identifiers *)
Lemma same_idx_lookup (l l' : list S_BOTON) k b :
  map b_idx l' = map b_idx l -> l !! k = Some b ->
  exists b', l' !! k = Some b' /\ b_idx b' = b_idx b.
Proof.
  intros Hmap Hb.
  assert (H : map b_idx l' !! k = Some (b_idx b)).
  { rewrite Hmap. change (map b_idx l) with (b_idx <$> l).
    by rewrite list_lookup_fmap, Hb. }
  change (map b_idx l') with (b_idx <$> l') in H.
  rewrite list_lookup_fmap in H. destruct (l' !! k) as [b'|]; [|discriminate].
  exists b'. split; [reflexivity|]. simpl in H. congruence.
Qed.

(** the loop over the zones [j], [j+1], ... ends at a zone [stop] (at
    NUMZONAS when it runs through): the factors from [stop] on are left
    alone, the zones before it that are bound to no actuator get the factor
    0, and the loop does not end at a zone bound to no actuator unless the
    state is ERROR when it starts *)
Lemma initFactorRiegos_loop_cut m : forall j s,
  (j + m = NUMZONAS)%nat -> tables_ok s ->
  (j = 0%nat \/ estado (Estado s) <> ERROR) ->
  exists s' stop,
    initFactorRiegos_loop W (map Z.of_nat (seq j m)) s = Some (tt, s')
    /\ (j <= stop <= NUMZONAS)%nat
    /\ (forall k, (k < j \/ stop <= k)%nat ->
          factorRiegos s' !! k = factorRiegos s !! k)
    /\ (forall k b, (j <= k < stop)%nat -> Boton s !! k = Some b ->
          b_idx b = 0 -> factorRiegos s' !! k = Some 0)
    /\ (forall b, (stop < NUMZONAS)%nat -> Boton s !! stop = Some b ->
          b_idx b = 0 -> stop = j /\ estado (Estado s) = ERROR).
Proof.
  induction m as [|m IH]; intros j s Hjm Hok Hent.
  - exists s, j. split; [reflexivity|]. split; [lia|]. split; [auto|].
    split; intros; lia.
  - cbn [seq map].
    assert (Hn : (j < NUMZONAS)%nat) by lia.
    pose proof Hok as (Hd & Hfr & Hbc).
    pose proof (Boton_declared_length _ Hd) as Hlen.
    destruct (lookup_lt_is_Some_2 (Boton s) j) as [b Hb].
    { rewrite Hlen. unfold NUMZONAS, NUM_S_BOTON in *. simpl in *. lia. }
    destruct (getFactor_frame (b_idx b) s) as (v & s1 & Hg & HB & HF & HC).
    assert (Hok1 : tables_ok s1).
    { unfold tables_ok, Boton_declared. rewrite HB, HF, HC. auto. }
    assert (Hzero : b_idx b = 0 -> v = 0 /\ s1 = s).
    { intros Hz. rewrite Hz in Hg.
      change (getFactor W 0 s) with (Some (0, s)) in Hg.
      split; congruence. }
    destruct (Z.eq_dec (uint32 v) 999) as [Hv | Hv];
      [|destruct (estados_eqb (estado (Estado s1)) ERROR) eqn:He].
    + (* the sentinel: the loop ends here *)
      cbn [initFactorRiegos_loop].
      destruct (zone_button j) as (z & Hz & Hfind); [lia|].
      rewrite (bind_rd _ _ _ _ _ Hz).
      rewrite (bind_bID_bIndex _ _ _ Hd), Hfind.
      rewrite (bind_Boton_at _ _ _ _ Hb).
      rewrite (bind_Some _ _ _ _ _ Hg), Hv. simpl.
      exists s1, j. split; [reflexivity|]. split; [lia|].
      split; [intros k _; by rewrite HF|]. split; [intros; lia|].
      intros b' _ Hb' Hidx. assert (b' = b) as -> by congruence.
      destruct (Hzero Hidx) as [-> _]. discriminate.
    + (* a fault: the loop ends here *)
      cbn [initFactorRiegos_loop].
      destruct (zone_button j) as (z & Hz & Hfind); [lia|].
      rewrite (bind_rd _ _ _ _ _ Hz).
      rewrite (bind_bID_bIndex _ _ _ Hd), Hfind.
      rewrite (bind_Boton_at _ _ _ _ Hb).
      rewrite (bind_Some _ _ _ _ _ Hg).
      rewrite (proj2 (Z.eqb_neq _ _) Hv). run. rewrite He.
      assert (Hfault : forall b', Boton s !! j = Some b' -> b_idx b' = 0 ->
                j = j /\ estado (Estado s) = ERROR).
      { intros b' Hb' Hidx. assert (b' = b) as -> by congruence.
        destruct (Hzero Hidx) as [_ ->]. split; [reflexivity|].
        destruct (estado (Estado s)); try discriminate. reflexivity. }
      pose proof Hb as Hb1. rewrite <- HB in Hb1. unfold when.
      destruct (fase (Estado s1) =? E3).
      * rewrite (bind_Boton_at _ _ _ _ Hb1). run.
        eexists _, j. split; [reflexivity|]. split; [lia|].
        split; [intros k _; simpl; by rewrite HF|]. split; [intros; lia|].
        intros b' _. apply Hfault.
      * run. exists s1, j. split; [reflexivity|]. split; [lia|].
        split; [intros k _; by rewrite HF|]. split; [intros; lia|].
        intros b' _. apply Hfault.
    + (* the factor is stored and the loop goes on *)
      assert (He1 : estado (Estado s1) <> ERROR).
      { intros E. rewrite E in He. discriminate. }
      destruct (initFactorRiegos_loop_head j (map Z.of_nat (seq (S j) m))
                  s b v s1)
        as (s3 & Hok3 & Hf3 & Heq & He3 & Hi3); try assumption.
      rewrite Heq.
      destruct (IH (S j) s3) as (s' & stop & Hrun & Hst & Hkeep & Hz0 & Hend);
        [lia | exact Hok3 | right; by rewrite He3 |].
      exists s', stop. split; [exact Hrun|]. split; [lia|].
      split; [|split].
      * intros k Hk. rewrite Hkeep by lia. rewrite Hf3.
        apply list_lookup_insert_ne. lia.
      * intros k b' Hk Hb' Hidx.
        destruct (Nat.eq_dec k j) as [->|Hkj].
        -- assert (b' = b) as -> by congruence.
           destruct (Hzero Hidx) as [-> _].
           rewrite Hkeep by lia. rewrite Hf3.
           apply list_lookup_insert_eq. rewrite Hfr. exact Hn.
        -- destruct (same_idx_lookup (Boton s) (Boton s3) k b' Hi3 Hb')
             as (b3 & Hb3 & Hidx3).
           apply (Hz0 k b3); [lia | exact Hb3 | congruence].
      * intros b' Hlt Hb' Hidx.
        destruct (same_idx_lookup (Boton s) (Boton s3) stop b' Hi3 Hb')
          as (b3 & Hb3 & Hidx3).
        destruct (Hend b3 Hlt Hb3) as [_ Herr]; [congruence|].
        rewrite He3 in Herr. contradiction.
Qed.

(** C10, as the code has it.  getFactor returns 0 for the identifier 0.
    When the loop of initFactorRiegos reaches a zone bound to no actuator,
    in a state that is not ERROR, the factor stored for that zone is 0 when
    the loop ends; this is so for the first zone whenever initFactorRiegos
    is called in a state that is not ERROR.  initFactorRiegos always
    returns, and its loop ends at some zone [stop] (NUMZONAS when it runs
    through all of them): every zone from [stop] on keeps the factor 100,
    every zone before [stop] that is bound to no actuator has the factor 0,
    and the loop ends at a zone bound to no actuator only when that zone is
    the first and the state is ERROR at the call.  A multi-group start of a
    zone bound to no actuator goes to FINISHING at once whatever factor is
    stored, and the scaled duration is 0:00 when the stored factor is 0. *)
Theorem zone_without_actuator :
  (forall s, getFactor W 0 s = Some (0, s))
  /\ (forall s n rest b,
        tables_ok s -> estado (Estado s) <> ERROR ->
        (n < NUMZONAS)%nat -> Forall in_zones rest -> Z.of_nat n ∉ rest ->
        Boton s !! n = Some b -> b_idx b = 0 ->
        exists s', initFactorRiegos_loop W (Z.of_nat n :: rest) s = Some (tt, s')
                   /\ factorRiegos s' !! n = Some 0)
  /\ (forall s b,
        tables_ok s -> estado (Estado s) <> ERROR ->
        Boton s !! 0%nat = Some b -> b_idx b = 0 ->
        exists s', initFactorRiegos W s = Some (tt, s')
                   /\ factorRiegos s' !! 0%nat = Some 0)
  /\ (forall s,
        tables_ok s ->
        exists s' stop,
          initFactorRiegos W s = Some (tt, s')
          /\ (stop <= NUMZONAS)%nat
          /\ (forall k, (stop <= k < NUMZONAS)%nat ->
                factorRiegos s' !! k = Some 100)
          /\ (forall k b, (k < stop)%nat -> Boton s !! k = Some b ->
                b_idx b = 0 -> factorRiegos s' !! k = Some 0)
          /\ (forall b, (stop < NUMZONAS)%nat -> Boton s !! stop = Some b ->
                b_idx b = 0 -> stop = 0%nat /\ estado (Estado s) = ERROR))
  /\ (forall s p b f,
        boton s = Some p -> Boton s !! p = Some b -> Boton_declared s ->
        bID_zIndex (b_id b) <> 999 ->
        factorRiegos s !! Z.to_nat (bID_zIndex (b_id b)) = Some f ->
        estado (Estado s) = STANDBY -> multirriego s = true ->
        b_idx b = 0 ->
        (f = 0 -> session_duration s f = (0, 0))
        /\ exists s' t,
             procesaBotonZona W s = Some (tt, s')
             /\ Estado s' = mkEstado TERMINANDO CERO
             /\ trace s' = trace s ++ t /\ attempts t = 0%nat).
Proof.
  assert (Hloop : forall s n rest b,
        tables_ok s -> estado (Estado s) <> ERROR ->
        (n < NUMZONAS)%nat -> Forall in_zones rest -> Z.of_nat n ∉ rest ->
        Boton s !! n = Some b -> b_idx b = 0 ->
        exists s', initFactorRiegos_loop W (Z.of_nat n :: rest) s = Some (tt, s')
                   /\ factorRiegos s' !! n = Some 0).
  { intros s n rest b Hok He Hn Hrest Hnot Hb Hidx.
    destruct (initFactorRiegos_loop_head n rest s b 0 s)
      as (s3 & Hok3 & Hf3 & Heq & _); try assumption; try reflexivity.
    { rewrite Hidx. reflexivity. }
    { discriminate. }
    rewrite Heq.
    destruct (initFactorRiegos_loop_ok rest s3 Hok3 Hrest)
      as (s' & Hrun & _ & Hkeep).
    exists s'. split; [exact Hrun|].
    rewrite (Hkeep n Hnot), Hf3.
    apply list_lookup_insert_eq. destruct Hok as (_ & -> & _). exact Hn. }
  split; [reflexivity|]. split; [exact Hloop|]. split; [|split].
  - intros s b Hok He Hb Hidx. unfold initFactorRiegos.
    destruct (factors_reset s Hok) as (fr & Hreset & Hlen).
    rewrite (bind_Some _ _ _ _ _ Hreset).
    apply (Hloop (set_factorRiegos fr s) 0%nat
             (map Z.of_nat (seq 1 6)) b); try assumption.
    + destruct Hok as (H1 & H2 & H3). repeat split; assumption.
    + unfold NUMZONAS. simpl. lia.
    + repeat constructor; unfold in_zones, NUMZONAS; simpl; lia.
    + simpl. rewrite !elem_of_cons. rewrite elem_of_nil. lia.
  - intros s Hok. unfold initFactorRiegos.
    destruct (factors_reset_100 s Hok) as (Hreset & Hok0).
    rewrite (bind_Some _ _ _ _ _ Hreset).
    destruct (initFactorRiegos_loop_cut NUMZONAS 0%nat
                (set_factorRiegos (replicate NUMZONAS 100) s))
      as (s' & stop & Hrun & Hst & Hkeep & Hz0 & Hend);
      [reflexivity | exact Hok0 | by left |].
    exists s', stop. split; [exact Hrun|]. split; [lia|].
    split; [|split].
    + intros k Hk. rewrite Hkeep by lia.
      apply lookup_replicate_2. lia.
    + intros k b Hk. apply Hz0. lia.
    + exact Hend.
  - intros s p b f Hp Hb Hd Hz Hf Hest Hmr Hidx. split.
    + intros ->. unfold session_duration. rewrite Hmr, timeByFactor_eq.
      unfold int32, uint32. simpl. rewrite Z.mul_0_r. reflexivity.
    + apply (zone_press_terminando W s p b f); auto.
Qed.
End Factors.

(** ** The group resolver *)

Arguments setMultibyId_loop : simpl never.
Arguments multi_size : simpl never.
Arguments multi_id : simpl never.
Arguments forM : simpl never.

Lemma forM_nil {A} (body : A -> M unit) s : forM [] body s = Some (tt, s).
Proof. reflexivity. Qed.

Lemma forM_cons {A} (x : A) r (body : A -> M unit) s :
  forM (x :: r) body s = bind (body x) (fun _ => forM r body) s.
Proof. reflexivity. Qed.

Lemma set_multi_same s : set_multi (multi s) s = s.
Proof. destruct s; reflexivity. Qed.

Lemma with_serie_same m : with_serie (m_serie m) m = m.
Proof. destruct m; reflexivity. Qed.

(** ZONAS[zj - 1]: the button id of the zone number [zj] *)
Definition zone_of (zj : Z) : option Z :=
  if zj <? 1 then None else ZONAS !! Z.to_nat (zj - 1).

(** the invariant of a persisted group: at most 16 zones, each a valid zone
    number *)
Definition group_ok (g : Grupo_parm) : bool :=
  (g_size g <=? 16)
  && (length (g_serie g) =? 16)%nat
  && forallb (fun zj => (1 <=? zj) && (zj <=? Z.of_nat NUMZONAS))
             (firstn (Z.to_nat (g_size g)) (g_serie g)).

(** the configuration holds NUMGRUPOS groups that satisfy the invariant, and
    multi.serie has its 16 entries *)
Definition config_ok (s : State) : Prop :=
  length (groupConfig (config s)) = NUMGRUPOS
  /\ length (m_serie (multi s)) = 16%nat
  /\ Forall (fun g => group_ok g = true) (groupConfig (config s)).

Lemma zone_of_valid zj :
  1 <= zj <= Z.of_nat NUMZONAS -> exists z, zone_of zj = Some z.
Proof.
  intros H. unfold zone_of.
  destruct (zj <? 1) eqn:E; [apply Z.ltb_lt in E; lia|].
  apply lookup_lt_is_Some_2. unfold NUMZONAS in *. simpl in *. lia.
Qed.

Lemma rd_zone zj z s : zone_of zj = Some z -> rd ZONAS (zj - 1) s = Some (z, s).
Proof.
  unfold zone_of, rd. intros H.
  destruct (zj <? 1) eqn:E; [discriminate|]. apply Z.ltb_ge in E.
  destruct (zj - 1 <? 0) eqn:E'; [apply Z.ltb_lt in E'; lia|].
  by rewrite H.
Qed.

Lemma group_ok_entries g j :
  group_ok g = true -> (j < Z.to_nat (g_size g))%nat ->
  exists zj z, g_serie g !! j = Some zj /\ zone_of zj = Some z.
Proof.
  unfold group_ok. rewrite !andb_true_iff.
  intros [[Hsz Hlen] Hall] Hj.
  apply Z.leb_le in Hsz. apply Nat.eqb_eq in Hlen.
  destruct (lookup_lt_is_Some_2 (g_serie g) j) as [zj Hzj]; [lia|].
  rewrite forallb_forall in Hall.
  assert (Hin : In zj (firstn (Z.to_nat (g_size g)) (g_serie g))).
  { apply list_elem_of_In. apply list_elem_of_lookup. exists j.
    rewrite lookup_take_lt by lia. exact Hzj. }
  specialize (Hall zj Hin). apply andb_true_iff in Hall as [H1 H2].
  apply Z.leb_le in H1, H2.
  destruct (zone_of_valid zj) as [z Hz]; [lia|]. eauto.
Qed.

(** the body of the inner loop of setMultibyId, for the group [i] *)
Definition fill_one (i : nat) (j : Z) : M unit :=
  cfg <- gets config ;;
  g <- rd (groupConfig cfg) (Z.of_nat i) ;;
  zj <- rd (g_serie g) j ;;
  z <- rd ZONAS (zj - 1) ;;
  m <- gets multi ;;
  ser' <- wr (m_serie m) j z ;;
  modify (set_multi (with_serie ser' m)).

(** the inner loop writes the button ids of the zones [k .. k+n-1] of the
    group into multi.serie, and nothing else *)
Lemma fill_serie i g n : forall k s,
  groupConfig (config s) !! i = Some g ->
  length (m_serie (multi s)) = 16%nat -> (k + n <= 16)%nat ->
  (forall j, (k <= j < k + n)%nat ->
     exists zj z, g_serie g !! j = Some zj /\ zone_of zj = Some z) ->
  exists ser,
    forM (map Z.of_nat (seq k n)) (fill_one i) s
    = Some (tt, set_multi (with_serie ser (multi s)) s)
    /\ length ser = 16%nat
    /\ (forall j zj, (k <= j < k + n)%nat -> g_serie g !! j = Some zj ->
          ser !! j = zone_of zj)
    /\ (forall j, ~ (k <= j < k + n)%nat -> ser !! j = m_serie (multi s) !! j).
Proof.
  induction n as [|n IH]; intros k s Hg Hlen Hk Hall.
  - exists (m_serie (multi s)). split; [|split; [exact Hlen|split]].
    + simpl. by rewrite forM_nil, with_serie_same, set_multi_same.
    + intros j zj Hj. lia.
    + reflexivity.
  - destruct (Hall k) as (zj & z & Hzj & Hz); [lia|].
    cbn [seq map]. rewrite forM_cons. unfold fill_one at 1. run.
    rewrite (bind_rd _ _ _ _ _ Hg). run.
    rewrite (bind_rd _ _ _ _ _ Hzj). run.
    rewrite (bind_Some _ _ _ _ _ (rd_zone _ _ _ Hz)). run.
    rewrite bind_wr by lia. run.
    set (s1 := set_multi _ s).
    destruct (IH (S k) s1) as (ser & Hrun & Hlen' & Hnew & Hold).
    { exact Hg. }
    { simpl. by rewrite length_insert. }
    { lia. }
    { intros j Hj. apply Hall. lia. }
    exists ser. split; [|split; [exact Hlen'|split]].
    + rewrite Hrun. reflexivity.
    + intros j zj' Hj Hzj'. destruct (decide (j = k)) as [->|Hne].
      * rewrite Hold by lia. simpl. rewrite list_lookup_insert_eq by lia.
        congruence.
      * apply Hnew; [lia | exact Hzj'].
    + intros j Hj. rewrite Hold by lia. simpl.
      apply list_lookup_insert_ne. lia.
Qed.

(** the first group among the indices [gs] whose id is [id] *)
Fixpoint find_group (gs : list nat) (l : list Grupo_parm) (id : Z)
  : option nat :=
  match gs with
  | [] => None
  | i :: r =>
      match l !! i with
      | Some g => if g_id g =? id then Some i else find_group r l id
      | None => None
      end
  end.

(** [multi] after the group [i] has been resolved from the state [s] *)
Definition resolved (s : State) (i : nat) (g : Grupo_parm) (s' : State)
  : Prop :=
  exists ser,
    s' = set_multi (with_serie ser (point_at i (multi s))) s
    /\ length ser = 16%nat
    /\ (forall j zj, (j < Z.to_nat (g_size g))%nat ->
          g_serie g !! j = Some zj -> ser !! j = zone_of zj)
    /\ (forall j, ~ (j < Z.to_nat (g_size g))%nat ->
          ser !! j = m_serie (multi s) !! j).

Lemma bind_result {A B} (m : M A) (k : A -> M B) (P : B -> Prop) s r s' :
  (forall a s1 r s2, k a s1 = Some (r, s2) -> P r) ->
  bind m k s = Some (r, s') -> P r.
Proof.
  intros Hk. unfold bind. destruct (m s) as [[a s1]|]; [|discriminate].
  apply Hk.
Qed.

Lemma setMultibyId_loop_cons i gs id s :
  setMultibyId_loop (i :: gs) id s
  = (cfg <- gets config ;;
     g <- rd (groupConfig cfg) (Z.of_nat i) ;;
     if g_id g =? id then
       modify (fun s => set_multi (point_at i (multi s)) s) ;;
       size <- multi_size ;;
       forM (upto size) (fill_one i) ;;
       ret (Z.of_nat i + 1)
     else setMultibyId_loop gs id) s.
Proof. reflexivity. Qed.

(** whatever the configuration holds, a result of the resolver is 0 or the
    ordinal of a group with the id asked for *)
Lemma setMultibyId_loop_range gs : forall id s n s',
  setMultibyId_loop gs id s = Some (n, s') ->
  (n = 0 /\ forall i g, i ∈ gs -> groupConfig (config s) !! i = Some g ->
                        g_id g <> id)
  \/ exists i g, i ∈ gs /\ n = Z.of_nat i + 1
                 /\ groupConfig (config s) !! i = Some g /\ g_id g = id.
Proof.
  induction gs as [|i gs IH]; intros id s n s' Hrun.
  - inversion Hrun; subst. left. split; [reflexivity|].
    intros i g Hi. by apply elem_of_nil in Hi.
  - rewrite setMultibyId_loop_cons in Hrun. revert Hrun. run.
    destruct (groupConfig (config s) !! i) as [g|] eqn:Hg.
    2:{ unfold bind, rd. destruct (Z.of_nat i <? 0); [discriminate|].
        rewrite Nat2Z.id, Hg. discriminate. }
    rewrite (bind_rd _ _ _ _ _ Hg).
    destruct (g_id g =? id) eqn:Hid.
    + intros Hrun. right. exists i, g. apply Z.eqb_eq in Hid.
      split; [by left|]. split; [|auto].
      revert Hrun.
      apply (bind_result _ _ (fun r => r = Z.of_nat i + 1)). intros a1 s1 r s2.
      apply (bind_result _ _ (fun r => r = Z.of_nat i + 1)). intros a3 s3 r' s4.
      apply (bind_result _ _ (fun r => r = Z.of_nat i + 1)). intros a5 s5 r'' s6.
      by inversion 1.
    + intros Hrun. apply Z.eqb_neq in Hid.
      destruct (IH _ _ _ _ Hrun) as [[-> Hno] | (i' & g' & Hi' & Hn & Hg' & Hid')].
      * left. split; [reflexivity|]. intros i' g' Hi'.
        apply elem_of_cons in Hi' as [-> | Hi']; [congruence | by apply Hno].
      * right. exists i', g'. split; [by right | auto].
Qed.

Lemma multi_size_eq s i g :
  m_size (multi s) = Some i -> groupConfig (config s) !! i = Some g ->
  multi_size s = Some (g_size g, s).
Proof.
  intros Hm Hg. unfold multi_size, pointee. run. rewrite Hm. run.
  rewrite (bind_rd _ _ _ _ _ Hg). reflexivity.
Qed.

Lemma multi_id_eq s i g :
  m_id (multi s) = Some i -> groupConfig (config s) !! i = Some g ->
  multi_id s = Some (g_id g, s).
Proof.
  intros Hm Hg. unfold multi_id, pointee. run. rewrite Hm. run.
  rewrite (bind_rd _ _ _ _ _ Hg). reflexivity.
Qed.

(** with the invariants, the resolver returns the first matching group and
    binds [multi] to it *)
Lemma setMultibyId_loop_spec gs : forall id s,
  config_ok s -> Forall (fun i => (i < NUMGRUPOS)%nat) gs ->
  match find_group gs (groupConfig (config s)) id with
  | Some i => exists g s',
      groupConfig (config s) !! i = Some g /\ g_id g = id
      /\ setMultibyId_loop gs id s = Some (Z.of_nat i + 1, s')
      /\ resolved s i g s'
  | None => setMultibyId_loop gs id s = Some (0, s)
  end.
Proof.
  induction gs as [|i gs IH]; intros id s Hok Hgs; [reflexivity|].
  apply Forall_cons in Hgs as [Hi Hgs].
  pose proof Hok as (Hlen & Hser & Hall).
  destruct (lookup_lt_is_Some_2 (groupConfig (config s)) i) as [g Hg]; [lia|].
  cbn [find_group]. rewrite Hg. rewrite setMultibyId_loop_cons. run.
  rewrite (bind_rd _ _ _ _ _ Hg).
  destruct (g_id g =? id) eqn:Hid; [|apply IH; assumption].
  apply Z.eqb_eq in Hid. run.
  assert (Hgok : group_ok g = true).
  { rewrite Forall_forall in Hall. apply Hall.
    apply list_elem_of_lookup. eauto. }
  set (s1 := set_multi _ s).
  rewrite (bind_Some _ _ _ _ _ (multi_size_eq s1 i g eq_refl Hg)).
  destruct (fill_serie i g (Z.to_nat (g_size g)) 0 s1) as (ser & Hrun & H1 & H2 & H3).
  { exact Hg. }
  { exact Hser. }
  { unfold group_ok in Hgok. rewrite !andb_true_iff in Hgok.
    destruct Hgok as [[Hsz _] _]. apply Z.leb_le in Hsz. lia. }
  { intros j Hj. apply (group_ok_entries g j Hgok). lia. }
  unfold upto. rewrite (bind_Some _ _ _ _ _ Hrun). run.
  exists g, (set_multi (with_serie ser (multi s1)) s1).
  split; [exact Hg|]. split; [exact Hid|]. split; [reflexivity|].
  exists ser. split; [reflexivity|]. split; [exact H1|]. split.
  - intros j zj Hj. apply H2. lia.
  - intros j Hj. rewrite H3 by lia. reflexivity.
Qed.

Lemma find_group_None gs l id :
  find_group gs l id = None -> Forall (fun i => (i < length l)%nat) gs ->
  forall i g, i ∈ gs -> l !! i = Some g -> g_id g <> id.
Proof.
  induction gs as [|i gs IH]; intros Hf Hgs i' g' Hi' Hg'.
  - by apply elem_of_nil in Hi'.
  - apply Forall_cons in Hgs as [Hi Hgs]. simpl in Hf.
    destruct (l !! i) as [g|] eqn:Hg.
    2:{ apply lookup_ge_None in Hg. lia. }
    destruct (g_id g =? id) eqn:Hid; [discriminate|]. apply Z.eqb_neq in Hid.
    apply elem_of_cons in Hi' as [-> | Hi']; [congruence | by apply (IH Hf Hgs i')].
Qed.

(** C3.  Whatever position id and configuration it is given, a result of
    setMultibyId is 0, when no configured group has that id, or the ordinal
    (between 1 and the number of groups) of a configured group with that
    id; and when the configuration satisfies the invariant of its groups,
    setMultibyId does return. *)
Theorem setMultibyId_total (id : Z) (s : State) :
  (forall n s', setMultibyId id s = Some (n, s') ->
     (n = 0
      /\ forall i g, (i < NUMGRUPOS)%nat ->
           groupConfig (config s) !! i = Some g -> g_id g <> id)
     \/ (1 <= n <= Z.of_nat NUMGRUPOS
         /\ exists g, groupConfig (config s) !! Z.to_nat (n - 1) = Some g
                      /\ g_id g = id))
  /\ (config_ok s -> exists n s', setMultibyId id s = Some (n, s')).
Proof.
  split.
  - intros n s' Hrun. unfold setMultibyId in Hrun.
    destruct (setMultibyId_loop_range _ _ _ _ _ Hrun)
      as [[-> Hno] | (i & g & Hi & -> & Hg & Hid)].
    + left. split; [reflexivity|]. intros i g Hi. apply Hno.
      apply elem_of_seq. lia.
    + right. apply elem_of_seq in Hi. split; [lia|].
      exists g. replace (Z.to_nat (Z.of_nat i + 1 - 1)) with i by lia. auto.
  - intros Hok. unfold setMultibyId.
    pose proof (setMultibyId_loop_spec (seq 0 NUMGRUPOS) id s Hok) as H.
    destruct (find_group _ _ _) as [i|].
    + destruct H as (g & s' & _ & _ & Hrun & _).
      { apply Forall_forall. intros i' Hi'. apply elem_of_seq in Hi'. lia. }
      eauto.
    + rewrite H; [eauto|].
      apply Forall_forall. intros i' Hi'. apply elem_of_seq in Hi'. lia.
Qed.

(** ** The input engine *)

Arguments parseInputs_loop : simpl never.

(** Inside the debounce window, and as long as lastMillis + DEBOUNCEMILLIS
    does not wrap around, parseInputs returns NULL having only read the
    clock: the inputs are not sampled and no global changes. *)
Lemma parseInputs_debounced (W : World) (read : bool) (s : State) :
  0 <= lastMillis s ->
  lastMillis s + DEBOUNCEMILLIS < 4294967296 ->
  millis W (trace s) < lastMillis s + DEBOUNCEMILLIS ->
  parseInputs W read s = Some (None, says [EvMillis] s).
Proof.
  intros H0 Hno Hin. unfold parseInputs. run. simpl.
  unfold uint32. rewrite Z.mod_small by (unfold DEBOUNCEMILLIS in *; lia).
  apply Z.ltb_lt in Hin. rewrite Hin. reflexivity.
Qed.

(** two polls in a row inside the window give the same answer, no event *)
Lemma parseInputs_twice (W : World) (read : bool) (s : State) :
  0 <= lastMillis s ->
  lastMillis s + DEBOUNCEMILLIS < 4294967296 ->
  millis W (trace s) < lastMillis s + DEBOUNCEMILLIS ->
  millis W (trace s ++ [EvMillis]) < lastMillis s + DEBOUNCEMILLIS ->
  (r1 <- parseInputs W read ;; r2 <- parseInputs W read ;; ret (r1, r2)) s
  = Some ((None, None), says [EvMillis; EvMillis] s).
Proof.
  intros H0 Hno H1 H2.
  rewrite (bind_Some _ _ _ _ _ (parseInputs_debounced W read s H0 Hno H1)).
  rewrite (bind_Some _ _ _ _ _
             (parseInputs_debounced W read (says [EvMillis] s) H0 Hno H2)).
  run. reflexivity.
Qed.

(** the clock reads [now] and zone button 1 is held down *)
Definition world_at (now : Z) : World :=
  mkWorld (fun _ => false) (fun _ _ => (-1, EmptyString)) (fun _ => None)
          (fun _ => true) (fun _ => false) (fun _ => (0, 0))
          (fun _ => 0) (fun _ => now) (fun _ => bZONA1) (fun _ => 0)
          (fun _ => true) (fun _ => true)
          (fun _ => mkPortalRun [] EmptyString EmptyString EmptyString).

(** C6 fails when the millisecond counter is about to wrap.  The last
    accepted poll was at 4294967290 ms and the next comes 2 ms later:
    lastMillis + 20 has wrapped to 14, so the test of the window does not
    hold the poll back; the inputs are sampled, the stored state of zone
    button 1 changes and the poll returns that button. *)
Theorem parseInputs_at_wrap :
  let s := set_lastMillis 4294967290 boot in
  let now := 4294967292 in
  uint32 (now - lastMillis s) = 2
  /\ exists s',
       parseInputs (world_at now) true s = Some (Some 0%nat, s')
       /\ trace s' = [EvMillis; EvReadInputs]
       /\ b_estado <$> (Boton s !! 0%nat) = Some 0
       /\ b_estado <$> (Boton s' !! 0%nat) = Some bZONA1.
Proof.
  cbv zeta. split; [reflexivity|].
  eexists. split; [vm_compute; reflexivity|]. repeat split.
Qed.

(** ** Editing a group *)

Arguments set_holddisabled_PAUSE : simpl never.
Arguments getMultiStatus : simpl never.
Arguments setMultibyId : simpl never.
Arguments displayGrupo : simpl never.
Arguments conf_MULTIRIEGO : simpl never.
Arguments conf_PAUSE : simpl never.
Arguments conf_default : simpl never.
Arguments conf_commit_multi : simpl never.
Arguments led_of : simpl never.
Arguments ultimosRiegos_HIDE : simpl never.
Arguments Configure_stop : simpl never.
Arguments bipOK : simpl never.
Arguments configuring : simpl never.

(** what never changes in an entry of the [Boton] table *)
Definition key (b : S_BOTON) : Z * bool := (b_id b, action (b_flags b)).

(** the table [l'] has the keys of [l] and the same selector buttons
    (GRUPO1 is the entry 12, GRUPO3 the entry 14) *)
Definition same_table (l l' : list S_BOTON) : Prop :=
  map key l' = map key l
  /\ l' !! 12%nat = l !! 12%nat /\ l' !! 14%nat = l !! 14%nat.

(** the keys of the table are the declared ones *)
Definition Boton_keys (s : State) : Prop :=
  map key (Boton s) = map key Boton_init.

Lemma same_table_refl l : same_table l l.
Proof. repeat split. Qed.

Lemma same_table_trans l1 l2 l3 :
  same_table l1 l2 -> same_table l2 l3 -> same_table l1 l3.
Proof. intros (A1 & A2 & A3) (B1 & B2 & B3). repeat split; congruence. Qed.

Lemma same_table_insert l i b b' :
  l !! i = Some b -> key b' = key b -> i <> 12%nat -> i <> 14%nat ->
  same_table l (<[i := b']> l).
Proof.
  intros Hb Hk H12 H14. repeat split.
  - rewrite list_fmap_insert, Hk. apply list_insert_id.
    by rewrite list_lookup_fmap, Hb.
  - by apply list_lookup_insert_ne.
  - by apply list_lookup_insert_ne.
Qed.

Lemma Boton_keys_declared s : Boton_keys s -> Boton_declared s.
Proof.
  unfold Boton_keys, Boton_declared. intros H.
  apply (f_equal (map fst)) in H. rewrite !map_map in H. exact H.
Qed.

Lemma Boton_keys_lookup s i b b0 :
  Boton_keys s -> Boton s !! i = Some b -> Boton_init !! i = Some b0 ->
  b_id b = b_id b0 /\ action (b_flags b) = action (b_flags b0).
Proof.
  intros Hk Hb Hb0.
  assert (H : map key (Boton s) !! i = map key Boton_init !! i) by (by rewrite Hk).
  rewrite !list_lookup_fmap, Hb, Hb0 in H. inversion H. auto.
Qed.

Lemma Boton_keys_entry s i :
  Boton_keys s -> (i < NUM_S_BOTON)%nat -> exists b, Boton s !! i = Some b.
Proof.
  intros Hk Hi. apply lookup_lt_is_Some_2.
  rewrite (Boton_declared_length _ (Boton_keys_declared _ Hk)). exact Hi.
Qed.

Lemma Boton_keys_insert s i b b' :
  Boton_keys s -> Boton s !! i = Some b -> key b' = key b ->
  map key (<[i := b']> (Boton s)) = map key Boton_init.
Proof.
  unfold Boton_keys. intros Hk Hb Hkey. rewrite <- Hk.
  rewrite list_fmap_insert, Hkey. apply list_insert_id.
  by rewrite list_lookup_fmap, Hb.
Qed.

(** the position of the group selector, as getMultiStatus reads it *)
Definition selector_of (l : list S_BOTON) : Z :=
  match l !! 12%nat, l !! 14%nat with
  | Some b1, Some b3 =>
      if negb (b_estado b1 =? 0) then bGRUPO1
      else if negb (b_estado b3 =? 0) then bGRUPO3
      else bGRUPO2
  | _, _ => bGRUPO2
  end.

Lemma selector_same l l' : same_table l l' -> selector_of l' = selector_of l.
Proof. intros (_ & H12 & H14). unfold selector_of. by rewrite H12, H14. Qed.

Lemma selector_cases l :
  selector_of l = bGRUPO1 \/ selector_of l = bGRUPO2 \/ selector_of l = bGRUPO3.
Proof.
  unfold selector_of. destruct (l !! 12%nat) as [b1|], (l !! 14%nat) as [b3|]; auto.
  destruct (negb (b_estado b1 =? 0)); auto.
  destruct (negb (b_estado b3 =? 0)); auto.
Qed.

Lemma getMultiStatus_eq s :
  Boton_keys s -> getMultiStatus s = Some (selector_of (Boton s), s).
Proof.
  intros Hk. pose proof (Boton_keys_declared _ Hk) as Hd.
  destruct (Boton_keys_entry s 12 Hk) as [b1 H1]; [unfold NUM_S_BOTON; simpl; lia|].
  destruct (Boton_keys_entry s 14 Hk) as [b3 H3]; [unfold NUM_S_BOTON; simpl; lia|].
  unfold getMultiStatus, selector_of. rewrite H1, H3.
  rewrite (bind_bID_bIndex _ _ _ Hd).
  change (find_id (map b_id Boton_init) bGRUPO1 0) with (Z.of_nat 12).
  rewrite (bind_Boton_at _ _ _ _ H1).
  destruct (negb (b_estado b1 =? 0)); [reflexivity|].
  rewrite (bind_bID_bIndex _ _ _ Hd).
  change (find_id (map b_id Boton_init) bGRUPO3 0) with (Z.of_nat 14).
  rewrite (bind_Boton_at _ _ _ _ H3).
  destruct (negb (b_estado b3 =? 0)); reflexivity.
Qed.

(** a button as parseInputs leaves it when it finds it pressed:
    estado = inputs & id, which is the id, and ultimo_estado = estado *)
Definition pressed (b : S_BOTON) : S_BOTON :=
  with_ultimo_estado (b_id b) (with_estado (b_id b) b).

(** the press of the button [i], as parseInputs records it: the button is
    down and [boton] points to it *)
Definition press (i : nat) : M unit :=
  l <- gets Boton ;;
  b <- rd l (Z.of_nat i) ;;
  l' <- wr l (Z.of_nat i) (pressed b) ;;
  modify (set_Boton l') ;;
  modify (set_boton (Some i)).

Lemma press_eq i b s :
  Boton s !! i = Some b ->
  press i s
  = Some (tt, set_boton (Some i)
                (set_Boton (<[i := pressed b]> (Boton s)) s)).
Proof.
  intros Hb. unfold press. run. rewrite (bind_rd _ _ _ _ _ Hb).
  rewrite bind_wr by (eapply lookup_lt_Some; exact Hb). reflexivity.
Qed.

Lemma set_holddisabled_PAUSE_eq v b s :
  Boton_keys s -> Boton s !! 15%nat = Some b ->
  set_holddisabled_PAUSE v s
  = Some (tt, set_Boton (<[15%nat := with_holddisabled v b]> (Boton s)) s).
Proof.
  intros Hk Hb. unfold set_holddisabled_PAUSE.
  rewrite (bind_bID_bIndex _ _ _ (Boton_keys_declared _ Hk)).
  change (find_id (map b_id Boton_init) bPAUSE 0) with (Z.of_nat 15).
  run. rewrite (bind_rd _ _ _ _ _ Hb).
  rewrite bind_wr by (eapply lookup_lt_Some; exact Hb). reflexivity.
Qed.

(** led_of only talks to the world, when the button exists *)
Lemma led_of_says id e s i b0 :
  Boton_keys s -> find_id (map b_id Boton_init) id 0 = Z.of_nat i ->
  Boton_init !! i = Some b0 ->
  exists t, led_of id e s = Some (tt, says t s).
Proof.
  intros Hk Hfind Hi0. unfold led_of.
  rewrite (bind_bID_bIndex _ _ _ (Boton_keys_declared _ Hk)), Hfind.
  destruct (Boton_keys_entry s i Hk) as [b Hb].
  { apply lookup_lt_Some in Hi0. exact Hi0. }
  rewrite (bind_Boton_at _ _ _ _ Hb). rewrite led_says. eauto.
Qed.

(** a loop whose body only talks to the world, whatever was said before *)
Lemma forM_quiet {A} (l : list A) (body : A -> M unit) s :
  (forall x, x ∈ l -> forall t, exists u,
      body x (says t s) = Some (tt, says u (says t s))) ->
  forall t, exists u, forM l body (says t s) = Some (tt, says u (says t s)).
Proof.
  induction l as [|x l IH]; intros Hb t.
  - exists []. by rewrite forM_nil, says_nil.
  - destruct (Hb x (list_elem_of_here _ _) t) as (u & Hu).
    rewrite forM_cons, (bind_Some _ _ _ _ _ Hu), says_app.
    destruct (IH (fun y Hy => Hb y (list_elem_of_further _ _ _ Hy)) (t ++ u))
      as (u' & Hu').
    rewrite Hu'. exists (u ++ u'). by rewrite !says_app, app_assoc.
Qed.

Lemma zone_id_index z :
  z ∈ ZONAS ->
  exists n b0, find_id (map b_id Boton_init) z 0 = Z.of_nat n
               /\ Boton_init !! n = Some b0 /\ ZONAS !! n = Some z.
Proof.
  intros Hz. apply list_elem_of_lookup in Hz as [n Hn].
  assert (Hn7 : (n < 7)%nat) by (apply lookup_lt_Some in Hn; exact Hn).
  do 7 (destruct n as [|n];
        [inversion Hn; subst;
         match goal with H : ZONAS !! ?k = Some _ |- _ => exists k end;
         eexists; repeat split; reflexivity|]).
  lia.
Qed.

Lemma group_id_index gid :
  gid = bGRUPO1 \/ gid = bGRUPO2 \/ gid = bGRUPO3 ->
  exists n b0, find_id (map b_id Boton_init) gid 0 = Z.of_nat n
               /\ Boton_init !! n = Some b0.
Proof.
  intros [-> | [-> | ->]];
    [exists 12%nat | exists 13%nat | exists 14%nat]; eexists; split; reflexivity.
Qed.

(** led(Boton[bID_bIndex(id)].led, e) for a button of the table *)
Lemma led_at_says {B} id e (k : unit -> M B) s n b0 :
  Boton_keys s -> find_id (map b_id Boton_init) id 0 = Z.of_nat n ->
  Boton_init !! n = Some b0 ->
  exists u,
    bind (bID_bIndex id) (fun i => bind (Boton_at i) (fun b =>
      bind (led (b_led b) e) k)) s = k tt (says u s).
Proof.
  intros Hk Hfind Hn.
  rewrite (bind_bID_bIndex _ _ _ (Boton_keys_declared _ Hk)), Hfind.
  destruct (Boton_keys_entry s n Hk) as [b Hb].
  { apply lookup_lt_Some in Hn. exact Hn. }
  rewrite (bind_Boton_at _ _ _ _ Hb). rewrite bind_led. eauto.
Qed.

(** displayGrupo only talks to the world, when [multi] is bound to a group
    of the selector and holds zone buttons *)
Lemma displayGrupo_says s i g :
  Boton_keys s -> m_size (multi s) = Some i -> m_id (multi s) = Some i ->
  groupConfig (config s) !! i = Some g ->
  g_id g = bGRUPO1 \/ g_id g = bGRUPO2 \/ g_id g = bGRUPO3 ->
  (forall j, (j < Z.to_nat (g_size g))%nat ->
     exists z, m_serie (multi s) !! j = Some z /\ z ∈ ZONAS) ->
  exists t, displayGrupo s = Some (tt, says t s).
Proof.
  intros Hk Hms Hmi Hg Hgid Hser. unfold displayGrupo.
  rewrite (bind_Some _ _ _ _ _ (multi_size_eq s i g Hms Hg)).
  rewrite (bind_Some _ _ _ _ _ (multi_id_eq s i g Hmi Hg)).
  destruct (group_id_index _ Hgid) as (n & b0 & Hfind & Hn).
  destruct (led_at_says (g_id g) ON
              (fun _ => forM (upto (g_size g)) (fun i0 =>
                 m <- gets multi ;;
                 z <- rd (m_serie m) i0 ;;
                 zi <- bID_bIndex z ;;
                 zb <- Boton_at zi ;;
                 led (b_led zb) ON ;;
                 delay 300 ;;
                 bip (i0 + 1) ;;
                 led (b_led zb) OFF ;;
                 delay 100) ;;
               gid <- multi_id ;;
               gi <- bID_bIndex gid ;;
               gb <- Boton_at gi ;;
               led (b_led gb) OFF) s n b0 Hk Hfind Hn) as (u1 & Hu1).
  rewrite Hu1. clear Hu1.
  match goal with |- context [forM ?l ?body] =>
    destruct (forM_quiet l body s) with (t := u1) as (u2 & Hu2) end.
  { intros x Hx t. unfold upto in Hx.
    apply list_elem_of_fmap in Hx as (j & -> & Hj). apply elem_of_seq in Hj.
    destruct (Hser j) as (z & Hz & Hzin); [lia|].
    destruct (zone_id_index z Hzin) as (nz & bz & Hfz & Hnz & _).
    run. simpl multi. rewrite (bind_rd _ _ _ _ _ Hz).
    rewrite (bind_bID_bIndex _ _ (says t s) (Boton_keys_declared s Hk)), Hfz.
    destruct (Boton_keys_entry s nz Hk) as [b Hb].
    { apply lookup_lt_Some in Hnz. exact Hnz. }
    rewrite (bind_Boton_at nz b) by exact Hb. run.
    eexists. rewrite says_app, <- !app_assoc. reflexivity. }
  rewrite (bind_Some _ _ _ _ _ Hu2). rewrite says_app.
  rewrite (bind_Some _ _ _ _ _ (multi_id_eq (says (u1 ++ u2) s) i g Hmi Hg)).
  rewrite (bind_bID_bIndex _ _ (says (u1 ++ u2) s) (Boton_keys_declared s Hk)),
    Hfind.
  destruct (Boton_keys_entry s n Hk) as [b Hb].
  { apply lookup_lt_Some in Hn. exact Hn. }
  rewrite (bind_Boton_at n b) by exact Hb. rewrite led_says, says_app. eauto.
Qed.

Lemma zone_of_in_ZONAS zj z : zone_of zj = Some z -> z ∈ ZONAS.
Proof.
  unfold zone_of. destruct (zj <? 1); [discriminate|].
  apply list_elem_of_lookup_2.
Qed.

Lemma config_ok_group s i g :
  config_ok s -> groupConfig (config s) !! i = Some g -> group_ok g = true.
Proof.
  intros (_ & _ & Hall) Hg. rewrite Forall_forall in Hall. apply Hall.
  apply list_elem_of_lookup. eauto.
Qed.

(** the body of the commit loop, for the group number [g] *)
Definition commit_one (g : Z) (j : Z) : M unit :=
  m <- gets multi ;;
  z <- rd (m_serie m) j ;;
  cfg <- gets config ;;
  grp <- rd (groupConfig cfg) (g - 1) ;;
  ser' <- wr (g_serie grp) j (uint16 (bID_zIndex z + 1)) ;;
  gc' <- wr (groupConfig cfg) (g - 1) (with_g_serie ser' grp) ;;
  modify (set_config (set_groupConfig gc' cfg)).

(** the state with the zone numbers [ser] in the group [i] *)
Definition put_serie (i : nat) (ser : list Z) (grp : Grupo_parm) (s : State)
  : State :=
  set_config
    (set_groupConfig (<[i := with_g_serie ser grp]> (groupConfig (config s)))
                     (config s)) s.

Lemma put_serie_same i grp s :
  groupConfig (config s) !! i = Some grp -> put_serie i (g_serie grp) grp s = s.
Proof.
  intros Hg. unfold put_serie.
  replace (with_g_serie (g_serie grp) grp) with grp by (by destruct grp).
  rewrite list_insert_id by exact Hg.
  destruct s as [? ? ? ? ? ? ? ? ? ? ? ? ? ? ? ? ? ? ? ? ? ? ? ? c ? ? ? ? ? ? ?].
  by destruct c.
Qed.

Lemma put_serie_twice i ser ser1 grp s :
  put_serie i ser (with_g_serie ser1 grp) (put_serie i ser1 grp s)
  = put_serie i ser grp s.
Proof.
  unfold put_serie. simpl. rewrite list_insert_insert_eq. reflexivity.
Qed.

(** the commit loop writes the zone numbers of multi.serie[k .. k+n-1] into
    the group, and nothing else *)
Lemma commit_serie i n : forall k s grp,
  groupConfig (config s) !! i = Some grp ->
  length (g_serie grp) = 16%nat -> length (m_serie (multi s)) = 16%nat ->
  (k + n <= 16)%nat ->
  exists ser,
    forM (map Z.of_nat (seq k n)) (commit_one (Z.of_nat i + 1)) s
    = Some (tt, put_serie i ser grp s)
    /\ length ser = 16%nat
    /\ (forall j z, (k <= j < k + n)%nat -> m_serie (multi s) !! j = Some z ->
          ser !! j = Some (uint16 (bID_zIndex z + 1)))
    /\ (forall j, ~ (k <= j < k + n)%nat -> ser !! j = g_serie grp !! j).
Proof.
  induction n as [|n IH]; intros k s grp Hg Hlen Hm Hk.
  - exists (g_serie grp). split; [|split; [exact Hlen|split]].
    + simpl. by rewrite forM_nil, put_serie_same.
    + intros j z Hj. lia.
    + reflexivity.
  - destruct (lookup_lt_is_Some_2 (m_serie (multi s)) k) as [z Hz]; [lia|].
    cbn [seq map]. rewrite forM_cons. unfold commit_one at 1. run.
    rewrite (bind_rd _ _ _ _ _ Hz). run.
    replace (Z.of_nat i + 1 - 1) with (Z.of_nat i) by lia.
    rewrite (bind_rd _ _ _ _ _ Hg). rewrite !bind_assoc.
    rewrite bind_wr by lia. rewrite !bind_assoc.
    rewrite bind_wr by (eapply lookup_lt_Some; exact Hg). run.
    set (ser1 := <[k := uint16 (bID_zIndex z + 1)]> (g_serie grp)).
    change (set_config _ s) with (put_serie i ser1 grp s).
    destruct (IH (S k) (put_serie i ser1 grp s) (with_g_serie ser1 grp))
      as (ser & Hrun & Hlen' & Hnew & Hold).
    { simpl. apply list_lookup_insert_eq. eapply lookup_lt_Some; exact Hg. }
    { simpl. unfold ser1. by rewrite length_insert. }
    { exact Hm. }
    { lia. }
    exists ser. split; [|split; [exact Hlen'|split]].
    + rewrite Hrun, put_serie_twice. reflexivity.
    + intros j z' Hj Hz'. destruct (decide (j = k)) as [->|Hne].
      * rewrite Hold by lia. simpl. unfold ser1.
        rewrite list_lookup_insert_eq by lia. congruence.
      * apply Hnew; [lia | exact Hz'].
    + intros j Hj. rewrite Hold by lia. simpl. unfold ser1.
      apply list_lookup_insert_ne. lia.
Qed.

(** the state after the commit of [w] zones with the zone numbers [ser] *)
Definition committed (i : nat) (g : Grupo_parm) (w : Z) (ser : list Z)
    (s : State) : State :=
  set_saveConfig true
    (set_config
       (set_groupConfig
          (<[i := mkGrupo (g_id g) w ser (g_desc g)]> (groupConfig (config s)))
          (config s)) s).

Lemma conf_commit_multi_eq s i g :
  m_size (multi s) = Some i -> groupConfig (config s) !! i = Some g ->
  _actualGrupo (configure s) = Z.of_nat i + 1 ->
  length (g_serie g) = 16%nat -> length (m_serie (multi s)) = 16%nat ->
  0 <= w_size (multi s) <= 16 ->
  exists ser t,
    conf_commit_multi s
    = Some (tt, says t (committed i g (w_size (multi s)) ser s))
    /\ length ser = 16%nat
    /\ (forall j z, (j < Z.to_nat (w_size (multi s)))%nat ->
          m_serie (multi s) !! j = Some z ->
          ser !! j = Some (uint16 (bID_zIndex z + 1))).
Proof.
  intros Hms Hg Hag Hlen Hm Hw. unfold conf_commit_multi. run.
  rewrite Hms. run. rewrite (bind_rd _ _ _ _ _ Hg). rewrite !bind_assoc.
  rewrite bind_wr by (eapply lookup_lt_Some; exact Hg). run.
  simpl. rewrite Hag.
  set (s1 := set_config _ s).
  destruct (commit_serie i (Z.to_nat (w_size (multi s))) 0 s1
              (with_g_size (w_size (multi s)) g))
    as (ser & Hrun & Hlen' & Hnew & _).
  { simpl. apply list_lookup_insert_eq. eapply lookup_lt_Some; exact Hg. }
  { exact Hlen. }
  { exact Hm. }
  { lia. }
  unfold upto.
  change (fun i0 : Z => _) with (commit_one (Z.of_nat i + 1)).
  rewrite (bind_Some _ _ _ _ _ Hrun). unfold bipOK. run.
  exists ser. eexists. split; [|split; [exact Hlen'|]].
  - unfold put_serie, committed, s1. simpl. rewrite list_insert_insert_eq.
    reflexivity.
  - intros j z Hj. apply Hnew. lia.
Qed.

Lemma zone_round z :
  z ∈ ZONAS ->
  zone_of (uint16 (bID_zIndex z + 1)) = Some z
  /\ 1 <= uint16 (bID_zIndex z + 1) <= Z.of_nat NUMZONAS.
Proof.
  intros Hz. apply list_elem_of_lookup in Hz as [n Hn].
  assert (Hn7 : (n < 7)%nat) by (apply lookup_lt_Some in Hn; exact Hn).
  do 7 (destruct n as [|n];
        [inversion Hn; subst; vm_compute; intuition congruence|]).
  lia.
Qed.

Lemma find_group_insert gs l i g g' id :
  l !! i = Some g -> g_id g' = g_id g ->
  find_group gs (<[i := g']> l) id = find_group gs l id.
Proof.
  intros Hg Hid. induction gs as [|k gs IH]; [reflexivity|].
  cbn [find_group]. destruct (decide (k = i)) as [->|Hne].
  - rewrite list_lookup_insert_eq by (eapply lookup_lt_Some; exact Hg).
    rewrite Hg, Hid. by rewrite IH.
  - rewrite list_lookup_insert_ne by congruence. by rewrite IH.
Qed.

(** a committed list of zone buttons makes a group that satisfies the
    invariant *)
Lemma committed_group_ok gid desc ser picked :
  length ser = 16%nat -> (length picked <= 16)%nat ->
  Forall (fun z => z ∈ ZONAS) picked ->
  take (length picked) ser = map (fun z => uint16 (bID_zIndex z + 1)) picked ->
  group_ok (mkGrupo gid (Z.of_nat (length picked)) ser desc) = true.
Proof.
  intros Hlen Hle Hz Htk. unfold group_ok. cbn [g_size g_serie].
  rewrite !andb_true_iff. split; [split|].
  - apply Z.leb_le. lia.
  - apply Nat.eqb_eq. exact Hlen.
  - rewrite Nat2Z.id. change (firstn ?n ?l) with (take n l). rewrite Htk.
    apply forallb_forall. intros zj Hin. apply in_map_iff in Hin as (z & <- & Hin).
    rewrite Forall_forall in Hz. apply list_elem_of_In in Hin.
    destruct (zone_round z (Hz z Hin)) as [_ [H1 H2]].
    apply andb_true_iff. split; apply Z.leb_le; lia.
Qed.

(** resolving the group after the commit gives back the committed zones *)
Lemma resolve_committed s cfg sel i g picked ser :
  Boton_keys s -> selector_of (Boton s) = sel ->
  length (m_serie (multi s)) = 16%nat ->
  config s
  = set_groupConfig
      (<[i := mkGrupo (g_id g) (Z.of_nat (length picked)) ser (g_desc g)]>
         (groupConfig cfg)) cfg ->
  length ser = 16%nat -> (length picked <= 16)%nat ->
  Forall (fun z => z ∈ ZONAS) picked ->
  take (length picked) ser = map (fun z => uint16 (bID_zIndex z + 1)) picked ->
  length (groupConfig cfg) = NUMGRUPOS ->
  Forall (fun g => group_ok g = true) (groupConfig cfg) ->
  groupConfig cfg !! i = Some g ->
  find_group (seq 0 NUMGRUPOS) (groupConfig cfg) sel = Some i ->
  exists s',
    (sel <- getMultiStatus ;; setMultibyId sel) s = Some (Z.of_nat i + 1, s')
    /\ multi_size s' = Some (Z.of_nat (length picked), s')
    /\ take (length picked) (m_serie (multi s')) = picked
    /\ config s' = config s.
Proof.
  intros Hk Hsel Hm Hcfg Hserl Hle Hz Htk Hn Hall Hg Hfg.
  set (g' := mkGrupo (g_id g) (Z.of_nat (length picked)) ser (g_desc g)) in *.
  assert (Hok : config_ok s).
  { unfold config_ok. rewrite Hcfg. cbn [groupConfig set_groupConfig].
    rewrite length_insert. split; [exact Hn|]. split; [exact Hm|].
    apply Forall_insert; [exact Hall|].
    by apply committed_group_ok. }
  rewrite (bind_Some _ _ _ _ _ (getMultiStatus_eq s Hk)), Hsel.
  pose proof (setMultibyId_loop_spec (seq 0 NUMGRUPOS) sel s Hok) as Hres.
  rewrite Hcfg in Hres. cbn [groupConfig set_groupConfig] in Hres.
  rewrite (find_group_insert _ _ i g g' sel Hg eq_refl), Hfg in Hres.
  destruct Hres as (g0 & s' & Hg0 & Hgid & Hrun & ser2 & -> & Hlen2 & Hnew & Hold).
  { apply Forall_forall. intros i' Hi'. apply elem_of_seq in Hi'. lia. }
  rewrite list_lookup_insert_eq in Hg0 by (eapply lookup_lt_Some; exact Hg).
  inversion Hg0; subst g0. clear Hg0.
  cbn [g_size g_serie g'] in Hnew.
  exists (set_multi (with_serie ser2 (point_at i (multi s))) s).
  split; [exact Hrun|]. split; [|split; [|reflexivity]].
  - set (s' := set_multi _ s).
    rewrite (multi_size_eq s' i g'); [reflexivity | reflexivity |].
    unfold s'. simpl. rewrite Hcfg. cbn [groupConfig set_groupConfig].
    apply list_lookup_insert_eq. eapply lookup_lt_Some; exact Hg.
  - simpl. apply list_eq. intros j.
    destruct (decide (j < length picked)%nat) as [Hj|Hj].
    + rewrite lookup_take_lt by exact Hj.
      destruct (lookup_lt_is_Some_2 picked j Hj) as [z Hzj].
      assert (Hsj : ser !! j = Some (uint16 (bID_zIndex z + 1))).
      { rewrite <- (lookup_take_lt ser (length picked) j Hj), Htk.
        by rewrite list_lookup_fmap, Hzj. }
      rewrite (Hnew j _) by (try exact Hsj; lia).
      rewrite Hzj. apply zone_round.
      rewrite Forall_forall in Hz. apply Hz.
      apply list_elem_of_lookup. eauto.
    + rewrite lookup_take_ge by lia. by rewrite lookup_ge_None_2 by lia.
Qed.

(** the state of the configuration sub-machine while the group [i] of the
    configuration [cfg] is being edited and the zones [picked] have been
    added, with the selector at [sel] *)
Definition editing (cfg : Config_parm) (sel : Z) (i : nat) (picked : list Z)
    (s : State) : Prop :=
  Boton_keys s /\ selector_of (Boton s) = sel /\ encoderSW s = false
  /\ config s = cfg /\ estado (Estado s) = CONFIGURANDO
  /\ _configuringTime (configure s) = false
  /\ _configuringIdx (configure s) = false
  /\ _configuringMulti (configure s) = true
  /\ _actualGrupo (configure s) = Z.of_nat i + 1
  /\ m_id (multi s) = Some i /\ m_size (multi s) = Some i
  /\ w_size (multi s) = Z.of_nat (length picked)
  /\ length (m_serie (multi s)) = 16%nat
  /\ take (length picked) (m_serie (multi s)) = picked
  /\ (length picked <= 16)%nat.

Section Editing.

Variable W : World.
Variable WEBSERVER : bool.

Abbreviation tick := (procesaEstadoConfigurando W WEBSERVER).

(** one more zone is added to the working copy *)
Lemma editing_add cfg sel i picked s z zid :
  editing cfg sel i picked s -> (length picked < 16)%nat ->
  ZONAS !! z = Some zid ->
  exists s', (press z ;; tick) s = Some (tt, s')
             /\ editing cfg sel i (picked ++ [zid]) s'.
Proof.
  intros (Hk & Hsel & Henc & Hcfg & Hest & Hct & Hci & Hcm & Hag & Hmi & Hms
          & Hw & Hlen & Htk & Hle) Hlt Hz.
  assert (Hz7 : (z < 7)%nat) by (apply lookup_lt_Some in Hz; exact Hz).
  destruct (Boton_keys_entry s z Hk) as [b Hb];
    [unfold NUM_S_BOTON; simpl; lia|].
  assert (Hb0 : exists b0, Boton_init !! z = Some b0 /\ b_id b0 = zid
                           /\ action (b_flags b0) = true
                           /\ find_id (map b_id Boton_init) zid 0 = Z.of_nat z
                           /\ (zid =? bMULTIRIEGO) = false
                           /\ (zid =? bPAUSE) = false
                           /\ (zid =? bSTOP) = false).
  { do 7 (destruct z as [|z];
          [inversion Hz; subst; eexists; repeat split; reflexivity|]). lia. }
  destruct Hb0 as (b0 & Hb0 & Hid0 & Hact0 & Hfind & Hn1 & Hn2 & Hn3).
  destruct (Boton_keys_lookup s z b b0 Hk Hb Hb0) as [Hid Hact].
  rewrite (bind_Some _ _ _ _ _ (press_eq z b s Hb)).
  set (bp := pressed b).
  set (s1 := set_boton _ _).
  assert (Hk1 : Boton_keys s1).
  { apply (Boton_keys_insert s z b bp Hk Hb). reflexivity. }
  destruct (Boton_keys_entry s1 15 Hk1) as [b15 Hb15];
    [unfold NUM_S_BOTON; simpl; lia|].
  unfold procesaEstadoConfigurando.
  rewrite (bind_Some _ _ _ _ _ (set_holddisabled_PAUSE_eq true b15 s1 Hk1 Hb15)).
  set (s2 := set_Boton _ s1).
  assert (Hk2 : Boton_keys s2).
  { apply (Boton_keys_insert s1 15 b15 _ Hk1 Hb15). reflexivity. }
  assert (Hbz : Boton s2 !! z = Some bp).
  { unfold s2, s1. simpl. rewrite list_lookup_insert_ne by lia.
    apply list_lookup_insert_eq. eapply lookup_lt_Some; exact Hb. }
  run. change (boton s2) with (Some z). cbv beta iota.
  rewrite (bind_deref z bp) by exact Hbz.
  assert (Hactp : action (b_flags bp) = true) by (simpl; congruence).
  assert (Hidp : b_id bp = zid) by (simpl; congruence).
  rewrite Hactp, Hidp.
  rewrite (bind_bID_bIndex _ _ _ (Boton_keys_declared _ Hk2)), Hfind.
  rewrite Hn1, Hn2, Hn3.
  unfold conf_default. run. change (configure s2) with (configure s).
  rewrite Hcm.
  rewrite bind_when. run. change (multi s2) with (multi s).
  assert (Hw16 : (w_size (multi s) <? 16) = true).
  { apply Z.ltb_lt. lia. }
  rewrite Hw16, !bind_assoc.
  rewrite (bind_deref z bp) by exact Hbz. cbv beta.
  rewrite Hw, Hidp, !bind_assoc. rewrite bind_wr by lia. run.
  rewrite (bind_Boton_at z bp) by exact Hbz.
  run. unfold configuring. run. simpl.
  rewrite Hci, Hct, Hcm. simpl. run.
  eexists. split; [reflexivity|].
  assert (Hst : same_table (Boton s) (Boton s2)).
  { unfold s2, s1. simpl.
    eapply same_table_trans.
    - apply (same_table_insert (Boton s) z b bp Hb); [reflexivity | lia | lia].
    - apply (same_table_insert _ 15 b15 (with_holddisabled true b15) Hb15);
        [reflexivity | lia | lia]. }
  unfold editing. simpl.
  repeat split; try assumption.
  - rewrite <- Hsel. by apply selector_same.
  - rewrite Hw, length_app. simpl. lia.
  - by rewrite length_insert.
  - rewrite length_app. simpl.
    replace (length picked + 1)%nat with (S (length picked)) by lia.
    rewrite (take_S_r _ _ zid) by (apply list_lookup_insert_eq; lia).
    rewrite take_insert_ge by lia. by rewrite Htk.
  - rewrite length_app. simpl. lia.
Qed.

(** the press of MULTIRIEGO in the configuration mode, with nothing being
    edited and the encoder button up, opens the group of the selector *)
Lemma editing_start s i :
  Boton_keys s -> config_ok s -> encoderSW s = false ->
  estado (Estado s) = CONFIGURANDO ->
  _configuringTime (configure s) = false ->
  _configuringIdx (configure s) = false ->
  _configuringMulti (configure s) = false ->
  find_group (seq 0 NUMGRUPOS) (groupConfig (config s))
             (selector_of (Boton s)) = Some i ->
  exists s', (press 11 ;; tick) s = Some (tt, s')
             /\ editing (config s) (selector_of (Boton s)) i [] s'.
Proof.
  intros Hk Hok Henc Hest Hct Hci Hcm Hfg.
  destruct (Boton_keys_entry s 11 Hk) as [b Hb];
    [unfold NUM_S_BOTON; simpl; lia|].
  destruct (Boton_keys_lookup s 11 b _ Hk Hb eq_refl) as [Hid Hact].
  simpl in Hid, Hact.
  rewrite (bind_Some _ _ _ _ _ (press_eq 11 b s Hb)).
  set (bp := pressed b).
  set (s1 := set_boton _ _).
  assert (Hk1 : Boton_keys s1).
  { apply (Boton_keys_insert s 11 b bp Hk Hb). reflexivity. }
  destruct (Boton_keys_entry s1 15 Hk1) as [b15 Hb15];
    [unfold NUM_S_BOTON; simpl; lia|].
  unfold procesaEstadoConfigurando.
  rewrite (bind_Some _ _ _ _ _ (set_holddisabled_PAUSE_eq true b15 s1 Hk1 Hb15)).
  set (s2 := set_Boton _ s1).
  assert (Hk2 : Boton_keys s2).
  { apply (Boton_keys_insert s1 15 b15 _ Hk1 Hb15). reflexivity. }
  assert (Hbz : Boton s2 !! 11%nat = Some bp).
  { unfold s2, s1. simpl. rewrite list_lookup_insert_ne by lia.
    apply list_lookup_insert_eq. eapply lookup_lt_Some; exact Hb. }
  assert (Hst : same_table (Boton s) (Boton s2)).
  { unfold s2, s1. simpl.
    eapply same_table_trans.
    - apply (same_table_insert (Boton s) 11 b bp Hb); [reflexivity | lia | lia].
    - apply (same_table_insert _ 15 b15 (with_holddisabled true b15) Hb15);
        [reflexivity | lia | lia]. }
  run. change (boton s2) with (Some 11%nat). cbv beta iota.
  rewrite (bind_deref 11 bp) by exact Hbz.
  assert (Hactp : action (b_flags bp) = true) by (simpl; congruence).
  assert (Hidp : b_id bp = bMULTIRIEGO) by (simpl; congruence).
  rewrite Hactp, Hidp.
  rewrite (bind_bID_bIndex _ _ _ (Boton_keys_declared _ Hk2)).
  change (bMULTIRIEGO =? bMULTIRIEGO) with true. cbv beta iota.
  unfold conf_MULTIRIEGO, configuring. run.
  change (configure s2) with (configure s). rewrite Hci, Hct, Hcm.
  cbv beta iota. cbn [orb].
  rewrite (bind_Some _ _ _ _ _ (getMultiStatus_eq s2 Hk2)).
  rewrite (selector_same _ _ Hst).
  set (sel := selector_of (Boton s)) in *.
  assert (Hok2 : config_ok s2) by exact Hok.
  pose proof (setMultibyId_loop_spec (seq 0 NUMGRUPOS) sel s2 Hok2) as Hres.
  change (config s2) with (config s) in Hres. rewrite Hfg in Hres.
  destruct Hres as (g & s3 & Hg & Hgid & Hrun & ser & -> & Hlen & Hnew & Hold).
  { apply Forall_forall. intros i' Hi'. apply elem_of_seq in Hi'. lia. }
  unfold setMultibyId. rewrite (bind_Some _ _ _ _ _ Hrun). run.
  change (encoderSW _) with (encoderSW s). rewrite Henc. cbv beta iota.
  unfold configureMulti. run.
  match goal with |- context [bind displayGrupo _ ?st] => set (s4 := st) end.
  assert (Hgok : group_ok g = true) by exact (config_ok_group s i g Hok Hg).
  destruct (displayGrupo_says s4 i g) as (t1 & Ht1); try reflexivity.
  { exact Hk2. }
  { exact Hg. }
  { rewrite Hgid. apply selector_cases. }
  { intros j Hj. destruct (group_ok_entries g j Hgok Hj) as (zj & z & Hzj & Hz).
    exists z. split; [|exact (zone_of_in_ZONAS _ _ Hz)].
    unfold s4. simpl. rewrite (Hnew j zj Hj Hzj). exact Hz. }
  rewrite (bind_Some _ _ _ _ _ Ht1). run.
  match goal with |- context [bind multi_id _ ?st] =>
    rewrite (bind_Some _ _ _ _ _ (multi_id_eq st i g eq_refl Hg)) end.
  destruct (group_id_index (g_id g)) as (n & b0 & Hfind & Hn).
  { rewrite Hgid. apply selector_cases. }
  unfold led_of.
  match goal with |- context [bind (bID_bIndex _) _ ?st] =>
    rewrite (bind_bID_bIndex _ _ st (Boton_keys_declared s2 Hk2)), Hfind;
    destruct (Boton_keys_entry s2 n Hk2) as [bg Hbg];
      [apply lookup_lt_Some in Hn; exact Hn|];
    rewrite (bind_Boton_at n bg) by exact Hbg end.
  rewrite led_says. run.
  eexists. split; [reflexivity|].
  unfold editing. simpl. repeat split; try assumption; try lia.
  by apply selector_same.
Qed.

(** the press of PAUSE while a group is being edited, with at least one
    zone picked, commits the working copy to the configuration *)
Lemma editing_commit cfg sel i picked s g :
  editing cfg sel i picked s -> (1 <= length picked)%nat ->
  groupConfig cfg !! i = Some g -> length (g_serie g) = 16%nat ->
  g_id g = bGRUPO1 \/ g_id g = bGRUPO2 \/ g_id g = bGRUPO3 ->
  exists s' ser,
    (press 15 ;; tick) s = Some (tt, s')
    /\ Boton_keys s' /\ selector_of (Boton s') = sel
    /\ length (m_serie (multi s')) = 16%nat
    /\ saveConfig s' = true
    /\ config s'
       = set_groupConfig
           (<[i := mkGrupo (g_id g) (Z.of_nat (length picked)) ser (g_desc g)]>
              (groupConfig cfg)) cfg
    /\ length ser = 16%nat
    /\ take (length picked) ser
       = map (fun z => uint16 (bID_zIndex z + 1)) picked.
Proof.
  intros (Hk & Hsel & Henc & Hcfg & Hest & Hct & Hci & Hcm & Hag & Hmi & Hms
          & Hw & Hlen & Htk & Hle) Hpos Hg Hgl Hgid.
  destruct (Boton_keys_entry s 15 Hk) as [b Hb];
    [unfold NUM_S_BOTON; simpl; lia|].
  destruct (Boton_keys_lookup s 15 b _ Hk Hb eq_refl) as [Hid Hact].
  simpl in Hid, Hact.
  rewrite (bind_Some _ _ _ _ _ (press_eq 15 b s Hb)).
  set (bp := pressed b).
  set (s1 := set_boton _ _).
  assert (Hk1 : Boton_keys s1).
  { apply (Boton_keys_insert s 15 b bp Hk Hb). reflexivity. }
  assert (Hb1 : Boton s1 !! 15%nat = Some bp).
  { unfold s1. simpl. apply list_lookup_insert_eq.
    eapply lookup_lt_Some; exact Hb. }
  unfold procesaEstadoConfigurando.
  rewrite (bind_Some _ _ _ _ _ (set_holddisabled_PAUSE_eq true bp s1 Hk1 Hb1)).
  set (bq := with_holddisabled true bp).
  set (s2 := set_Boton _ s1).
  assert (Hk2 : Boton_keys s2).
  { apply (Boton_keys_insert s1 15 bp _ Hk1 Hb1). reflexivity. }
  assert (Hb2 : Boton s2 !! 15%nat = Some bq).
  { unfold s2. simpl. apply list_lookup_insert_eq.
    eapply lookup_lt_Some; exact Hb1. }
  assert (Hst : same_table (Boton s) (Boton s2)).
  { unfold s2, s1. simpl.
    eapply same_table_trans.
    - apply (same_table_insert (Boton s) 15 b bp Hb); [reflexivity | lia | lia].
    - apply (same_table_insert _ 15 bp bq);
        [apply list_lookup_insert_eq; eapply lookup_lt_Some; exact Hb
        | reflexivity | lia | lia]. }
  run. change (boton s2) with (Some 15%nat). cbv beta iota.
  rewrite (bind_deref 15 bq) by exact Hb2.
  assert (Hactq : action (b_flags bq) = true) by (simpl; congruence).
  assert (Hidq : b_id bq = bPAUSE) by (simpl; congruence).
  assert (Hestq : b_estado bq = bPAUSE) by (simpl; congruence).
  rewrite Hactq, Hidq.
  rewrite (bind_bID_bIndex _ _ _ (Boton_keys_declared _ Hk2)).
  change (bPAUSE =? bMULTIRIEGO) with false.
  change (bPAUSE =? bPAUSE) with true. cbv beta iota.
  unfold conf_PAUSE. rewrite Hestq. change (bPAUSE =? 0) with false.
  cbv beta iota. unfold configuring. run.
  change (configure s2) with (configure s). rewrite Hci, Hct, Hcm.
  cbv beta iota. cbn [orb negb]. run.
  change (multi s2) with (multi s).
  assert (Hw0 : (w_size (multi s) =? 0) = false).
  { apply Z.eqb_neq. lia. }
  rewrite bind_when, Hw0. cbn [negb].
  assert (Hg2 : groupConfig (config s2) !! i = Some g).
  { change (config s2) with (config s). by rewrite Hcfg. }
  destruct (conf_commit_multi_eq s2 i g Hms Hg2 Hag Hgl Hlen)
    as (ser & t & Hrun & Hserl & Hser); [change (multi s2) with (multi s); lia|].
  rewrite (bind_Some _ _ _ _ _ Hrun).
  change (multi s2) with (multi s) in *. rewrite Hw in *.
  set (s3 := committed _ _ _ _ _).
  unfold ultimosRiegos_HIDE. rewrite !bind_assoc.
  assert (Hne : estado (Estado (says t s3)) <> ERROR).
  { change (estado (Estado (says t s3))) with (estado (Estado s)).
    rewrite Hest. discriminate. }
  rewrite (bind_Some _ _ _ _ _ (StaticTimeUpdate_says (says t s3) Hne)).
  run.
  match goal with |- context [bind (forM ZONAS ?body) _ (says ?u ?st)] =>
    destruct (forM_quiet ZONAS body st) with (t := u) as (u2 & Hu2) end.
  { intros z Hz u.
    destruct (zone_id_index z Hz) as (nz & bz & Hfz & Hnz & _).
    apply (led_of_says z OFF _ nz bz); [exact Hk2 | exact Hfz | exact Hnz]. }
  rewrite (bind_Some _ _ _ _ _ Hu2). rewrite says_app.
  match goal with |- context [bind multi_id _ ?st] =>
    rewrite (bind_Some _ _ _ _ _
      (multi_id_eq st i (mkGrupo (g_id g) (Z.of_nat (length picked)) ser
                                 (g_desc g)) Hmi
         (list_lookup_insert_eq _ _ _ (lookup_lt_Some _ _ _ Hg2)))) end.
  cbn [g_id].
  destruct (group_id_index (g_id g) Hgid) as (n & b0 & Hfind & Hn).
  match goal with |- context [bind (led_of _ _) _ ?st] =>
    destruct (led_of_says (g_id g) OFF st n b0 Hk2 Hfind Hn) as (u3 & Hu3) end.
  rewrite (bind_Some _ _ _ _ _ Hu3). rewrite says_app.
  unfold Configure_stop. run.
  eexists. exists ser. split; [reflexivity|].
  split; [exact Hk2|]. split; [rewrite <- Hsel; by apply selector_same|].
  split; [exact Hlen|]. split; [reflexivity|].
  split; [simpl; by rewrite Hcfg|]. split; [exact Hserl|].
  apply list_eq. intros j. rewrite list_lookup_fmap.
  destruct (decide (j < length picked)%nat) as [Hj|Hj].
  - rewrite lookup_take_lt by exact Hj.
    destruct (lookup_lt_is_Some_2 picked j Hj) as [z Hz]. rewrite Hz. simpl.
    apply Hser; [lia|]. rewrite <- Htk in Hz.
    rewrite lookup_take_lt in Hz by exact Hj. exact Hz.
  - rewrite lookup_take_ge by lia. rewrite lookup_ge_None_2 by lia.
    reflexivity.
Qed.

(** the zone buttons [zs], pressed one after the other, are added to the
    working copy in that order *)
Lemma editing_adds cfg sel i zs : forall ids picked s,
  Forall2 (fun z id => ZONAS !! z = Some id) zs ids ->
  editing cfg sel i picked s -> (length picked + length ids <= 16)%nat ->
  exists s', forM zs (fun z => press z ;; tick) s = Some (tt, s')
             /\ editing cfg sel i (picked ++ ids) s'.
Proof.
  induction zs as [|z zs IH]; intros ids picked s Hzs He Hle.
  - apply Forall2_nil_inv_l in Hzs as ->. exists s.
    rewrite forM_nil, app_nil_r. auto.
  - apply Forall2_cons_inv_l in Hzs as (id & ids' & Hz & Hzs & ->).
    simpl in Hle.
    destruct (editing_add cfg sel i picked s z id He) as (s1 & Hrun & He1);
      [lia | exact Hz |].
    rewrite forM_cons, (bind_Some _ _ _ _ _ Hrun).
    destruct (IH ids' (picked ++ [id]) s1 Hzs He1) as (s' & Hrun' & He');
      [rewrite length_app; simpl; lia|].
    exists s'. split; [exact Hrun'|]. by rewrite <- app_assoc in He'.
Qed.

(** an editing session in the configuration mode: MULTIRIEGO opens the group
    of the selector, the zone buttons [zs] are pressed in order, PAUSE
    commits *)
Definition edit_session (zs : list nat) : M unit :=
  press 11 ;; procesaEstadoConfigurando W WEBSERVER ;;
  forM zs (fun z => press z ;; procesaEstadoConfigurando W WEBSERVER) ;;
  press 15 ;; procesaEstadoConfigurando W WEBSERVER.

(** resolving the group of the selector, as every caller does *)
Definition resolve : M Z := sel <- getMultiStatus ;; setMultibyId sel.

(** C8.  In the configuration mode with nothing being edited, the encoder
    button up and a configuration that satisfies the invariant of its
    groups, let the selector stand on the group [i].  An editing session
    that picks between 1 and 16 zone buttons [ids] and commits writes
    their number and their zone numbers, in order, into group [i] of the
    configuration and asks for the configuration to be saved; resolving
    the group afterwards returns the ordinal of the same group, with the
    size of the list and exactly the picked buttons, in order, in
    multi.serie. *)
Theorem group_edit_round_trip (s : State) (i : nat) (zs : list nat)
    (ids : list Z) :
  Boton_keys s -> config_ok s -> encoderSW s = false ->
  estado (Estado s) = CONFIGURANDO ->
  _configuringTime (configure s) = false ->
  _configuringIdx (configure s) = false ->
  _configuringMulti (configure s) = false ->
  find_group (seq 0 NUMGRUPOS) (groupConfig (config s))
             (selector_of (Boton s)) = Some i ->
  Forall2 (fun z id => ZONAS !! z = Some id) zs ids ->
  (1 <= length ids <= 16)%nat ->
  exists s1 s2 g,
    edit_session zs s = Some (tt, s1)
    /\ saveConfig s1 = true
    /\ groupConfig (config s1) !! i = Some g
    /\ g_size g = Z.of_nat (length ids)
    /\ take (length ids) (g_serie g)
       = map (fun id => uint16 (bID_zIndex id + 1)) ids
    /\ resolve s1 = Some (Z.of_nat i + 1, s2)
    /\ multi_size s2 = Some (Z.of_nat (length ids), s2)
    /\ take (length ids) (m_serie (multi s2)) = ids.
Proof.
  intros Hk Hok Henc Hest Hct Hci Hcm Hfg Hzs Hlen.
  pose proof Hok as (Hn & Hm & Hall).
  assert (Hg : exists g, groupConfig (config s) !! i = Some g
                         /\ g_id g = selector_of (Boton s)).
  { pose proof (setMultibyId_loop_spec (seq 0 NUMGRUPOS)
                  (selector_of (Boton s)) s Hok) as Hres.
    rewrite Hfg in Hres. destruct Hres as (g & _ & Hg & Hgid & _); [|eauto].
    apply Forall_forall. intros i' Hi'. apply elem_of_seq in Hi'. lia. }
  destruct Hg as (g & Hg & Hgid).
  assert (Hgok : group_ok g = true) by exact (config_ok_group s i g Hok Hg).
  assert (Hgl : length (g_serie g) = 16%nat).
  { unfold group_ok in Hgok. rewrite !andb_true_iff in Hgok.
    destruct Hgok as [[_ Hl] _]. by apply Nat.eqb_eq in Hl. }
  assert (Hids : Forall (fun z => z ∈ ZONAS) ids).
  { clear -Hzs. induction Hzs as [|z id zs ids Hz _ IH]; constructor; [|exact IH].
    apply list_elem_of_lookup. eauto. }
  unfold edit_session.
  destruct (editing_start s i Hk Hok Henc Hest Hct Hci Hcm Hfg)
    as (sa & Hrun_a & Hea).
  rewrite <- bind_assoc, (bind_Some _ _ _ _ _ Hrun_a).
  destruct (editing_adds _ _ i zs ids [] sa Hzs Hea)
    as (sb & Hrun_b & Heb); [simpl; lia|].
  rewrite (bind_Some _ _ _ _ _ Hrun_b). simpl in Heb.
  destruct (editing_commit _ _ i ids sb g Heb)
    as (s1 & ser & Hrun_c & Hk1 & Hsel1 & Hm1 & Hsave & Hcfg1 & Hserl & Htk);
    [lia | exact Hg | exact Hgl | rewrite Hgid; apply selector_cases |].
  destruct (resolve_committed s1 (config s) (selector_of (Boton s)) i g ids ser
              Hk1 Hsel1 Hm1 Hcfg1 Hserl) as (s2 & Hres & Hsize & Hser2 & _);
    [lia | exact Hids | exact Htk | exact Hn | exact Hall | exact Hg | exact Hfg |].
  exists s1, s2,
    (mkGrupo (g_id g) (Z.of_nat (length ids)) ser (g_desc g)).
  split; [exact Hrun_c|]. split; [exact Hsave|]. split.
  { rewrite Hcfg1. cbn [groupConfig set_groupConfig].
    apply list_lookup_insert_eq. eapply lookup_lt_Some; exact Hg. }
  split; [reflexivity|]. split; [exact Htk|].
  split; [exact Hres|]. split; [exact Hsize | exact Hser2].
Qed.

End Editing.

(** ** The LED register *)

Lemma land_bit_testbit x n :
  0 <= n -> negb (Z.land x (Z.shiftl 1 n) =? 0) = Z.testbit x n.
Proof.
  intros Hn. rewrite Z.shiftl_1_l.
  destruct (Z.testbit x n) eqn:Hb.
  - apply negb_true_iff, Z.eqb_neq. intros H0.
    assert (Hc : Z.testbit (Z.land x (2 ^ n)) n = true).
    { rewrite Z.land_spec, Hb, Z.pow2_bits_true by lia. reflexivity. }
    rewrite H0, Z.bits_0 in Hc. discriminate.
  - apply negb_false_iff, Z.eqb_eq. apply Z.bits_inj'. intros k Hk.
    rewrite Z.land_spec, Z.bits_0, Z.pow2_bits_eqb by lia.
    destruct (Z.eqb_spec n k) as [->|]; [by rewrite Hb | by rewrite andb_false_r].
Qed.

Lemma shl1_small n : 0 <= n <= 30 -> HC595.shl1 n = Some (Z.shiftl 1 n).
Proof.
  intros H. unfold HC595.shl1.
  destruct (Z.leb_spec 0 n); [|lia]. destruct (Z.leb_spec n 30); [|lia].
  reflexivity.
Qed.

Lemma ledStatusId_testbit st id :
  1 <= id <= 31 -> HC595.ledStatusId st id = Some (Z.testbit st (id - 1)).
Proof.
  intros H. unfold HC595.ledStatusId. rewrite shl1_small by lia.
  rewrite land_bit_testbit by lia. reflexivity.
Qed.

(** the word led() leaves in ledStatus *)
Definition led_word (st id estado : Z) : Z :=
  if estado =? ON then uint16 (Z.lor st (Z.shiftl 1 (id - 1)))
  else uint16 (Z.land st (Z.lnot (Z.shiftl 1 (id - 1)))).

Lemma led_word_testbit st id estado k :
  1 <= id -> 0 <= k < 16 ->
  Z.testbit (led_word st id estado) k
  = if k =? id - 1 then (estado =? ON) else Z.testbit st k.
Proof.
  intros Hid Hk. unfold led_word, uint16.
  change 65536 with (2 ^ 16).
  destruct (estado =? ON).
  - rewrite Z.mod_pow2_bits_low by lia.
    rewrite Z.lor_spec, Z.shiftl_1_l, Z.pow2_bits_eqb by lia.
    rewrite (Z.eqb_sym (id - 1) k).
    destruct (k =? id - 1); [apply orb_true_r | apply orb_false_r].
  - rewrite Z.mod_pow2_bits_low by lia.
    rewrite Z.land_spec, Z.lnot_spec, Z.shiftl_1_l, Z.pow2_bits_eqb by lia.
    rewrite (Z.eqb_sym (id - 1) k).
    destruct (k =? id - 1); [apply andb_false_r | apply andb_true_r].
Qed.

Lemma led_word_range st id estado : 0 <= led_word st id estado < 65536.
Proof.
  unfold led_word, uint16. destruct (estado =? ON); apply Z.mod_pos_bound; lia.
Qed.

Lemma bytes_of_word w :
  0 <= w < 65536 ->
  uint8 (Z.shiftr (Z.land w 65280) 8) = w / 256
  /\ uint8 (Z.land w 255) = w mod 256.
Proof.
  intros Hw. split.
  - assert (H1 : Z.shiftr (Z.land w 65280) 8 = w / 256).
    { change 256 with (2 ^ 8). rewrite <- (Z.shiftr_div_pow2 w 8) by lia.
      apply Z.bits_inj'. intros k Hk.
      rewrite !Z.shiftr_spec, Z.land_spec by lia.
      change 65280 with (Z.shiftl (Z.ones 8) 8).
      rewrite Z.shiftl_spec by lia. replace (k + 8 - 8) with k by lia.
      rewrite Z.testbit_ones_nonneg by lia.
      destruct (Z.ltb_spec k 8); [apply andb_true_r|].
      rewrite andb_false_r. symmetry. apply Z.bits_above_log2; [lia|].
      destruct (Z.eq_dec w 0) as [->|Hne]; [simpl; lia|].
      apply Z.log2_lt_pow2; [lia|].
      apply Z.lt_le_trans with (2 ^ 16); [lia|].
      apply Z.pow_le_mono_r; lia. }
    rewrite H1. unfold uint8. apply Z.mod_small.
    split; [apply Z.div_pos; lia | apply Z.div_lt_upper_bound; lia].
  - change 255 with (Z.ones 8). rewrite Z.land_ones by lia.
    unfold uint8. change (2 ^ 8) with 256. apply Z.mod_small.
    apply Z.mod_pos_bound. lia.
Qed.

(** X1.  Led() sets or clears exactly the bit of its LED in ledStatus, which
    ledStatusId() reads back, leaves every other LED as it was, and shifts
    out the high byte of the new word twice and then the low byte. *)
Theorem led_reads_back (st id estado : Z) :
  0 <= st < 65536 -> 1 <= id <= 16 ->
  exists st' alto bajo,
    HC595.led st id estado = Some (st', [alto; alto; bajo])
    /\ 0 <= st' < 65536
    /\ HC595.ledStatusId st' id = Some (estado =? ON)
    /\ (forall j, 1 <= j <= 16 -> j <> id ->
          HC595.ledStatusId st' j = HC595.ledStatusId st j)
    /\ alto = st' / 256 /\ bajo = st' mod 256.
Proof.
  intros Hst Hid. unfold HC595.led.
  destruct (Z.eqb_spec id 0); [lia|].
  rewrite shl1_small by lia.
  fold (led_word st id estado).
  pose proof (led_word_range st id estado) as Hr.
  destruct (bytes_of_word _ Hr) as [Ha Hb].
  eexists _, _, _. split; [reflexivity|]. split; [exact Hr|].
  split; [|split; [|split; [exact Ha | exact Hb]]].
  - rewrite ledStatusId_testbit by lia.
    rewrite led_word_testbit by lia. by rewrite Z.eqb_refl.
  - intros j Hj Hne. rewrite !ledStatusId_testbit by lia.
    rewrite led_word_testbit by lia.
    destruct (Z.eqb_spec (j - 1) (id - 1)); [lia | reflexivity].
Qed.

Lemma word_eq_bits a b :
  0 <= a < 65536 -> 0 <= b < 65536 ->
  (forall k, 0 <= k < 16 -> Z.testbit a k = Z.testbit b k) -> a = b.
Proof.
  intros Ha Hb H. apply Z.bits_inj'. intros k Hk.
  destruct (Z.ltb_spec k 16); [apply H; lia|].
  assert (Hhigh : forall w, 0 <= w < 65536 -> Z.testbit w k = false).
  { intros w Hw. destruct (Z.eq_dec w 0) as [->|Hne]; [apply Z.bits_0|].
    apply Z.bits_above_log2; [lia|].
    apply Z.lt_le_trans with 16; [|lia].
    apply Z.log2_lt_pow2; [lia|]. change (2 ^ 16) with 65536. lia. }
  by rewrite !Hhigh.
Qed.

Lemma parpadeoLed_word st id :
  0 <= st < 65536 -> 1 <= id <= 16 ->
  exists out,
    HC595.parpadeoLed st id
    = Some (led_word st id (if Z.testbit st (id - 1) then 0 else 1), out).
Proof.
  intros Hst Hid. unfold HC595.parpadeoLed.
  rewrite ledStatusId_testbit by lia.
  unfold HC595.led. destruct (Z.eqb_spec id 0); [lia|].
  rewrite shl1_small by lia. eexists. reflexivity.
Qed.

(** X2.  A blink callback inverts the LED it blinks and no other, and a second
    call puts ledStatus back as it was. *)
Theorem parpadeoLed_toggles (st id : Z) :
  0 <= st < 65536 -> 1 <= id <= 16 ->
  exists st1 out1 out2,
    HC595.parpadeoLed st id = Some (st1, out1)
    /\ HC595.ledStatusId st1 id = negb <$> HC595.ledStatusId st id
    /\ (forall j, 1 <= j <= 16 -> j <> id ->
          HC595.ledStatusId st1 j = HC595.ledStatusId st j)
    /\ HC595.parpadeoLed st1 id = Some (st, out2).
Proof.
  intros Hst Hid.
  destruct (parpadeoLed_word st id Hst Hid) as (out1 & H1).
  set (st1 := led_word st id (if Z.testbit st (id - 1) then 0 else 1)) in *.
  assert (Hr1 : 0 <= st1 < 65536) by apply led_word_range.
  assert (Hbit : forall k, 0 <= k < 16 ->
            Z.testbit st1 k
            = if k =? id - 1 then negb (Z.testbit st k) else Z.testbit st k).
  { intros k Hk. unfold st1. rewrite led_word_testbit by lia.
    destruct (Z.eqb_spec k (id - 1)) as [->|]; [|reflexivity].
    by destruct (Z.testbit st (id - 1)). }
  destruct (parpadeoLed_word st1 id Hr1 Hid) as (out2 & H2).
  exists st1, out1, out2. split; [exact H1|]. split; [|split].
  - rewrite !ledStatusId_testbit by lia. simpl.
    rewrite Hbit by lia. by rewrite Z.eqb_refl.
  - intros j Hj Hne. rewrite !ledStatusId_testbit by lia.
    rewrite Hbit by lia. destruct (Z.eqb_spec (j - 1) (id - 1)); [lia|reflexivity].
  - rewrite H2. do 2 f_equal.
    apply word_eq_bits; [apply led_word_range | exact Hst |].
    intros k Hk. rewrite led_word_testbit by lia.
    rewrite (Hbit (id - 1)) by lia. rewrite Z.eqb_refl.
    destruct (Z.eqb_spec k (id - 1)) as [->|].
    + by destruct (Z.testbit st (id - 1)).
    + rewrite Hbit by lia. destruct (Z.eqb_spec k (id - 1)); [lia|reflexivity].
Qed.

(** ** The input register *)

Lemma shift_loop_testbit dr n : forall k acc j,
  0 <= j ->
  Z.testbit (CD4021B.shift_loop dr k n acc) j
  = Z.testbit acc j
    || ((j <? Z.of_nat n) && dr (k + (n - 1 - Z.to_nat j))%nat).
Proof.
  induction n as [|n IH]; intros k acc j Hj.
  - cbn [CD4021B.shift_loop]. change (Z.of_nat 0) with 0.
    destruct (Z.ltb_spec j 0); [lia|]. by destruct (Z.testbit acc j).
  - cbn [CD4021B.shift_loop]. rewrite IH by lia.
    assert (Hacc : Z.testbit (if dr k then Z.lor acc (Z.shiftl 1 (Z.of_nat n))
                              else acc) j
                   = Z.testbit acc j || (dr k && (j =? Z.of_nat n))).
    { destruct (dr k); [|by rewrite orb_false_r].
      rewrite Z.lor_spec, Z.shiftl_1_l, Z.pow2_bits_eqb by lia.
      by rewrite (Z.eqb_sym (Z.of_nat n) j). }
    rewrite Hacc.
    destruct (Z.ltb_spec j (Z.of_nat n)); destruct (Z.ltb_spec j (Z.of_nat (S n)));
      try lia.
    + destruct (Z.eqb_spec j (Z.of_nat n)); [lia|].
      replace (S k + (n - 1 - Z.to_nat j))%nat
        with (k + (S n - 1 - Z.to_nat j))%nat by lia.
      by destruct (dr k), (Z.testbit acc j), (dr _).
    + assert (j = Z.of_nat n) as -> by lia. rewrite Z.eqb_refl.
      replace (k + (S n - 1 - Z.to_nat (Z.of_nat n)))%nat with k by lia.
      by destruct (dr k), (Z.testbit acc (Z.of_nat n)).
    + destruct (Z.eqb_spec j (Z.of_nat n)); [lia|].
      by destruct (dr k), (Z.testbit acc j).
Qed.

Lemma shiftIn_testbit dr k j :
  0 <= j ->
  Z.testbit (CD4021B.shiftInCD4021B dr k) j
  = (j <? 8) && dr (k + (7 - Z.to_nat j))%nat.
Proof.
  intros Hj. unfold CD4021B.shiftInCD4021B, uint8. change 256 with (2 ^ 8).
  rewrite Z.testbit_mod_pow2 by lia.
  rewrite shift_loop_testbit by lia. rewrite Z.bits_0.
  change (Z.of_nat 8) with 8. change (8 - 1 - Z.to_nat j)%nat
    with (7 - Z.to_nat j)%nat.
  destruct (j <? 8); reflexivity.
Qed.

(** X3.  ReadInputs() returns a 16-bit word whose most significant bit is the
    first bit the register gives and whose least significant bit is the
    sixteenth; testButton() with a one-bit id compares that bit of the
    register with the state asked for. *)
Theorem readInputs_bit_order (digitalRead : nat -> bool) :
  0 <= CD4021B.readInputs digitalRead < 65536
  /\ (forall n, (n < 16)%nat ->
        Z.testbit (CD4021B.readInputs digitalRead) (15 - Z.of_nat n)
        = digitalRead n)
  /\ (forall n state, (n < 16)%nat ->
        CD4021B.testButton digitalRead (Z.shiftl 1 (15 - Z.of_nat n)) state
        = Bool.eqb (digitalRead n) state).
Proof.
  assert (Hbits : forall n, (n < 16)%nat ->
            Z.testbit (CD4021B.readInputs digitalRead) (15 - Z.of_nat n)
            = digitalRead n).
  { intros n Hn. unfold CD4021B.readInputs, uint16. change 65536 with (2 ^ 16).
    rewrite Z.testbit_mod_pow2 by lia.
    destruct (Z.ltb_spec (15 - Z.of_nat n) 16); [|lia]. cbn [andb].
    rewrite Z.lor_spec, shiftIn_testbit by lia.
    destruct (Z.ltb_spec (15 - Z.of_nat n) 8) as [Hlow|Hhigh].
    - rewrite Z.shiftl_spec_low by lia. rewrite orb_false_r. simpl.
      f_equal. lia.
    - rewrite Z.shiftl_spec by lia. rewrite shiftIn_testbit by lia.
      destruct (Z.ltb_spec (15 - Z.of_nat n - 8) 8); [|lia]. simpl.
      f_equal. lia. }
  split; [|split; [exact Hbits|]].
  - unfold CD4021B.readInputs, uint16. apply Z.mod_pos_bound. lia.
  - intros n state Hn. unfold CD4021B.testButton.
    rewrite land_bit_testbit by lia. by rewrite Hbits.
Qed.

(** ** The index functions *)

Lemma find_id_first l id : forall k,
  (find_id l id k = 999 /\ id ∉ l)
  \/ exists i, l !! i = Some id /\ find_id l id k = k + Z.of_nat i
               /\ forall q, (q < i)%nat -> l !! q <> Some id.
Proof.
  induction l as [|x l IH]; intros k; simpl.
  - left. split; [reflexivity | apply not_elem_of_nil].
  - destruct (Z.eqb_spec x id) as [->|Hx].
    + right. exists 0%nat. split; [reflexivity|]. split; [lia|]. intros q Hq. lia.
    + destruct (IH (k + 1)) as [[H1 H2] | (i & H1 & H2 & H3)].
      * left. split; [exact H1|]. rewrite elem_of_cons. intros [?|?]; congruence.
      * right. exists (S i). split; [exact H1|]. split; [lia|].
        intros [|q] Hq; simpl; [congruence | apply H3; lia].
Qed.

(** X4.  BID_bIndex returns the index of the first button of the table with
    the id asked for, and 999 when no button has it; when the ids of the
    table are distinct it gives back the index of the button whose id it is
    given. *)
Theorem bID_bIndex_first (id : Z) (s : State) :
  length (Boton s) = NUM_S_BOTON ->
  (exists i, bID_bIndex id s = Some (i, s)
     /\ ((i = 999 /\ forall b, b ∈ Boton s -> b_id b <> id)
         \/ exists p b, i = Z.of_nat p /\ Boton s !! p = Some b /\ b_id b = id
              /\ forall q b', (q < p)%nat -> Boton s !! q = Some b' ->
                              b_id b' <> id))
  /\ (NoDup (map b_id (Boton s)) ->
      forall p b, Boton s !! p = Some b ->
                  bID_bIndex (b_id b) s = Some (Z.of_nat p, s)).
Proof.
  intros Hlen.
  assert (Hrun : forall x,
            bID_bIndex x s = Some (find_id (map b_id (Boton s)) x 0, s)).
  { intros x. unfold bID_bIndex. run. rewrite Hlen, Nat.ltb_irrefl.
    by rewrite <- Hlen, firstn_all. }
  split.
  - exists (find_id (map b_id (Boton s)) id 0). split; [apply Hrun|].
    destruct (find_id_first (map b_id (Boton s)) id 0)
      as [[H1 H2] | (i & H1 & H2 & H3)].
    + left. split; [exact H1|]. intros b Hb Hid. apply H2.
      rewrite <- Hid. apply list_elem_of_fmap. eauto.
    + right. rewrite list_lookup_fmap in H1.
      destruct (Boton s !! i) as [b|] eqn:Hb; [|discriminate].
      exists i, b. rewrite H2. split; [lia|]. split; [exact Hb|].
      split; [by inversion H1|].
      intros q b' Hq Hb' Hid. apply (H3 q Hq).
      by rewrite list_lookup_fmap, Hb', <- Hid.
  - intros Hnd p b Hb. rewrite Hrun. do 2 f_equal.
    rewrite (find_id_lookup _ Hnd p (b_id b) 0); [lia|].
    by rewrite list_lookup_fmap, Hb.
Qed.

Lemma ZONAS_NoDup : NoDup ZONAS.
Proof. apply (bool_decide_unpack _). vm_compute. exact I. Qed.

(** X5.  BID_zIndex is the inverse of the table ZONAS: it gives 999 exactly
    for the ids that are not zone buttons, and otherwise the position of
    the id in ZONAS. *)
Theorem bID_zIndex_inverse (id : Z) :
  (bID_zIndex id = 999 <-> id ∉ ZONAS)
  /\ (forall i, ZONAS !! i = Some id <->
                ((i < NUMZONAS)%nat /\ bID_zIndex id = Z.of_nat i)).
Proof.
  assert (Hlt : forall i x, ZONAS !! i = Some x -> (i < NUMZONAS)%nat).
  { intros i x H. apply lookup_lt_Some in H. exact H. }
  split.
  - split.
    + intros H Hin. apply list_elem_of_lookup in Hin as [i Hi].
      unfold bID_zIndex in H.
      rewrite (find_id_lookup _ ZONAS_NoDup i id 0 Hi) in H.
      apply Hlt in Hi. unfold NUMZONAS in Hi. simpl in Hi. lia.
    + intros Hnot. unfold bID_zIndex.
      destruct (find_id_cases ZONAS id 0) as [[H _] | (i & Hi & _)];
        [exact H|].
      exfalso. apply Hnot. apply list_elem_of_lookup. eauto.
  - intros i. split.
    + intros Hi. split; [by apply (Hlt i id)|]. unfold bID_zIndex.
      rewrite (find_id_lookup _ ZONAS_NoDup i id 0 Hi). lia.
    + intros [Hi Hf]. unfold bID_zIndex in Hf.
      destruct (find_id_cases ZONAS id 0) as [[H _] | (p & Hp & Hfp)].
      * unfold NUMZONAS in Hi. simpl in Hi. lia.
      * assert (p = i) as <- by lia. exact Hp.
Qed.

(** ** The scan of the buttons *)

Lemma parseInputs_loop_cons i rest read inputs s :
  parseInputs_loop (i :: rest) read inputs s
  = (l <- gets Boton ;;
     b <- rd l i ;;
     if negb (enabled (b_flags b)) then parseInputs_loop rest read inputs
     else
       let est := Z.land inputs (b_id b) in
       l1 <- wr l i (with_estado est b) ;;
       modify (set_Boton l1) ;;
       if negb (est =? b_ultimo_estado b)
          || (negb (est =? 0) && hold (b_flags b)
              && negb (holddisabled (b_flags b)))
       then
         l2 <- wr l1 i (with_ultimo_estado est (with_estado est b)) ;;
         modify (set_Boton l2) ;;
         if (negb (est =? 0) || dual (b_flags b)) && read
         then ret (Some (Z.to_nat i))
         else parseInputs_loop rest read inputs
       else parseInputs_loop rest read inputs) s.
Proof. reflexivity. Qed.

(** what parseInputs never touches in a button *)
Definition fixed_part (b : S_BOTON) : Z * Z * S_bFLAGS * string * Z :=
  (b_id b, b_led b, b_flags b, b_desc b, b_idx b).

(** the stored state of an enabled button is the one of the inputs, and it
    has been seen *)
Definition settled_button (inputs : Z) (b : S_BOTON) : Prop :=
  enabled (b_flags b) = true ->
  b_estado b = Z.land inputs (b_id b) /\ b_ultimo_estado b = b_estado b.

(** the button is enabled and down, with its hold flag in force *)
Definition held (inputs : Z) (b : S_BOTON) : bool :=
  enabled (b_flags b) && negb (Z.land inputs (b_id b) =? 0)
  && hold (b_flags b) && negb (holddisabled (b_flags b)).

Lemma set_Boton_same s : set_Boton (Boton s) s = s.
Proof. by destruct s. Qed.

Lemma set_Boton_twice l l' s : set_Boton l (set_Boton l' s) = set_Boton l s.
Proof. reflexivity. Qed.

Lemma with_estado_same b : with_estado (b_estado b) b = b.
Proof. by destruct b. Qed.

(** the scan of the buttons [k .. k+n-1] *)
Lemma parseInputs_loop_scan read inputs n : forall k s,
  (k + n <= length (Boton s))%nat ->
  exists r l',
    parseInputs_loop (map Z.of_nat (seq k n)) read inputs s
    = Some (r, set_Boton l' s)
    /\ map fixed_part l' = map fixed_part (Boton s)
    /\ (forall j, (j < k)%nat -> l' !! j = Boton s !! j)
    /\ (forall j, (default (k + n)%nat r <= j)%nat ->
          j <> default (k + n)%nat r -> l' !! j = Boton s !! j)
    /\ (forall j b, (k <= j)%nat ->
          (j < default (k + n)%nat r)%nat \/ Some j = r ->
          l' !! j = Some b -> settled_button inputs b)
    /\ (forall i, r = Some i ->
          read = true /\ (k <= i < k + n)%nat
          /\ exists b, l' !! i = Some b /\ enabled (b_flags b) = true
               /\ (b_estado b <> 0 \/ dual (b_flags b) = true))
    /\ (read = false -> r = None).
Proof.
  induction n as [|n IH]; intros k s Hlen.
  - exists None, (Boton s). simpl. rewrite set_Boton_same.
    split; [reflexivity|]. split; [reflexivity|].
    split; [reflexivity|]. split; [reflexivity|].
    split; [intros j b Hj [Hlt|Hs]; [lia | discriminate]|].
    split; [discriminate | reflexivity].
  - destruct (lookup_lt_is_Some_2 (Boton s) k) as [b Hb]; [lia|].
    cbn [seq map]. rewrite parseInputs_loop_cons. run.
    rewrite (bind_rd _ _ _ _ _ Hb).
    destruct (enabled (b_flags b)) eqn:Hen; cbn [negb].
    2:{ destruct (IH (S k) s) as (r & l' & Hrun & Hfix & Hlow & Hhigh & Hset & Hres & Hrd);
          [lia|].
        exists r, l'. split; [exact Hrun|]. split; [exact Hfix|].
        split; [intros j Hj; apply Hlow; lia|].
        split; [intros j Hj Hne; apply Hhigh;
                 [replace (S k + n)%nat with (k + S n)%nat by lia; exact Hj
                 |replace (S k + n)%nat with (k + S n)%nat by lia; exact Hne]|].
        split.
        { intros j bj Hj Hcase Hbj. destruct (decide (j = k)) as [->|Hne].
          - rewrite Hlow in Hbj by lia. rewrite Hb in Hbj. inversion Hbj; subst bj.
            intros Habs. congruence.
          - apply (Hset j bj); [lia | | exact Hbj].
            replace (S k + n)%nat with (k + S n)%nat by lia. exact Hcase. }
        split; [|exact Hrd].
        intros i Hi. destruct (Hres i Hi) as (H1 & H2 & H3).
        split; [exact H1|]. split; [lia | exact H3]. }
    cbv zeta. set (est := Z.land inputs (b_id b)).
    rewrite bind_wr by (eapply lookup_lt_Some; exact Hb). run.
    set (b1 := with_estado est b).
    set (l1 := <[k := b1]> (Boton s)).
    assert (Hl1 : l1 !! k = Some b1).
    { apply list_lookup_insert_eq. eapply lookup_lt_Some; exact Hb. }
    assert (Hfix1 : map fixed_part l1 = map fixed_part (Boton s)).
    { unfold l1. rewrite list_fmap_insert. apply list_insert_id.
      by rewrite list_lookup_fmap, Hb. }
    assert (Hlen1 : length l1 = length (Boton s)) by apply length_insert.
    destruct (negb (est =? b_ultimo_estado b)
              || (negb (est =? 0) && hold (b_flags b)
                  && negb (holddisabled (b_flags b)))) eqn:Hcond.
    + rewrite bind_wr by (rewrite Hlen1; eapply lookup_lt_Some; exact Hb). run.
      set (b2 := with_ultimo_estado est b1).
      set (l2 := <[k := b2]> l1).
      assert (Hl2 : l2 !! k = Some b2).
      { apply list_lookup_insert_eq. rewrite Hlen1.
        eapply lookup_lt_Some; exact Hb. }
      assert (Hfix2 : map fixed_part l2 = map fixed_part (Boton s)).
      { unfold l2. rewrite list_fmap_insert.
        change (fixed_part <$> l1) with (map fixed_part l1).
        rewrite Hfix1. apply list_insert_id.
        by rewrite list_lookup_fmap, Hb. }
      assert (Hoth2 : forall j, j <> k -> l2 !! j = Boton s !! j).
      { intros j Hne. unfold l2, l1.
        by rewrite !list_lookup_insert_ne by congruence. }
      assert (Hset2 : settled_button inputs b2) by (intros _; split; reflexivity).
      destruct ((negb (est =? 0) || dual (b_flags b)) && read) eqn:Hret.
      * apply andb_true_iff in Hret as [Hdown ->].
        exists (Some k), l2. rewrite Nat2Z.id, set_Boton_twice.
        split; [reflexivity|]. split; [exact Hfix2|].
        split; [intros j Hj; apply Hoth2; lia|].
        split; [intros j Hj Hne; apply Hoth2; exact Hne|].
        split.
        { intros j bj Hj [Hlt|Heq] Hbj; simpl in *; [lia|].
          inversion Heq; subst j. rewrite Hl2 in Hbj. by inversion Hbj. }
        split; [|discriminate].
        intros i Hi. inversion Hi; subst i. split; [reflexivity|].
        split; [lia|]. exists b2. split; [exact Hl2|]. split; [exact Hen|].
        apply orb_true_iff in Hdown as [Hd|Hd]; [left | right; exact Hd].
        simpl. apply negb_true_iff, Z.eqb_neq in Hd. exact Hd.
      * rewrite set_Boton_twice.
        destruct (IH (S k) (set_Boton l2 s))
          as (r & l' & Hrun & Hfix & Hlow & Hhigh & Hset & Hres & Hrd).
        { simpl. unfold l2. rewrite length_insert, Hlen1. lia. }
        simpl in Hrun, Hfix, Hlow, Hhigh.
        exists r, l'. rewrite Hrun, set_Boton_twice.
        split; [reflexivity|]. split; [by rewrite Hfix|].
        split; [intros j Hj; rewrite Hlow by lia; apply Hoth2; lia|].
        split.
        { intros j Hj Hne.
          replace (k + S n)%nat with (S k + n)%nat in * by lia.
          rewrite Hhigh by assumption. apply Hoth2.
          destruct r as [i|]; simpl in *.
          - destruct (Hres i eq_refl) as (_ & Hi & _). lia.
          - lia. }
        split.
        { intros j bj Hj Hcase Hbj. destruct (decide (j = k)) as [->|Hne].
          - rewrite Hlow in Hbj by lia. rewrite Hl2 in Hbj. by inversion Hbj.
          - apply (Hset j bj); [lia | | exact Hbj].
            replace (S k + n)%nat with (k + S n)%nat by lia. exact Hcase. }
        split; [|exact Hrd].
        intros i Hi. destruct (Hres i Hi) as (H1 & H2 & H3).
        split; [exact H1|]. split; [lia | exact H3].
    + apply orb_false_iff in Hcond as [Hsame _].
      apply negb_false_iff, Z.eqb_eq in Hsame.
      assert (Hoth1 : forall j, j <> k -> l1 !! j = Boton s !! j).
      { intros j Hne. unfold l1. by rewrite list_lookup_insert_ne by congruence. }
      assert (Hset1 : settled_button inputs b1).
      { intros _. split; [reflexivity | simpl; congruence]. }
      destruct (IH (S k) (set_Boton l1 s))
        as (r & l' & Hrun & Hfix & Hlow & Hhigh & Hset & Hres & Hrd).
      { simpl. rewrite Hlen1. lia. }
      simpl in Hrun, Hfix, Hlow, Hhigh.
      exists r, l'. rewrite Hrun, set_Boton_twice.
      split; [reflexivity|]. split; [by rewrite Hfix|].
      split; [intros j Hj; rewrite Hlow by lia; apply Hoth1; lia|].
      split.
      { intros j Hj Hne.
        replace (k + S n)%nat with (S k + n)%nat in * by lia.
        rewrite Hhigh by assumption. apply Hoth1.
        destruct r as [i|]; simpl in *.
        - destruct (Hres i eq_refl) as (_ & Hi & _). lia.
        - lia. }
      split.
      { intros j bj Hj Hcase Hbj. destruct (decide (j = k)) as [->|Hne].
        - rewrite Hlow in Hbj by lia. rewrite Hl1 in Hbj. by inversion Hbj.
        - apply (Hset j bj); [lia | | exact Hbj].
          replace (S k + n)%nat with (k + S n)%nat by lia. exact Hcase. }
      split; [|exact Hrd].
      intros i Hi. destruct (Hres i Hi) as (H1 & H2 & H3).
      split; [exact H1|]. split; [lia | exact H3].
Qed.

Lemma with_ultimo_estado_same b :
  with_ultimo_estado (b_ultimo_estado b) b = b.
Proof. by destruct b. Qed.

(** a button whose stored state is already the one of the inputs, and that
    is not held, is passed over *)
Lemma parseInputs_loop_quiet read inputs n : forall k rest s,
  (forall j, (k <= j < k + n)%nat ->
     exists b, Boton s !! j = Some b /\ settled_button inputs b
               /\ held inputs b = false) ->
  parseInputs_loop (map Z.of_nat (seq k n) ++ rest) read inputs s
  = parseInputs_loop rest read inputs s.
Proof.
  induction n as [|n IH]; intros k rest s Hq; [reflexivity|].
  destruct (Hq k) as (b & Hb & Hset & Hheld); [lia|].
  cbn [seq map app]. rewrite parseInputs_loop_cons. run.
  rewrite (bind_rd _ _ _ _ _ Hb).
  destruct (enabled (b_flags b)) eqn:Hen; cbn [negb].
  2:{ apply IH. intros j Hj. apply Hq. lia. }
  destruct (Hset Hen) as [Hest Hult]. cbv zeta.
  rewrite <- Hest, with_estado_same.
  rewrite bind_wr by (eapply lookup_lt_Some; exact Hb). run.
  rewrite list_insert_id by exact Hb. rewrite set_Boton_same.
  unfold held in Hheld. rewrite Hen, <- Hest in Hheld. cbn [andb] in Hheld.
  rewrite Hult, Z.eqb_refl. cbn [negb orb]. rewrite Hheld.
  apply IH. intros j Hj. apply Hq. lia.
Qed.

(** X6.  A scan of the buttons changes nothing of a button but its stored state
    and last state; a scan that does not report (CLEAR) never returns a
    button; a button that is returned is an enabled button of the table
    whose stored state is the one of the inputs, and that is down or is a
    dual button; the buttons after it have not been looked at. *)
Theorem parseInputs_scan_result (read : bool) (inputs : Z) (s : State) :
  length (Boton s) = NUM_S_BOTON ->
  exists r l',
    parseInputs_loop (upto (Z.of_nat NUM_S_BOTON)) read inputs s
    = Some (r, set_Boton l' s)
    /\ map fixed_part l' = map fixed_part (Boton s)
    /\ (read = false -> r = None)
    /\ (forall i, r = Some i ->
          (i < NUM_S_BOTON)%nat
          /\ (exists b, l' !! i = Some b /\ enabled (b_flags b) = true
                /\ b_estado b = Z.land inputs (b_id b)
                /\ b_ultimo_estado b = b_estado b
                /\ (b_estado b <> 0 \/ dual (b_flags b) = true))
          /\ forall j, (i < j)%nat -> l' !! j = Boton s !! j).
Proof.
  intros Hlen. unfold upto. rewrite Nat2Z.id.
  destruct (parseInputs_loop_scan read inputs NUM_S_BOTON 0 s)
    as (r & l' & Hrun & Hfix & _ & Hhigh & Hset & Hres & Hrd); [lia|].
  exists r, l'. split; [exact Hrun|]. split; [exact Hfix|].
  split; [exact Hrd|].
  intros i Hi. subst r. destruct (Hres i eq_refl) as (_ & Hlt & b & Hb & Hen & Hdown).
  split; [lia|]. split.
  - exists b. split; [exact Hb|]. split; [exact Hen|].
    destruct (Hset i b) as [H1 H2]; [lia | by right | exact Hb | exact Hen |].
    auto.
  - intros j Hj. apply Hhigh; simpl; lia.
Qed.

(** X7.  After a scan that does not report (CLEAR), as setup makes, the stored
    state of every enabled button is the one of the inputs and has been
    seen; a later scan of the same inputs then returns no button and changes
    nothing, as long as no button is held down with its hold flag in
    force. *)
Theorem parseInputs_CLEAR_settles (inputs : Z) (s : State) :
  length (Boton s) = NUM_S_BOTON ->
  exists s1,
    parseInputs_loop (upto (Z.of_nat NUM_S_BOTON)) false inputs s
    = Some (None, s1)
    /\ Forall (settled_button inputs) (Boton s1)
    /\ ((forall b, b ∈ Boton s1 -> held inputs b = false) ->
        forall read,
          parseInputs_loop (upto (Z.of_nat NUM_S_BOTON)) read inputs s1
          = Some (None, s1)).
Proof.
  intros Hlen. unfold upto. rewrite Nat2Z.id.
  destruct (parseInputs_loop_scan false inputs NUM_S_BOTON 0 s)
    as (r & l' & Hrun & Hfix & _ & _ & Hset & _ & Hrd); [lia|].
  rewrite (Hrd eq_refl) in *. simpl in Hset.
  assert (Hlen' : length l' = NUM_S_BOTON).
  { rewrite <- Hlen, <- (length_map fixed_part l'), Hfix. apply length_map. }
  exists (set_Boton l' s). split; [exact Hrun|].
  assert (Hall : Forall (settled_button inputs) l').
  { apply Forall_lookup. intros j b Hb. apply (Hset j b); [lia | | exact Hb].
    left. apply lookup_lt_Some in Hb. lia. }
  split; [exact Hall|].
  intros Hno read.
  rewrite <- (app_nil_r (map Z.of_nat (seq 0 NUM_S_BOTON))).
  rewrite parseInputs_loop_quiet; [reflexivity|].
  intros j Hj. simpl.
  destruct (lookup_lt_is_Some_2 l' j) as [b Hb]; [lia|].
  exists b. split; [exact Hb|]. split.
  - rewrite Forall_lookup in Hall. by apply (Hall j).
  - apply Hno. simpl. apply list_elem_of_lookup. eauto.
Qed.

Lemma upto_split (N i : nat) :
  (i < N)%nat ->
  upto (Z.of_nat N)
  = map Z.of_nat (seq 0 i) ++ Z.of_nat i :: map Z.of_nat (seq (S i) (N - S i)).
Proof.
  intros Hi. unfold upto. rewrite Nat2Z.id.
  replace N with (i + S (N - S i))%nat at 1 by lia.
  rewrite seq_app, map_app. reflexivity.
Qed.

(** X8.  When a button comes down while the buttons before it in the table are
    at rest, the scan reports that button: its stored state and last state
    become its id, nothing else changes, and the pointer returned is the
    one to that button. *)
Theorem parseInputs_reports_press (i : nat) (b : S_BOTON) (inputs : Z)
    (s : State) :
  length (Boton s) = NUM_S_BOTON -> Boton s !! i = Some b ->
  enabled (b_flags b) = true ->
  Z.land inputs (b_id b) = b_id b -> b_id b <> 0 -> b_ultimo_estado b = 0 ->
  (forall j bj, (j < i)%nat -> Boton s !! j = Some bj ->
                settled_button inputs bj /\ held inputs bj = false) ->
  (p <- parseInputs_loop (upto (Z.of_nat NUM_S_BOTON)) true inputs ;;
   modify (set_boton p)) s
  = press i s.
Proof.
  intros Hlen Hb Hen Hdown Hid Hup Hq.
  assert (Hi : (i < NUM_S_BOTON)%nat).
  { rewrite <- Hlen. eapply lookup_lt_Some; exact Hb. }
  rewrite (press_eq i b s Hb).
  rewrite (upto_split _ _ Hi).
  unfold bind at 1. rewrite parseInputs_loop_quiet.
  2:{ intros j Hj. destruct (lookup_lt_is_Some_2 (Boton s) j) as [bj Hbj]; [lia|].
      exists bj. split; [exact Hbj|]. apply (Hq j bj); [lia | exact Hbj]. }
  rewrite parseInputs_loop_cons. run.
  rewrite (bind_rd _ _ _ _ _ Hb). rewrite Hen. cbn [negb]. cbv zeta.
  rewrite Hdown, Hup.
  rewrite bind_wr by (eapply lookup_lt_Some; exact Hb). run.
  destruct (Z.eqb_spec (b_id b) 0) as [|_]; [contradiction|]. cbn [negb orb andb].
  rewrite bind_wr
    by (rewrite length_insert; eapply lookup_lt_Some; exact Hb).
  run. rewrite list_insert_insert_eq, Nat2Z.id. reflexivity.
Qed.

(** X9.  A button that stays down with its hold flag in force is reported again
    by every scan, and the scan changes nothing. *)
Theorem parseInputs_hold_repeats (i : nat) (b : S_BOTON) (inputs : Z)
    (s : State) :
  length (Boton s) = NUM_S_BOTON -> Boton s !! i = Some b ->
  settled_button inputs b -> held inputs b = true ->
  (forall j bj, (j < i)%nat -> Boton s !! j = Some bj ->
                settled_button inputs bj /\ held inputs bj = false) ->
  parseInputs_loop (upto (Z.of_nat NUM_S_BOTON)) true inputs s
  = Some (Some i, s).
Proof.
  intros Hlen Hb Hset Hheld Hq.
  assert (Hi : (i < NUM_S_BOTON)%nat).
  { rewrite <- Hlen. eapply lookup_lt_Some; exact Hb. }
  unfold held in Hheld. rewrite !andb_true_iff in Hheld.
  destruct Hheld as [[[Hen Hd] Hh] Hhd].
  destruct (Hset Hen) as [Hest Hult].
  rewrite (upto_split _ _ Hi). rewrite parseInputs_loop_quiet.
  2:{ intros j Hj. destruct (lookup_lt_is_Some_2 (Boton s) j) as [bj Hbj]; [lia|].
      exists bj. split; [exact Hbj|]. apply (Hq j bj); [lia | exact Hbj]. }
  rewrite parseInputs_loop_cons. run.
  rewrite (bind_rd _ _ _ _ _ Hb). rewrite Hen. cbn [negb]. cbv zeta.
  rewrite <- Hest, with_estado_same.
  rewrite bind_wr by (eapply lookup_lt_Some; exact Hb). run.
  rewrite list_insert_id by exact Hb. rewrite set_Boton_same.
  rewrite <- Hest in Hd. rewrite Hd, Hh, Hhd. rewrite orb_true_r.
  rewrite <- Hult at 1. rewrite with_ultimo_estado_same.
  rewrite bind_wr by (eapply lookup_lt_Some; exact Hb). run.
  rewrite list_insert_id by exact Hb. rewrite set_Boton_same.
  cbn [orb andb]. by rewrite Nat2Z.id.
Qed.


(** ** The encoder *)

Arguments procesaEncoder : simpl never.

Lemma StaticTimeUpdate_in_range s :
  0 <= minutes s <= 59 ->
  exists t, StaticTimeUpdate s = Some (tt, says t s)
            /\ (t = [] \/ t = [EvDisplayTime (minutes s) (seconds s)]).
Proof.
  intros Hm. unfold StaticTimeUpdate. run.
  destruct (estados_eqb (estado (Estado s)) ERROR).
  { exists []. rewrite says_nil. auto. }
  unfold when, MINMINUTES, MAXMINUTES. run.
  destruct (Z.ltb_spec (minutes s) 0); [lia|]. run.
  destruct (Z.ltb_spec 59 (minutes s)); [lia|]. run.
  eexists. split; [reflexivity | auto].
Qed.

(** the time is one the encoder can leave: between 0:05 and 59:59, with
    the seconds at 0 or at least 5, and with [value] the field the encoder
    edits *)
Definition time_ok (s : State) : Prop :=
  0 <= minutes s <= 59 /\ 0 <= seconds s <= 59
  /\ 5 <= 60 * minutes s + seconds s
  /\ (seconds s = 0 \/ 5 <= seconds s)
  /\ value s = (if seconds s =? 0 then minutes s else seconds s).

Section Encoder.

Variable W : World.

(** procesaEncoder from the reading of the encoder on *)
Definition encoder_time : M unit :=
  d <- ask EvEncoder (Encoder_getValue W) ;;
  modify (fun s => set_value (int32 (value s - d)) s) ;;
  s0 <- gets (fun s => s) ;;
  changed <-
    (if (seconds s0 =? 0) && (0 <? value s0) then
       when (MAXMINUTES <? value s0) (modify (set_value MAXMINUTES)) ;;
       v <- gets value ;;
       if negb (v =? minutes s0) then
         modify (set_minutes (uint8 v)) ;; ret true
       else ret false
     else if (value s0 <? 60) && (MINSECONDS <=? value s0) then
       if negb (value s0 =? seconds s0) then
         modify (set_seconds (uint8 (value s0))) ;; ret true
       else ret false
     else if 60 <=? value s0 then
       modify (set_minutes 1) ;; modify (set_value 1) ;;
       modify (set_seconds 0) ;; ret true
     else if minutes s0 =? 1 then
       modify (set_seconds 59) ;; modify (set_value 59) ;;
       modify (set_minutes 0) ;; ret true
     else
       modify (set_seconds MINSECONDS) ;; modify (set_value MINSECONDS) ;;
       modify (set_minutes 0) ;; ret true) ;;
  when changed
    (modify (set_reposo false) ;;
     StaticTimeUpdate ;;
     t <- ask EvMillis (millis W) ;;
     modify (set_standbyTime t)).

Lemma procesaEncoder_time_branch s :
  estados_eqb (estado (Estado s)) CONFIGURANDO
  && _configuringIdx (configure s) = false ->
  estados_eqb (estado (Estado s)) CONFIGURANDO
  && negb (_configuringTime (configure s)) = false ->
  procesaEncoder W s
  = (rp <- gets reposo ;; when (negb rp) StaticTimeUpdate ;; encoder_time) s.
Proof.
  intros H1 H2. unfold procesaEncoder.
  rewrite bind_gets, bind_gets. rewrite H1, H2. reflexivity.
Qed.

(** the end of procesaEncoder after a change of the time *)
Lemma encoder_wake s :
  0 <= minutes s <= 59 ->
  exists s',
    (modify (set_reposo false) ;;
     StaticTimeUpdate ;;
     t <- ask EvMillis (millis W) ;;
     modify (set_standbyTime t)) s = Some (tt, s')
    /\ minutes s' = minutes s /\ seconds s' = seconds s
    /\ value s' = value s /\ reposo s' = false.
Proof.
  intros Hm. run.
  destruct (StaticTimeUpdate_in_range (set_reposo false s) Hm) as (t & Ht & _).
  rewrite (bind_Some _ _ _ _ _ Ht). run.
  eexists. split; [reflexivity|]. repeat split.
Qed.

(** procesaEncoder after the encoder has been read into [value] *)
Definition encoder_apply : M unit :=
  s0 <- gets (fun s => s) ;;
  changed <-
    (if (seconds s0 =? 0) && (0 <? value s0) then
       when (MAXMINUTES <? value s0) (modify (set_value MAXMINUTES)) ;;
       v <- gets value ;;
       if negb (v =? minutes s0) then
         modify (set_minutes (uint8 v)) ;; ret true
       else ret false
     else if (value s0 <? 60) && (MINSECONDS <=? value s0) then
       if negb (value s0 =? seconds s0) then
         modify (set_seconds (uint8 (value s0))) ;; ret true
       else ret false
     else if 60 <=? value s0 then
       modify (set_minutes 1) ;; modify (set_value 1) ;;
       modify (set_seconds 0) ;; ret true
     else if minutes s0 =? 1 then
       modify (set_seconds 59) ;; modify (set_value 59) ;;
       modify (set_minutes 0) ;; ret true
     else
       modify (set_seconds MINSECONDS) ;; modify (set_value MINSECONDS) ;;
       modify (set_minutes 0) ;; ret true) ;;
  when changed
    (modify (set_reposo false) ;;
     StaticTimeUpdate ;;
     t <- ask EvMillis (millis W) ;;
     modify (set_standbyTime t)).

Lemma encoder_time_eq s :
  encoder_time s
  = encoder_apply
      (says [EvEncoder]
         (set_value (int32 (value s - Encoder_getValue W (trace s))) s)).
Proof. reflexivity. Qed.

Ltac wake_with s2 :=
  let s' := fresh "s'" in
  let Hrun := fresh "Hrun" in
  let Hmin := fresh "Hmin" in
  let Hsec := fresh "Hsec" in
  let Hval := fresh "Hval" in
  destruct (encoder_wake s2) as (s' & Hrun & Hmin & Hsec & Hval & _);
  [fields; try lia
  |exists s'; split; [exact Hrun|];
   unfold time_ok; rewrite Hmin, Hsec, Hval; fields].

Lemma encoder_apply_ok s :
  0 <= minutes s <= 59 ->
  exists s', encoder_apply s = Some (tt, s') /\ time_ok s'.
Proof.
  intros Hm. unfold encoder_apply. rewrite bind_gets.
  unfold MAXMINUTES, MINSECONDS.
  destruct (Z.eqb_spec (seconds s) 0) as [Hs0|Hs0];
  destruct (Z.ltb_spec 0 (value s)) as [Hv0|Hv0]; cbn [andb].
  - (* the minutes are edited *)
    rewrite !bind_assoc, bind_when.
    destruct (Z.ltb_spec 59 (value s)) as [Hv|Hv].
    + run. fields.
      destruct (Z.eqb_spec 59 (minutes s)) as [He|He]; cbn [negb].
      * run. cbn [when]. exists (set_value 59 s). split; [reflexivity|].
        unfold time_ok. fields. rewrite Hs0, <- He. simpl. lia.
      * run. cbn [when]. change (uint8 59) with 59.
        wake_with (set_minutes 59 (set_value 59 s)).
        rewrite Hs0. simpl. lia.
    + run. fields.
      destruct (Z.eqb_spec (value s) (minutes s)) as [He|He]; cbn [negb].
      * run. cbn [when]. exists s. split; [reflexivity|].
        unfold time_ok. rewrite Hs0. simpl. lia.
      * run. cbn [when].
        assert (Hu : uint8 (value s) = value s)
          by (unfold uint8; apply Z.mod_small; lia).
        rewrite Hu. wake_with (set_minutes (value s) s).
        rewrite Hs0. simpl. lia.
  - (* seconds at 0 and nothing to count up *)
    destruct (Z.ltb_spec (value s) 60) as [H60|H60];
    destruct (Z.leb_spec 5 (value s)) as [H5|H5]; cbn [andb]; try lia.
    destruct (Z.leb_spec 60 (value s)) as [?|_]; [lia|].
    destruct (Z.eqb_spec (minutes s) 1) as [H1|H1].
    + run. wake_with (set_minutes 0 (set_value 59 (set_seconds 59 s))). simpl. lia.
    + run. wake_with (set_minutes 0 (set_value 5 (set_seconds 5 s))). simpl. lia.
  - (* the seconds are edited *)
    destruct (Z.ltb_spec (value s) 60) as [H60|H60];
    destruct (Z.leb_spec 5 (value s)) as [H5|H5]; cbn [andb]; try lia.
    + destruct (Z.eqb_spec (value s) (seconds s)) as [He|He]; cbn [negb].
      * run. cbn [when]. exists s. split; [reflexivity|].
        unfold time_ok. destruct (Z.eqb_spec (seconds s) 0); [lia|]. lia.
      * run. cbn [when].
        assert (Hu : uint8 (value s) = value s)
          by (unfold uint8; apply Z.mod_small; lia).
        rewrite Hu. wake_with (set_seconds (value s) s).
        destruct (Z.eqb_spec (value s) 0); [lia|]. lia.
    + destruct (Z.leb_spec 60 (value s)) as [?|_]; [lia|].
      destruct (Z.eqb_spec (minutes s) 1) as [H1|H1].
      * run. wake_with (set_minutes 0 (set_value 59 (set_seconds 59 s))). simpl. lia.
      * run. wake_with (set_minutes 0 (set_value 5 (set_seconds 5 s))). simpl. lia.
    + destruct (Z.leb_spec 60 (value s)) as [_|?]; [|lia].
      run. wake_with (set_seconds 0 (set_value 1 (set_minutes 1 s))). simpl. lia.
  - destruct (Z.ltb_spec (value s) 60) as [H60|H60];
    destruct (Z.leb_spec 5 (value s)) as [H5|H5]; cbn [andb]; try lia.
    destruct (Z.leb_spec 60 (value s)) as [?|_]; [lia|].
    destruct (Z.eqb_spec (minutes s) 1) as [H1|H1].
    + run. wake_with (set_minutes 0 (set_value 59 (set_seconds 59 s))). simpl. lia.
    + run. wake_with (set_minutes 0 (set_value 5 (set_seconds 5 s))). simpl. lia.
Qed.

(** on a valid time, an encoder that has not moved changes nothing *)
Lemma encoder_apply_rest s : time_ok s -> encoder_apply s = Some (tt, s).
Proof.
  intros (Hm & Hs & Hd & Hs5 & Hv). unfold encoder_apply. rewrite bind_gets.
  unfold MAXMINUTES, MINSECONDS. rewrite Hv.
  destruct (Z.eqb_spec (seconds s) 0) as [Hs0|Hs0]; cbn [andb].
  - destruct (Z.ltb_spec 0 (minutes s)) as [_|?]; [|lia].
    rewrite !bind_assoc, bind_when.
    destruct (Z.ltb_spec 59 (minutes s)) as [?|_]; [lia|].
    run. rewrite Hv. destruct (Z.eqb_spec (seconds s) 0); [|contradiction].
    rewrite Z.eqb_refl. reflexivity.
  - destruct (Z.ltb_spec (seconds s) 60) as [_|?]; [|lia].
    destruct (Z.leb_spec 5 (seconds s)) as [_|?]; [|lia]. cbn [andb].
    rewrite Z.eqb_refl. reflexivity.
Qed.

(** outside the editing of an identifier and the idle configuration mode *)
Definition edits_time (s : State) : Prop :=
  estado (Estado s) = CONFIGURANDO ->
  _configuringIdx (configure s) = false
  /\ _configuringTime (configure s) = true.

Lemma set_value_same s : set_value (value s) s = s.
Proof. by destruct s. Qed.

(** on a valid time, with the encoder at rest, procesaEncoder changes no
    global *)
Lemma procesaEncoder_rest s :
  edits_time s -> time_ok s -> (forall t, Encoder_getValue W t = 0) ->
  exists t, procesaEncoder W s = Some (tt, says t s)
            /\ (t = [EvEncoder]
                \/ t = [EvDisplayTime (minutes s) (seconds s); EvEncoder]).
Proof.
  intros Hconf Htime Hrest. unfold edits_time in Hconf.
  rewrite procesaEncoder_time_branch.
  2:{ destruct (estado (Estado s)); try reflexivity.
      destruct Hconf as [-> _]; reflexivity. }
  2:{ destruct (estado (Estado s)); try reflexivity.
      destruct Hconf as [_ ->]; reflexivity. }
  rewrite bind_gets.
  assert (Hstu : exists t, when (negb (reposo s)) StaticTimeUpdate s
                           = Some (tt, says t s)
                   /\ (t = [] \/ t = [EvDisplayTime (minutes s) (seconds s)])).
  { destruct (reposo s); simpl.
    - exists []. rewrite says_nil. auto.
    - apply StaticTimeUpdate_in_range. apply Htime. }
  destruct Hstu as (t & Hstu & Ht).
  rewrite (bind_Some _ _ _ _ _ Hstu), encoder_time_eq.
  rewrite Hrest. fields. rewrite Z.sub_0_r.
  assert (Hv : int32 (value s) = value s).
  { destruct Htime as (Hm & Hs & _ & _ & Hv). unfold int32.
    rewrite Z.mod_small; [lia|].
    rewrite Hv. destruct (seconds s =? 0); lia. }
  rewrite Hv.
  replace (set_value (value s) (says t s)) with (says t s)
    by (symmetry; apply (set_value_same (says t s))).
  rewrite says_app.
  rewrite encoder_apply_rest; [|exact Htime].
  eexists. split; [reflexivity|]. destruct Ht as [-> | ->]; auto.
Qed.

Lemma clamp_minutes_range m : 0 <= clamp_minutes m <= 59.
Proof.
  unfold clamp_minutes, MINMINUTES, MAXMINUTES.
  destruct (Z.ltb_spec m 0); destruct (Z.ltb_spec 59 0);
    destruct (Z.ltb_spec 59 m); lia.
Qed.

(** X10.  Outside the editing of an identifier and the idle configuration mode,
    procesaEncoder leaves a valid time, whatever the encoder reports, when
    the minutes are between 0 and 59 on entry, or when the display is awake
    and the state is not ERROR (the minutes are then clamped first):
    minutes and seconds at most 59, the seconds at 0 or at least 5, a
    duration of at least 5 seconds, and [value] equal to the field being
    counted (the minutes when the seconds are 0, else the seconds).  On a
    valid time, an encoder that has not moved changes no global. *)
Theorem procesaEncoder_time (s : State) :
  edits_time s ->
  (0 <= minutes s <= 59
   \/ (reposo s = false /\ estado (Estado s) <> ERROR) ->
   exists s', procesaEncoder W s = Some (tt, s') /\ time_ok s')
  /\ (time_ok s -> (forall t, Encoder_getValue W t = 0) ->
      exists t, procesaEncoder W s = Some (tt, says t s)).
Proof.
  intros Hconf. split.
  2:{ intros Htime Hrest.
      destruct (procesaEncoder_rest s Hconf Htime Hrest) as (t & Ht & _).
      eauto. }
  intros Hm. unfold edits_time in Hconf.
  rewrite procesaEncoder_time_branch.
  2:{ destruct (estado (Estado s)); try reflexivity.
      destruct Hconf as [-> _]; reflexivity. }
  2:{ destruct (estado (Estado s)); try reflexivity.
      destruct Hconf as [_ ->]; reflexivity. }
  rewrite bind_gets.
  assert (Hstu : exists s1, when (negb (reposo s)) StaticTimeUpdate s
                            = Some (tt, s1)
                            /\ 0 <= minutes s1 <= 59).
  { destruct Hm as [Hm | [Hrp Hne]].
    - destruct (reposo s); simpl.
      + exists s. auto.
      + destruct (StaticTimeUpdate_in_range s Hm) as (t & Ht & _).
        exists (says t s). auto.
    - rewrite Hrp. cbn [negb when]. rewrite (StaticTimeUpdate_says s Hne).
      eexists. split; [reflexivity|]. apply clamp_minutes_range. }
  destruct Hstu as (s1 & Hstu & Hm1).
  rewrite (bind_Some _ _ _ _ _ Hstu), encoder_time_eq.
  apply encoder_apply_ok. exact Hm1.
Qed.

End Encoder.

Section EncoderConf.

Variable W : World.

(** the identifier the encoder leaves in [value]: what it was, less what
    the encoder reports, cut to 1000 above and set to 0 below 1 *)
Definition encoder_idx (s : State) : Z :=
  let v := int32 (value s - Encoder_getValue W (trace s)) in
  if 1000 <? v then 1000 else if v <? 1 then 0 else v.

(** X11.  In the configuration mode the encoder edits the identifier only while
    one is being edited: [value] becomes its old value less what the
    encoder reports, cut to 1000 above and set to 0 when it is below 1, and
    is shown; nothing else changes, the time included.  When neither an
    identifier nor the time is being edited the encoder is not even
    read. *)
Theorem procesaEncoder_configuring (s : State) :
  estado (Estado s) = CONFIGURANDO ->
  (_configuringIdx (configure s) = true ->
   procesaEncoder W s
   = Some (tt, says [EvEncoder; EvDisplayInt (encoder_idx s)]
                 (set_value (encoder_idx s) s))
   /\ 0 <= encoder_idx s <= 1000)
  /\ (_configuringIdx (configure s) = false ->
      _configuringTime (configure s) = false ->
      procesaEncoder W s = Some (tt, s)).
Proof.
  intros Hest. split.
  - intros Hidx. unfold procesaEncoder, encoder_idx. rewrite !bind_gets.
    rewrite Hest, Hidx. cbn [estados_eqb andb]. run.
    change (value (says [EvEncoder] s)) with (value s).
    set (v := int32 (value s - Encoder_getValue W (trace s))).
    change (value (says [EvEncoder] (set_value v s))) with v.
    destruct (Z.ltb_spec 1000 v) as [H1|H1].
    + change (value (says [EvEncoder] (set_value 1000 (set_value v s))))
        with 1000.
      destruct (Z.ltb_spec 1000 1) as [?|_]; [lia|].
      split; [|lia]. do 2 f_equal.
      by rewrite says_app.
    + change (value (says [EvEncoder] (set_value v s))) with v.
      destruct (Z.ltb_spec v 1) as [H2|H2].
      * split; [|lia]. do 2 f_equal.
        change (value (set_value 0 (says [EvEncoder] (set_value v s))))
          with 0.
        autorewrite with mrun. by rewrite ?says_app.
      * split; [|lia]. do 2 f_equal.
        change (value (says [EvEncoder] (set_value v s))) with v.
        by rewrite says_app.
  - intros Hidx Htime. unfold procesaEncoder. rewrite !bind_gets.
    rewrite Hest, Hidx, Htime. reflexivity.
Qed.

End EncoderConf.

(** ** The configuration mode, button by button *)

Arguments conf_STOP : simpl never.
Arguments resetLeds : simpl never.
Arguments ledConf : simpl never.
Arguments infoDisplay : simpl never.

(** a button as parseInputs leaves it when it finds it released *)
Definition released (b : S_BOTON) : S_BOTON :=
  with_ultimo_estado 0 (with_estado 0 b).

(** the event of the button [i], as parseInputs records it: the stored
    state of the button changes by [upd] and [boton] points to it *)
Definition touch (upd : S_BOTON -> S_BOTON) (i : nat) : M unit :=
  l <- gets Boton ;;
  b <- rd l (Z.of_nat i) ;;
  l' <- wr l (Z.of_nat i) (upd b) ;;
  modify (set_Boton l') ;;
  modify (set_boton (Some i)).

Lemma press_touch i : press i = touch pressed i.
Proof. reflexivity. Qed.

Lemma action_not_selector i b0 :
  Boton_init !! i = Some b0 -> action (b_flags b0) = true ->
  i <> 12%nat /\ i <> 14%nat.
Proof.
  intros Hi Hact. split; intros ->; inversion Hi; subst b0; discriminate.
Qed.

(** the zone [z] is the button [z] of the table, an action button *)
Lemma zone_entry z :
  (z < NUMZONAS)%nat ->
  exists b0, Boton_init !! z = Some b0 /\ ZONAS !! z = Some (b_id b0)
    /\ action (b_flags b0) = true
    /\ (b_id b0 =? bMULTIRIEGO) = false /\ (b_id b0 =? bPAUSE) = false
    /\ (b_id b0 =? bSTOP) = false
    /\ bID_zIndex (b_id b0) = Z.of_nat z /\ z <> 15%nat.
Proof.
  intros Hz.
  do 7 (destruct z as [|z]; [eexists; repeat split; try reflexivity; lia|]).
  unfold NUMZONAS in Hz. simpl in Hz. lia.
Qed.

Section Configuration.

Variable W : World.
Variable WEBSERVER : bool.

Abbreviation tick := (procesaEstadoConfigurando W WEBSERVER).

(** the switch of procesaEstadoConfigurando on the id of the button *)
Definition conf_case (id : Z) (b : S_BOTON) (i : nat) : M unit :=
  if id =? bMULTIRIEGO then conf_MULTIRIEGO W WEBSERVER
  else if id =? bPAUSE then conf_PAUSE b
  else if id =? bSTOP then conf_STOP W WEBSERVER b
  else conf_default (Some i) (Z.of_nat i).

(** an event of an action button in the configuration mode reaches the case
    of its id, with the hold of PAUSE disabled *)
Lemma tick_dispatch upd i b0 s :
  (forall b, key (upd b) = key b) ->
  Boton_keys s -> Boton_init !! i = Some b0 -> action (b_flags b0) = true ->
  exists bi b l2,
    Boton s !! i = Some bi
    /\ (touch upd i ;; tick) s
       = conf_case (b_id b0) b i (set_Boton l2 (set_boton (Some i) s))
    /\ map key l2 = map key Boton_init
    /\ same_table (Boton s) l2
    /\ l2 !! i = Some b
    /\ b_id b = b_id b0
    /\ b_estado b = b_estado (upd bi) /\ b_idx b = b_idx (upd bi)
    /\ b_led b = b_led (upd bi)
    /\ (forall j, j <> i -> j <> 15%nat -> l2 !! j = Boton s !! j).
Proof.
  intros Hupd Hk Hi0 Hact.
  assert (Hi : (i < NUM_S_BOTON)%nat) by (eapply lookup_lt_Some; exact Hi0).
  destruct (action_not_selector i b0 Hi0 Hact) as [H12 H14].
  destruct (Boton_keys_entry s i Hk Hi) as [bi Hbi].
  destruct (Boton_keys_lookup s i bi b0 Hk Hbi Hi0) as [Hid Hac].
  assert (Htouch : touch upd i s
            = Some (tt, set_boton (Some i)
                          (set_Boton (<[i := upd bi]> (Boton s)) s))).
  { unfold touch. run. rewrite (bind_rd _ _ _ _ _ Hbi).
    rewrite bind_wr by (eapply lookup_lt_Some; exact Hbi). reflexivity. }
  rewrite (bind_Some _ _ _ _ _ Htouch).
  set (s1 := set_boton _ _).
  assert (Hk1 : Boton_keys s1).
  { apply (Boton_keys_insert s i bi (upd bi) Hk Hbi). apply Hupd. }
  destruct (Boton_keys_entry s1 15 Hk1) as [b15 Hb15];
    [unfold NUM_S_BOTON; simpl; lia|].
  unfold procesaEstadoConfigurando.
  rewrite (bind_Some _ _ _ _ _ (set_holddisabled_PAUSE_eq true b15 s1 Hk1 Hb15)).
  set (l2 := <[15%nat := with_holddisabled true b15]> (Boton s1)).
  set (s2 := set_Boton l2 s1).
  assert (Hk2 : Boton_keys s2).
  { apply (Boton_keys_insert s1 15 b15 _ Hk1 Hb15). reflexivity. }
  assert (Hl1 : Boton s1 !! i = Some (upd bi)).
  { unfold s1. simpl. apply list_lookup_insert_eq.
    eapply lookup_lt_Some; exact Hbi. }
  assert (Hb2 : exists b, l2 !! i = Some b /\ key b = key (upd bi)
                  /\ b_estado b = b_estado (upd bi)
                  /\ b_idx b = b_idx (upd bi) /\ b_led b = b_led (upd bi)).
  { destruct (decide (i = 15%nat)) as [->|Hne].
    - exists (with_holddisabled true b15). unfold l2.
      rewrite list_lookup_insert_eq by (eapply lookup_lt_Some; exact Hb15).
      rewrite Hl1 in Hb15. inversion Hb15; subst b15. repeat split.
    - exists (upd bi). unfold l2.
      rewrite list_lookup_insert_ne by congruence. by rewrite Hl1. }
  destruct Hb2 as (b & Hb & Hkb & Hest & Hidx & Hled).
  assert (Hkey : key b = key b0).
  { rewrite Hkb, Hupd. unfold key. by rewrite Hid, Hac. }
  pose proof (f_equal fst Hkey) as Hbid. pose proof (f_equal snd Hkey) as Hbact.
  simpl in Hbid, Hbact.
  exists bi, b, l2. split; [exact Hbi|]. split.
  { run. change (boton s2) with (Some i). cbv beta iota.
    rewrite (bind_deref i b) by exact Hb. rewrite Hbact, Hact.
    rewrite (bind_bID_bIndex _ _ _ (Boton_keys_declared _ Hk2)).
    rewrite Hbid.
    replace (find_id (map b_id Boton_init) (b_id b0) 0) with (Z.of_nat i).
    2:{ rewrite (find_id_lookup _ Boton_ids_NoDup i (b_id b0) 0); [lia|].
        by rewrite list_lookup_fmap, Hi0. }
    reflexivity. }
  split; [exact Hk2|]. split.
  { unfold l2, s1. simpl. eapply same_table_trans.
    - apply (same_table_insert (Boton s) i bi (upd bi) Hbi);
        [apply Hupd | exact H12 | exact H14].
    - apply (same_table_insert _ 15 b15 (with_holddisabled true b15));
        [exact Hb15 | reflexivity | lia | lia]. }
  split; [exact Hb|]. split; [exact Hbid|].
  split; [exact Hest|]. split; [exact Hidx|]. split; [exact Hled|].
  intros j Hj H15. unfold l2, s1. simpl.
  by rewrite !list_lookup_insert_ne by congruence.
Qed.

Lemma pressed_key b : key (pressed b) = key b.
Proof. reflexivity. Qed.

Lemma Configure_stop_eq s :
  Configure_stop s
  = Some (tt, says (bip_events 1 ++ [EvDisplayPrint "ConF"])
                (set_configure
                   (mkConfigure false false false
                      (_actualIdxIndex (configure s))
                      (_actualGrupo (configure s))) s)).
Proof. unfold Configure_stop. run. reflexivity. Qed.

(** the configuration sub-machine is idle *)
Definition conf_idle (s : State) : Prop :=
  _configuringTime (configure s) = false
  /\ _configuringIdx (configure s) = false
  /\ _configuringMulti (configure s) = false.

(** X12.  In the configuration mode, a press of PAUSE when nothing is being
    edited opens the editing of the default time, and a press of PAUSE
    while the default time is edited stores the minutes and seconds of the
    moment in the configuration, leaves the rest of the configuration as it
    was, asks for the configuration to be saved and closes the editing. *)
Theorem conf_default_time (s : State) :
  Boton_keys s ->
  (conf_idle s ->
   exists s', (press 15 ;; tick) s = Some (tt, s')
     /\ _configuringTime (configure s') = true
     /\ _configuringIdx (configure s') = false
     /\ _configuringMulti (configure s') = false
     /\ config s' = config s /\ saveConfig s' = saveConfig s
     /\ minutes s' = minutes s /\ seconds s' = seconds s)
  /\ (_configuringTime (configure s) = true ->
      exists s', (press 15 ;; tick) s = Some (tt, s')
        /\ config s' = set_cfg_time (minutes s) (seconds s) (config s)
        /\ saveConfig s' = true /\ conf_idle s'
        /\ minutes s' = minutes s /\ seconds s' = seconds s).
Proof.
  intros Hk.
  destruct (tick_dispatch pressed 15 _ s pressed_key Hk eq_refl eq_refl)
    as (bi & b & l2 & Hbi & Hrun & Hk2 & Hst & Hb & Hid & Hest & _).
  rewrite <- press_touch in Hrun.
  destruct (Boton_keys_lookup s 15 bi _ Hk Hbi eq_refl) as [Hbid _].
  simpl in Hest, Hbid, Hid. rewrite Hbid in Hest.
  unfold conf_case in Hrun. simpl in Hrun.
  unfold conf_PAUSE in Hrun. rewrite Hest in Hrun.
  change (bPAUSE =? 0) with false in Hrun. cbv iota in Hrun.
  unfold configuring in Hrun. revert Hrun. run. fields. intros Hrun.
  split.
  - intros (Ht & Hi & Hm). rewrite Hrun, Ht, Hi, Hm. cbn [orb negb].
    unfold configureTime. run. eexists. split; [reflexivity|].
    repeat split.
  - intros Ht. rewrite Hrun, Ht. rewrite orb_true_r. cbn [orb negb].
    unfold bipOK. run. rewrite Configure_stop_eq. run.
    eexists. split; [reflexivity|]. repeat split.
Qed.

(** a press of PAUSE while the identifier of the zone [z] is edited *)
Lemma conf_idx_commit s z :
  Boton_keys s -> (z < NUMZONAS)%nat ->
  length (botonConfig (config s)) = NUMZONAS ->
  _configuringTime (configure s) = false ->
  _configuringIdx (configure s) = true ->
  _actualIdxIndex (configure s) = Z.of_nat z ->
  exists s' bz p,
    (press 15 ;; tick) s = Some (tt, s')
    /\ Boton_keys s' /\ conf_idle s'
    /\ Boton s !! z = Some bz
    /\ Boton s' !! z = Some (with_idx (uint16 (value s)) bz)
    /\ botonConfig (config s) !! z = Some p
    /\ config s'
       = set_botonConfig
           (<[z := mkBotonParm (bp_desc p) (uint16 (value s))]>
              (botonConfig (config s))) (config s)
    /\ saveConfig s' = true /\ value s' = savedValue s.
Proof.
  intros Hk Hz Hlen Ht Hi Hact.
  destruct (zone_entry z Hz)
    as (b0 & Hz0 & Hzona & _ & _ & _ & _ & Hzi & Hz15).
  destruct (tick_dispatch pressed 15 _ s pressed_key Hk eq_refl eq_refl)
    as (bi & b & l2 & Hbi & Hrun & Hk2 & Hst & Hb & Hid & Hest & _ & _ & Hoth).
  rewrite <- press_touch in Hrun.
  destruct (Boton_keys_lookup s 15 bi _ Hk Hbi eq_refl) as [Hbid _].
  simpl in Hest, Hbid, Hid. rewrite Hbid in Hest.
  destruct (Boton_keys_entry s z Hk) as [bz Hbz];
    [unfold NUMZONAS, NUM_S_BOTON in *; simpl in *; lia|].
  destruct (Boton_keys_lookup s z bz b0 Hk Hbz Hz0) as [Hzid _].
  assert (Hbz2 : l2 !! z = Some bz) by (rewrite Hoth by lia; exact Hbz).
  destruct (lookup_lt_is_Some_2 (botonConfig (config s)) z) as [p Hp]; [lia|].
  unfold conf_case in Hrun. simpl in Hrun.
  unfold conf_PAUSE in Hrun. rewrite Hest in Hrun.
  change (bPAUSE =? 0) with false in Hrun. cbv iota in Hrun.
  unfold configuring in Hrun. revert Hrun. run. fields. intros Hrun.
  rewrite Hrun, Ht, Hi, Hact. cbn [orb negb].
  rewrite (bind_Boton_at z bz) by exact Hbz2.
  rewrite Hzid, Hzi. run. fields.
  rewrite bind_wr by (eapply lookup_lt_Some; exact Hbz2). run.
  rewrite (bind_rd _ _ _ _ _ Hp). fields.
  rewrite bind_wr by lia. run. fields.
  unfold bipOK. run.
  match goal with |- context [bind (Boton_at (Z.of_nat z)) _ ?st] =>
    rewrite (bind_Boton_at z (with_idx (uint16 (value s)) bz) _ st) end.
  2:{ fields. apply list_lookup_insert_eq. eapply lookup_lt_Some; exact Hbz2. }
  run. rewrite Configure_stop_eq. run.
  eexists _, bz, p. split; [reflexivity|].
  split.
  { unfold Boton_keys. fields.
    rewrite list_fmap_insert.
    replace (key (with_idx (uint16 (value s)) bz)) with (key bz) by reflexivity.
    rewrite list_insert_id; [exact Hk2|].
    by rewrite list_lookup_fmap, Hbz2. }
  split; [repeat split|]. split; [exact Hbz|]. split.
  { fields. apply list_lookup_insert_eq. eapply lookup_lt_Some; exact Hbz2. }
  repeat split. exact Hp.
Qed.

(** a press of the zone [z] when nothing is being edited *)
Lemma conf_idx_open s z bz :
  Boton_keys s -> (z < NUMZONAS)%nat -> conf_idle s ->
  Boton s !! z = Some bz ->
  exists s',
    (press z ;; tick) s = Some (tt, s')
    /\ _configuringTime (configure s') = false
    /\ _configuringIdx (configure s') = true
    /\ _configuringMulti (configure s') = false
    /\ _actualIdxIndex (configure s') = Z.of_nat z
    /\ value s' = b_idx bz
    /\ config s' = config s /\ saveConfig s' = saveConfig s.
Proof.
  intros Hk Hz (Ht & Hi & Hm) Hbz.
  destruct (zone_entry z Hz)
    as (b0 & Hz0 & Hzona & Hact & Hn1 & Hn2 & Hn3 & Hzi & Hz15).
  destruct (tick_dispatch pressed z b0 s pressed_key Hk Hz0 Hact)
    as (bi & b & l2 & Hbi & Hrun & Hk2 & Hst & Hb & Hid & Hest & Hidx & Hled & Hoth).
  rewrite <- press_touch in Hrun.
  rewrite Hbz in Hbi. inversion Hbi; subst bi. simpl in Hidx.
  unfold conf_case in Hrun. rewrite Hn1, Hn2, Hn3 in Hrun.
  unfold conf_default, configuring in Hrun. revert Hrun. run. fields.
  intros Hrun. rewrite Hrun, Hm. cbn [when]. run. fields.
  rewrite Ht, Hi, Hm. cbn [orb negb when]. run.
  unfold configureIdx. run.
  match goal with |- context [bind (deref (Some z)) _ ?st] =>
    rewrite (bind_deref z b _ st) by exact Hb end.
  run.
  match goal with |- context [bind (Boton_at (Z.of_nat z)) _ ?st] =>
    rewrite (bind_Boton_at z b _ st) by exact Hb end.
  run. eexists. split; [reflexivity|]. repeat split. exact Hidx.
Qed.

(** X13.  In the configuration mode, a press of PAUSE while the identifier of a
    zone is edited stores [value], as a 16-bit number, as the identifier of
    the zone in the configuration, asks for the configuration to be saved
    and puts [value] back; a press of the same zone afterwards opens the
    editing again with the stored identifier, read from the button table,
    in [value], and leaves the configuration alone. *)
Theorem conf_idx_round_trip (s : State) (z : nat) :
  Boton_keys s -> (z < NUMZONAS)%nat ->
  length (botonConfig (config s)) = NUMZONAS ->
  _configuringTime (configure s) = false ->
  _configuringIdx (configure s) = true ->
  _actualIdxIndex (configure s) = Z.of_nat z ->
  exists s1 s2 p,
    (press 15 ;; tick) s = Some (tt, s1)
    /\ botonConfig (config s1) !! z = Some p
    /\ bp_idx p = uint16 (value s)
    /\ saveConfig s1 = true /\ value s1 = savedValue s /\ conf_idle s1
    /\ (press z ;; tick) s1 = Some (tt, s2)
    /\ _configuringIdx (configure s2) = true
    /\ _actualIdxIndex (configure s2) = Z.of_nat z
    /\ value s2 = uint16 (value s)
    /\ config s2 = config s1.
Proof.
  intros Hk Hz Hlen Ht Hi Hact.
  destruct (conf_idx_commit s z Hk Hz Hlen Ht Hi Hact)
    as (s1 & bz & p & Hrun1 & Hk1 & Hidle & Hbz & Hbz1 & Hp & Hcfg & Hsave & Hval).
  destruct (conf_idx_open s1 z _ Hk1 Hz Hidle Hbz1)
    as (s2 & Hrun2 & _ & Hi2 & _ & Ha2 & Hv2 & Hc2 & _).
  exists s1, s2, (mkBotonParm (bp_desc p) (uint16 (value s))).
  split; [exact Hrun1|]. split.
  { rewrite Hcfg. simpl. apply list_lookup_insert_eq. lia. }
  repeat split; try assumption; apply Hidle.
Qed.

(** X14.  While a group is edited, a zone pressed when the working copy already
    holds 16 zones is refused with a long beep: the working copy, the
    configuration and the mode stay as they were. *)
Theorem editing_full_refuses (cfg : Config_parm) (sel : Z) (i : nat)
    (picked : list Z) (s : State) (z : nat) :
  editing cfg sel i picked s -> length picked = 16%nat ->
  (z < NUMZONAS)%nat ->
  exists s', (press z ;; tick) s = Some (tt, s')
    /\ editing cfg sel i picked s'
    /\ saveConfig s' = saveConfig s
    /\ trace s' = trace s ++ longbip_events 1.
Proof.
  intros (Hk & Hsel & Henc & Hcfg & Hest & Hct & Hci & Hcm & Hag & Hmi & Hms
          & Hw & Hlen & Htk & Hle) H16 Hz.
  destruct (zone_entry z Hz)
    as (b0 & Hz0 & Hzona & Hact & Hn1 & Hn2 & Hn3 & Hzi & Hz15).
  destruct (tick_dispatch pressed z b0 s pressed_key Hk Hz0 Hact)
    as (bi & b & l2 & Hbi & Hrun & Hk2 & Hst & Hb & _).
  rewrite <- press_touch in Hrun.
  unfold conf_case in Hrun. rewrite Hn1, Hn2, Hn3 in Hrun.
  unfold conf_default, configuring in Hrun. revert Hrun. run. fields.
  intros Hrun. rewrite Hrun, Hcm. cbn [when]. run. fields.
  rewrite Hw, H16. change (Z.of_nat 16 <? 16) with false. cbv iota. run. fields.
  rewrite Hci, Hct, Hcm. cbn [orb negb when].
  eexists. split; [reflexivity|]. split; [|split; reflexivity].
  unfold editing. fields. repeat split; try assumption.
  rewrite <- Hsel. by apply selector_same.
Qed.

(** X15.  While a group is edited, a press of PAUSE with no zone picked cancels
    the editing: the configuration is left as it was, no save is asked for,
    and the sub-machine is idle again. *)
Theorem editing_empty_cancels (cfg : Config_parm) (sel : Z) (i : nat)
    (s : State) (g : Grupo_parm) :
  editing cfg sel i [] s -> groupConfig cfg !! i = Some g ->
  g_id g = bGRUPO1 \/ g_id g = bGRUPO2 \/ g_id g = bGRUPO3 ->
  exists s', (press 15 ;; tick) s = Some (tt, s')
    /\ config s' = cfg /\ saveConfig s' = saveConfig s /\ conf_idle s'.
Proof.
  intros (Hk & Hsel & Henc & Hcfg & Hest & Hct & Hci & Hcm & Hag & Hmi & Hms
          & Hw & Hlen & Htk & Hle) Hg Hgid.
  destruct (tick_dispatch pressed 15 _ s pressed_key Hk eq_refl eq_refl)
    as (bi & b & l2 & Hbi & Hrun & Hk2 & Hst & Hb & Hid & Hbest & _).
  rewrite <- press_touch in Hrun.
  destruct (Boton_keys_lookup s 15 bi _ Hk Hbi eq_refl) as [Hbid _].
  simpl in Hbest, Hbid, Hid. rewrite Hbid in Hbest.
  unfold conf_case in Hrun. simpl in Hrun.
  unfold conf_PAUSE in Hrun. rewrite Hbest in Hrun.
  change (bPAUSE =? 0) with false in Hrun. cbv iota in Hrun.
  unfold configuring in Hrun. revert Hrun. run. fields. intros Hrun.
  rewrite Hrun, Hct, Hci, Hcm. cbn [orb negb]. run. fields.
  rewrite Hw. change (Z.of_nat (length []) =? 0) with true. cbn [negb when].
  run.
  set (s2 := set_Boton l2 (set_boton (Some 15%nat) s)).
  assert (Hks2 : Boton_keys s2) by exact Hk2.
  assert (Hne : estado (Estado s2) <> ERROR).
  { change (estado (Estado s2)) with (estado (Estado s)). rewrite Hest.
    discriminate. }
  unfold ultimosRiegos_HIDE. rewrite !bind_assoc.
  rewrite (bind_Some _ _ _ _ _ (StaticTimeUpdate_says s2 Hne)). run.
  match goal with |- context [bind (forM ZONAS ?body) _ (says ?u ?st)] =>
    destruct (forM_quiet ZONAS body st) with (t := u) as (u2 & Hu2) end.
  { intros zz Hzz u.
    destruct (zone_id_index zz Hzz) as (nz & bz & Hfz & Hnz & _).
    apply (led_of_says zz OFF _ nz bz); [exact Hks2 | exact Hfz | exact Hnz]. }
  rewrite (bind_Some _ _ _ _ _ Hu2). rewrite says_app.
  assert (Hg2 : groupConfig (config s2) !! i = Some g).
  { change (config s2) with (config s). by rewrite Hcfg. }
  match goal with |- context [bind multi_id _ ?st] =>
    rewrite (bind_Some _ _ _ _ _ (multi_id_eq st i g Hmi Hg2)) end.
  destruct (group_id_index (g_id g) Hgid) as (n & bg & Hfind & Hn).
  match goal with |- context [bind (led_of _ _) _ ?st] =>
    destruct (led_of_says (g_id g) OFF st n bg Hks2 Hfind Hn) as (u3 & Hu3) end.
  rewrite (bind_Some _ _ _ _ _ Hu3). rewrite says_app.
  rewrite Configure_stop_eq. run.
  eexists. split; [reflexivity|]. split; [exact Hcfg|].
  split; [reflexivity|]. repeat split.
Qed.

End Configuration.

(** ** Leaving the configuration mode *)

Definition is_save (e : Event) : bool :=
  match e with EvSaveConfigFile _ => true | _ => false end.

Lemma released_key b : key (released b) = key b.
Proof. reflexivity. Qed.

Lemma led_of_count p id e s i b0 :
  (forall a b, p (EvLed a b) = false) ->
  Boton_keys s -> find_id (map b_id Boton_init) id 0 = Z.of_nat i ->
  Boton_init !! i = Some b0 ->
  exists t, led_of id e s = Some (tt, says t s) /\ count p t = 0%nat.
Proof.
  intros Hp Hk Hfind Hi0. unfold led_of.
  rewrite (bind_bID_bIndex _ _ _ (Boton_keys_declared _ Hk)), Hfind.
  destruct (Boton_keys_entry s i Hk) as [b Hb].
  { apply lookup_lt_Some in Hi0. exact Hi0. }
  rewrite (bind_Boton_at _ _ _ _ Hb). rewrite led_says.
  eexists. split; [reflexivity|].
  destruct (b_led b =? 0); simpl; [reflexivity|]. by rewrite Hp.
Qed.

Lemma forM_count {A} p (l : list A) (body : A -> M unit) s :
  (forall x, x ∈ l -> forall t, exists u,
      body x (says t s) = Some (tt, says u (says t s)) /\ count p u = 0%nat) ->
  forall t, exists u,
    forM l body (says t s) = Some (tt, says u (says t s))
    /\ count p u = 0%nat.
Proof.
  induction l as [|x l IH]; intros Hb t.
  - exists []. by rewrite forM_nil, says_nil.
  - destruct (Hb x (list_elem_of_here _ _) t) as (u & Hu & Hcu).
    rewrite forM_cons, (bind_Some _ _ _ _ _ Hu), says_app.
    destruct (IH (fun y Hy => Hb y (list_elem_of_further _ _ _ Hy)) (t ++ u))
      as (u' & Hu' & Hcu').
    rewrite Hu'. exists (u ++ u'). rewrite !says_app, app_assoc.
    split; [reflexivity|]. rewrite count_app. lia.
Qed.

Section Leaving.

Variable W : World.
Variable WEBSERVER : bool.

Lemma resetLeds_count p s :
  (forall a b, p (EvLed a b) = false) ->
  (forall t, p (EvTickerDetach t) = false) -> p EvWiFiStatus = false ->
  Boton_keys s ->
  exists t c, resetLeds W s = Some (tt, says t (set_connected c s))
              /\ count p t = 0%nat.
Proof.
  intros Hled Hdet Hwifi Hk. unfold resetLeds.
  destruct (forM_count p GRUPOS (fun g => led_of g OFF) s) with (t := @nil Event)
    as (u1 & Hu1 & Hc1).
  { intros g Hg t.
    assert (Hgid : g = bGRUPO1 \/ g = bGRUPO2 \/ g = bGRUPO3).
    { unfold GRUPOS in Hg. rewrite !elem_of_cons in Hg.
      destruct Hg as [?|[?|[?|Hg]]]; auto. by apply elem_of_nil in Hg. }
    destruct (group_id_index g Hgid) as (n & b0 & Hfind & Hn).
    apply (led_of_count p g OFF _ n b0); assumption. }
  rewrite !says_nil in Hu1.
  rewrite (bind_Some _ _ _ _ _ Hu1). run.
  match goal with |- context [bind (forM ZONAS ?body) _ (says ?u ?st)] =>
    destruct (forM_count p ZONAS body st) with (t := u) as (u2 & Hu2 & Hc2) end.
  { intros z Hz t.
    destruct (zone_id_index z Hz) as (nz & bz & Hfz & Hnz & _).
    apply (led_of_count p z OFF _ nz bz); assumption. }
  rewrite (bind_Some _ _ _ _ _ Hu2). rewrite says_app. run.
  unfold ledConf. change (OFF =? ON) with false. cbv iota. run. fields.
  destruct (NONETWORK s); run; unfold checkWifi; run; fields;
    destruct (WiFi_connected W _); run;
    (eexists _, _; split; [reflexivity|]);
    rewrite !count_app, Hc1, Hc2; simpl; rewrite ?Hled, ?Hdet, ?Hwifi;
    reflexivity.
Qed.

(** X16.  The release of STOP in the configuration mode leaves the mode: the
    state becomes STANDBY with no fault phase, the sub-machine is idle, and
    the configuration is handed to saveConfigFile exactly once when a save
    had been asked for, and not at all otherwise; the save flag is cleared
    and [value] gets back the value saved on entry, when that is positive. *)
Theorem conf_STOP_leaves (s : State) :
  Boton_keys s ->
  exists s' t,
    (touch released 16 ;; procesaEstadoConfigurando W WEBSERVER) s
    = Some (tt, s')
    /\ estado (Estado s') = STANDBY /\ fase (Estado s') = CERO
    /\ conf_idle s' /\ saveConfig s' = false /\ config s' = config s
    /\ value s' = (if 0 <? savedValue s then savedValue s else value s)
    /\ trace s' = trace s ++ t
    /\ count is_save t = (if saveConfig s then 1 else 0)%nat
    /\ (saveConfig s = true -> In (EvSaveConfigFile (config s)) t).
Proof.
  intros Hk.
  destruct (tick_dispatch W WEBSERVER released 16 _ s released_key Hk
              eq_refl eq_refl)
    as (bi & b & l2 & Hbi & Hrun & Hk2 & Hst & Hb & Hid & Hbest & _).
  simpl in Hbest. unfold conf_case in Hrun. simpl in Hrun.
  rewrite Hrun. clear Hrun.
  unfold conf_STOP. rewrite Hbest. change (0 =? 0) with true. cbv iota.
  set (s2 := set_Boton l2 (set_boton (Some 16%nat) s)).
  rewrite (bind_Some _ _ _ _ _ (Configure_stop_eq s2)). run. fields.
  set (t0 := bip_events 1 ++ [EvDisplayPrint "ConF"]).
  set (idle := mkConfigure false false false _ _).
  assert (Hsave : exists t1,
    (when (saveConfig s2)
       (cfg <- gets config ;;
        ok <- ask (EvSaveConfigFile cfg) (saveConfigFile W) ;;
        when ok (infoDisplay "SAUE" DEFAULTBLINK BIPOK 5) ;;
        modify (set_saveConfig false)))
      (says t0 (set_configure idle s2))
    = Some (tt, says (t0 ++ t1) (set_saveConfig false (set_configure idle s2)))
    /\ count is_save t1 = (if saveConfig s then 1 else 0)%nat
    /\ (saveConfig s = true -> In (EvSaveConfigFile (config s)) t1)).
  { change (saveConfig s2) with (saveConfig s).
    destruct (saveConfig s) eqn:Hsc; cbn [when].
    - run. fields.
      destruct (saveConfigFile W _); cbn [when].
      + unfold infoDisplay, bipOK.
        change (BIPOK =? LONGBIP) with false. change (BIPOK =? BIP) with false.
        change (BIPOK =? BIPOK) with true. cbn [when]. run.
        eexists. rewrite <- !app_assoc. split; [reflexivity|].
        split; [reflexivity|]. intros _. by left.
      + run. eexists. split; [reflexivity|].
        split; [reflexivity|]. intros _. by left.
    - exists []. rewrite app_nil_r. split; [|split; [reflexivity|discriminate]].
      do 2 f_equal. unfold s2. destruct s. simpl in *. by rewrite Hsc. }
  destruct Hsave as (t1 & Hrun1 & Hc1 & Hin1).
  rewrite (bind_Some _ _ _ _ _ Hrun1). run. fields.
  set (s3 := set_saveConfig false (set_configure idle s2)).
  assert (Hws : exists t2 w,
    when (WEBSERVER && webServerAct s2)
      (emit EvEndWS ;; modify (set_webServerAct false)) (says (t0 ++ t1) s3)
    = Some (tt, says (t0 ++ t1 ++ t2) (set_webServerAct w s3))
    /\ count is_save t2 = 0%nat).
  { destruct (WEBSERVER && webServerAct s2); cbn [when].
    - run. exists [EvEndWS], false. rewrite <- !app_assoc.
      split; reflexivity.
    - exists [], (webServerAct s3). rewrite !app_nil_r.
      split; reflexivity. }
  destruct Hws as (t2 & w & Hrun2 & Hc2).
  rewrite (bind_Some _ _ _ _ _ Hrun2). run.
  match goal with |- context [bind (resetLeds W) _ ?st] =>
    destruct (resetLeds_count is_save st) as (t3 & c & Hrun3 & Hc3) end;
    [reflexivity | reflexivity | reflexivity | exact Hk2 |].
  rewrite (bind_Some _ _ _ _ _ Hrun3). run. fields.
  change (savedValue s3) with (savedValue s).
  assert (Hne : forall st : State,
            estado (Estado st) = STANDBY -> estado (Estado st) <> ERROR).
  { intros st ->. discriminate. }
  assert (Hcount : forall u v,
    count is_save ((((t0 ++ t1 ++ t2) ++ t3) ++ [EvMillis]) ++ [EvDisplayTime u v])
    = (if saveConfig s then 1 else 0)%nat
    /\ (saveConfig s = true ->
        In (EvSaveConfigFile (config s))
           ((((t0 ++ t1 ++ t2) ++ t3) ++ [EvMillis]) ++ [EvDisplayTime u v]))).
  { intros u v. split.
    - rewrite !count_app, Hc1, Hc2, Hc3. simpl.
      destruct (saveConfig s); reflexivity.
    - intros Hs. rewrite !in_app_iff. left. left. left. right. left. auto. }
  destruct (0 <? savedValue s) eqn:Hsv.
  - match goal with |- context [StaticTimeUpdate ?st] =>
      rewrite (StaticTimeUpdate_says st (Hne st eq_refl)) end.
    run. eexists _, _. split; [reflexivity|]. fields.
    split; [reflexivity|]. split; [reflexivity|]. split; [repeat split|].
    split; [reflexivity|]. split; [reflexivity|]. split; [reflexivity|].
    split; [reflexivity|]. apply Hcount.
  - match goal with |- context [StaticTimeUpdate ?st] =>
      rewrite (StaticTimeUpdate_says st (Hne st eq_refl)) end.
    run. eexists _, _. split; [reflexivity|]. fields.
    split; [reflexivity|]. split; [reflexivity|]. split; [repeat split|].
    split; [reflexivity|]. split; [reflexivity|]. split; [reflexivity|].
    split; [reflexivity|]. apply Hcount.
Qed.

End Leaving.

(** ** The configuration of zeroConfig *)

(** X17.  After zeroConfig every position of the selector resolves: for the
    j-th id of GRUPOS, setMultibyId returns the ordinal j+1 of a group of
    size 1 whose only zone is the zone j+1, and leaves the configuration as
    it is. *)
Theorem zeroConfig_resolves (cfg : Config_parm) (s : State) (j : nat)
    (id : Z) :
  length (groupConfig cfg) = NUMGRUPOS ->
  Forall (fun g => length (g_serie g) = 16%nat) (groupConfig cfg) ->
  config s = zeroConfig cfg -> length (m_serie (multi s)) = 16%nat ->
  GRUPOS !! j = Some id ->
  exists s' z,
    setMultibyId id s = Some (Z.of_nat j + 1, s')
    /\ multi_size s' = Some (1, s')
    /\ ZONAS !! j = Some z
    /\ m_serie (multi s') !! 0%nat = Some z
    /\ config s' = config s.
Proof.
  intros Hlen Hser Hcfg Hm Hj.
  destruct (groupConfig cfg) as [|g0 [|g1 [|g2 [|? ?]]]] eqn:Hgc;
    try discriminate.
  apply Forall_cons in Hser as [H0 Hser].
  apply Forall_cons in Hser as [H1 Hser].
  apply Forall_cons in Hser as [H2 _].
  assert (Hgroups : groupConfig (config s)
            = [mkGrupo bGRUPO1 1 (<[0%nat := 1]> (g_serie g0)) (g_desc g0);
               mkGrupo bGRUPO2 1 (<[0%nat := 2]> (g_serie g1)) (g_desc g1);
               mkGrupo bGRUPO3 1 (<[0%nat := 3]> (g_serie g2)) (g_desc g2)]).
  { rewrite Hcfg. unfold zeroConfig. simpl. rewrite Hgc. reflexivity. }
  assert (Hgok : forall v l d n, length l = 16%nat -> 1 <= n <= 7 ->
            group_ok (mkGrupo v 1 (<[0%nat := n]> l) d) = true).
  { intros v l d n Hl Hn. destruct l as [|x l]; [discriminate|].
    unfold group_ok. cbn [g_size g_serie]. rewrite length_insert, Hl.
    change (Z.to_nat 1) with 1%nat. cbn [firstn forallb Nat.eqb andb Z.leb].
    change (Z.of_nat NUMZONAS) with 7. simpl.
    destruct (Z.leb_spec 1 n); [|lia].
    destruct (Z.leb_spec n 7); [reflexivity | lia]. }
  assert (Hok : config_ok s).
  { unfold config_ok. rewrite Hgroups. split; [reflexivity|].
    split; [exact Hm|]. repeat constructor; apply Hgok; assumption || lia. }
  pose proof (setMultibyId_loop_spec (seq 0 NUMGRUPOS) id s Hok) as Hres.
  assert (Hfind : find_group (seq 0 NUMGRUPOS) (groupConfig (config s)) id
                  = Some j).
  { rewrite Hgroups.
    destruct j as [|[|[|j]]]; inversion Hj; subst id; reflexivity. }
  rewrite Hfind in Hres.
  destruct Hres as (g & s' & Hg & Hgid & Hrun & ser & -> & Hlen' & Hnew & _).
  { apply Forall_forall. intros i' Hi'. apply elem_of_seq in Hi'. lia. }
  assert (Hgj : g_size g = 1 /\ g_serie g !! 0%nat = Some (Z.of_nat j + 1)).
  { rewrite Hgroups in Hg.
    destruct j as [|[|[|j]]]; inversion Hj; subst id; inversion Hg; subst g;
      simpl; (split; [reflexivity|]).
    - destruct (g_serie g0); [discriminate | reflexivity].
    - destruct (g_serie g1); [discriminate | reflexivity].
    - destruct (g_serie g2); [discriminate | reflexivity]. }
  destruct Hgj as [Hsize Hs0].
  assert (Hz : exists z, ZONAS !! j = Some z).
  { apply lookup_lt_is_Some_2. apply lookup_lt_Some in Hj.
    unfold GRUPOS in Hj. unfold ZONAS. simpl in *. lia. }
  destruct Hz as [z Hz].
  exists (set_multi (with_serie ser (point_at j (multi s))) s), z.
  split; [exact Hrun|]. split; [|split; [exact Hz|split; [|reflexivity]]].
  - set (s' := set_multi _ s).
    rewrite (multi_size_eq s' j g); [by rewrite Hsize | reflexivity | exact Hg].
  - simpl. rewrite (Hnew 0%nat _) by (try exact Hs0; rewrite Hsize; simpl; lia).
    unfold zone_of. destruct (Z.ltb_spec (Z.of_nat j + 1) 1); [lia|].
    replace (Z.to_nat (Z.of_nat j + 1 - 1)) with j by lia. exact Hz.
Qed.

(** ** The start of a group *)

Arguments procesaBotonMultiriego : simpl never.
Arguments addr_Boton : simpl never.

Lemma addr_Boton_eq n s :
  (n < length (Boton s))%nat ->
  addr_Boton (Z.of_nat n) s = Some (Some n, s).
Proof.
  intros Hn. unfold addr_Boton. run.
  destruct (Z.ltb_spec (Z.of_nat n) 0); [lia|].
  destruct (Z.leb_spec (Z.of_nat (length (Boton s))) (Z.of_nat n)); [lia|].
  simpl. by rewrite Nat2Z.id.
Qed.

(** X18.  A press of MULTIRIEGO in STANDBY, with no group running and the
    encoder button up, starts the group of the selector: the run is flagged,
    its position is 0, and the current button becomes the button of the
    first zone of the group.  When no group of the configuration has the id
    of the selector, nothing is started and the machine goes to ERROR with
    the phase E0. *)
Theorem multirriego_start (s : State) :
  Boton_keys s -> config_ok s ->
  estado (Estado s) = STANDBY -> multirriego s = false ->
  (forall i g,
     find_group (seq 0 NUMGRUPOS) (groupConfig (config s))
                (selector_of (Boton s)) = Some i ->
     groupConfig (config s) !! i = Some g -> 1 <= g_size g ->
     encoderSW s = false ->
     exists s' zj z p b,
       procesaBotonMultiriego s = Some (true, s')
       /\ multirriego s' = true /\ actual (multi s') = 0
       /\ g_serie g !! 0%nat = Some zj /\ zone_of zj = Some z
       /\ boton s' = Some p /\ Boton s' !! p = Some b /\ b_id b = z
       /\ estado (Estado s') = STANDBY /\ config s' = config s)
  /\ (find_group (seq 0 NUMGRUPOS) (groupConfig (config s))
                 (selector_of (Boton s)) = None ->
      exists s',
        procesaBotonMultiriego s = Some (false, s')
        /\ estado (Estado s') = ERROR /\ fase (Estado s') = E0
        /\ multirriego s' = false /\ boton s' = boton s).
Proof.
  intros Hk Hok Hest Hmr.
  assert (Hhead : procesaBotonMultiriego s
    = (sel <- getMultiStatus ;;
       n_grupo <- setMultibyId sel ;;
       if n_grupo =? 0 then statusError E0 3 ;; ret false
       else
         enc <- gets encoderSW ;;
         if enc then
           emit (EvDisplayPrint version_n) ;;
           displayGrupo ;; StaticTimeUpdate ;; ret false
         else
           bip 4 ;;
           modify (set_multirriego true) ;;
           modify (fun s => set_multi (with_actual 0 (multi s)) s) ;;
           gid <- multi_id ;;
           led_of gid ON ;;
           m <- gets multi ;;
           z <- rd (m_serie m) (actual m) ;;
           i <- bID_bIndex z ;;
           p <- addr_Boton i ;;
           modify (set_boton p) ;;
           ret true) s).
  { unfold procesaBotonMultiriego. rewrite !bind_gets, Hest, Hmr. reflexivity. }
  rewrite Hhead. clear Hhead.
  rewrite (bind_Some _ _ _ _ _ (getMultiStatus_eq s Hk)).
  set (sel := selector_of (Boton s)).
  pose proof (setMultibyId_loop_spec (seq 0 NUMGRUPOS) sel s Hok) as Hres.
  assert (Hseq : Forall (fun i => (i < NUMGRUPOS)%nat) (seq 0 NUMGRUPOS)).
  { apply Forall_forall. intros i' Hi'. apply elem_of_seq in Hi'. lia. }
  specialize (Hres Hseq). unfold setMultibyId. split.
  - intros i g Hfind Hg Hsize Henc. rewrite Hfind in Hres.
    destruct Hres as (g' & s1 & Hg' & Hgid & Hrun & ser & -> & Hlen & Hnew & _).
    rewrite Hg in Hg'. inversion Hg'; subst g'. clear Hg'.
    rewrite (bind_Some _ _ _ _ _ Hrun).
    destruct (Z.eqb_spec (Z.of_nat i + 1) 0) as [?|_]; [lia|].
    run. fields. rewrite Henc. run. fields.
    assert (Hgok : group_ok g = true).
    { destruct Hok as (_ & _ & Hall). rewrite Forall_forall in Hall.
      apply Hall. apply list_elem_of_lookup. eauto. }
    destruct (group_ok_entries g 0 Hgok) as (zj & z & Hzj & Hz); [lia|].
    match goal with |- context [bind multi_id _ ?st] =>
      rewrite (bind_Some _ _ _ _ _ (multi_id_eq st i g eq_refl Hg)) end.
    destruct (group_id_index (g_id g)) as (n & bg & Hfind' & Hn).
    { rewrite Hgid. apply selector_cases. }
    match goal with |- context [bind (led_of _ _) _ ?st] =>
      destruct (led_of_says (g_id g) ON st n bg Hk Hfind' Hn) as (u & Hu) end.
    rewrite (bind_Some _ _ _ _ _ Hu). run. fields.
    assert (Hs0 : ser !! 0%nat = Some z).
    { rewrite (Hnew 0%nat zj) by (try exact Hzj; lia). exact Hz. }
    change 0 with (Z.of_nat 0) at 1.
    rewrite (bind_rd _ _ _ _ _ Hs0).
    destruct (zone_id_index z (zone_of_in_ZONAS _ _ Hz))
      as (nz & bz & Hfz & Hnz & _).
    match goal with |- context [bind (bID_bIndex z) _ ?st] =>
      rewrite (bind_bID_bIndex _ _ st (Boton_keys_declared s Hk)), Hfz end.
    destruct (Boton_keys_entry s nz Hk) as [b Hb];
      [eapply lookup_lt_Some; exact Hnz|].
    match goal with |- context [bind (addr_Boton _) _ ?st] =>
      rewrite (bind_Some _ _ _ _ _ (addr_Boton_eq nz st
                 (lookup_lt_Some _ _ _ Hb))) end.
    run. eexists _, zj, z, nz, b. split; [reflexivity|]. fields.
    repeat split; try assumption.
    destruct (Boton_keys_lookup s nz b bz Hk Hb Hnz) as [Hid _].
    rewrite Hid.
    destruct (find_id_cases (map b_id Boton_init) z 0)
      as [[H999 _] | (k & Hk' & Hfk)].
    + apply lookup_lt_Some in Hnz. unfold Boton_init in Hnz. simpl in Hnz. lia.
    + assert (k = nz) as -> by lia.
      rewrite list_lookup_fmap, Hnz in Hk'. by inversion Hk'.
  - intros Hnone. rewrite Hnone in Hres. rewrite (bind_Some _ _ _ _ _ Hres).
    change (0 =? 0) with true. cbv iota. run.
    eexists. split; [reflexivity|]. fields. repeat split; assumption.
Qed.

(** ** The state after start-up *)

Arguments setupEstado : simpl never.
Arguments stop_or_standby : simpl never.
Arguments checkWifi : simpl never.

Definition is_wifi (e : Event) : bool :=
  match e with EvWiFiStatus => true | _ => false end.

(** the STOP switch is on *)
Definition stop_switch (s : State) : bool :=
  match Boton s !! 16%nat with
  | Some b => negb (b_estado b =? 0)
  | None => false
  end.

Lemma stop_or_standby_eq s :
  Boton_keys s ->
  exists t,
    stop_or_standby s
    = Some (tt, says t (set_errorText EmptyString
                          (set_Estado
                             (mkEstado (if stop_switch s then STOP else STANDBY)
                                       CERO) s)))
    /\ count is_wifi t = 0%nat.
Proof.
  intros Hk. unfold stop_or_standby, stop_switch.
  rewrite (bind_bID_bIndex _ _ _ (Boton_keys_declared _ Hk)).
  change (find_id (map b_id Boton_init) bSTOP 0) with (Z.of_nat 16).
  destruct (Boton_keys_entry s 16 Hk) as [b Hb];
    [unfold NUM_S_BOTON; simpl; lia|].
  rewrite (bind_Boton_at _ _ _ _ Hb), Hb.
  destruct (negb (b_estado b =? 0)).
  - run. unfold infoDisplay.
    change (LONGBIP =? LONGBIP) with true. change (LONGBIP =? BIP) with false.
    change (LONGBIP =? BIPOK) with false. cbn [when]. run.
    eexists. split; reflexivity.
  - run. exists []. rewrite says_nil. split; reflexivity.
Qed.

Section Setup.

Variable W : World.

(** the state setupEstado decides on *)
Definition setup_outcome (s : State) : S_Estado :=
  match find_group (seq 0 NUMGRUPOS) (groupConfig (config s))
                   (selector_of (Boton s)) with
  | None => mkEstado ERROR E0
  | Some _ =>
      if initialized (config s) =? 0 then mkEstado ERROR E0
      else if NONETWORK s then
        mkEstado (if stop_switch s then STOP else STANDBY) CERO
      else if estados_eqb (estado (Estado s)) ERROR then Estado s
      else if WiFi_connected W (trace s) then
        mkEstado (if stop_switch s then STOP else STANDBY) CERO
      else mkEstado ERROR E1
  end.

(** X19.  SetupEstado always decides the state of the machine, in this order:
    ERROR with phase E0 when no group has the id of the selector or the
    configuration was not loaded; in offline mode STOP or STANDBY after the
    STOP switch, without looking at the WiFi; an ERROR already raised is
    kept; otherwise STOP or STANDBY when the WiFi is connected and ERROR
    with phase E1 when it is not. *)
Theorem setupEstado_decides (s : State) :
  Boton_keys s -> config_ok s ->
  exists s' t,
    setupEstado W s = Some (tt, s')
    /\ Estado s' = setup_outcome s
    /\ config s' = config s
    /\ trace s' = trace s ++ t
    /\ (NONETWORK s = true -> count is_wifi t = 0%nat).
Proof.
  intros Hk Hok. unfold setupEstado, setup_outcome.
  rewrite (bind_Some _ _ _ _ _ (getMultiStatus_eq s Hk)).
  set (sel := selector_of (Boton s)).
  pose proof (setMultibyId_loop_spec (seq 0 NUMGRUPOS) sel s Hok) as Hres.
  assert (Hseq : Forall (fun i => (i < NUMGRUPOS)%nat) (seq 0 NUMGRUPOS)).
  { apply Forall_forall. intros i' Hi'. apply elem_of_seq in Hi'. lia. }
  specialize (Hres Hseq). unfold setMultibyId.
  destruct (find_group _ _ sel) as [i|].
  2:{ rewrite (bind_Some _ _ _ _ _ Hres). run. change (0 =? 0) with true.
      cbn [orb]. run. eexists _, _. split; [reflexivity|]. repeat split. }
  destruct Hres as (g & s1 & Hg & Hgid & Hrun & ser & -> & _).
  rewrite (bind_Some _ _ _ _ _ Hrun).
  destruct (Z.eqb_spec (Z.of_nat i + 1) 0) as [?|_]; [lia|].
  run. fields. cbn [orb].
  destruct (initialized (config s) =? 0).
  { run. eexists _, _. split; [reflexivity|]. repeat split. }
  set (s1 := set_multi _ s).
  assert (Hk1 : Boton_keys s1) by exact Hk.
  assert (Hsw : stop_switch s1 = stop_switch s) by reflexivity.
  destruct (stop_or_standby_eq s1 Hk1) as (t1 & Ht1 & Hc1).
  rewrite bind_gets. change (NONETWORK s1) with (NONETWORK s).
  destruct (NONETWORK s) eqn:Hnn.
  - rewrite (bind_Some _ _ _ _ _ Ht1). run.
    eexists _, _. split; [reflexivity|]. fields. rewrite Hsw.
    split; [reflexivity|]. split; [reflexivity|]. split; [reflexivity|].
    intros _. rewrite count_app, Hc1. reflexivity.
  - rewrite bind_gets. change (estado (Estado s1)) with (estado (Estado s)).
    destruct (estados_eqb (estado (Estado s)) ERROR).
    { exists s1, []. rewrite app_nil_r. repeat split. }
    unfold checkWifi. run. fields.
    change (trace s1) with (trace s).
    destruct (WiFi_connected W (trace s)).
    + run.
      match goal with |- context [bind stop_or_standby _ ?st] =>
        destruct (stop_or_standby_eq st Hk1) as (t2 & Ht2 & Hc2) end.
      rewrite (bind_Some _ _ _ _ _ Ht2). run.
      eexists _, _. split; [reflexivity|]. fields.
      split; [reflexivity|]. split; [reflexivity|]. split; [reflexivity|].
      discriminate.
    + run. eexists _, _. split; [reflexivity|]. repeat split; discriminate.
Qed.

End Setup.

(** ** The STANDBY state *)

Arguments procesaEstadoStandby : simpl never.

Section Standby.

Variable W : World.

(** X20.  In STANDBY, with a valid time and the encoder at rest, one pass of the
    handler leaves the time and the state alone.  When the display is
    awake, it goes to rest, and is cleared, exactly when the clock has
    passed standbyTime + 15000 ms (computed in 32 bits); when it is at rest
    it stays at rest and standbyTime follows the clock. *)
Theorem procesaEstadoStandby_reposo (s : State) :
  Boton_keys s -> estado (Estado s) = STANDBY -> time_ok s ->
  (forall t, Encoder_getValue W t = 0) ->
  exists s' t,
    procesaEstadoStandby W s = Some (tt, s')
    /\ trace s' = trace s ++ t
    /\ reposo s'
       = (reposo s
          || (uint32 (standbyTime s + 15000) <? millis W (trace s)))
    /\ standbyTime s'
       = (if reposo s then millis W (trace s) else standbyTime s)
    /\ (In EvDisplayClear t <-> reposo s = false /\ reposo s' = true)
    /\ minutes s' = minutes s /\ seconds s' = seconds s
    /\ value s' = value s /\ Estado s' = Estado s.
Proof.
  intros Hk Hest Htime Hrest.
  destruct (Boton_keys_entry s 15 Hk) as [b15 Hb15];
    [unfold NUM_S_BOTON; simpl; lia|].
  unfold procesaEstadoStandby.
  rewrite (bind_Some _ _ _ _ _ (set_holddisabled_PAUSE_eq true b15 s Hk Hb15)).
  set (s1 := set_Boton _ s).
  assert (Hconf : forall st : State,
            estado (Estado st) = STANDBY -> edits_time st).
  { intros st Hst Hc. rewrite Hst in Hc. discriminate. }
  rewrite bind_gets. change (reposo s1) with (reposo s).
  change (STANDBYSECS) with 15. change (1000 * 15) with 15000.
  destruct (reposo s) eqn:Hrp.
  - run. fields.
    match goal with |- context [procesaEncoder W ?st] =>
      destruct (procesaEncoder_rest W st (Hconf st Hest) Htime Hrest)
        as (t & Ht & Hev) end.
    rewrite Ht. eexists _, _. split; [reflexivity|]. subst s1. fields.
    rewrite Hrp.
    split; [by rewrite <- app_assoc|]. split; [reflexivity|].
    split; [reflexivity|]. split; [|repeat split].
    split; [|intros [? _]; discriminate].
    intros Hin. exfalso. simpl in Hin.
    destruct Hin as [Hin|Hin]; [discriminate|].
    destruct Hev as [-> | ->]; simpl in Hin; intuition discriminate.
  - run. fields. change (trace s1) with (trace s).
    change (standbyTime s1) with (standbyTime s).
    destruct (uint32 (standbyTime s + 15000) <? millis W (trace s)) eqn:Hlate;
      cbn [when]; run;
      match goal with |- context [procesaEncoder W ?st] =>
        destruct (procesaEncoder_rest W st (Hconf st Hest) Htime Hrest)
          as (t & Ht & Hev) end;
      rewrite Ht; (eexists _, _; split; [reflexivity|]); subst s1; fields;
      rewrite ?Hrp;
      (split; [by rewrite <- ?app_assoc|]); (split; [reflexivity|]);
      (split; [reflexivity|]); (split; [|repeat split]).
    + split; [auto|]. intros _. simpl. auto.
    + split; [|intros [_ ?]; discriminate].
      intros Hin. exfalso. simpl in Hin.
      destruct Hin as [Hin|Hin]; [discriminate|].
      destruct Hev as [-> | ->]; simpl in Hin; intuition discriminate.
Qed.

End Standby.

(** ** The zones watered today *)

Arguments ultimosRiegos_SHOW : simpl never.

(** a loop whose body only talks to the world, saying [ev x] for [x] *)
Lemma forM_says_at {A} (l : list A) (body : A -> M unit)
    (ev : A -> list Event) s :
  (forall x, x ∈ l -> forall t,
      body x (says t s) = Some (tt, says (t ++ ev x) s)) ->
  forall t, forM l body (says t s)
            = Some (tt, says (t ++ concat (map ev l)) s).
Proof.
  induction l as [|x l IH]; intros Hb t.
  - rewrite forM_nil. simpl. by rewrite app_nil_r.
  - rewrite forM_cons, (bind_Some _ _ _ _ _ (Hb x (list_elem_of_here _ _) t)).
    rewrite (IH (fun y Hy => Hb y (list_elem_of_further _ _ _ Hy))).
    simpl. by rewrite <- app_assoc.
Qed.

(** the LEDs of the table are the declared ones *)
Definition leds_declared (s : State) : Prop :=
  map b_led (Boton s) = map b_led Boton_init.

(** what ultimosRiegos(SHOW) lights at the time [t] for the zone [i], last
    watered at [last] *)
Definition shown (t : Z) (i : nat) (last : Z) : list Event :=
  if previousMidnight t <? last then [EvLed (lZONA1 + Z.of_nat i) ON] else [].

Section Today.

Variable W : World.

(** X21.  UltimosRiegos(SHOW) reads the clock once, turns on the LED of each
    zone whose last watering is later than the midnight before, in the
    order of the zones, turns no LED off, and shows the hour and the minute
    of the clock; the buttons, the recorded waterings and the state stay as
    they were. *)
Theorem ultimosRiegos_SHOW_today (s : State) :
  Boton_keys s -> leds_declared s -> length (lastRiegos s) = NUMZONAS ->
  let now := localEpoch W (trace s) in
  ultimosRiegos_SHOW W s
  = Some (tt, says ([EvEpochTime]
                    ++ concat (imap (shown now) (lastRiegos s))
                    ++ [EvDisplayTime (hour now) (minute now)]) s).
Proof.
  intros Hk Hleds Hlen now. unfold ultimosRiegos_SHOW. run. fold now.
  set (body := fun i : Z => _).
  assert (Hbody : forall n, (n < NUMZONAS)%nat -> forall t,
            body (Z.of_nat n) (says t s)
            = Some (tt, says (t ++ shown now n (default 0 (lastRiegos s !! n))) s)).
  { intros n Hn t. unfold body. run. fields.
    destruct (lookup_lt_is_Some_2 (lastRiegos s) n) as [last Hlast]; [lia|].
    rewrite (bind_rd _ _ _ _ _ Hlast), Hlast. simpl default. unfold shown.
    destruct (previousMidnight now <? last); cbn [when].
    2:{ by rewrite app_nil_r. }
    destruct (zone_entry n Hn) as (b0 & Hn0 & Hzona & _).
    rewrite (bind_rd _ _ _ _ _ Hzona).
    unfold led_of.
    rewrite (bind_bID_bIndex _ _ (says t s) (Boton_keys_declared s Hk)).
    replace (find_id (map b_id Boton_init) (b_id b0) 0) with (Z.of_nat n).
    2:{ rewrite (find_id_lookup _ Boton_ids_NoDup n (b_id b0) 0); [lia|].
        by rewrite list_lookup_fmap, Hn0. }
    destruct (Boton_keys_entry s n Hk) as [b Hb];
      [eapply lookup_lt_Some; exact Hn0|].
    rewrite (bind_Boton_at n b) by exact Hb.
    assert (Hled : b_led b = lZONA1 + Z.of_nat n).
    { assert (H : map b_led (Boton s) !! n = map b_led Boton_init !! n)
        by (by rewrite Hleds).
      rewrite !list_lookup_fmap, Hb, Hn0 in H. inversion H as [Hl]. rewrite Hl.
      clear -Hn Hn0.
      do 7 (destruct n as [|n]; [inversion Hn0; reflexivity|]).
      unfold NUMZONAS in Hn. simpl in Hn. lia. }
    rewrite led_says, Hled.
    destruct (Z.eqb_spec (lZONA1 + Z.of_nat n) 0) as [He|_];
      [unfold lZONA1 in He; lia|].
    by rewrite says_app. }
  assert (Hloop : forall x, x ∈ upto (Z.of_nat NUMZONAS) -> forall t,
            body x (says t s)
            = Some (tt, says (t ++ shown now (Z.to_nat x)
                                     (default 0 (lastRiegos s !! Z.to_nat x))) s)).
  { intros x Hx t. unfold upto in Hx.
      apply list_elem_of_fmap in Hx as (n & -> & Hn).
      apply elem_of_seq in Hn. rewrite Nat2Z.id in Hn |- *.
      apply Hbody. lia. }
  rewrite (bind_Some _ _ _ _ _ (forM_says_at _ body _ s Hloop _)).
  run. rewrite <- app_assoc. do 4 f_equal.
  clear -Hlen. unfold NUMZONAS in *.
  destruct (lastRiegos s) as [|a0 [|a1 [|a2 [|a3 [|a4 [|a5 [|a6 [|a7 l]]]]]]]];
    try discriminate Hlen.
  reflexivity.
Qed.
End Today.

(** ** Stopping the zones *)

Arguments stopRiego : simpl never.
Arguments stopAllRiego : simpl never.

(** what a call of the program leaves alone when it only talks to the
    endpoint and may raise an error *)
Record net_step (s s' : State) (t : list Event) : Prop := {
  ns_trace : trace s' = trace s ++ t;
  ns_Boton : Boton s' = Boton s;
  ns_config : config s' = config s;
  ns_multi : multi s' = multi s;
  ns_NONETWORK : NONETWORK s' = NONETWORK s;
  ns_simular : simular s' = simular s;
  ns_lastRiegos : lastRiegos s' = lastRiegos s;
  ns_Estado : Estado s' = Estado s \/ estado (Estado s') = ERROR;
}.

Lemma net_step_says s t : net_step s (says t s) t.
Proof. split; auto. Qed.

Lemma net_step_trans s1 s2 s3 t1 t2 :
  net_step s1 s2 t1 -> net_step s2 s3 t2 ->
  (estado (Estado s2) = ERROR -> estado (Estado s3) = ERROR) ->
  net_step s1 s3 (t1 ++ t2).
Proof.
  intros [] [] He. split; try congruence.
  - rewrite app_assoc. congruence.
  - destruct ns_Estado1 as [H|H]; [|auto].
    destruct ns_Estado0 as [H0|H0]; [left; congruence|].
    right. auto.
Qed.

Section Stopping.

Variable W : World.

Lemma domoticzSwitch_step idx msg retries s :
  exists r s' t,
    domoticzSwitch W idx msg retries s = Some (r, s')
    /\ net_step s s' t
    /\ (estado (Estado s) = ERROR -> estado (Estado s') = ERROR)
    /\ errorOFF s' = errorOFF s /\ ledID s' = ledID s
    /\ (attempts t <= Z.to_nat retries)%nat
    /\ (NONETWORK s = true ->
        attempts t = 0%nat
        /\ (simulated msg s = false -> Estado s' = Estado s /\ r = true)).
Proof.
  unfold domoticzSwitch. destruct (idx =? 0).
  { exists true, s, []. split; [reflexivity|].
    split; [rewrite <- (says_nil s) at 2; apply net_step_says|].
    repeat split; counts. }
  run. simpl.
  set (up := WiFi_connected W (trace s)).
  set (w := [EvWiFiStatus; EvLed LEDG (if up then ON else OFF)]).
  set (s1 := says _ _).
  assert (Hw : count is_http w = 0%nat) by reflexivity.
  destruct (negb up && negb (NONETWORK s)) eqn:Hdown.
  - run. eexists _, _, (w ++ statusError_events E1 3).
    split; [reflexivity|].
    assert (Hn : NONETWORK s = false).
    { destruct (NONETWORK s); [|reflexivity].
      rewrite andb_false_r in Hdown. discriminate. }
    split. { split; try reflexivity; [simpl; by rewrite <- app_assoc | by right]. }
    unfold attempts. rewrite count_app, statusError_no_http, Hw.
    repeat split; try lia; congruence.
  - destruct (switch_loop_spec W (switch_message idx msg) msg
                (Z.to_nat retries) EmptyString s1)
      as (r & t & Hrun & Ha & Hd & Had & Hoff & Hkeep & Hs).
    rewrite (bind_Some _ _ _ _ _ Hrun).
    destruct (startsWith r "Err") eqn:Herr.
    + run. simpl. destruct (errorOFF s) eqn:Heo; simpl.
      * run. eexists _, _, (w ++ t). split; [reflexivity|].
        split. { split; try reflexivity; [simpl; by rewrite <- app_assoc | by left]. }
        unfold attempts in *. rewrite count_app, Hw.
        repeat split; auto; try lia; try (rewrite Hoff by assumption; lia);
          simpl in Hkeep;
          match goal with
            Hn : NONETWORK s = true, Hsim : simulated msg s = false |- _ =>
            rewrite (Hkeep Hsim Hn) in Herr end; discriminate.
      * assert (Hfail : exists e,
          (if String.eqb r "ErrX"
           then if String.eqb msg "On" then statusError E4 3
                else statusError E5 5
           else statusError E2 3) (says t s1)
          = Some (tt, says (statusError_events e (if e =? E5 then 5 else 3))
                        (set_errorText (errorText_of e)
                           (set_Estado (mkEstado ERROR e) (says t s1))))).
        { destruct (String.eqb r "ErrX"); [destruct (String.eqb msg "On")|];
            rewrite statusError_eq;
            [exists E4 | exists E5 | exists E2]; reflexivity. }
        destruct Hfail as (e & Hf). rewrite (bind_Some _ _ _ _ _ Hf). run.
        eexists _, _, (w ++ t ++ statusError_events e (if e =? E5 then 5 else 3)).
        split; [reflexivity|].
        split. { split; try reflexivity;
                 [simpl; by rewrite <- !app_assoc | by right]. }
        unfold attempts in *. rewrite !count_app, Hw, statusError_no_http.
        repeat split; auto; try lia; try (rewrite Hoff by assumption; lia);
          simpl in Hkeep;
          match goal with
            Hn : NONETWORK s = true, Hsim : simulated msg s = false |- _ =>
            rewrite (Hkeep Hsim Hn) in Herr end; discriminate.
    + run. eexists _, _, (w ++ t). split; [reflexivity|].
      split. { split; try reflexivity; [simpl; by rewrite <- app_assoc | by left]. }
      unfold attempts in *. rewrite count_app, Hw.
      repeat split; auto; try lia; rewrite Hoff by assumption; lia.
Qed.

Lemma stopRiego_step id s n b0 :
  Boton_keys s -> find_id (map b_id Boton_init) id 0 = Z.of_nat n ->
  Boton_init !! n = Some b0 ->
  exists r s' t,
    stopRiego W id s = Some (r, s')
    /\ net_step s s' t
    /\ (r = true <-> estado (Estado s') <> ERROR)
    /\ (estado (Estado s) = ERROR -> estado (Estado s') = ERROR)
    /\ (attempts t <= Z.to_nat DEFAULT_SWITCH_RETRIES)%nat
    /\ (NONETWORK s = true ->
        attempts t = 0%nat
        /\ (simulated "Off" s = false -> Estado s' = Estado s)).
Proof.
  intros Hk Hfind Hn. unfold stopRiego.
  rewrite (bind_bID_bIndex _ _ _ (Boton_keys_declared _ Hk)), Hfind.
  destruct (Boton_keys_entry s n Hk) as [b Hb].
  { apply lookup_lt_Some in Hn. exact Hn. }
  rewrite (bind_Boton_at _ _ _ _ Hb). run.
  rewrite (bind_Boton_at n b) by exact Hb.
  destruct (domoticzSwitch_step (b_idx b) "Off" DEFAULT_SWITCH_RETRIES
              (set_ledID (b_led b) s))
    as (r & s1 & t & Hrun & Hstep & Herr & Heo & _ & Ha & Hoff).
  rewrite (bind_Some _ _ _ _ _ Hrun). run.
  destruct Hstep as [Ht HB Hc Hm Hnn Hsim Hlr HE].
  destruct (estados_eqb (estado (Estado s1)) ERROR) eqn:He; cbn [negb].
  - assert (He' : estado (Estado s1) = ERROR)
      by (destruct (estado (Estado s1)); try discriminate He; reflexivity).
    run. destruct (errorOFF s1) eqn:Heo1; cbn [negb when]; run.
    + exists false, s1, t. split; [reflexivity|].
      split; [split; auto|].
      split; [split; [discriminate | congruence]|].
      split; [auto|]. split; [exact Ha|].
      intros Hne. destruct (Hoff Hne) as [H0 H1]. split; [exact H0|].
      intros Hs. apply H1. exact Hs.
    + eexists false, _,
        (t ++ [EvTickerAttach tic_parpadeoLedON 200;
               EvTickerAttach tic_parpadeoLedZona 400]).
      split; [reflexivity|].
      split. { split; auto. simpl. rewrite Ht. by rewrite <- app_assoc. }
      split; [split; [discriminate | simpl; congruence]|].
      split; [auto|].
      unfold attempts in *. rewrite count_app. simpl count.
      split; [lia|].
      intros Hne. destruct (Hoff Hne) as [H0 H1]. split; [lia|].
      intros Hs. apply H1. exact Hs.
  - run. exists true, s1, t. split; [reflexivity|].
    split; [split; auto|].
    split. { split; [|reflexivity]. intros _ Hx. rewrite Hx in He. discriminate. }
    split; [auto|]. split; [exact Ha|].
    intros Hne. destruct (Hoff Hne) as [H0 H1]. split; [exact H0|].
    intros Hs. apply H1. exact Hs.
Qed.

Lemma stopAllRiego_loop_step zs : forall s,
  Boton_keys s -> (forall z, z ∈ zs -> z ∈ ZONAS) ->
  exists r s' t,
    stopAllRiego_loop W zs s = Some (r, s')
    /\ net_step s s' t
    /\ (zs <> [] -> (r = true <-> estado (Estado s') <> ERROR))
    /\ (estado (Estado s) = ERROR ->
        estado (Estado s') = ERROR
        /\ (attempts t <= Z.to_nat DEFAULT_SWITCH_RETRIES)%nat)
    /\ (attempts t <= length zs * Z.to_nat DEFAULT_SWITCH_RETRIES)%nat
    /\ (NONETWORK s = true ->
        attempts t = 0%nat
        /\ (simulated "Off" s = false -> Estado s' = Estado s)).
Proof.
  induction zs as [|z rest IH]; intros s Hk Hz.
  - exists true, s, []. split; [reflexivity|].
    split; [rewrite <- (says_nil s) at 2; apply net_step_says|].
    split; [intros H; elim H; reflexivity|].
    unfold attempts. simpl. repeat split; auto; lia.
  - cbn [stopAllRiego_loop].
    destruct (zone_id_index z (Hz z (list_elem_of_here _ _)))
      as (n & b0 & Hfind & Hn & _).
    destruct (led_of_count is_http z OFF s n b0 (fun _ _ => eq_refl) Hk Hfind Hn)
      as (u & Hu & Hu0).
    rewrite (bind_Some _ _ _ _ _ Hu).
    destruct (stopRiego_step z (says u s) n b0 Hk Hfind Hn)
      as (ok & s1 & t1 & Hrun & Hstep & Hok & Herr & Ha & Hoff).
    rewrite (bind_Some _ _ _ _ _ Hrun).
    assert (Hstep1 : net_step s s1 (u ++ t1)).
    { eapply net_step_trans; [apply net_step_says | exact Hstep | exact Herr]. }
    assert (Hk1 : Boton_keys s1).
    { unfold Boton_keys. rewrite (ns_Boton _ _ _ Hstep). exact Hk. }
    destruct ok; cbn [negb].
    + destruct (IH s1 Hk1 (fun y Hy => Hz y (list_elem_of_further _ _ _ Hy)))
        as (r & s2 & t2 & Hrun2 & Hstep2 & Hr2 & Herr2 & Ha2 & Hoff2).
      rewrite Hrun2. exists r, s2, (u ++ t1 ++ t2).
      split; [reflexivity|].
      assert (Hclean : estado (Estado s1) <> ERROR) by (by apply Hok).
      split.
      { rewrite app_assoc. eapply net_step_trans; [exact Hstep1 | exact Hstep2|].
        intros Hx. contradiction. }
      split.
      { intros _. destruct rest as [|z' rest'].
        - simpl in Hrun2. inversion Hrun2; subst. tauto.
        - apply Hr2. discriminate. }
      split. { intros He. elim Hclean. apply Herr. exact He. }
      unfold attempts in *. rewrite !count_app, Hu0. simpl length.
      split; [lia|].
      intros Hne. destruct (Hoff Hne) as [H0 H1].
      assert (Hne1 : NONETWORK s1 = true)
        by (rewrite (ns_NONETWORK _ _ _ Hstep); exact Hne).
      destruct (Hoff2 Hne1) as [H2 H3]. split; [lia|].
      intros Hs. rewrite H3.
      * apply H1. exact Hs.
      * unfold simulated in *. rewrite (ns_simular _ _ _ Hstep). exact Hs.
    + run. exists false, s1, (u ++ t1). split; [reflexivity|].
      split; [exact Hstep1|].
      split; [intros _; exact Hok|].
      unfold attempts in *. rewrite !count_app, Hu0. simpl length.
      split. { intros He. split; [apply Herr; exact He | lia]. }
      split; [lia|].
      intros Hne. destruct (Hoff Hne) as [H0 H1]. split; [lia|].
      intros Hs. apply H1. exact Hs.
Qed.


End Stopping.

(** ** Starting a zone *)

Section Starting.

Variable W : World.

(** X23.  InitRiego does nothing and returns false for an identifier that is
    not a zone.  For the zone [z] it turns the LED of the zone on, reads the
    clock and records the local time as the last watering of the zone
    before the switch command is sent: the time stays recorded whatever the
    command returns.  At most DEFAULT_SWITCH_RETRIES requests are sent. *)
Theorem initRiego_stamps (id : Z) (s : State) :
  Boton_keys s -> length (lastRiegos s) = NUMZONAS ->
  (id ∉ ZONAS -> initRiego W id s = Some (false, s))
  /\ (forall z b, ZONAS !! z = Some id -> Boton s !! z = Some b ->
      let u := if b_led b =? 0 then [] else [EvLed (b_led b) ON] in
      exists r s' t,
        initRiego W id s = Some (r, s')
        /\ trace s' = trace s ++ u ++ EvEpochTime :: t
        /\ lastRiegos s' = <[z := localEpoch W (trace s ++ u)]> (lastRiegos s)
        /\ Boton s' = Boton s
        /\ (attempts t <= Z.to_nat DEFAULT_SWITCH_RETRIES)%nat).
Proof.
  intros Hk Hlen. split.
  - intros Hnot. unfold initRiego.
    rewrite (bind_bID_bIndex _ _ _ (Boton_keys_declared _ Hk)).
    rewrite (proj2 (Z.eqb_eq _ _)); [reflexivity|].
    unfold bID_zIndex.
    destruct (find_id_cases ZONAS id 0) as [[H _] | (i & Hi & _)]; [exact H|].
    elim Hnot. eapply list_elem_of_lookup_2. exact Hi.
  - intros z b Hz Hb u. unfold initRiego.
    assert (Hz7 : (z < NUMZONAS)%nat) by (apply lookup_lt_Some in Hz; exact Hz).
    destruct (zone_entry z Hz7) as (b0 & Hn0 & Hzona & _ & _ & _ & _ & Hzi & _).
    assert (Hid : id = b_id b0) by congruence. subst id.
    rewrite (bind_bID_bIndex _ _ _ (Boton_keys_declared _ Hk)).
    rewrite (find_id_lookup _ Boton_ids_NoDup z (b_id b0) 0)
      by (by rewrite list_lookup_fmap, Hn0).
    rewrite Z.add_0_l, Hzi.
    destruct (Z.eqb_spec (Z.of_nat z) 999) as [He|_];
      [unfold NUMZONAS in Hz7; simpl in Hz7; lia|].
    rewrite (bind_Boton_at _ _ _ _ Hb), bind_led. fold u. run. fields.
    unfold wr. destruct (Z.ltb_spec (Z.of_nat z) 0) as [?|_]; [lia|].
    rewrite Nat2Z.id, Hlen. destruct (Nat.ltb_spec z NUMZONAS) as [_|?]; [|lia].
    run.
    match goal with |- context [bind (Boton_at _) _ ?st] =>
      destruct (domoticzSwitch_step W (b_idx b) "On" DEFAULT_SWITCH_RETRIES st)
        as (r & s' & t & Hrun & Hstep & _ & _ & _ & Ha & _);
      exists r, s', t; split;
        [rewrite (bind_Boton_at z b _ st) by exact Hb; exact Hrun|] end.
    split. { rewrite (ns_trace _ _ _ Hstep). simpl. by rewrite <- !app_assoc. }
    split; [rewrite (ns_lastRiegos _ _ _ Hstep); reflexivity|].
    split; [rewrite (ns_Boton _ _ _ Hstep); reflexivity | exact Ha].
Qed.

End Starting.

(** ** The press of a zone button, from the poll to the handler *)

Arguments procesaBotones : simpl never.
Arguments parseInputs : simpl never.
Arguments procesaBotonZona : simpl never.
Arguments testButton : simpl never.

(** the fixed part of a button is the same in two tables with the same
    fixed parts *)
Lemma fixed_part_lookup l l' p b :
  map fixed_part l' = map fixed_part l -> l !! p = Some b ->
  exists b', l' !! p = Some b' /\ fixed_part b' = fixed_part b.
Proof.
  intros Hfix Hb.
  assert (H : (fixed_part <$> l') !! p = Some (fixed_part b)).
  { change (fixed_part <$> l') with (map fixed_part l'). rewrite Hfix.
    change (map fixed_part l) with (fixed_part <$> l).
    by rewrite list_lookup_fmap, Hb. }
  rewrite list_lookup_fmap in H. destruct (l' !! p) as [b'|]; [|discriminate].
  exists b'. split; [reflexivity|]. cbn in H. congruence.
Qed.

Lemma fixed_part_ids l l' :
  map fixed_part l' = map fixed_part l -> map b_id l' = map b_id l.
Proof.
  intros Hfix.
  apply (f_equal (map (fun x : Z * Z * S_bFLAGS * string * Z =>
                         fst (fst (fst (fst x)))))) in Hfix.
  rewrite !map_map in Hfix. exact Hfix.
Qed.

Lemma session_duration_frame s s' f :
  multirriego s' = multirriego s -> minutes s' = minutes s ->
  seconds s' = seconds s ->
  session_duration s' f = session_duration s f.
Proof.
  intros Hm Hmin Hsec. unfold session_duration.
  rewrite Hm, !timeByFactor_eq, Hmin, Hsec. reflexivity.
Qed.

Section Dispatch.

Variable W : World.
Variables procesaBotonPause procesaBotonStop : M unit.

(** the encoder button reads as held: its input bit is low *)
Definition encoder_held (s : State) : bool :=
  Z.land (shiftIn W (trace s)) bENCODER =? 0.

(** the state in which procesaBotones polls the buttons *)
Definition at_poll (s : State) : State :=
  says [EvReadInputs] (set_encoderSW (encoder_held s) s).

(** procesaBotones acts on the button [p]: the poll reports it or, when the
    sequencer has raised multiSemaforo, [boton] already points to it *)
Definition acts_on (s : State) (p : nat) : Prop :=
  if multiSemaforo s then boton s = Some p
  else exists s2, parseInputs W true (at_poll s) = Some (Some p, s2).

(** an accepted poll changes the stored states of the buttons, lastMillis
    and the trace, and nothing else *)
Lemma parseInputs_frame s p s2 :
  length (Boton s) = NUM_S_BOTON ->
  parseInputs W true s = Some (Some p, s2) ->
  exists l' m,
    s2 = set_Boton l' (says [EvMillis; EvReadInputs] (set_lastMillis m s))
    /\ map fixed_part l' = map fixed_part (Boton s).
Proof.
  intros Hlen Hrun. unfold parseInputs in Hrun. revert Hrun. run. fields.
  destruct (millis W (trace s) <? uint32 (lastMillis s + DEBOUNCEMILLIS)).
  { run. discriminate. }
  run. fields.
  match goal with |- context [parseInputs_loop _ true ?i ?st] =>
    destruct (parseInputs_loop_scan true i NUM_S_BOTON 0 st)
      as (r & l' & Hloop & Hfix & _) end.
  { simpl. rewrite Hlen. lia. }
  unfold upto. rewrite Nat2Z.id.
  intros Hrun. rewrite Hloop in Hrun. inversion Hrun; subst.
  eexists l', _. split; [|exact Hfix]. reflexivity.
Qed.

(** procesaBotones once [boton] is set *)
Definition dispatch (p : option nat) : M unit :=
  match p with
  | None => ret tt
  | Some _ =>
      rp <- gets reposo ;;
      wake <- (if rp then b <- deref p ;; ret (negb (b_id b =? bSTOP))
               else ret false) ;;
      if wake then
        modify (set_reposo false) ;;
        modify (set_displayOff false) ;;
        t <- ask EvMillis (millis W) ;;
        modify (set_standbyTime t) ;;
        e <- gets Estado ;;
        if estados_eqb (estado e) STOP then emit (EvDisplayPrint "StoP")
        else StaticTimeUpdate
      else
        e <- gets Estado ;;
        if estados_eqb (estado e) ERROR then ret tt
        else
          b <- deref p ;;
          if negb (action (b_flags b)) then ret tt
          else if b_id b =? bPAUSE then procesaBotonPause
          else if b_id b =? bSTOP then procesaBotonStop
          else if b_id b =? bMULTIRIEGO then
            ok <- procesaBotonMultiriego ;;
            if negb ok then ret tt else procesaBotonZona W
          else procesaBotonZona W
  end.

Lemma procesaBotones_eq s :
  procesaBotones W procesaBotonPause procesaBotonStop s
  = ((ms <- gets multiSemaforo ;;
      if ms then modify (set_multiSemaforo false)
      else b <- parseInputs W true ;; modify (set_boton b)) ;;
     p <- gets boton ;; dispatch p) (at_poll s).
Proof.
  unfold procesaBotones, testButton, at_poll, encoder_held. run. fields.
  by destruct (Z.land (shiftIn W (trace s)) bENCODER =? 0).
Qed.

(** the dispatch of a zone button in STANDBY whose session would last 0:00
    or that is bound to no actuator *)
Lemma dispatch_zone s p b f :
  boton s = Some p -> Boton s !! p = Some b -> Boton_keys s ->
  bID_zIndex (b_id b) <> 999 ->
  factorRiegos s !! Z.to_nat (bID_zIndex (b_id b)) = Some f ->
  estado (Estado s) = STANDBY ->
  session_duration s f = (0, 0) \/ b_idx b = 0 ->
  exists s' t,
    dispatch (Some p) s = Some (tt, s')
    /\ trace s' = trace s ++ t /\ attempts t = 0%nat
    /\ Estado s'
       = (if reposo s then Estado s
          else if negb (encoderSW s) || multirriego s
               then mkEstado TERMINANDO CERO
               else Estado s)
    /\ (reposo s = true -> reposo s' = false).
Proof.
  intros Hp Hb Hk Hz Hf Hest Hzero.
  pose proof (Boton_keys_declared _ Hk) as Hd.
  destruct (bID_zIndex_range _ Hz) as (z & Hzlt & Hzi & Hzona).
  destruct (zone_entry z Hzlt)
    as (b0 & Hn0 & Hzona0 & Hact & HnM & HnP & HnS & _).
  assert (Hb0 : b_id b0 = b_id b) by congruence.
  assert (Hpz : p = z).
  { pose proof (bIndex_of_pointer _ _ _ Hd Hb) as H1.
    rewrite <- Hb0 in H1.
    rewrite (find_id_lookup _ Boton_ids_NoDup z (b_id b0) 0) in H1
      by (by rewrite list_lookup_fmap, Hn0). lia. }
  subst z.
  destruct (Boton_keys_lookup s p b b0 Hk Hb Hn0) as [_ Hact'].
  rewrite Hact in Hact'. rewrite Hb0 in HnM, HnP, HnS.
  unfold dispatch. run. destruct (reposo s) eqn:Hrep.
  - rewrite bind_assoc. rewrite (bind_deref p b) by exact Hb. run.
    rewrite HnS. cbn [negb]. run. fields. rewrite Hest. cbn [estados_eqb].
    match goal with |- context [StaticTimeUpdate ?st] =>
      rewrite (StaticTimeUpdate_says st)
        by (change (estado (Estado st)) with (estado (Estado s));
            rewrite Hest; discriminate) end.
    eexists _, _. split; [reflexivity|]. fields.
    split; [rewrite <- !app_assoc; reflexivity|].
    split; [reflexivity|]. split; reflexivity.
  - run. rewrite Hest. cbn [estados_eqb].
    rewrite (bind_deref p b) by exact Hb.
    rewrite Hact', HnP, HnS, HnM. cbn [negb].
    destruct (negb (encoderSW s) || multirriego s) eqn:Hgo.
    + destruct (zone_press_terminando W s p b f)
        as (s' & t & Hrun & HE & Htr & Ha); try assumption.
      { destruct (encoderSW s); [right|left]; [|reflexivity].
        simpl in Hgo. exact Hgo. }
      exists s', t. repeat split; try assumption. discriminate.
    + apply orb_false_iff in Hgo as [Hg1 Hg2].
      destruct (zone_press_shows_factor W s p b f)
        as (s' & t & Hrun & HE & Htr & Ha); try assumption.
      { by destruct (encoderSW s). }
      exists s', t. repeat split; try assumption. discriminate.
Qed.

(** C2, as the code has it.  procesaBotones acts on a zone button while the
    machine is in STANDBY, and the duration of the session is 0:00 or the
    zone is bound to no actuator.  If the display is at rest the press only
    wakes it: the state stays STANDBY.  Otherwise, when the encoder button
    is not held, or a multi-group sequence is running, the machine goes to
    FINISHING (TERMINANDO) at once, not through WATERING; when the encoder
    button is held outside a sequence, the press shows the factor of the
    zone and the state stays STANDBY.  In no case is a request sent to the
    endpoint. *)
Theorem zone_press_short_circuit (s : State) (p : nat) (b : S_BOTON)
    (f : Z) :
  acts_on s p ->
  Boton_keys s -> Boton s !! p = Some b ->
  bID_zIndex (b_id b) <> 999 ->
  factorRiegos s !! Z.to_nat (bID_zIndex (b_id b)) = Some f ->
  estado (Estado s) = STANDBY ->
  session_duration s f = (0, 0) \/ b_idx b = 0 ->
  exists s' t,
    procesaBotones W procesaBotonPause procesaBotonStop s = Some (tt, s')
    /\ trace s' = trace s ++ t /\ attempts t = 0%nat
    /\ Estado s'
       = (if reposo s then Estado s
          else if negb (encoder_held s) || multirriego s
               then mkEstado TERMINANDO CERO
               else Estado s)
    /\ (reposo s = true -> reposo s' = false).
Proof.
  intros Hon Hk Hb Hz Hf Hest Hzero.
  pose proof (Boton_keys_declared _ Hk) as Hd.
  rewrite procesaBotones_eq. run.
  change (multiSemaforo (at_poll s)) with (multiSemaforo s).
  unfold acts_on in Hon. destruct (multiSemaforo s) eqn:Hms.
  - run. unfold at_poll. fields. rewrite Hon.
    match goal with |- context [dispatch (Some p) ?st] =>
      destruct (dispatch_zone st p b f)
        as (s' & t & Hrun & Htr & Ha & HEs & Hrp); try assumption;
        try reflexivity end.
    exists s', (EvReadInputs :: t).
    split; [exact Hrun|].
    split; [rewrite Htr; simpl; rewrite <- app_assoc; reflexivity|].
    split; [exact Ha|]. split; [exact HEs | exact Hrp].
  - destruct Hon as [s2 Hpoll].
    destruct (parseInputs_frame (at_poll s) p s2) as (l' & m & Hs2 & Hfix).
    { apply (Boton_declared_length _ Hd). }
    { exact Hpoll. }
    destruct (fixed_part_lookup _ _ p b Hfix Hb) as (b' & Hb' & Hfb).
    assert (Hid : b_id b' = b_id b) by (by inversion Hfb).
    assert (Hidx : b_idx b' = b_idx b) by (by inversion Hfb).
    rewrite !bind_assoc. rewrite (bind_Some _ _ _ _ _ Hpoll). run. fields.
    set (s3 := set_boton (Some p) s2).
    assert (Hrest : exists s' t,
      dispatch (Some p) s3 = Some (tt, s')
      /\ trace s' = trace s3 ++ t /\ attempts t = 0%nat
      /\ Estado s'
         = (if reposo s then Estado s
            else if negb (encoder_held s) || multirriego s
                 then mkEstado TERMINANDO CERO
                 else Estado s)
      /\ (reposo s = true -> reposo s' = false)).
    { unfold s3. subst s2.
      match goal with |- exists s' t, dispatch (Some p) ?st = _ /\ _ =>
        destruct (dispatch_zone st p b' f)
          as (s' & t & Hrun & Htr & Ha & HEs & Hrp) end; try reflexivity.
      - exact Hb'.
      - unfold Boton_keys. fields.
        assert (Hkey : map key l' = map key (Boton s)).
        { apply (f_equal (map (fun x : Z * Z * S_bFLAGS * string * Z =>
                   (fst (fst (fst (fst x))),
                    action (snd (fst (fst x))))))) in Hfix.
          rewrite !map_map in Hfix. exact Hfix. }
        rewrite Hkey. exact Hk.
      - rewrite Hid. exact Hz.
      - rewrite Hid. exact Hf.
      - exact Hest.
      - rewrite Hidx.
        match goal with |- session_duration ?st f = _ \/ _ =>
          rewrite (session_duration_frame s st f) by reflexivity end.
        exact Hzero.
      - exists s', t. split; [exact Hrun|]. split; [exact Htr|].
        split; [exact Ha|]. split; [exact HEs | exact Hrp]. }
    destruct Hrest as (s' & t & Hrun & Htr & Ha & HEs & Hrp).
    exists s', ([EvReadInputs; EvMillis; EvReadInputs] ++ t).
    split; [exact Hrun|].
    split.
    { rewrite Htr. unfold s3, at_poll. subst s2. simpl.
      rewrite <- !app_assoc. reflexivity. }
    split; [unfold attempts in *; rewrite count_app, Ha; reflexivity|].
    split; [exact HEs | exact Hrp].
Qed.

End Dispatch.
(** ** The configuration portal *)

Arguments starConfigPortal : simpl never.
Arguments run_callback : simpl never.
Arguments infoDisplay : simpl never.

Definition is_saveParam (c : WMCallback) : bool :=
  match c with saveParamCallback => true | _ => false end.

Lemma set_saveConfig_twice v s :
  set_saveConfig v (set_saveConfig v s) = set_saveConfig v s.
Proof. reflexivity. Qed.

Lemma bind_run {A B} (m : M A) (k : A -> M B) s :
  bind m k s = match m s with Some (a, s') => k a s' | None => None end.
Proof. reflexivity. Qed.

Section Portal.

Variable W : World.

(** a callback only talks to the world, but for saveParamCallback, which
    sets saveConfig *)
Lemma run_callback_says c s :
  exists t,
    run_callback c s
    = Some (tt, says t (if is_saveParam c then set_saveConfig true s else s)).
Proof.
  destruct c; unfold run_callback, infoDisplay; simpl; run;
    eexists; reflexivity.
Qed.

Lemma callbacks_say l : forall s,
  exists t,
    forM l run_callback s
    = Some (tt, says t (if existsb is_saveParam l then set_saveConfig true s
                        else s)).
Proof.
  induction l as [|c l IH]; intros s.
  - exists []. by rewrite says_nil.
  - rewrite forM_cons. destruct (run_callback_says c s) as (t1 & H1).
    rewrite (bind_Some _ _ _ _ _ H1).
    destruct (IH (says t1 (if is_saveParam c then set_saveConfig true s
                           else s))) as (t2 & H2).
    rewrite H2. exists (t1 ++ t2). cbn [existsb].
    destruct (is_saveParam c), (existsb is_saveParam l); cbn [orb];
      by rewrite ?set_saveConfig_says, ?says_app.
Qed.

(** the three values of the portal fit the fields of the configuration,
    which hold 40, 6 and 40 bytes with the end mark *)
Definition portal_fits (run : PortalRun) : bool :=
  (String.length (custom_domoticz_server run) <? 40)%nat
  && (String.length (custom_domoticz_port run) <? 6)%nat
  && (String.length (custom_ntpserver run) <? 40)%nat.

(** the end of starConfigPortal, from the detaching of the portal LED to
    checkWifi *)
Definition portal_end : M unit :=
  emit (EvTickerDetach tic_APLed) ;;
  nonet <- gets NONETWORK ;;
  (if nonet then led LEDB ON else led LEDB OFF) ;;
  infoDisplay "----" NOBLINK BIP 0 ;;
  emit (EvTickerDetach tic_WifiLed) ;;
  _ <- checkWifi W ;; ret tt.

Lemma portal_end_says s :
  exists t,
    let up := WiFi_connected W (trace s ++ t) in
    portal_end s
    = Some (tt, says (t ++ [EvWiFiStatus; EvLed LEDG (if up then ON else OFF)])
                  (set_connected up s)).
Proof.
  exists [EvTickerDetach tic_APLed;
          EvLed LEDB (if NONETWORK s then ON else OFF);
          EvDisplayPrint "----"; EvDisplayBlink NOBLINK;
          EvTickerDetach tic_WifiLed].
  unfold portal_end, infoDisplay. run. simpl.
  destruct (NONETWORK s); run; reflexivity.
Qed.

(** X24.  starConfigPortal runs the portal and the callbacks it fires.  When
    saveConfig is not set on entry and saveParamCallback does not fire, the
    configuration is left alone.  When saveConfig is set, or
    saveParamCallback fires, the address, the port and the time server
    given in the portal replace those of the configuration and saveConfig
    is set, provided that the three values fit their fields; when one does
    not fit, the copy writes past the end of the field.  When it returns,
    the call has ended with checkWifi: the last thing asked of the world is
    the WiFi status, the green LED is set by it, and [connected] holds
    it. *)
Theorem starConfigPortal_saves (s : State) :
  let run := startConfigPortal W (trace s) in
  let saved := saveConfig s || existsb is_saveParam (pr_callbacks run) in
  (saved = false ->
     exists s', starConfigPortal W s = Some (tt, s')
                /\ config s' = config s /\ saveConfig s' = false)
  /\ (saved = true -> portal_fits run = true ->
        exists s', starConfigPortal W s = Some (tt, s')
                   /\ config s'
                      = set_portal_params (custom_domoticz_server run)
                          (custom_domoticz_port run) (custom_ntpserver run)
                          (config s)
                   /\ saveConfig s' = true)
  /\ (saved = true -> portal_fits run = false ->
        starConfigPortal W s = None)
  /\ (forall s', starConfigPortal W s = Some (tt, s') ->
        exists t,
          trace s'
          = trace s ++ EvConfigPortal timeout :: t
            ++ [EvWiFiStatus; EvLed LEDG (if connected s' then ON else OFF)]
          /\ connected s'
             = WiFi_connected W (trace s ++ EvConfigPortal timeout :: t)).
Proof.
  intros run saved. unfold starConfigPortal. run. fold run.
  destruct (callbacks_say (pr_callbacks run) (says [EvConfigPortal timeout] s))
    as (t & Hcb).
  rewrite (bind_Some _ _ _ _ _ Hcb). run. fields.
  change (emit (EvTickerDetach tic_APLed) ;;
          nonet <- gets NONETWORK ;;
          (if nonet then led LEDB ON else led LEDB OFF) ;;
          infoDisplay "----" NOBLINK BIP 0 ;;
          emit (EvTickerDetach tic_WifiLed) ;;
          _ <- checkWifi W ;; ret tt) with portal_end.
  set (s1 := if existsb is_saveParam (pr_callbacks run)
             then says [EvConfigPortal timeout] (set_saveConfig true s)
             else says [EvConfigPortal timeout] s).
  assert (Hs1 : saveConfig s1 = saved /\ config s1 = config s
                /\ trace s1 = trace s ++ [EvConfigPortal timeout]).
  { unfold s1, saved.
    destruct (existsb is_saveParam (pr_callbacks run)); simpl;
      rewrite ?orb_true_r, ?orb_false_r; auto. }
  destruct Hs1 as (Hsc & Hcfg & Htr). rewrite Hsc.
  set (s2 := says t s1).
  assert (Hs2 : saveConfig s2 = saved /\ config s2 = config s
                /\ trace s2 = trace s ++ EvConfigPortal timeout :: t).
  { unfold s2. simpl. rewrite Htr, <- app_assoc. auto. }
  clearbody s2. clear Hcb Hsc Hcfg Htr s1. destruct Hs2 as (Hsc & Hcfg & Htr).
  set (cfg' := set_portal_params (custom_domoticz_server run)
                 (custom_domoticz_port run) (custom_ntpserver run) (config s2)).
  assert (Hcopy :
    when saved
      (ip <- strcpy 40 (custom_domoticz_server run) ;;
       port <- strcpy 6 (custom_domoticz_port run) ;;
       ntp <- strcpy 40 (custom_ntpserver run) ;;
       modify (fun s0 => set_config (set_portal_params ip port ntp (config s0))
                           s0)) s2
    = if saved
      then if portal_fits run then Some (tt, set_config cfg' s2) else None
      else Some (tt, s2)).
  { clearbody saved. destruct saved; [|reflexivity]. unfold when, portal_fits, strcpy.
    destruct (String.length (custom_domoticz_server run) <? 40)%nat;
      [|reflexivity].
    destruct (String.length (custom_domoticz_port run) <? 6)%nat;
      [|reflexivity].
    destruct (String.length (custom_ntpserver run) <? 40)%nat;
      reflexivity. }
  assert (Hend : forall s3,
    saveConfig s3 = saved -> trace s3 = trace s2 ->
    exists s',
      portal_end s3 = Some (tt, s')
      /\ config s' = config s3 /\ saveConfig s' = saved
      /\ exists t',
           trace s'
           = trace s ++ EvConfigPortal timeout :: t'
             ++ [EvWiFiStatus; EvLed LEDG (if connected s' then ON else OFF)]
           /\ connected s'
              = WiFi_connected W (trace s ++ EvConfigPortal timeout :: t')).
  { intros s3 Hsc3 Htr3. destruct (portal_end_says s3) as (t3 & H3).
    cbv zeta in H3. rewrite H3. eexists. split; [reflexivity|].
    split; [reflexivity|]. split; [exact Hsc3|].
    exists (t ++ t3). simpl. rewrite Htr3, Htr.
    assert (Ha : (trace s ++ EvConfigPortal timeout :: t) ++ t3
                 = trace s ++ EvConfigPortal timeout :: t ++ t3)
      by (by rewrite <- app_assoc).
    split; [|by rewrite Ha].
    rewrite app_assoc, Ha, <- app_assoc. reflexivity. }
  clearbody saved. rewrite bind_run, Hcopy.
  destruct saved.
  - destruct (portal_fits run).
    + destruct (Hend (set_config cfg' s2) Hsc eq_refl)
        as (s' & Hrun & Hc' & Hs' & Ht').
      rewrite Hrun. repeat split; try discriminate.
      * intros _ _. exists s'. repeat split; try assumption.
        rewrite Hc'. unfold cfg', set_portal_params. simpl. by rewrite Hcfg.
      * intros s'' [= <-]. exact Ht'.
    + repeat split; try discriminate. 
  - destruct (Hend s2 Hsc eq_refl) as (s' & Hrun & Hc' & Hs' & Ht').
    rewrite Hrun. repeat split; try discriminate.
    + intros _. exists s'. repeat split; try assumption. congruence.
    + intros s'' [= <-]. exact Ht'.
Qed.

End Portal.

(** ** Concrete worlds and inputs *)

(** a world that always gives the same answers *)
Definition world_const (wifi : bool) (httpCode : Z) (body : string)
    (json : option JsonDevice) : World :=
  mkWorld (fun _ => wifi) (fun _ _ => (httpCode, body)) (fun _ => json)
          (fun _ => true) (fun _ => false) (fun _ => (0, 0))
          (fun _ => 0) (fun _ => 0) (fun _ => 0) (fun _ => 0)
          (fun _ => true) (fun _ => true)
          (fun _ => mkPortalRun [] EmptyString EmptyString EmptyString).

(** no WiFi *)
Definition world_down : World := world_const false (-1) EmptyString None.

(** the endpoint answers with a device that has no description *)
Definition world_nodesc : World :=
  world_const true 200 "{}" (Some (mkJson (Some "On"%string) None None)).

Lemma state_entry_invariant_witness :
  E4 <> CERO
  /\ exists s', statusError E4 3 boot = Some (tt, s')
       /\ estado (Estado s') = ERROR
       /\ fase (Estado s') <> CERO
       /\ errorText s' <> EmptyString.
Proof.
  split; [discriminate|].
  apply (proj2 state_entry_invariant E4 3 boot). discriminate.
Defined.

Lemma getFactor_contract_witness :
  (exists s', getFactor world_nodesc 7 boot = Some (100, s'))
  /\ (exists s', getFactor world_down 7 boot = Some (100, s')
        /\ estado (Estado s') = ERROR
        /\ (fase (Estado s') = E1 \/ fase (Estado s') = E2
            \/ fase (Estado s') = E3))
  /\ (exists s', getFactor world_down 7 (set_NONETWORK true boot)
                 = Some (999, s')
        /\ ((Estado s' = Estado (set_NONETWORK true boot)
             /\ errorText s' = errorText (set_NONETWORK true boot))
            \/ (Estado s' = mkEstado STANDBY CERO
                /\ errorText s' = EmptyString))).
Proof.
  split; [|split].
  - apply (getFactor_contract world_nodesc 7 boot); [discriminate|].
    repeat split.
  - apply (getFactor_contract world_down 7 boot);
      [discriminate | left; reflexivity | reflexivity].
  - apply (getFactor_contract world_down 7 (set_NONETWORK true boot));
      [discriminate | left; reflexivity | reflexivity].
Defined.

(** C4 as stated fails: the sentinel 999 is returned when the endpoint is
    unreachable while the system is offline; while it is not offline the
    same call returns 100. *)
Lemma getFactor_sentinel_when_offline :
  let offline := set_NONETWORK true boot in
  NONETWORK offline = true
  /\ fst <$> getFactor world_down 7 offline = Some 999
  /\ NONETWORK boot = false
  /\ fst <$> getFactor world_down 7 boot = Some 100.
Proof. repeat split. Qed.

(** the endpoint answers two requests with the error mark, the others
    with an empty object *)
Definition world_retry : World :=
  mkWorld (fun _ => true)
          (fun t _ => (200, if (attempts t <? 2)%nat then status_ERR
                            else "{}"%string))
          (fun _ => None)
          (fun _ => true) (fun _ => false) (fun _ => (0, 0))
          (fun _ => 0) (fun _ => 0) (fun _ => 0) (fun _ => 0)
          (fun _ => true) (fun _ => true)
          (fun _ => mkPortalRun [] EmptyString EmptyString EmptyString).

(** WiFi, but every request fails *)
Definition world_refused : World := world_const true (-1) EmptyString None.

Lemma domoticzSwitch_contract_witness :
  (exists s',
     domoticzSwitch world_retry 7 "On" DEFAULT_SWITCH_RETRIES boot
     = Some (true, s')
     /\ attempts (trace s') = 3%nat
     /\ retry_delays (trace s') = 2%nat
     /\ Estado s' = Estado boot)
  /\ (exists s',
        domoticzSwitch world_refused 7 "On" DEFAULT_SWITCH_RETRIES boot
        = Some (false, s')
        /\ attempts (trace s') = 1%nat
        /\ retry_delays (trace s') = 0%nat
        /\ Estado s' = mkEstado ERROR E2).
Proof.
  split.
  - destruct (domoticzSwitch_contract world_retry 7 "On"
                DEFAULT_SWITCH_RETRIES boot)
      as (r & s' & Hrun & _ & _ & _ & _ & Hon).
    destruct Hon as (Hr & Ht & He & _);
      [discriminate | reflexivity | reflexivity | reflexivity |].
    exists s'. rewrite Hr in Hrun. rewrite Ht, He.
    split; [exact Hrun|]. repeat split.
  - destruct (domoticzSwitch_contract world_refused 7 "On"
                DEFAULT_SWITCH_RETRIES boot)
      as (r & s' & Hrun & _ & _ & _ & _ & Hon).
    destruct Hon as (Hr & Ht & He & _);
      [discriminate | reflexivity | reflexivity | reflexivity |].
    exists s'. rewrite Hr in Hrun. rewrite Ht, He.
    split; [exact Hrun|]. repeat split.
Defined.

(** C7 as stated fails: offline, with the simulated fault of the command On
    set, domoticzSwitch reports a failure (and raises the fault E4). *)
Lemma domoticzSwitch_offline_can_fail :
  let s := set_simular (mkSim false true false false false)
             (set_NONETWORK true boot) in
  NONETWORK s = true
  /\ fst <$> domoticzSwitch world_down 7 "On" DEFAULT_SWITCH_RETRIES s
     = Some false.
Proof. split; reflexivity. Qed.

(** the endpoint reports Off, On, Off, ... on successive requests *)
Definition world_flip : World :=
  mkWorld (fun _ => true)
          (fun t _ => (200, if Nat.even (attempts t) then "off"%string
                            else "on"%string))
          (fun body => Some (mkJson
             (Some (if String.eqb body "off" then "Off"%string
                    else "On"%string)) None None))
          (fun _ => true) (fun _ => false) (fun _ => (0, 0))
          (fun _ => 0) (fun _ => 0) (fun _ => 0) (fun _ => 0)
          (fun _ => true) (fun _ => true)
          (fun _ => mkPortalRun [] EmptyString EmptyString EmptyString).

(** zone 1, bound to the actuator 7, is being watered and a verification
    is due *)
Definition watering : State :=
  set_Estado (mkEstado REGANDO CERO)
    (set_flagV true
       (set_ultimoBoton (Some 0%nat)
          (set_Boton (map (with_idx 7) Boton_init) boot))).

(** the state a handler leaves *)
Definition exec (m : M unit) (s : State) : State :=
  match m s with
  | Some (_, s') => s'
  | None => s
  end.

Definition ZONA1_init : S_BOTON :=
  mkBoton bZONA1 0 0 lZONA1 (flags_of (Z.lor ENABLED ACTION)) "ZONA1" 0.

Lemma verification_policy_witness :
  exists s',
    procesaEstadoRegando world_flip watering = Some (tt, s')
    /\ (Estado s' = mkEstado PAUSE CERO
        <-> mismatch world_flip 7 "On" (at_query world_flip watering))
    /\ (forall f, Estado s' = mkEstado ERROR f
                  <-> query_fails world_flip 7
                        (at_query world_flip watering) f)
    /\ (Estado s' = Estado watering
        <-> ~ mismatch world_flip 7 "On" (at_query world_flip watering)
            /\ forall f, ~ query_fails world_flip 7
                            (at_query world_flip watering) f).
Proof.
  apply (proj1 (verification_policy world_flip watering 0%nat
                  (with_idx 7 ZONA1_init)
                  eq_refl eq_refl eq_refl eq_refl eq_refl));
    reflexivity.
Defined.

(** C1 as stated fails: three disagreements in a row, with no match in
    between (the actuator is reported Off while watering, On while paused,
    Off while watering again), move the machine to PAUSE, back to WATERING
    and to PAUSE again, never to ERROR. *)
Lemma repeated_disagreement_is_not_fatal :
  let s1 := exec (procesaEstadoRegando world_flip) watering in
  let s2 := exec (procesaEstadoPause world_flip) s1 in
  let s3 := exec (procesaEstadoRegando world_flip) s2 in
  fst <$> queryStatus world_flip 7 "On" (at_query world_flip watering)
    = Some false
  /\ procesaEstadoRegando world_flip watering = Some (tt, s1)
  /\ Estado s1 = mkEstado PAUSE CERO
  /\ fst <$> queryStatus world_flip 7 "Off" s1 = Some false
  /\ procesaEstadoPause world_flip s1 = Some (tt, s2)
  /\ Estado s2 = mkEstado REGANDO CERO
  /\ fst <$> queryStatus world_flip 7 "On" (at_query world_flip s2)
     = Some false
  /\ procesaEstadoRegando world_flip s2 = Some (tt, s3)
  /\ Estado s3 = mkEstado PAUSE CERO.
Proof. vm_compute. repeat split. Qed.

(** zone 1 pressed in STANDBY; it is bound to no actuator *)
Definition zone1_pressed : State := set_boton (Some 0%nat) boot.

(** a world in which the inputs always read [buttons] *)
Definition world_press (buttons : Z) : World :=
  mkWorld (fun _ => false) (fun _ _ => (-1, EmptyString)) (fun _ => None)
          (fun _ => true) (fun _ => false) (fun _ => (0, 0))
          (fun _ => 0) (fun _ => 100) (fun _ => buttons) (fun _ => 0)
          (fun _ => true) (fun _ => true)
          (fun _ => mkPortalRun [] EmptyString EmptyString EmptyString).

(** zone 1 is pressed and the encoder button is not held *)
Definition world_zone1 : World := world_press (Z.lor bZONA1 bENCODER).

(** the state the poll of the buttons leaves *)
Definition polled (W : World) (s : State) : State :=
  match parseInputs W true (at_poll W s) with
  | Some (_, s2) => s2
  | None => s
  end.

Lemma zone_press_short_circuit_witness :
  (exists s' t,
     procesaBotones world_zone1 (ret tt) (ret tt) boot = Some (tt, s')
     /\ trace s' = trace boot ++ t /\ attempts t = 0%nat
     /\ Estado s' = mkEstado TERMINANDO CERO
     /\ (reposo boot = true -> reposo s' = false))
  /\ (exists s' t,
        procesaBotones world_zone1 (ret tt) (ret tt) (set_reposo true boot)
        = Some (tt, s')
        /\ trace s' = trace boot ++ t /\ attempts t = 0%nat
        /\ Estado s' = mkEstado STANDBY CERO
        /\ (true = true -> reposo s' = false)).
Proof.
  split.
  - apply (zone_press_short_circuit world_zone1 (ret tt) (ret tt) boot 0%nat
             ZONA1_init 0); try reflexivity.
    + exists (polled world_zone1 boot). vm_compute. reflexivity.
    + discriminate.
    + right. reflexivity.
  - apply (zone_press_short_circuit world_zone1 (ret tt) (ret tt)
             (set_reposo true boot) 0%nat ZONA1_init 0); try reflexivity.
    + exists (polled world_zone1 (set_reposo true boot)). vm_compute.
      reflexivity.
    + discriminate.
    + right. reflexivity.
Defined.

(** C2 as stated fails: with the encoder button held and no sequence
    running, the press of a zone bound to no actuator leaves the machine in
    STANDBY. *)
Lemma zone_press_with_encoder_held :
  let s := set_encoderSW true zone1_pressed in
  estado (Estado s) = STANDBY
  /\ b_idx <$> (Boton s !! 0%nat) = Some 0
  /\ (fun r => estado (Estado (snd r))) <$> procesaBotonZona world_down s
     = Some STANDBY.
Proof. repeat split. Qed.

Lemma zone_without_actuator_witness :
  exists s', initFactorRiegos world_down boot = Some (tt, s')
             /\ factorRiegos s' !! 0%nat = Some 0.
Proof.
  apply (proj1 (proj2 (proj2 (zone_without_actuator world_down)))
           boot ZONA1_init); try reflexivity.
  - repeat split.
  - discriminate.
Defined.

(** C10 as stated fails: offline and without WiFi, with zone 1 bound to the
    actuator 7 and zone 2 bound to none, the look-up of zone 1 returns the
    sentinel, the loop stops, and zone 2 keeps the factor 100. *)
Lemma unreached_zone_keeps_100 :
  let s := set_NONETWORK true
             (set_Boton (<[0%nat := with_idx 7 ZONA1_init]> Boton_init) boot) in
  b_idx <$> (Boton s !! 1%nat) = Some 0
  /\ (fun r => factorRiegos (snd r) !! 1%nat) <$> initFactorRiegos world_down s
     = Some (Some 100).
Proof. split; reflexivity. Qed.

Lemma setMultibyId_total_witness :
  exists n s', setMultibyId bGRUPO1 boot = Some (n, s').
Proof.
  apply (proj2 (setMultibyId_total bGRUPO1 boot)).
  repeat split. repeat constructor.
Defined.
(** the configuration mode entered from the start-up state *)
Definition configuring_boot : State :=
  set_Estado (mkEstado CONFIGURANDO CERO) boot.

Lemma group_edit_round_trip_witness :
  exists s1 s2 g,
    edit_session world_down false [1; 4; 0]%nat configuring_boot = Some (tt, s1)
    /\ saveConfig s1 = true
    /\ groupConfig (config s1) !! 1%nat = Some g
    /\ g_size g = 3
    /\ take 3 (g_serie g) = [2; 5; 1]
    /\ resolve s1 = Some (2, s2)
    /\ multi_size s2 = Some (3, s2)
    /\ take 3 (m_serie (multi s2)) = [bZONA2; bZONA5; bZONA1].
Proof.
  apply (group_edit_round_trip world_down false configuring_boot 1
           [1; 4; 0]%nat [bZONA2; bZONA5; bZONA1]);
    try reflexivity.
  - repeat split. repeat constructor.
  - repeat constructor.
  - simpl. lia.
Defined.

(** ** More concrete worlds and states *)

(** no network; the wall clock reads [now] and the millisecond clock [ms] *)
Definition world_clock (now ms : Z) : World :=
  mkWorld (fun _ => false) (fun _ _ => (-1, EmptyString)) (fun _ => None)
          (fun _ => true) (fun _ => false) (fun _ => (0, 0))
          (fun _ => now) (fun _ => ms) (fun _ => 0) (fun _ => 0)
          (fun _ => true) (fun _ => true)
          (fun _ => mkPortalRun [] EmptyString EmptyString EmptyString).

(** PAUSE is held down *)
Definition pause_held : State := exec (press 15) boot.

(** the default time is being edited *)
Definition editing_time : State :=
  set_configure (mkConfigure true false false 0 0) configuring_boot.

(** the identifier of zone 3 is being edited and the encoder stands at 7 *)
Definition editing_idx : State :=
  set_value 7 (set_configure (mkConfigure false true false 2 0) configuring_boot).

(** group 2 is being edited, with [picked] as the zones added so far *)
Definition editing_group (picked : list Z) : State :=
  set_multi (mkMulti (Some 1%nat) (picked ++ replicate (16 - length picked) 0)
                     (Some 1%nat) (Some 1%nat) (Z.of_nat (length picked)) 0
                     (Some 1%nat))
    (set_configure (mkConfigure false false true 0 2) configuring_boot).

(** a save has been asked for in the configuration mode *)
Definition save_pending : State := set_saveConfig true configuring_boot.

(** group 1 is bound *)
Definition group1_bound : State :=
  set_multi (mkMulti (Some 0%nat) (replicate 16 0) (Some 0%nat) (Some 0%nat)
                     0 0 (Some 0%nat)) boot.

(** zone 3 was watered at the second 100000 *)
Definition zone3_watered : State :=
  set_lastRiegos [0; 0; 100000; 0; 0; 0; 0] boot.

(** the button [j] of the table is settled and not held *)
Ltac at_rest j Hb :=
  destruct j as [|j];
  [injection Hb as <-;
   split; [intros He; first [discriminate He | split; reflexivity]
          | reflexivity]|].

Lemma led_reads_back_witness :
  exists st' alto bajo,
    HC595.led 5 3 ON = Some (st', [alto; alto; bajo])
    /\ 0 <= st' < 65536
    /\ HC595.ledStatusId st' 3 = Some (ON =? ON)
    /\ (forall j, 1 <= j <= 16 -> j <> 3 ->
          HC595.ledStatusId st' j = HC595.ledStatusId 5 j)
    /\ alto = st' / 256 /\ bajo = st' mod 256.
Proof. apply (led_reads_back 5 3 ON); lia. Defined.

Lemma parpadeoLed_toggles_witness :
  exists st1 out1 out2,
    HC595.parpadeoLed 5 3 = Some (st1, out1)
    /\ HC595.ledStatusId st1 3 = negb <$> HC595.ledStatusId 5 3
    /\ (forall j, 1 <= j <= 16 -> j <> 3 ->
          HC595.ledStatusId st1 j = HC595.ledStatusId 5 j)
    /\ HC595.parpadeoLed st1 3 = Some (5, out2).
Proof. apply (parpadeoLed_toggles 5 3); lia. Defined.

Lemma bID_bIndex_first_witness :
  bID_bIndex bPAUSE boot = Some (15, boot).
Proof.
  exact (proj2 (bID_bIndex_first bPAUSE boot eq_refl) Boton_ids_NoDup
           15%nat _ eq_refl).
Defined.

Lemma parseInputs_scan_result_witness :
  exists r l',
    parseInputs_loop (upto (Z.of_nat NUM_S_BOTON)) true bZONA2 boot
    = Some (r, set_Boton l' boot)
    /\ map fixed_part l' = map fixed_part (Boton boot)
    /\ (true = false -> r = None)
    /\ (forall i, r = Some i ->
          (i < NUM_S_BOTON)%nat
          /\ (exists b, l' !! i = Some b /\ enabled (b_flags b) = true
                /\ b_estado b = Z.land bZONA2 (b_id b)
                /\ b_ultimo_estado b = b_estado b
                /\ (b_estado b <> 0 \/ dual (b_flags b) = true))
          /\ forall j, (i < j)%nat -> l' !! j = Boton boot !! j).
Proof. apply (parseInputs_scan_result true bZONA2 boot). reflexivity. Defined.

Lemma parseInputs_CLEAR_settles_witness :
  exists s1,
    parseInputs_loop (upto (Z.of_nat NUM_S_BOTON)) false bZONA2 boot
    = Some (None, s1)
    /\ Forall (settled_button bZONA2) (Boton s1)
    /\ ((forall b, b ∈ Boton s1 -> held bZONA2 b = false) ->
        forall read,
          parseInputs_loop (upto (Z.of_nat NUM_S_BOTON)) read bZONA2 s1
          = Some (None, s1)).
Proof. apply (parseInputs_CLEAR_settles bZONA2 boot). reflexivity. Defined.

Lemma parseInputs_reports_press_witness :
  (p <- parseInputs_loop (upto (Z.of_nat NUM_S_BOTON)) true bZONA2 ;;
   modify (set_boton p)) boot
  = press 1 boot.
Proof.
  refine (parseInputs_reports_press 1%nat _ bZONA2 boot eq_refl eq_refl eq_refl
            eq_refl _ eq_refl _).
  - discriminate.
  - intros j bj Hj Hb. do 1 (at_rest j Hb). lia.
Defined.

Lemma parseInputs_hold_repeats_witness :
  parseInputs_loop (upto (Z.of_nat NUM_S_BOTON)) true bPAUSE pause_held
  = Some (Some 15%nat, pause_held).
Proof.
  refine (parseInputs_hold_repeats 15%nat _ bPAUSE pause_held eq_refl eq_refl
            _ eq_refl _).
  - intros _. split; reflexivity.
  - intros j bj Hj Hb. do 15 (at_rest j Hb). lia.
Defined.

Lemma procesaEncoder_time_witness :
  exists s', procesaEncoder world_down editing_time = Some (tt, s')
             /\ time_ok s'.
Proof.
  apply (proj1 (procesaEncoder_time world_down editing_time
                  (fun _ => conj eq_refl eq_refl))).
  left. change (0 <= 10 <= 59). lia.
Defined.

Lemma procesaEncoder_configuring_witness :
  procesaEncoder world_down editing_idx
  = Some (tt, says [EvEncoder; EvDisplayInt 7] (set_value 7 editing_idx))
  /\ 0 <= 7 <= 1000.
Proof.
  apply (proj1 (procesaEncoder_configuring world_down editing_idx eq_refl)).
  reflexivity.
Defined.

Lemma conf_default_time_witness :
  exists s',
    (press 15 ;; procesaEstadoConfigurando world_down false) configuring_boot
    = Some (tt, s')
    /\ _configuringTime (configure s') = true
    /\ _configuringIdx (configure s') = false
    /\ _configuringMulti (configure s') = false
    /\ config s' = config configuring_boot
    /\ saveConfig s' = saveConfig configuring_boot
    /\ minutes s' = minutes configuring_boot
    /\ seconds s' = seconds configuring_boot.
Proof.
  apply (proj1 (conf_default_time world_down false configuring_boot eq_refl)).
  repeat split.
Defined.

Lemma conf_idx_round_trip_witness :
  exists s1 s2 p,
    (press 15 ;; procesaEstadoConfigurando world_down false) editing_idx
    = Some (tt, s1)
    /\ botonConfig (config s1) !! 2%nat = Some p
    /\ bp_idx p = uint16 (value editing_idx)
    /\ saveConfig s1 = true /\ value s1 = savedValue editing_idx
    /\ conf_idle s1
    /\ (press 2 ;; procesaEstadoConfigurando world_down false) s1
       = Some (tt, s2)
    /\ _configuringIdx (configure s2) = true
    /\ _actualIdxIndex (configure s2) = Z.of_nat 2
    /\ value s2 = uint16 (value editing_idx)
    /\ config s2 = config s1.
Proof.
  apply (conf_idx_round_trip world_down false editing_idx 2); try reflexivity.
  unfold NUMZONAS. simpl. lia.
Defined.

Lemma editing_full_refuses_witness :
  exists s',
    (press 0 ;; procesaEstadoConfigurando world_down false)
      (editing_group (replicate 16 bZONA1))
    = Some (tt, s')
    /\ editing (config boot) bGRUPO2 1 (replicate 16 bZONA1) s'
    /\ saveConfig s' = saveConfig (editing_group (replicate 16 bZONA1))
    /\ trace s' = trace (editing_group (replicate 16 bZONA1))
                  ++ longbip_events 1.
Proof.
  apply (editing_full_refuses world_down false (config boot) bGRUPO2 1
           (replicate 16 bZONA1) (editing_group (replicate 16 bZONA1)) 0).
  - repeat split; try reflexivity; simpl; lia.
  - reflexivity.
  - unfold NUMZONAS. simpl. lia.
Defined.

Lemma editing_empty_cancels_witness :
  exists s',
    (press 15 ;; procesaEstadoConfigurando world_down false) (editing_group [])
    = Some (tt, s')
    /\ config s' = config boot
    /\ saveConfig s' = saveConfig (editing_group [])
    /\ conf_idle s'.
Proof.
  refine (editing_empty_cancels world_down false (config boot) bGRUPO2 1
            (editing_group []) _ _ eq_refl _).
  - repeat split; try reflexivity; simpl; lia.
  - right. left. reflexivity.
Defined.

Lemma conf_STOP_leaves_witness :
  exists s' t,
    (touch released 16 ;; procesaEstadoConfigurando world_down false)
      save_pending
    = Some (tt, s')
    /\ estado (Estado s') = STANDBY /\ fase (Estado s') = CERO
    /\ conf_idle s' /\ saveConfig s' = false
    /\ config s' = config save_pending
    /\ value s' = (if 0 <? savedValue save_pending
                   then savedValue save_pending else value save_pending)
    /\ trace s' = trace save_pending ++ t
    /\ count is_save t = (if saveConfig save_pending then 1 else 0)%nat
    /\ (saveConfig save_pending = true ->
        In (EvSaveConfigFile (config save_pending)) t).
Proof. apply (conf_STOP_leaves world_down false save_pending). reflexivity. Defined.

Lemma zeroConfig_resolves_witness :
  exists s' z,
    setMultibyId bGRUPO1 boot = Some (Z.of_nat 0 + 1, s')
    /\ multi_size s' = Some (1, s')
    /\ ZONAS !! 0%nat = Some z
    /\ m_serie (multi s') !! 0%nat = Some z
    /\ config s' = config boot.
Proof.
  apply (zeroConfig_resolves config_blank boot 0 bGRUPO1); try reflexivity.
  repeat constructor.
Defined.

Lemma multirriego_start_witness :
  exists s' zj z p b,
    procesaBotonMultiriego boot = Some (true, s')
    /\ multirriego s' = true /\ actual (multi s') = 0
    /\ [2; 0; 0; 0; 0; 0; 0; 0; 0; 0; 0; 0; 0; 0; 0; 0] !! 0%nat = Some zj
    /\ zone_of zj = Some z
    /\ boton s' = Some p /\ Boton s' !! p = Some b /\ b_id b = z
    /\ estado (Estado s') = STANDBY /\ config s' = config boot.
Proof.
  refine (proj1 (multirriego_start boot eq_refl _ eq_refl eq_refl)
            1%nat _ eq_refl eq_refl _ eq_refl).
  - repeat split. repeat constructor.
  - simpl. lia.
Defined.

Lemma setupEstado_decides_witness :
  exists s' t,
    setupEstado world_down boot = Some (tt, s')
    /\ Estado s' = setup_outcome world_down boot
    /\ config s' = config boot
    /\ trace s' = trace boot ++ t
    /\ (NONETWORK boot = true -> count is_wifi t = 0%nat).
Proof.
  apply (setupEstado_decides world_down boot); [reflexivity|].
  repeat split. repeat constructor.
Defined.

Lemma procesaEstadoStandby_reposo_witness :
  exists s' t,
    procesaEstadoStandby (world_clock 0 20000) boot = Some (tt, s')
    /\ trace s' = trace boot ++ t
    /\ reposo s' = (reposo boot || (uint32 (standbyTime boot + 15000) <? 20000))
    /\ standbyTime s' = (if reposo boot then 20000 else standbyTime boot)
    /\ (In EvDisplayClear t <-> reposo boot = false /\ reposo s' = true)
    /\ minutes s' = minutes boot /\ seconds s' = seconds boot
    /\ value s' = value boot /\ Estado s' = Estado boot.
Proof.
  apply (procesaEstadoStandby_reposo (world_clock 0 20000) boot);
    try reflexivity.
  unfold time_ok. simpl. repeat split; try lia; left; reflexivity.
Defined.

Lemma ultimosRiegos_SHOW_today_witness :
  ultimosRiegos_SHOW (world_clock 90000 0) zone3_watered
  = Some (tt, says [EvEpochTime; EvLed lZONA3 ON; EvDisplayTime 1 0]
                zone3_watered).
Proof.
  exact (ultimosRiegos_SHOW_today (world_clock 90000 0) zone3_watered
           eq_refl eq_refl eq_refl).
Defined.


Lemma initRiego_stamps_witness :
  (exists r s' t,
     initRiego (world_clock 90000 0) bZONA1 boot = Some (r, s')
     /\ trace s' = trace boot ++ [EvLed lZONA1 ON] ++ EvEpochTime :: t
     /\ lastRiegos s' = <[0%nat := 90000]> (lastRiegos boot)
     /\ Boton s' = Boton boot
     /\ (attempts t <= Z.to_nat DEFAULT_SWITCH_RETRIES)%nat)
  /\ initRiego (world_clock 90000 0) bPAUSE boot = Some (false, boot).
Proof.
  split.
  - exact (proj2 (initRiego_stamps (world_clock 90000 0) bZONA1 boot
                    eq_refl eq_refl) 0%nat ZONA1_init eq_refl eq_refl).
  - apply (proj1 (initRiego_stamps (world_clock 90000 0) bPAUSE boot
                    eq_refl eq_refl)).
    apply (bool_decide_unpack (bPAUSE ∉ ZONAS)). exact I.
Defined.

(** the portal opens its access point, the user saves the parameters *)
Definition world_portal : World :=
  mkWorld (fun _ => true) (fun _ _ => (-1, EmptyString)) (fun _ => None)
          (fun _ => true) (fun _ => false) (fun _ => (0, 0))
          (fun _ => 0) (fun _ => 0) (fun _ => 0) (fun _ => 0)
          (fun _ => true) (fun _ => true)
          (fun _ => mkPortalRun [configModeCallback; saveParamCallback]
                      "192.168.1.10" "8080" "pool.ntp.org").

Lemma starConfigPortal_saves_witness :
  exists s',
    starConfigPortal world_portal boot = Some (tt, s')
    /\ config s'
       = set_portal_params "192.168.1.10" "8080" "pool.ntp.org" (config boot)
    /\ saveConfig s' = true.
Proof.
  apply (proj1 (proj2 (starConfigPortal_saves world_portal boot)));
    reflexivity.
Defined.
